(* ===== verification/_CoqProject ===== *)
-Q . S2P
Prelude.v
PyStr.v
PyRe.v
PyInt.v
Dotenv.v
Env.v
Logging.v
Url.v
Rank.v
Dom.v
Extract.v
Repr.v
Tool.v
Soup.v
HtmlTok.v
React.v
Agent.v
Verbose.v
