(* ===== verification/Prelude.v ===== *)
(** * A verification development of the ScienceDirect scraping tool

    The repository is one Python script, [src/ScrapingWLangsmith.py].  It
    has five parts:

    - set-up (lines 19-23): [logging.basicConfig(level=logging.DEBUG)] and
      [nest_asyncio.apply()];
    - module-level configuration (lines 25-40): [load_dotenv(find_dotenv())]
      (find the nearest [.env], read it, set the variables the environment
      lacks), copying the LANGSMITH_* variables into LANGCHAIN_*, and
      normalising the PROXY variable into [http_proxy]/[https_proxy];
    - the tool [search_sciencedirect_bipolar] (lines 43-90): it builds the
      search URL (line 48), starts a headless Chrome driver (lines 51-58),
      loads the page, parses it with BeautifulSoup, selects the result
      articles, extracts (title, link, citations) from the first ten
      (lines 63-78), picks the most cited with Python's [max] (line 83)
      and formats it (line 84); any [Exception] inside the [try] becomes
      ["Error during scraping: ..."] and [finally] quits the driver;
    - the LangChain agent (lines 92-113): a Together LLM and an
      [AgentExecutor] (ZERO_SHOT_REACT_DESCRIPTION) whose loop sends the
      ReAct prompt to the LLM, parses its completion, and runs the tool when
      the completion names it;
    - the output (line 115): [print(response)].

    Data flows one way: configuration, then question -> prompt -> LLM text
    -> parsed action -> tool query -> URL -> browser -> markup -> document
    tree -> records -> most cited record -> text -> observation -> next
    prompt -> ... -> answer -> printed line.

    ** Files and what they model

    - [Prelude] (this file): Python exceptions ([exc]), the result type
      [res] of code that may raise, its bind notation in [py_scope], the
      shared tactics, the hint database [pyexec], and the generic facts on
      runs of a step relation ([rt1n_invariant], [rt1n_det_final],
      [measure_acc]).
    - [PyStr]: the Python string builtins the code and its libraries use,
      over strings of Latin-1 code points: [str.isspace], [str.strip] with
      and without characters, [str.startswith], [str.replace], [str.join],
      [str.find], [in], slicing, [str.split], and the whitespace split
      BeautifulSoup applies to the [class] attribute.
    - [PyRe]: Python's [re] on the patterns LangChain's output parser and
      python-dotenv's reader use (literals, [\s], [\d], [.] under DOTALL,
      classes, greedy and lazy stars, groups, alternatives, the greedy
      repetition of a group, [$]): a backtracking matcher in
      continuation-passing style, [re.search], and the fact that the
      matcher only moves forward ([PyRe.mt_forward]).
    - [PyInt]: CPython's [int(str)] (sign, underscores, surrounding
      whitespace, the 4300-digit limit) and [str(int)], with the
      normalisation of lines 73-76.
    - [Dotenv]: python-dotenv's [find_dotenv] (the walk from the script's
      directory, or the current one when interactive, up to the root) and
      [dotenv.parser.parse_stream] (the [Reader], [parse_binding] with its
      error path, keys, quoted and unquoted values, escapes, inline
      comments) on python-dotenv's own patterns through [PyRe].
    - [Env]: [os.environ] as a [gmap string string] and the module-level
      statements of lines 26-40: [Env.configure] reads the file
      [Dotenv.find_dotenv] finds, expands and sets its entries, then runs
      lines 29-40.
    - [Logging]: the root logger, [basicConfig] (line 20) and the path of a
      library's log record to the handlers and the streams.
    - [Url]: the URL construction of line 48.
    - [Dom]: the document tree produced by BeautifulSoup and the
      soupsieve semantics of [select], [select_one], [.text] and
      [tag[key]] used on lines 63-71.
    - [Soup]: how BeautifulSoup builds that tree (line 62) from the
      callbacks of html.parser: bs4's [endData], [pushTag], [popTag],
      [_popToTag], empty-element tags and attribute dictionaries;
      [Soup.soup_parser] is an [HtmlParser] for any tokenizer, and a
      tokenizer's [AssertionError] becomes bs4's [ParserRejectedMarkup].
    - [HtmlTok]: html.parser's tokenizer as bs4 drives it ([feed] then
      [close], [convert_charrefs=False]): [goahead]'s loop, the
      [parse_starttag], [parse_endtag], comment, declaration, marked
      section, processing instruction and reference branches, CDATA
      content of [<script>] and [<style>], and the regular expressions
      they use, with their backtracking written out;
      [HtmlTok.html_parser] is the closed [HtmlParser] instance.
    - [Rank]: Python's [max(iterable, key=...)] (line 83) against a
      reference "first maximal element" specification.
    - [Extract]: the loop of lines 65-78 and the outcome of lines 80-84.
    - [Repr]: CPython's [repr] of [str] and [dict] and [print] (line 115).
    - [Tool]: the whole tool, lines 44-90, with the browser behind the
      [Browser] class and the parser behind [HtmlParser]; the driver
      lifecycle is an explicit trace of calls.
    - [React]: the ZERO_SHOT_REACT agent of line 106: the tool list of line
      101 as the prompt shows it, [ZeroShotAgent.create_prompt], the
      scratchpad of the steps taken, the stop sequences, and
      [MRKLOutputParser.parse] over [PyRe].
    - [Agent]: the [AgentExecutor] loop of lines 101-113 with LangChain's
      defaults, [plan] as prompt, completion and parse, the LLM behind the
      [Llm] class (a text completion), and the text [print] writes
      ([main], lines 110-115).  The loop is both a function
      ([executor_loop]) and a step relation ([astep]) on the executor's
      state (iterations, intermediate steps, browser world and trace).
    - [Verbose]: the trace [verbose=True] (line 107) writes to standard
      output: langchain-core's [StdOutCallbackHandler], [print_text] and
      its ANSI colours, [get_color_mapping], and the executor's loop with
      the text its callbacks print on every path ([verbose_loop]), up to
      the [print(response)] of line 115 ([verbose_main]).

    ** What the theorems show

    - Ranking ([Rank], [Extract]): Python's [max] loop refines the
      reference "first element with the largest key"; the text the tool
      returns names a record with the largest citation count and no
      earlier record ties it; only the first ten articles are read, in
      document order; each record's fields come from the article at its
      index: the "No Title" sentinel and an empty link exactly when the
      title anchor is missing, else the stripped anchor text and the
      site's address followed by the [href].
    - Resource handling and errors ([Tool]): the exact sequence of browser
      calls on every path, with [driver.quit()] called once, last, whenever
      the driver started; no session left open (against [BrowserLaws]);
      the text returned when every call succeeds and when loading fails;
      the exact conditions under which the tool always returns a text;
      start-up failures and [quit] failures escape the tool.
    - The agent ([Agent]): the loop function and the step relation agree
      (a lemma the relation's theorems are transported by); every
      reachable state satisfies the executor's invariant (proved by
      induction on the run); every execution terminates and every state
      reaches an answer or an exception; one invocation starts at most 15
      Chrome drivers and, with a browser whose [quit] succeeds, leaves no
      session open; when the LLM asks for the tool and then answers, the
      invocation returns that answer after exactly one tool run; an LLM
      text asking for the tool when Chrome cannot start, and an LLM text
      with no colon, make [agent.invoke] raise; an LLM that always asks for
      the tool gets the forced stop response after exactly 15 tool runs,
      one driver start each; the printed line carries the executor's
      answer.
    - Standard output ([Verbose]): printing the trace changes neither the
      executor's result nor the browser world; on the run the script is
      written for, standard output is exactly the coloured trace (the
      LLM's action, the tool's text, the final answer) followed by the
      printed response.
    - The prompt and the parser ([React]): a text in the format the prompt
      asks for parses back to the tool and the input written in it (the
      search skips the thought, the lazy group stops at the right header);
      a final answer is the text after the marker, stripped; a final
      answer followed by an invented action, with no blank line after
      the marker, is still a final answer, which keeps the action and
      loses the text's last character;
      the prompt of every iteration is the first prompt followed by every
      step's text and observation, in order.
    - Citation normalisation ([PyInt]): digits with any surrounding
      whitespace give their value; ["-5"] gives -5; more than 4300 digits
      give 0; normalisation never raises; [int] and [str] round-trip, and
      every accepted value can be printed ([PyInt.py_int_str_roundtrip],
      [PyInt.py_int_str_ok]).
    - Printing ([Repr]): [repr] of a string reads back as that string and
      the printed response reads back as the input and the answer.
    - Parsing ([Soup], [HtmlTok]): no tag html.parser reports is lost,
      however badly nested; the markup of a printable well-formed tree
      (double-quoted values, [&amp;] and [&lt;] in texts, raw
      [<script>] content without [</]) goes through
      html.parser and bs4 back to exactly that tree, so on such a page
      the tool returns what lines 65-84 give on the tree (the parser is
      transparent, [HtmlTok.tool_reads_page_markup]); a marked section with
      an unknown keyword after such markup makes [BeautifulSoup] raise
      [ParserRejectedMarkup] with the keyword in its message, which the
      tool returns as its error text; the tokenizer raises nothing but
      [AssertionError] and, from bs4's [int] on a decimal character
      reference of more than 4300 digits, [ValueError].
    - The extraction raises only [KeyError('href')], exactly when a title
      anchor has no [href] ([Extract]).
    - Configuration ([Dotenv], [Env]): [find_dotenv] returns the nearest
      [.env] on the way to the root, or [""]; a file of plain [KEY=VALUE]
      lines reads back as exactly its entries, and so does a file of
      values in single or double quotes with their backslashes and that
      quote escaped, as long as no value ends with a backslash; when one does and a quoted
      line follows, both lines are one error binding and neither key is
      set (a defect of python-dotenv's pattern); every round of
      [parse_stream]'s loop reads a character, so it terminates; a line
      with no key is an error binding and the lines after it are read as if
      it were absent; [.env] never overrides the environment; and lines
      26-40 together put the PROXY of the [.env] found, normalised, into
      both proxy variables.  PROXY values starting with "http" are kept as
      they are, host names included ([Env]).
    - The descendant combinator is decided by the greedy parent walk
      ([Dom]); the URL keeps the query only when it has no ['%'], ['&'],
      ['#'], ['+'] ([Url]).
    - Logging ([Logging]): [basicConfig(level=DEBUG)] sends the DEBUG
      records of the libraries to standard error, never to standard
      output, when the root logger had no handler, and does nothing when
      it had one.

    ** Bounds and fuel
    Every loop of the tool is a
    structural recursion over a list or a string (the [for] loop over at
    most ten articles, the character loops of [int], [strip] and [repr],
    the tree walks, the callbacks fed to the tree builder; [_popToTag]
    pops exactly the depth [Soup.find_open] finds); the regular-expression
    matcher recurses on the pattern, and each star on the text it reads,
    and [re.search] on the start positions.  Three loops of the libraries
    have a count of rounds: [parse_stream]'s [while reader.has_next()]
    ([Dotenv.parse_from]), [re.sub] ([Dotenv.sub_from]) and the repetition
    of a group ([PyRe.rep_loop]) are given [S (length text)] rounds, and
    each round they go on after reads at least one character, so the count
    is never reached: [Dotenv.parse_stream_terminates] and
    [Dotenv.sub_from_enough] prove it for the first two, and a repetition
    goes on only after a round that consumed text.  html.parser's
    [while i < n] ([HtmlTok.goahead_loop]) has the same count: on the
    markup of a tree it takes one round per tag and comment, at most the
    length ([HtmlTok.node_steps_fit]), which the round trip uses.  The agent's [while] loop is
    bounded by the code's own limit, LangChain's default
    [max_iterations = 15]
    ([Agent.max_iterations]); [executor_loop] recurses on the iterations
    left, and [executor_terminates] shows the step relation needs no
    bound beyond that guard ([max_execution_time] is [None] by default and
    plays no part).  The only numeric bound of the tool is CPython's
    [sys.int_info.default_max_str_digits] = 4300, written out in
    [PyInt.max_str_digits]; citation counts are unbounded integers ([Z])
    as in Python.

    ** Not modelled
    The LLM itself: the Together client (lines 93-98) is the [Llm] class, a
    completion of the prompt, which may raise; the model's answers are not
    predictable and the API key check belongs to the client library.  The
    tool's line in the prompt follows langchain-core 0.3
    ([render_text_description] with the function's signature); earlier
    releases print it differently; the trace of [verbose=True] follows
    langchain-core 0.3's [StdOutCallbackHandler].
    nest_asyncio (line 23) only patches asyncio so that a running event
    loop can be re-entered; no code path of the script runs an event loop.
    Selenium and Chrome are the [Browser] interface (their behaviour is a
    parameter, [Tool.fixture_browser] is one instance).  Of the HTML
    parser, html.parser is modelled as CPython has it up to the 2025
    maintenance releases of 3.12 and 3.13 (which changed the scanning of
    comments, CDATA content and [</script>]); the Unicode tables behind
    character and entity references and [html.unescape] are parameters
    ([HtmlTok.refs]: Latin-1 strings cannot hold their results); the
    round trip is proved for printable trees (references in texts and
    CDATA content included), and the other branches of
    the tokenizer are evaluated on examples.  bs4's string subclasses
    are plain nodes: [CData] a [Text], [Declaration] and [Doctype] a
    [Comment], as [.text] treats them; the classes of the strings under
    [script], [style], [template], [rt] and [rp] (bs4 4.10 on), which the
    [.text] of any other tag skips, are computed from the tree by
    [Dom.get_text], which gives a [CData] section inside such a tag the
    tag's class where bs4 keeps it a [CData].
    Of python-dotenv,
    the warning logged for an error binding (with its line number), the
    file's encoding, and the way [find_dotenv] decides that Python runs
    interactively (a parameter of [Dotenv.find_dotenv]) are not modelled;
    the file system is a predicate [os.path.isfile] and the text of each
    file.  Strings are Latin-1; [str.isspace], [int] and [repr] are exact
    on that range.

    ** Open directions
    The round trip of attribute values with references (through
    [html.unescape]). *)

From Stdlib Require Import String Ascii List ZArith Lia Relations.
Import ListNotations.

Declare Scope py_scope.
Delimit Scope py_scope with py.

(** ** Python exceptions *)

(** The exceptions that reach the tool.  [KeyboardInterrupt] stands for the
    [BaseException]s that are not [Exception]s and so escape
    [except Exception]. *)
Inductive exc : Type :=
| ValueError (msg : string)
| KeyError (key : string)
| SeleniumError (cls msg : string)
| OtherError (cls msg : string)
| KeyboardInterrupt.

(** [isinstance(e, Exception)] *)
Definition is_exception (e : exc) : bool :=
  match e with
  | KeyboardInterrupt => false
  | _ => true
  end.

(** [str(e)]: the message; a [KeyError] prints the repr of its key. *)
Definition str_exc (e : exc) : string :=
  match e with
  | ValueError m => m
  | KeyError k => "'" ++ k ++ "'"
  | SeleniumError _ m => m
  | OtherError _ m => m
  | KeyboardInterrupt => ""
  end%string.

(** ** Code that may raise *)

Inductive res (A : Type) : Type :=
| Ok (a : A)
| Raise (e : exc).
Arguments Ok {A} a.
Arguments Raise {A} e.

Definition res_bind {A B} (r : res A) (k : A -> res B) : res B :=
  match r with
  | Ok a => k a
  | Raise e => Raise e
  end.

Notation "x <- c ;; k" := (res_bind c (fun x => k))
  (at level 100, c at next level, right associativity) : py_scope.

Definition is_ok {A} (r : res A) : bool :=
  match r with Ok _ => true | Raise _ => false end.

Lemma res_bind_ok {A B} (a : A) (k : A -> res B) : res_bind (Ok a) k = k a.
Proof. reflexivity. Qed.

Lemma res_bind_raise {A B} (e : exc) (k : A -> res B) :
  res_bind (Raise e) k = Raise e.
Proof. reflexivity. Qed.

Lemma res_bind_Ok_inv {A B} (r : res A) (k : A -> res B) (b : B) :
  res_bind r k = Ok b -> exists a, r = Ok a /\ k a = Ok b.
Proof. destruct r; simpl; [eauto | discriminate]. Qed.

Lemma res_bind_assoc {A B C} (r : res A) (f : A -> res B) (g : B -> res C) :
  res_bind (res_bind r f) g = res_bind r (fun a => res_bind (f a) g).
Proof. destruct r; reflexivity. Qed.

Create HintDb pyexec discriminated.
Create Rewrite HintDb pyexec.
#[export] Hint Rewrite @res_bind_ok @res_bind_raise : pyexec.

(** Simplify binds on known results and destruct the ones that block. *)
Ltac py_simp :=
  repeat (progress (autorewrite with pyexec in *; simpl in *)
          || match goal with
             | H : Ok _ = Ok _ |- _ => injection H as H; subst
             | H : Ok _ = Raise _ |- _ => discriminate H
             | H : Raise _ = Ok _ |- _ => discriminate H
             end).

(** ** Strings and lists shared by the components *)

Lemma str_app_nil_r (s : string) : (s ++ "")%string = s.
Proof. induction s as [|c s IH]; simpl; [reflexivity | now rewrite IH]. Qed.

Lemma str_app_assoc (a b c : string) : (a ++ (b ++ c))%string = ((a ++ b) ++ c)%string.
Proof. induction a as [|x a IH]; simpl; [reflexivity | now rewrite IH]. Qed.

Lemma str_length_app (a b : string) :
  String.length (a ++ b) = String.length a + String.length b.
Proof. induction a as [|x a IH]; simpl; [reflexivity | now rewrite IH]. Qed.

#[export] Hint Rewrite str_app_nil_r str_length_app : pyexec.


Lemma length_firstn_le {A} (n : nat) (l : list A) : length (firstn n l) <= n.
Proof. rewrite length_firstn. lia. Qed.

Lemma Forall2_in_left {A B} (R : A -> B -> Prop) (l1 : list A) (l2 : list B) (a : A) :
  Forall2 R l1 l2 -> In a l1 -> exists b, In b l2 /\ R a b.
Proof.
  induction 1 as [|x y l1' l2' Hxy _ IH]; [intros []|].
  intros [-> | Hin]; [exists y; split; [now left | exact Hxy]|].
  destruct (IH Hin) as (b & Hb & Hr). exists b. split; [now right | exact Hr].
Qed.

Lemma Forall2_nth_error {A B} (R : A -> B -> Prop) (l1 : list A) (l2 : list B) (i : nat) (b : B) :
  Forall2 R l1 l2 -> nth_error l2 i = Some b -> exists a, nth_error l1 i = Some a /\ R a b.
Proof.
  intros H. revert i. induction H as [|x y l1' l2' Hxy _ IH]; intros [|i]; simpl;
    try discriminate; [intros [= <-]; eauto | apply IH].
Qed.

#[export] Hint Resolve length_firstn_le : pyexec.

(** ** Executions of a step relation

    Runs are [clos_refl_trans_1n]; an invariant is proved by induction on
    the run, a deterministic relation has at most one final state, and a
    measure that every step decreases gives termination. *)

#[export] Hint Constructors clos_refl_trans_1n : pyexec.

Section Executions.
Context {A : Type} (R : relation A).

Definition irreducible (a : A) : Prop := forall b, ~ R a b.

Lemma rt1n_invariant (P : A -> Prop) (x y : A) :
  P x -> (forall a b, P a -> R a b -> P b) -> clos_refl_trans_1n A R x y -> P y.
Proof. intros Hx Hstep Hrun. induction Hrun; eauto. Qed.

Lemma rt1n_app (x y z : A) :
  clos_refl_trans_1n A R x y -> clos_refl_trans_1n A R y z -> clos_refl_trans_1n A R x z.
Proof. induction 1; eauto with pyexec. Qed.

Lemma measure_acc (m : A -> nat) :
  (forall a b, R a b -> m b < m a) -> forall a, Acc (fun y x => R x y) a.
Proof.
  intros Hdec. assert (G : forall n a, m a < n -> Acc (fun y x => R x y) a).
  { induction n as [|n IH]; intros a Ha; [lia|].
    constructor. intros b Hab. apply IH. specialize (Hdec _ _ Hab). lia. }
  intros a. apply (G (S (m a))). lia.
Qed.

Hypothesis R_det : forall a b c, R a b -> R a c -> b = c.

Lemma rt1n_det_final (x y z : A) :
  clos_refl_trans_1n A R x y -> clos_refl_trans_1n A R x z ->
  irreducible y -> irreducible z -> y = z.
Proof.
  intros Hy. revert z. induction Hy as [x|x x' y Hx Hrun IH]; intros z Hz Iy Iz.
  - destruct Hz as [|x1 z Hx1 _]; [reflexivity | exfalso; exact (Iy _ Hx1)].
  - destruct Hz as [|x1 z Hx1 Hrun1]; [exfalso; exact (Iz _ Hx)|].
    rewrite (R_det _ _ _ Hx Hx1) in IH. exact (IH z Hrun1 Iy Iz).
Qed.

End Executions.
