(* ===== verification/PyStr.v ===== *)
(** * Python string builtins used by the tool

    A Python [str] is modelled as a Rocq [string] whose characters are read
    as Latin-1 code points (U+0000..U+00FF); characters above U+00FF never
    matter to the code paths modelled here except through [str.isspace],
    which this file states exactly on that range.

    - [py_isspace]: [str.isspace] on one character (Unicode White_Space /
      bidi WS, B, S: U+0009-000D, U+001C-001F, U+0020, U+0085, U+00A0);
    - [lstrip], [rstrip], [strip]: [str.strip()] without argument, used on
      lines 68 and 71 of [src/ScrapingWLangsmith.py];
    - [startswith]: [str.startswith], line 36;
    - [py_replace]: [str.replace(old, new)], line 48;
    - [split_ws]: [re.findall(r"\S+", v)], the split BeautifulSoup applies
      to the multi-valued [class] attribute before soupsieve matches it;
    - [join]: [sep.join(l)], used by [repr] of a dictionary and by
      LangChain's [InvalidTool] message;
    - [has_char], [drop_prefix], [hex_val]: [c in s], removing a known
      prefix, and the value of a hexadecimal digit, shared by the readers
      of [Url] and [Repr];
    - [py_find], [contains], [py_slice], [py_split], [strip_chars]:
      [s.find(sub, start)], [sub in s], [s[a:b]], [s.split(sep)] and
      [s.strip(chars)], used by LangChain's MRKL output parser.

    The lemmas include the idempotence of [strip] and the decomposition
    of concatenations ([str_app_eq_app], [colon_first], [contains2_app])
    the parser's proofs use. *)

From Stdlib Require Import String Ascii List Arith ZArith Lia Bool.
From S2P Require Import Prelude.
Import ListNotations.
Local Open Scope string_scope.

Module PyStr.

(** ** Definitions *)

Definition py_isspace (c : ascii) : bool :=
  let n := nat_of_ascii c in
  (((9 <=? n) && (n <=? 13)) || ((28 <=? n) && (n <=? 32))
  || (n =? 133) || (n =? 160))%nat.

(** [s.lstrip()]: drop the leading whitespace. *)
Fixpoint lstrip (s : string) : string :=
  match s with
  | EmptyString => EmptyString
  | String c r => if py_isspace c then lstrip r else s
  end.

(** [s.rstrip()]: a character survives when it is not whitespace or some
    character after it survives. *)
Fixpoint rstrip (s : string) : string :=
  match s with
  | EmptyString => EmptyString
  | String c r =>
      let r' := rstrip r in
      match r' with
      | EmptyString => if py_isspace c then EmptyString else String c EmptyString
      | _ => String c r'
      end
  end.

(** [s.strip()] *)
Definition strip (s : string) : string := rstrip (lstrip s).

(** [s.startswith(p)] *)
Definition startswith (s p : string) : bool := String.prefix p s.

(** [s.replace(old, new)] for a non-empty [old]: scan left to right, and
    after a match skip the rest of the matched occurrence ([skip] counts
    the characters still to drop).  For an empty [old] Python inserts
    [new] before every character and at the end. *)
Fixpoint replace_from (old new : string) (skip : nat) (s : string) : string :=
  match s with
  | EmptyString => EmptyString
  | String c r =>
      match skip with
      | S k => replace_from old new k r
      | O =>
          if String.prefix old s
          then new ++ replace_from old new (String.length old - 1) r
          else String c (replace_from old new 0 r)
      end
  end.

Fixpoint interleave (new s : string) : string :=
  match s with
  | EmptyString => new
  | String c r => new ++ String c (interleave new r)
  end.

Definition py_replace (s old new : string) : string :=
  match old with
  | EmptyString => interleave new s
  | _ => replace_from old new 0 s
  end.

(** [re.findall(r"\S+", v)]: the maximal runs of non-whitespace. [sw] returns
    the run that starts the string (possibly empty) and the runs after it. *)
Definition cons_word (w : string) (ws : list string) : list string :=
  match w with
  | EmptyString => ws
  | _ => w :: ws
  end.

Fixpoint sw (s : string) : string * list string :=
  match s with
  | EmptyString => (EmptyString, [])
  | String c r =>
      let (w, ws) := sw r in
      if py_isspace c then (EmptyString, cons_word w ws) else (String c w, ws)
  end.

Definition split_ws (s : string) : list string :=
  let (w, ws) := sw s in cons_word w ws.

(** [sep.join(l)] *)
Fixpoint join (sep : string) (l : list string) : string :=
  match l with
  | [] => ""
  | [x] => x
  | x :: r => x ++ sep ++ join sep r
  end.

(** ** Characters, prefixes and hexadecimal digits *)

(** [c in s] *)
Fixpoint has_char (c : ascii) (s : string) : bool :=
  match s with
  | EmptyString => false
  | String d t => Ascii.eqb d c || has_char c t
  end.

(** [s.removeprefix(p)] when [s.startswith(p)]. *)
Fixpoint drop_prefix (p s : string) : option string :=
  match p, s with
  | EmptyString, _ => Some s
  | String a p', String b s' => if Ascii.eqb a b then drop_prefix p' s' else None
  | String _ _, EmptyString => None
  end.

(** The value of a hexadecimal digit, either case. *)
Definition hex_val (c : ascii) : option nat :=
  let n := nat_of_ascii c in
  if ((48 <=? n) && (n <=? 57))%nat then Some (n - 48)%nat
  else if ((65 <=? n) && (n <=? 70))%nat then Some (n - 55)%nat
  else if ((97 <=? n) && (n <=? 102))%nat then Some (n - 87)%nat
  else None.

(** ** Characters and strings without whitespace *)

Fixpoint no_space (s : string) : bool :=
  match s with
  | EmptyString => true
  | String c r => negb (py_isspace c) && no_space r
  end.

Definition head_ns (s : string) : Prop :=
  match s with EmptyString => True | String c _ => py_isspace c = false end.

Fixpoint last_ns (s : string) : Prop :=
  match s with
  | EmptyString => True
  | String c EmptyString => py_isspace c = false
  | String _ r => last_ns r
  end.

Fixpoint all_space (s : string) : bool :=
  match s with
  | EmptyString => true
  | String c r => py_isspace c && all_space r
  end.

(** ** Lemmas *)

Lemma lstrip_app_space (w s : string) :
  all_space w = true -> lstrip (w ++ s) = lstrip s.
Proof.
  induction w as [|c w IH]; simpl; [reflexivity|].
  intros H. apply andb_prop in H as [-> Hw]. auto.
Qed.

Lemma lstrip_head_ns (s : string) : head_ns s -> lstrip s = s.
Proof. destruct s as [|c r]; simpl; [reflexivity|]. now intros ->. Qed.

Lemma rstrip_all_space (w : string) : all_space w = true -> rstrip w = "".
Proof.
  induction w as [|c w IH]; simpl; [reflexivity|].
  intros H. apply andb_prop in H as [Hc Hw]. rewrite IH by exact Hw. now rewrite Hc.
Qed.

Lemma rstrip_app_space (s w : string) :
  last_ns s -> all_space w = true -> rstrip (s ++ w) = s.
Proof.
  intros Hl Hw. induction s as [|c r IH]; simpl.
  - now apply rstrip_all_space.
  - destruct r as [|c' r'].
    + simpl in *. rewrite rstrip_all_space by exact Hw. now rewrite Hl.
    + rewrite IH by exact Hl. reflexivity.
Qed.

Lemma lstrip_all_space (w : string) : all_space w = true -> lstrip w = "".
Proof.
  induction w as [|c w IH]; simpl; [reflexivity|].
  intros H. apply andb_prop in H as [-> Hw]. auto.
Qed.

(** [strip] removes exactly the whitespace around a word that starts and
    ends with a non-space character. *)
Lemma strip_pad (w1 s w2 : string) :
  all_space w1 = true -> all_space w2 = true ->
  head_ns s -> last_ns s -> strip (w1 ++ s ++ w2) = s.
Proof.
  intros H1 H2 Hh Hl. unfold strip.
  rewrite lstrip_app_space by exact H1.
  destruct s as [|c r] eqn:Es.
  - simpl. now rewrite lstrip_all_space.
  - rewrite lstrip_head_ns by (simpl; exact Hh).
    rewrite <- Es in *. now apply rstrip_app_space.
Qed.

Lemma startswith_app (p s : string) : startswith (p ++ s) p = true.
Proof.
  unfold startswith. induction p as [|c p IH]; simpl.
  - destruct s; reflexivity.
  - destruct (ascii_dec c c); [exact IH | congruence].
Qed.

Lemma lstrip_head (s : string) : head_ns (lstrip s).
Proof.
  induction s as [|c r IH]; simpl; [exact I|].
  destruct (py_isspace c) eqn:Hc; [exact IH | exact Hc].
Qed.

Lemma rstrip_last (s : string) : last_ns (rstrip s).
Proof.
  induction s as [|c r IH]; simpl; [exact I|].
  destruct (rstrip r) as [|c' r'] eqn:E.
  - destruct (py_isspace c) eqn:Hc; [exact I | exact Hc].
  - exact IH.
Qed.

Lemma rstrip_head (s : string) : head_ns s -> head_ns (rstrip s).
Proof.
  destruct s as [|c r]; simpl; [trivial|]. intros Hc.
  destruct (rstrip r); [rewrite Hc|]; exact Hc.
Qed.

Lemma rstrip_last_ns (s : string) : last_ns s -> rstrip s = s.
Proof.
  induction s as [|c r IH]; simpl; [reflexivity|].
  destruct r as [|c' r'].
  - intros Hc. simpl. now rewrite Hc.
  - intros Hl. now rewrite (IH Hl).
Qed.

(** [s.strip()] is idempotent: its result starts and ends with a
    non-space character. *)
Lemma strip_idem (s : string) : strip (strip s) = strip s.
Proof.
  unfold strip at 1 2. rewrite (lstrip_head_ns _ (rstrip_head _ (lstrip_head s))).
  apply rstrip_last_ns, rstrip_last.
Qed.

Lemma drop_prefix_app (p s : string) : drop_prefix p (p ++ s) = Some s.
Proof. induction p as [|c p IH]; simpl; [reflexivity|]. now rewrite Ascii.eqb_refl. Qed.

(** ** Searching, slicing and splitting

    [s.find(sub, start)], [sub in s], [s[a:b]], [s.split(sep)] and
    [s.strip(chars)], used by LangChain's MRKL output parser on the text
    the LLM returns. *)

(** The first index at or after the current one where [sub] occurs. *)
Fixpoint find_from (sub s : string) (i : nat) : option nat :=
  if String.prefix sub s then Some i
  else match s with
       | EmptyString => None
       | String _ r => find_from sub r (S i)
       end.

(** [s.find(sub, start)]: [-1] when [sub] does not occur at or after
    [start], or when [start] is past the end. *)
Definition py_find (s sub : string) (start : nat) : Z :=
  if (String.length s <? start)%nat then (-1)%Z
  else match find_from sub (String.substring start (String.length s - start) s) start with
       | Some i => Z.of_nat i
       | None => (-1)%Z
       end.

(** [sub in s] *)
Fixpoint contains (sub s : string) : bool :=
  String.prefix sub s || match s with EmptyString => false | String _ r => contains sub r end.

(** A slice bound: a negative index counts from the end, and the result is
    clipped to [0 .. len(s)]. *)
Definition slice_index (i n : Z) : Z :=
  if (i <? 0)%Z then Z.max 0 (i + n) else Z.min i n.

(** [s[a:b]] *)
Definition py_slice (s : string) (a b : Z) : string :=
  let n := Z.of_nat (String.length s) in
  let i := slice_index a n in
  let j := slice_index b n in
  String.substring (Z.to_nat i) (Z.to_nat (j - i)) s.

(** [s.split(sep)] for a non-empty [sep]: [cur] is the piece being read,
    [skip] the characters of a matched separator still to drop. *)
Fixpoint split_from (sep : string) (skip : nat) (cur s : string) : list string :=
  match s with
  | EmptyString => [cur]
  | String c r =>
      match skip with
      | S k => split_from sep k cur r
      | O =>
          if String.prefix sep s then cur :: split_from sep (String.length sep - 1) "" r
          else split_from sep 0 (cur ++ String c "") r
      end
  end.

Definition py_split (s sep : string) : list string := split_from sep 0 "" s.

Fixpoint lstrip_by (p : ascii -> bool) (s : string) : string :=
  match s with
  | EmptyString => EmptyString
  | String c r => if p c then lstrip_by p r else s
  end.

Fixpoint rstrip_by (p : ascii -> bool) (s : string) : string :=
  match s with
  | EmptyString => EmptyString
  | String c r =>
      let r' := rstrip_by p r in
      match r' with
      | EmptyString => if p c then EmptyString else String c EmptyString
      | _ => String c r'
      end
  end.

(** [s.strip(chars)] *)
Definition strip_chars (chars s : string) : string :=
  let p c := has_char c chars in rstrip_by p (lstrip_by p s).

(** ** Decomposing concatenations *)

Lemma str_app_eq_app (a b c d : string) :
  a ++ b = c ++ d ->
  exists m, (a = c ++ m /\ d = m ++ b) \/ (c = a ++ m /\ b = m ++ d).
Proof.
  revert c. induction a as [|x a IH]; intros c H.
  - exists c. right. split; [reflexivity | exact H].
  - destruct c as [|y c]; simpl in H.
    + exists (String x a). left. split; [reflexivity | now rewrite <- H].
    + injection H as -> H. destruct (IH c H) as (m & [[-> ->]|[-> ->]]);
        exists m; [left | right]; split; reflexivity.
Qed.

Lemma str_app_inv_tail (a b c : string) : a ++ c = b ++ c -> a = b.
Proof.
  intros H. apply (f_equal String.length) in H as Hl. rewrite !str_length_app in Hl.
  destruct (str_app_eq_app _ _ _ _ H) as (m & [[-> Hm]|[-> Hm]]);
    apply (f_equal String.length) in Hm; rewrite str_length_app in Hm;
    destruct m; simpl in *; try lia; now rewrite str_app_nil_r.
Qed.

Lemma str_app_inj_tail (a b : string) (x y : ascii) :
  a ++ String x "" = b ++ String y "" -> a = b /\ x = y.
Proof.
  intros H. apply (f_equal String.length) in H as Hl. rewrite !str_length_app in Hl. simpl in Hl.
  destruct (str_app_eq_app _ _ _ _ H) as (m & [[-> Hm]|[-> Hm]]);
    destruct m as [|z m]; simpl in *; rewrite ?str_length_app in Hl; simpl in Hl; try lia;
    rewrite str_app_nil_r; injection Hm; auto.
Qed.

Lemma has_char_app (c : ascii) (a b : string) :
  has_char c (a ++ b) = has_char c a || has_char c b.
Proof. induction a as [|d a IH]; simpl; [reflexivity | now rewrite IH, orb_assoc]. Qed.

Lemma drop_prefix_some (p s v : string) : drop_prefix p s = Some v -> s = p ++ v.
Proof.
  revert s. induction p as [|a p IH]; intros [|b s] H; simpl in *; try congruence.
  destruct (Ascii.eqb_spec a b) as [<-|]; [f_equal; auto | discriminate].
Qed.

(** Two texts that agree up to their first colon. *)
Lemma colon_first (u1 u2 y1 y2 : string) :
  has_char ":" u1 = false -> has_char ":" u2 = false ->
  u1 ++ String ":" y1 = u2 ++ String ":" y2 -> u1 = u2 /\ y1 = y2.
Proof.
  revert u2. induction u1 as [|a u1 IH]; intros [|b u2] H1 H2 H; simpl in *.
  - now injection H.
  - injection H as <- _. now rewrite Ascii.eqb_refl in H2.
  - injection H as -> _. now rewrite Ascii.eqb_refl in H1.
  - apply orb_false_iff in H1 as [_ H1]. apply orb_false_iff in H2 as [_ H2].
    injection H as -> H. destruct (IH u2 H1 H2 H) as [-> ->]. now split.
Qed.

Lemma contains_prefix (sub s : string) : String.prefix sub s = true -> contains sub s = true.
Proof. intros H. destruct s; cbn [contains]; now rewrite H. Qed.

Lemma contains_app_intro (sub a b : string) : contains sub (a ++ sub ++ b) = true.
Proof.
  induction a as [|c a IH]; simpl.
  - apply contains_prefix, startswith_app.
  - rewrite IH. apply orb_true_r.
Qed.

Lemma prefix_cons (x c : ascii) (s1 s2 : string) :
  String.prefix (String x s1) (String c s2) = Ascii.eqb x c && String.prefix s1 s2.
Proof. simpl. destruct (ascii_dec x c) as [<-|Hne]; [now rewrite Ascii.eqb_refl|]. now rewrite (proj2 (Ascii.eqb_neq x c) Hne). Qed.

Lemma prefix_nil (s : string) : String.prefix "" s = true.
Proof. now destruct s. Qed.

Lemma prefix_split (sub s : string) : String.prefix sub s = true -> exists b, s = sub ++ b.
Proof.
  revert s. induction sub as [|x sub IH]; intros s H; [now exists s|].
  destruct s as [|c s]; [discriminate|]. rewrite prefix_cons in H.
  apply andb_prop in H as [Hx H]. apply Ascii.eqb_eq in Hx as ->.
  destruct (IH s H) as (b & ->). now exists b.
Qed.

Lemma contains_split (sub s : string) : contains sub s = true -> exists a b, s = a ++ sub ++ b.
Proof.
  induction s as [|c r IH]; cbn [contains]; intros H; apply orb_true_iff in H as [H|H].
  - destruct (prefix_split _ _ H) as (b & E). exists "", b. exact E.
  - discriminate.
  - destruct (prefix_split _ _ H) as (b & E). exists "", b. exact E.
  - destruct (IH H) as (a & b & ->). now exists (String c a), b.
Qed.

(** An occurrence of [p ++ q] is an occurrence of [q]. *)
Lemma contains_app_r (p q s : string) : contains (p ++ q) s = true -> contains q s = true.
Proof.
  intros H. destruct (contains_split _ _ H) as (a & b & ->).
  rewrite <- str_app_assoc, str_app_assoc. apply contains_app_intro.
Qed.

(** A two-character text does not occur where its second character does
    not. *)
Lemma contains2_no_char (x y : ascii) (s : string) :
  has_char y s = false -> contains (String x (String y "")) s = false.
Proof.
  intros H. apply Bool.not_true_iff_false. intros Hc.
  destruct (contains_split _ _ Hc) as (a & b & ->).
  rewrite has_char_app in H. simpl in H. now rewrite Ascii.eqb_refl, !orb_true_r in H.
Qed.

Fixpoint ends_with_char (x : ascii) (s : string) : bool :=
  match s with
  | EmptyString => false
  | String c EmptyString => Ascii.eqb c x
  | String _ r => ends_with_char x r
  end.

Definition starts_with_char (y : ascii) (s : string) : bool :=
  match s with EmptyString => false | String c _ => Ascii.eqb c y end.

(** A two-character text occurs in [a ++ b] when it occurs in [a], in
    [b], or across the boundary. *)
Lemma prefix_one (y : ascii) (t : string) : String.prefix (String y "") t = starts_with_char y t.
Proof. destruct t as [|e t]; [reflexivity|]. rewrite prefix_cons, prefix_nil, andb_true_r. apply Ascii.eqb_sym. Qed.

Lemma contains2_app (x y : ascii) (a b : string) :
  contains (String x (String y "")) (a ++ b) =
  contains (String x (String y "")) a || contains (String x (String y "")) b
  || (ends_with_char x a && starts_with_char y b).
Proof.
  induction a as [|c a IH].
  { change (contains (String x (String y "")) "") with false. cbn [String.append ends_with_char].
    now rewrite andb_false_l, orb_false_r. }
  cbn [String.append].
  change (contains (String x (String y "")) (String c (a ++ b)))
    with (String.prefix (String x (String y "")) (String c (a ++ b)) || contains (String x (String y "")) (a ++ b)).
  change (contains (String x (String y "")) (String c a))
    with (String.prefix (String x (String y "")) (String c a) || contains (String x (String y "")) a).
  rewrite IH, !prefix_cons, !prefix_one.
  destruct a as [|d a]; cbn [String.append ends_with_char starts_with_char].
  - change (contains (String x (String y "")) "") with false. rewrite (Ascii.eqb_sym c x).
    now destruct (Ascii.eqb x c), (starts_with_char y b), (contains _ b).
  - now destruct (Ascii.eqb x c), (Ascii.eqb d y), (contains _ (String d a)), (contains _ b),
      (ends_with_char x (String d a)), (starts_with_char y b).
Qed.

Lemma last_ns_app_r (a b : string) : b <> "" -> last_ns (a ++ b) -> last_ns b.
Proof.
  intros Hb. induction a as [|c a IH]; simpl; [trivial|].
  destruct (a ++ b) eqn:E; [destruct a, b; simpl in E; congruence | exact IH].
Qed.

Lemma last_ns_all_space (s : string) : last_ns s -> all_space s = true -> s = "".
Proof.
  induction s as [|c r IH]; [reflexivity|]. simpl. intros Hl Ha. apply andb_prop in Ha as [Hc Hr].
  destruct r as [|d r]; [congruence|]. specialize (IH Hl Hr). discriminate.
Qed.

Lemma contains_char (c : ascii) (s : string) : contains (String c "") s = true -> has_char c s = true.
Proof.
  intros H. destruct (contains_split _ _ H) as (a & b & ->).
  rewrite has_char_app. simpl. now rewrite Ascii.eqb_refl, orb_true_r.
Qed.

Lemma has_char_mid (c : ascii) (a b : string) : has_char c (a ++ String c b) = true.
Proof. rewrite has_char_app. simpl. now rewrite Ascii.eqb_refl, orb_true_r. Qed.

Lemma contains_tail (sub : string) (c : ascii) (s : string) :
  contains sub (String c s) = false -> contains sub s = false.
Proof. cbn [contains]. now intros [_ H]%orb_false_iff. Qed.

Lemma contains_suffix (sub a b : string) : contains sub (a ++ b) = false -> contains sub b = false.
Proof. induction a as [|c a IH]; [exact id | intros H; exact (IH (contains_tail _ _ _ H))]. Qed.

(** [s.split(sep)] with no occurrence of [sep] left: one piece. *)
Lemma split_from_none (sep cur s : string) :
  contains sep s = false -> split_from sep 0 cur s = [cur ++ s].
Proof.
  revert cur. induction s as [|c s IH]; intros cur H; cbn [split_from].
  - now rewrite str_app_nil_r.
  - cbn [contains] in H. apply orb_false_iff in H as [Hp H]. rewrite Hp, IH by exact H.
    now rewrite <- str_app_assoc.
Qed.

(** The separator's characters after its first one are skipped. *)
Lemma split_from_skip (sep cur x s : string) :
  split_from sep (String.length x) cur (x ++ s) = split_from sep 0 cur s.
Proof. induction x as [|c x IH]; [reflexivity|]. exact IH. Qed.

(** Reading a prefix in which [sep] starts nowhere. *)
Lemma split_from_app (sep cur a b : string) :
  (forall a1 a2, a = a1 ++ a2 -> a2 <> "" -> String.prefix sep (a2 ++ b) = false) ->
  split_from sep 0 cur (a ++ b) = split_from sep 0 (cur ++ a) b.
Proof.
  revert cur. induction a as [|c a IH]; intros cur H; [now rewrite str_app_nil_r|].
  cbn [String.append split_from].
  pose proof (H "" (String c a) eq_refl ltac:(discriminate)) as H0. cbn [String.append] in H0.
  rewrite H0, IH, <- str_app_assoc; [reflexivity|].
  intros a1 a2 -> Hne. apply (H (String c a1) a2); [reflexivity | exact Hne].
Qed.

(** [s.find(sub)] past a prefix in which [sub] starts nowhere. *)
Lemma find_from_app (sub a b : string) (i : nat) :
  (forall a1 a2, a = a1 ++ a2 -> a2 <> "" -> String.prefix sub (a2 ++ b) = false) ->
  find_from sub (a ++ b) i = find_from sub b (i + String.length a).
Proof.
  revert i. induction a as [|c a IH]; intros i H; [now rewrite Nat.add_0_r|].
  cbn [String.append find_from].
  pose proof (H "" (String c a) eq_refl ltac:(discriminate)) as H0. cbn [String.append] in H0.
  rewrite H0, IH; [cbn [String.length]; f_equal; lia|].
  intros a1 a2 -> Hne. apply (H (String c a1) a2); [reflexivity | exact Hne].
Qed.

Lemma find_from_hit (sub s : string) (i : nat) : String.prefix sub s = true -> find_from sub s i = Some i.
Proof. intros H. destruct s; cbn [find_from]; now rewrite H. Qed.

Lemma find_from_none (sub s : string) (i : nat) : contains sub s = false -> find_from sub s i = None.
Proof.
  revert i. induction s as [|c s IH]; intros i H; cbn [find_from contains] in *;
    apply orb_false_iff in H as [Hp H]; rewrite Hp; [reflexivity | now apply IH].
Qed.

Lemma substring_all (s : string) : String.substring 0 (String.length s) s = s.
Proof. induction s as [|c s IH]; cbn; [reflexivity | now rewrite IH]. Qed.

Lemma substring_shift (p q : string) (k l : nat) :
  String.substring (String.length p + k) l (p ++ q) = String.substring k l q.
Proof. induction p as [|c p IH]; [reflexivity|]. exact IH. Qed.

(** [s.find(sub, len(p))] on [p + r]. *)
Lemma py_find_after (p r sub : string) :
  py_find (p ++ r) sub (String.length p) =
  match find_from sub r (String.length p) with Some i => Z.of_nat i | None => (-1)%Z end.
Proof.
  unfold py_find. rewrite str_length_app.
  replace (String.length p + String.length r <? String.length p)%nat with false by (symmetry; apply Nat.ltb_ge; lia).
  replace (String.length p + String.length r - String.length p) with (String.length r) by lia.
  pose proof (substring_shift p r 0 (String.length r)) as E. rewrite Nat.add_0_r in E.
  now rewrite E, substring_all.
Qed.

Lemma drop_prefix_none (p s : string) : String.prefix p s = false -> drop_prefix p s = None.
Proof.
  revert s. induction p as [|a p IH]; intros s H; [now rewrite prefix_nil in H|].
  destruct s as [|b s]; [reflexivity|]. rewrite prefix_cons in H. cbn [drop_prefix].
  destruct (Ascii.eqb a b); [now apply IH | reflexivity].
Qed.

Lemma prefix_app_l (p q s : string) : String.prefix (p ++ q) s = true -> String.prefix p s = true.
Proof.
  intros H. destruct (prefix_split _ _ H) as (b & ->). rewrite <- str_app_assoc. apply startswith_app.
Qed.

Lemma py_find_start (s sub : string) :
  py_find s sub 0 = match find_from sub s 0 with Some i => Z.of_nat i | None => (-1)%Z end.
Proof. exact (py_find_after "" s sub). Qed.

(** [s[len(p):-1]] on [p + b]: [b[:-1]]. *)
Lemma py_slice_last (p b : string) :
  b <> "" -> py_slice (p ++ b) (Z.of_nat (String.length p)) (-1) = py_slice b 0 (-1).
Proof.
  intros Hb. assert (Hl : 1 <= String.length b) by (destruct b; [congruence | cbn; lia]).
  unfold py_slice, slice_index. rewrite str_length_app.
  replace (Z.of_nat (String.length p) <? 0)%Z with false by (symmetry; apply Z.ltb_ge; lia).
  replace (0 <? 0)%Z with false by reflexivity. replace (-1 <? 0)%Z with true by reflexivity.
  replace (Z.to_nat (Z.max 0 (-1 + Z.of_nat (String.length p + String.length b))
                     - Z.min (Z.of_nat (String.length p)) (Z.of_nat (String.length p + String.length b))))
    with (Z.to_nat (Z.max 0 (-1 + Z.of_nat (String.length b)) - Z.min 0 (Z.of_nat (String.length b)))) by lia.
  replace (Z.to_nat (Z.min (Z.of_nat (String.length p)) (Z.of_nat (String.length p + String.length b))))
    with (String.length p + Z.to_nat (Z.min 0 (Z.of_nat (String.length b)))) by lia.
  apply substring_shift.
Qed.

End PyStr.

#[export] Hint Resolve PyStr.startswith_app : pyexec.
#[export] Hint Rewrite PyStr.strip_idem : pyexec.
