(* ===== verification/PyRe.v ===== *)
(** * Python's [re] on the patterns of LangChain's MRKL output parser

    The parser behind [AgentType.ZERO_SHOT_REACT_DESCRIPTION] (line 106)
    reads the LLM's text with [re.search(regex, text, re.DOTALL)].  Its
    patterns are built from literals, the classes [\s], [\d] and [.] under
    [re.DOTALL], greedy and lazy stars over one class, and capturing groups;
    python-dotenv's reader adds single characters of a class,
    alternatives, the greedy repetition of a sub-pattern and [$].
    [regex] has exactly these constructors, and [mt] is the backtracking
    matcher CPython's [sre] runs on them, in continuation-passing style: a
    greedy star tries the longest run first and gives characters back one
    at a time, a lazy star tries the shortest first, a group records the
    text its sub-pattern consumed, an alternative tries its left branch
    first, and a repetition tries one more round of its body before the
    rest of the pattern, going on only after a round that consumed text
    (sre's guard against empty rounds); the count [S (length s)] of rounds
    is never exhausted since every further round consumes a character.  [search] tries the start positions from
    left to right, as [re.search] does.

    The lemmas characterise the matcher on the shapes the parser uses:
    a star whose continuation cannot tell a run from its end, the
    [\s*\d*\s*] gap before a literal, a lazy star that skips a prefix on
    which its continuation fails, and a search that skips a prefix. *)

From Stdlib Require Import String Ascii List Arith Lia Bool.
From S2P Require Import Prelude PyStr.
Import ListNotations.
Local Open Scope string_scope.

Module PyRe.
Import PyStr.

(** ** Character classes *)

(** [\d] on Latin-1: the decimal digits are [0-9] only. *)
Definition is_digit (c : ascii) : bool :=
  let n := nat_of_ascii c in ((48 <=? n) && (n <=? 57))%nat.

(** [.] under [re.DOTALL] *)
Definition any_char (c : ascii) : bool := true.

(** ** Patterns and the matcher *)

Inductive regex : Type :=
| Lit (l : string)                        (** a literal *)
| Star (greedy : bool) (p : ascii -> bool) (** [p*] (greedy) or [p*?] (lazy) *)
| Group (r : regex)                       (** [( r )] *)
| Seq (r1 r2 : regex)
| Cls (p : ascii -> bool)                 (** one character of a class *)
| Alt (r1 r2 : regex)                     (** [r1|r2] *)
| Rep (r : regex)                         (** [(?:r)*], greedy *)
| Eol.                                    (** [$] without [re.MULTILINE] *)

(** A pattern written as the sequence of its parts. *)
Fixpoint cat (rs : list regex) : regex :=
  match rs with
  | [] => Lit ""
  | [r] => r
  | r :: rs' => Seq r (cat rs')
  end.

(** What a sub-pattern consumed: [s] without its suffix [s']. *)
Definition consumed (s s' : string) : string :=
  String.substring 0 (String.length s - String.length s') s.

Section Matcher.
Context {R : Type}.

(** The rest of the match: the text left and the groups captured so far. *)
Definition cont : Type := string -> list string -> option R.

Fixpoint star_greedy (p : ascii -> bool) (s : string) (caps : list string) (k : cont) : option R :=
  match s with
  | String c r =>
      if p c then
        match star_greedy p r caps k with
        | Some x => Some x
        | None => k s caps
        end
      else k s caps
  | EmptyString => k s caps
  end.

Fixpoint star_lazy (p : ascii -> bool) (s : string) (caps : list string) (k : cont) : option R :=
  match k s caps with
  | Some x => Some x
  | None =>
      match s with
      | String c r => if p c then star_lazy p r caps k else None
      | EmptyString => None
      end
  end.

(** The rounds of a repetition whose body matches with [m]: one more
    round, going on after it only when it consumed text; the rest of the
    pattern when the round fails. *)
Fixpoint rep_loop (m : string -> list string -> cont -> option R) (k : cont) (n : nat)
    (s : string) (caps : list string) : option R :=
  match n with
  | O => k s caps
  | S n' =>
      match m s caps (fun s' caps' =>
              if (String.length s' <? String.length s)%nat then rep_loop m k n' s' caps' else k s' caps') with
      | Some x => Some x
      | None => k s caps
      end
  end.

Fixpoint mt (r : regex) (s : string) (caps : list string) (k : cont) : option R :=
  match r with
  | Lit l => match drop_prefix l s with Some s' => k s' caps | None => None end
  | Star true p => star_greedy p s caps k
  | Star false p => star_lazy p s caps k
  | Group r1 => mt r1 s caps (fun s' caps' => k s' (caps' ++ [consumed s s'])%list)
  | Seq r1 r2 => mt r1 s caps (fun s' caps' => mt r2 s' caps' k)
  | Cls p => match s with String c s' => if p c then k s' caps else None | EmptyString => None end
  | Alt r1 r2 => match mt r1 s caps k with Some x => Some x | None => mt r2 s caps k end
  | Rep r1 => rep_loop (mt r1) k (S (String.length s)) s caps
  | Eol =>
      match s with
      | EmptyString => k s caps
      | String c EmptyString => if Ascii.eqb c "010" then k s caps else None
      | _ => None
      end
  end.

End Matcher.

(** ** [re.search] *)

Record match_result : Type := { m_start : nat; m_rest : string; m_groups : list string }.

Definition found (rest : string) (caps : list string) : option (string * list string) :=
  Some (rest, caps).

Fixpoint search_from (r : regex) (s : string) (i : nat) : option match_result :=
  match mt r s [] found with
  | Some (rest, caps) => Some {| m_start := i; m_rest := rest; m_groups := caps |}
  | None =>
      match s with
      | EmptyString => None
      | String _ s' => search_from r s' (S i)
      end
  end.

Definition search (r : regex) (s : string) : option match_result := search_from r s 0.

(** [m.group(0)] *)
Definition group0 (s : string) (m : match_result) : string :=
  consumed (String.substring (m_start m) (String.length s - m_start m) s) (m_rest m).

(** ** Runs of a class *)

Fixpoint drop_while (p : ascii -> bool) (s : string) : string :=
  match s with
  | EmptyString => EmptyString
  | String c r => if p c then drop_while p r else s
  end.

Fixpoint all_chars (p : ascii -> bool) (s : string) : bool :=
  match s with
  | EmptyString => true
  | String c r => p c && all_chars p r
  end.

(** The characters of a [\s*\d*\s*] gap. *)
Definition gap_char (c : ascii) : bool := py_isspace c || is_digit c.

(** What [\s*\d*\s*] leaves when it is followed by a literal that does not
    start with a gap character. *)
Definition skip_gap (s : string) : string := lstrip (drop_while is_digit (lstrip s)).

(** The text without its trailing gap characters. *)
Fixpoint rtrim_gap (s : string) : string :=
  match s with
  | EmptyString => EmptyString
  | String c r =>
      match rtrim_gap r with
      | EmptyString => if gap_char c then EmptyString else String c EmptyString
      | r' => String c r'
      end
  end.

(** ** Lemmas on strings *)

Lemma lstrip_drop_while (s : string) : lstrip s = drop_while py_isspace s.
Proof. induction s as [|c r IH]; simpl; [reflexivity|]. now rewrite IH. Qed.

Lemma drop_while_head (p : ascii -> bool) (c : ascii) (s : string) :
  p c = false -> drop_while p (String c s) = String c s.
Proof. simpl. now intros ->. Qed.

Lemma drop_while_split (p : ascii -> bool) (s : string) :
  exists w, s = w ++ drop_while p s /\ all_chars p w = true.
Proof.
  induction s as [|c r (w & Hw & Hall)]; [now exists ""|]. simpl.
  destruct (p c) eqn:Hc; [exists (String c w) | exists ""]; simpl; rewrite ?Hc, ?Hall;
    split; try reflexivity. now rewrite <- Hw.
Qed.

Lemma all_chars_app (p : ascii -> bool) (a b : string) :
  all_chars p (a ++ b) = all_chars p a && all_chars p b.
Proof. induction a as [|c a IH]; simpl; [reflexivity | now rewrite IH, andb_assoc]. Qed.

Lemma all_space_chars (s : string) : all_space s = all_chars py_isspace s.
Proof. induction s as [|c r IH]; simpl; [reflexivity | now rewrite IH]. Qed.

Lemma space_not_digit (c : ascii) : py_isspace c = true -> is_digit c = false.
Proof.
  unfold py_isspace, is_digit. set (n := nat_of_ascii c). clearbody n.
  intros H. apply Bool.not_true_iff_false. intros Hd.
  rewrite !orb_true_iff, !andb_true_iff, !Nat.leb_le, !Nat.eqb_eq in H.
  rewrite andb_true_iff, !Nat.leb_le in Hd. lia.
Qed.

Lemma gap_not_colon (c : ascii) : gap_char c = true -> Ascii.eqb c ":" = false.
Proof.
  intros H. apply Ascii.eqb_neq. intros ->. discriminate H.
Qed.

Lemma all_gap_no_colon (x : string) : all_chars gap_char x = true -> has_char ":" x = false.
Proof.
  induction x as [|c x IH]; simpl; [reflexivity|]. intros H.
  apply andb_prop in H as [Hc Hx]. now rewrite gap_not_colon, IH.
Qed.

Lemma skip_gap_split (s : string) :
  exists x, s = x ++ skip_gap s /\ all_chars gap_char x = true.
Proof.
  unfold skip_gap. rewrite !lstrip_drop_while.
  destruct (drop_while_split py_isspace s) as (w1 & E1 & A1).
  destruct (drop_while_split is_digit (drop_while py_isspace s)) as (w2 & E2 & A2).
  destruct (drop_while_split py_isspace (drop_while is_digit (drop_while py_isspace s))) as (w3 & E3 & A3).
  exists (w1 ++ w2 ++ w3). rewrite <- !str_app_assoc, <- E3, <- E2, <- E1. split; [reflexivity|].
  rewrite !all_chars_app.
  assert (Hsub : forall p w, (forall c, p c = true -> gap_char c = true) ->
                   all_chars p w = true -> all_chars gap_char w = true).
  { intros p w Hp. induction w as [|c w IH]; simpl; [trivial|].
    intros H. apply andb_prop in H as [Hc Hw]. now rewrite Hp, IH. }
  assert (Hs : forall c, py_isspace c = true -> gap_char c = true)
    by (intros c Hc; unfold gap_char; now rewrite Hc).
  assert (Hd : forall c, is_digit c = true -> gap_char c = true)
    by (intros c Hc; unfold gap_char; now rewrite Hc, orb_true_r).
  now rewrite (Hsub _ _ Hs A1), (Hsub _ _ Hd A2), (Hsub _ _ Hs A3).
Qed.

Lemma lstrip_split (s : string) : exists w, s = w ++ lstrip s /\ all_space w = true.
Proof.
  rewrite lstrip_drop_while. destruct (drop_while_split py_isspace s) as (w & E & A).
  exists w. now rewrite all_space_chars.
Qed.

Lemma rtrim_gap_app (a x : string) :
  all_chars gap_char x = true -> rtrim_gap (a ++ x) = rtrim_gap a.
Proof.
  intros Hx. induction a as [|c a IH]; simpl.
  - induction x as [|d x IHx]; simpl in *; [reflexivity|].
    apply andb_prop in Hx as [Hd Hx]. rewrite (IHx Hx), Hd. reflexivity.
  - now rewrite IH.
Qed.

Lemma rtrim_gap_last (a : string) (c : ascii) :
  gap_char c = false -> rtrim_gap (a ++ String c "") = a ++ String c "".
Proof.
  intros Hc. induction a as [|d a IH]; simpl.
  - now rewrite Hc.
  - rewrite IH. destruct a; reflexivity.
Qed.

Lemma substring_app (a b : string) : String.substring 0 (String.length a) (a ++ b) = a.
Proof. induction a as [|c a IH]; simpl; [destruct b; reflexivity | now rewrite IH]. Qed.

Lemma consumed_app (a b : string) : consumed (a ++ b) b = a.
Proof.
  unfold consumed. rewrite str_length_app, Nat.add_sub. apply substring_app.
Qed.

Lemma consumed_all (s : string) : consumed s "" = s.
Proof. rewrite <- (str_app_nil_r s) at 1. apply consumed_app. Qed.

Lemma drop_while_any (s : string) : drop_while any_char s = "".
Proof. induction s; simpl; auto. Qed.

Lemma all_chars_no_char (p : ascii -> bool) (c : ascii) (s : string) :
  p c = false -> all_chars p s = true -> has_char c s = false.
Proof.
  intros Hc. induction s as [|d s IH]; simpl; [reflexivity|]. intros H.
  apply andb_prop in H as [Hd Hs]. rewrite IH by exact Hs.
  destruct (Ascii.eqb_spec d c) as [->|]; [congruence | reflexivity].
Qed.

Lemma all_chars_any (s : string) : all_chars any_char s = true.
Proof. induction s; simpl; auto. Qed.

(** A character of a class differs from one outside it. *)
Lemma eqb_class (p : ascii -> bool) (c d : ascii) : p c = false -> p d = true -> Ascii.eqb c d = false.
Proof. intros Hc Hd. apply Ascii.eqb_neq. intros ->. congruence. Qed.

(** [rtrim_gap] keeps a text that ends with a kept suffix. *)
Lemma rtrim_gap_keep (a l : string) : l <> "" -> rtrim_gap l = l -> rtrim_gap (a ++ l) = a ++ l.
Proof.
  intros Hl Hk. induction a as [|c a IH]; [exact Hk|]. simpl. rewrite IH.
  destruct a; [destruct l; [congruence | reflexivity] | reflexivity].
Qed.

(** ** Lemmas on the matcher *)

Section MatcherLemmas.
Context {R : Type}.
Implicit Types (k : @cont R) (caps : list string).

Lemma star_greedy_ext (p : ascii -> bool) (s : string) caps (k1 k2 : @cont R) :
  (forall v, k1 v caps = k2 v caps) -> star_greedy p s caps k1 = star_greedy p s caps k2.
Proof.
  intros H. induction s as [|c r IH]; simpl; [apply H|]. now rewrite IH, H.
Qed.

Lemma star_lazy_ext (p : ascii -> bool) (s : string) caps (k1 k2 : @cont R) :
  (forall v, k1 v caps = k2 v caps) -> star_lazy p s caps k1 = star_lazy p s caps k2.
Proof.
  intros H. induction s as [|c r IH]; simpl; rewrite H; [reflexivity|]. now rewrite IH.
Qed.

(** A greedy star whose continuation fails inside the run, or cannot tell
    a point inside the run from its end, behaves as if it took the whole
    run. *)
Lemma star_greedy_run (p : ascii -> bool) caps k :
  (forall c v, p c = true -> k (String c v) caps = None \/ k (String c v) caps = k (drop_while p v) caps) ->
  forall s, star_greedy p s caps k = k (drop_while p s) caps.
Proof.
  intros H s. induction s as [|c r IH]; simpl; [reflexivity|].
  destruct (p c) eqn:Hp; [|reflexivity]. rewrite IH.
  destruct (k (drop_while p r) caps) eqn:E; [reflexivity|].
  destruct (H c r Hp) as [-> | ->]; [reflexivity | exact E].
Qed.

(** A greedy star succeeds with the longest run when its continuation
    succeeds there. *)
Lemma star_greedy_longest (p : ascii -> bool) caps k (s : string) (x : R) :
  k (drop_while p s) caps = Some x -> star_greedy p s caps k = Some x.
Proof.
  induction s as [|c r IH]; simpl; [auto|].
  destruct (p c); [intros H; now rewrite IH | auto].
Qed.

Lemma star_lazy_hit (p : ascii -> bool) caps k (s : string) (x : R) :
  k s caps = Some x -> star_lazy p s caps k = Some x.
Proof. destruct s; simpl; now intros ->. Qed.

(** A lazy star skips a prefix of its class on which the continuation
    fails at every point. *)
Lemma star_lazy_app (p : ascii -> bool) caps k (a b : string) :
  all_chars p a = true ->
  (forall a1 a2, a = a1 ++ a2 -> a2 <> "" -> k (a2 ++ b) caps = None) ->
  star_lazy p (a ++ b) caps k = star_lazy p b caps k.
Proof.
  induction a as [|c a IH]; intros Hp Hk; [reflexivity|].
  simpl in Hp. apply andb_prop in Hp as [Hc Ha].
  pose proof (Hk "" (String c a) eq_refl ltac:(discriminate)) as H0. simpl in H0 |- *.
  rewrite H0, Hc. apply IH; [exact Ha|].
  intros a1 a2 -> Hne. apply (Hk (String c a1) a2); [reflexivity | exact Hne].
Qed.

(** The gap [\s*\d*\s*] before a literal that starts with a character
    outside the gap. *)
Lemma mt_gap (c : ascii) (l : string) (rest : regex) (s : string) caps k :
  gap_char c = false ->
  mt (Seq (Star true py_isspace) (Seq (Star true is_digit)
        (Seq (Star true py_isspace) (Seq (Lit (String c l)) rest)))) s caps k =
  match drop_prefix (String c l) (skip_gap s) with
  | Some s' => mt rest s' caps k
  | None => None
  end.
Proof.
  intros Hc. apply orb_false_iff in Hc as [Hcs Hcd]. cbn [mt].
  set (K3 := fun (v : string) (cs : list string) =>
               match drop_prefix (String c l) v with Some s' => mt rest s' cs k | None => None end).
  assert (Hne : forall d, gap_char d = true -> Ascii.eqb c d = false).
  { intros d Hd. apply Ascii.eqb_neq. intros <-. unfold gap_char in Hd. now rewrite Hcs, Hcd in Hd. }
  assert (Gap : forall d, gap_char d = true -> forall v, K3 (String d v) caps = None).
  { intros d Hd v. unfold K3. simpl. now rewrite Hne. }
  assert (Hsd : forall d, py_isspace d = true -> gap_char d = true)
    by (intros d Hd; unfold gap_char; now rewrite Hd).
  assert (Hdd : forall d, is_digit d = true -> gap_char d = true)
    by (intros d Hd; unfold gap_char; now rewrite Hd, orb_true_r).
  assert (E3 : forall v, star_greedy py_isspace v caps K3 = K3 (lstrip v) caps).
  { intros v. rewrite lstrip_drop_while. apply star_greedy_run. intros d w Hd. left. now apply Gap, Hsd. }
  assert (E2 : forall v, star_greedy is_digit v caps (fun s2 c2 => star_greedy py_isspace s2 c2 K3)
                         = K3 (lstrip (drop_while is_digit v)) caps).
  { intros v. rewrite (star_greedy_ext _ _ _ _ (fun s2 c2 => K3 (lstrip s2) c2)) by exact E3.
    apply (star_greedy_run is_digit caps (fun s2 c2 => K3 (lstrip s2) c2)).
    intros d w Hd. left. rewrite (lstrip_head_ns (String d w)) by (simpl; apply Bool.not_true_iff_false;
      intros Hs; rewrite (space_not_digit d Hs) in Hd; discriminate).
    now apply Gap, Hdd. }
  rewrite (star_greedy_ext _ _ _ _ (fun s1 c1 => K3 (lstrip (drop_while is_digit s1)) c1)) by exact E2.
  unfold skip_gap. rewrite (lstrip_drop_while s) at 1.
  apply (star_greedy_run py_isspace caps (fun s1 c1 => K3 (lstrip (drop_while is_digit s1)) c1)).
  intros d v Hd. cbn beta. rewrite (drop_while_head is_digit d v (space_not_digit d Hd)).
  cbn [lstrip]. rewrite Hd, <- lstrip_drop_while.
  destruct (lstrip v) as [|e v'] eqn:Ev; [right; reflexivity|].
  destruct (is_digit e) eqn:He.
  - left. now apply Gap, Hdd.
  - right. rewrite (drop_while_head _ _ _ He), <- Ev.
    now rewrite (lstrip_head_ns (lstrip v) (lstrip_head v)).
Qed.

(** One constructor of the pattern at a time. *)
Lemma mt_seq (r1 r2 : regex) (s : string) caps k :
  mt (Seq r1 r2) s caps k = mt r1 s caps (fun s' caps' => mt r2 s' caps' k).
Proof. reflexivity. Qed.

Lemma mt_seq_lit (l : string) (r : regex) (s : string) caps k :
  mt (Seq (Lit l) r) s caps k = match drop_prefix l s with Some s' => mt r s' caps k | None => None end.
Proof. reflexivity. Qed.

Lemma mt_group (r : regex) (s : string) caps k :
  mt (Group r) s caps k = mt r s caps (fun s' caps' => k s' (caps' ++ [consumed s s'])%list).
Proof. reflexivity. Qed.

Lemma mt_star_greedy (p : ascii -> bool) (s : string) caps k :
  mt (Star true p) s caps k = star_greedy p s caps k.
Proof. reflexivity. Qed.

Lemma mt_star_lazy (p : ascii -> bool) (s : string) caps k :
  mt (Star false p) s caps k = star_lazy p s caps k.
Proof. reflexivity. Qed.

(** The matcher only moves forward: every result it returns is one its
    continuation returned at a suffix of the text. *)
Definition forward_from (s : string) (k : @cont R) (Q : R -> Prop) : Prop :=
  forall s' caps' x, String.length s' <= String.length s -> k s' caps' = Some x -> Q x.

Lemma forward_from_le (s t : string) k (Q : R -> Prop) :
  String.length t <= String.length s -> forward_from s k Q -> forward_from t k Q.
Proof. intros Hle H s' caps' x Hs. apply H. lia. Qed.

Lemma star_greedy_forward (p : ascii -> bool) (s : string) caps k (Q : R -> Prop) (x : R) :
  forward_from s k Q -> star_greedy p s caps k = Some x -> Q x.
Proof.
  induction s as [|c s IH]; cbn [star_greedy]; intros Hk H; [exact (Hk _ _ _ (le_n _) H)|].
  destruct (p c); [|exact (Hk _ _ _ (le_n _) H)].
  specialize (IH (forward_from_le (String c s) s k Q ltac:(cbn; lia) Hk)).
  destruct (star_greedy p s caps k); [now apply IH | exact (Hk _ _ _ (le_n _) H)].
Qed.

Lemma star_lazy_forward (p : ascii -> bool) (s : string) caps k (Q : R -> Prop) (x : R) :
  forward_from s k Q -> star_lazy p s caps k = Some x -> Q x.
Proof.
  induction s as [|c s IH]; cbn [star_lazy]; intros Hk H;
    (destruct (k _ caps) eqn:E; [injection H as <-; exact (Hk _ _ _ (le_n _) E)|]); [discriminate|].
  destruct (p c); [|discriminate]. apply IH; [apply (forward_from_le (String c s)); [cbn; lia | exact Hk] | exact H].
Qed.

Lemma mt_forward (r : regex) : forall (s : string) caps k (Q : R -> Prop) (x : R),
  forward_from s k Q -> mt r s caps k = Some x -> Q x.
Proof.
  induction r as [l|[|] p|r1 IH|r1 IH1 r2 IH2|p|r1 IH1 r2 IH2|r1 IH|]; intros s caps k Q x Hk; cbn [mt].
  - destruct (drop_prefix l s) as [s'|] eqn:E; [|discriminate]. apply drop_prefix_some in E. subst s.
    apply Hk. rewrite str_length_app. lia.
  - now apply star_greedy_forward.
  - now apply star_lazy_forward.
  - apply IH. intros s' caps' y Hs. now apply Hk.
  - apply IH1. intros s' caps' y Hs. apply IH2. eapply forward_from_le; eassumption.
  - destruct s as [|c s]; [discriminate|]. destruct (p c); [|discriminate]. apply Hk. cbn. lia.
  - destruct (mt r1 s caps k) eqn:E; [intros H; injection H as <-; exact (IH1 _ _ _ _ _ Hk E)|].
    now apply IH2.
  - assert (Hloop : forall n s0 caps0 y, String.length s0 <= String.length s ->
              rep_loop (mt r1) k n s0 caps0 = Some y -> Q y).
    { induction n as [|n IHn]; intros s0 caps0 y Hs0; cbn [rep_loop]; [now apply Hk|].
      destruct (mt r1 s0 caps0 _) eqn:E; [intros H; injection H as <-|now apply Hk].
      refine (IH s0 caps0 _ Q r _ E). intros s' caps' z Hs H. cbv beta in H.
      destruct (String.length s' <? String.length s0)%nat.
      - apply (IHn s' caps'); [lia | exact H].
      - apply (Hk s' caps'); [lia | exact H]. }
    now apply Hloop.
  - destruct s as [|c [|d s]]; try discriminate; [now apply Hk|].
    destruct (Ascii.eqb c "010"); [now apply Hk | discriminate].
Qed.

End MatcherLemmas.

(** A search skips a prefix at whose points the pattern does not match. *)
Lemma search_from_app (r : regex) (a b : string) (i : nat) :
  (forall a1 a2, a = a1 ++ a2 -> a2 <> "" -> mt r (a2 ++ b) [] found = None) ->
  search_from r (a ++ b) i = search_from r b (i + String.length a).
Proof.
  revert i. induction a as [|c a IH]; intros i H; simpl; [now rewrite Nat.add_0_r|].
  pose proof (H "" (String c a) eq_refl ltac:(discriminate)) as H0. simpl in H0.
  rewrite H0, IH; [f_equal; lia|].
  intros a1 a2 -> Hne. apply (H (String c a1) a2); [reflexivity | exact Hne].
Qed.

Lemma search_from_cons (r : regex) (c : ascii) (s : string) (i : nat) :
  mt r (String c s) [] found = None -> search_from r (String c s) i = search_from r s (S i).
Proof. intros H. simpl. now rewrite H. Qed.

Lemma search_from_hit (r : regex) (s rest : string) (caps : list string) (i : nat) :
  mt r s [] found = Some (rest, caps) ->
  search_from r s i = Some {| m_start := i; m_rest := rest; m_groups := caps |}.
Proof. intros H. destruct s; simpl; now rewrite H. Qed.

End PyRe.
