(* ===== verification/PyInt.v ===== *)
(** * CPython's [int(str)] and [str(int)], and the citation normalisation

    [py_int] follows [PyLong_FromUnicodeObject] and [PyLong_FromString]
    (CPython 3.11, base 10) on Latin-1 strings:
    - [to_ascii]: [_PyUnicode_TransformDecimalAndSpaceToASCII]: characters
      below U+007F are kept, Unicode whitespace becomes a space, anything
      else ends the buffer with ['?'] (Latin-1 has no other decimal digits);
    - leading C whitespace (tab, LF, VT, FF, CR, space), an optional sign,
      no leading underscore, digits with single underscores between them,
      the [sys.int_info.default_max_str_digits] limit of 4300 digits,
      trailing C whitespace and nothing else.
    Every failure is a [ValueError].  [citations_int] is lines 73-76 of
    [src/ScrapingWLangsmith.py]: [int(citations)] with [except ValueError]
    mapping to 0.  [py_str_int] is [str(int)] / the f-string conversion of
    line 84, which has the same 4300-digit limit. *)

From Stdlib Require Import String Ascii List Arith ZArith Lia Bool.
From Stdlib Require Import DecimalString DecimalN DecimalFacts.
From S2P Require Import Prelude PyStr.
Import ListNotations.
Local Open Scope string_scope.

Module PyInt.
Import PyStr.

(** ** Definitions *)

Definition max_str_digits : nat := 4300.

Definition int_invalid : exc := ValueError "invalid literal for int() with base 10".
Definition int_limit : exc :=
  ValueError "Exceeds the limit (4300 digits) for integer string conversion".

Fixpoint to_ascii (s : string) : string :=
  match s with
  | EmptyString => EmptyString
  | String c r =>
      if (nat_of_ascii c <? 127)%nat then String c (to_ascii r)
      else if py_isspace c then String " " (to_ascii r)
      else String "?" EmptyString
  end.

(** [Py_ISSPACE]: the C locale whitespace. *)
Definition c_isspace (c : ascii) : bool :=
  let n := nat_of_ascii c in (((9 <=? n) && (n <=? 13)) || (n =? 32))%nat.

Fixpoint skip_cspace (s : string) : string :=
  match s with
  | EmptyString => EmptyString
  | String c r => if c_isspace c then skip_cspace r else s
  end.

Definition is_digit (c : ascii) : bool :=
  let n := nat_of_ascii c in ((48 <=? n) && (n <=? 57))%nat.

Definition digit_val (c : ascii) : Z := Z.of_nat (nat_of_ascii c - 48).

(** The digit loop: [acc] is the value so far, [nd] the number of digits,
    [us] whether the previous character was an underscore.  A double or a
    trailing underscore is an error ([None]). *)
Fixpoint scan (acc : Z) (nd : nat) (us : bool) (s : string)
  : option (Z * nat * string) :=
  match s with
  | EmptyString => if us then None else Some (acc, nd, EmptyString)
  | String c r =>
      if is_digit c then scan (acc * 10 + digit_val c) (S nd) false r
      else if Ascii.eqb c "_" then (if us then None else scan acc nd true r)
      else if us then None else Some (acc, nd, s)
  end.

Definition sign_of (s : string) : Z * string :=
  match s with
  | String c r =>
      if Ascii.eqb c "+" then (1%Z, r)
      else if Ascii.eqb c "-" then ((-1)%Z, r)
      else (1%Z, s)
  | EmptyString => (1%Z, s)
  end.

Definition leading_us (t : string) : bool :=
  match t with
  | String c _ => Ascii.eqb c "_"
  | EmptyString => false
  end.

(** Everything after the sign. *)
Definition int_body (sg : Z) (t : string) : res Z :=
  if leading_us t then Raise int_invalid
  else match scan 0 0 false t with
       | None => Raise int_invalid
       | Some (v, nd, rest) =>
           if (max_str_digits <? nd)%nat then Raise int_limit
           else if (nd =? 0)%nat then Raise int_invalid
           else match skip_cspace rest with
                | EmptyString => Ok (sg * v)%Z
                | _ => Raise int_invalid
                end
       end.

Definition py_int (s : string) : res Z :=
  let '(sg, t) := sign_of (skip_cspace (to_ascii s)) in int_body sg t.

(** Lines 73-76: [try: int(citations) except ValueError: 0]. *)
Definition citations_int (citations : string) : res Z :=
  match py_int citations with
  | Ok z => Ok z
  | Raise (ValueError _) => Ok 0%Z
  | Raise e => Raise e
  end.

(** [str(z)]: the sign and the decimal digits of [|z|], refused beyond the
    digit limit. *)
Definition py_str_int (z : Z) : res string :=
  let u := N.to_uint (Z.abs_N z) in
  if (max_str_digits <? Decimal.nb_digits u)%nat then Raise int_limit
  else Ok ((if (z <? 0)%Z then "-" else "") ++ NilZero.string_of_uint u).


(** ** Digit strings *)

Fixpoint all_digits (s : string) : bool :=
  match s with
  | EmptyString => true
  | String c r => is_digit c && all_digits r
  end.

(** The value of a digit string, Horner's rule from the left. *)
Fixpoint dec_acc (acc : Z) (s : string) : Z :=
  match s with
  | EmptyString => acc
  | String c r => dec_acc (acc * 10 + digit_val c) r
  end.

Definition dec_val (s : string) : Z := dec_acc 0 s.

Fixpoint ascii7 (s : string) : bool :=
  match s with
  | EmptyString => true
  | String c r => (nat_of_ascii c <? 127)%nat && ascii7 r
  end.

(** ** Lemmas *)

Lemma ascii7_app (a b : string) : ascii7 (a ++ b) = ascii7 a && ascii7 b.
Proof. induction a as [|c a IH]; simpl; [reflexivity|]. now rewrite IH, andb_assoc. Qed.

Lemma dec_acc_app (acc : Z) (a b : string) : dec_acc acc (a ++ b) = dec_acc (dec_acc acc a) b.
Proof. revert acc. induction a as [|c a IH]; intros acc; simpl; auto. Qed.

(** Replace the code of each character literal by its value. *)
Ltac eval_ascii_codes :=
  repeat match goal with
  | |- context [nat_of_ascii (Ascii ?a ?b ?c ?d ?e ?f ?g ?h)] =>
      let v := eval vm_compute in (nat_of_ascii (Ascii a b c d e f g h)) in
      change (nat_of_ascii (Ascii a b c d e f g h)) with v
  end; cbn [Nat.sub].

Lemma digit_not_special (c : ascii) :
  is_digit c = true ->
  c_isspace c = false /\ py_isspace c = false /\ Ascii.eqb c "_" = false /\
  Ascii.eqb c "+" = false /\ Ascii.eqb c "-" = false /\ (nat_of_ascii c <? 127)%nat = true.
Proof.
  unfold is_digit, c_isspace, py_isspace. intros H.
  apply andb_prop in H as [H1 H2]. apply Nat.leb_le in H1, H2.
  assert (Hne : forall d, (nat_of_ascii d < 48 \/ 57 < nat_of_ascii d)%nat -> Ascii.eqb c d = false).
  { intros d Hd. destruct (Ascii.eqb c d) eqn:E; [|reflexivity].
    apply Ascii.eqb_eq in E. subst. lia. }
  repeat split;
    try (apply Hne; ((left; apply Nat.ltb_lt; reflexivity) || (right; apply Nat.ltb_lt; reflexivity)));
    repeat (apply orb_false_intro || apply andb_false_intro2 || apply andb_false_intro1);
    try (apply Nat.eqb_neq; lia); try (apply Nat.leb_gt; lia); apply Nat.ltb_lt; lia.
Qed.

Lemma to_ascii_id (s : string) : ascii7 s = true -> to_ascii s = s.
Proof.
  induction s as [|c r IH]; simpl; [reflexivity|].
  intros H. apply andb_prop in H as [-> Hr]. now rewrite IH.
Qed.

Lemma all_digits_ascii7 (s : string) : all_digits s = true -> ascii7 s = true.
Proof.
  induction s as [|c r IH]; simpl; [reflexivity|].
  intros H. apply andb_prop in H as [Hc Hr].
  destruct (digit_not_special c Hc) as (_ & _ & _ & _ & _ & ->). auto.
Qed.

Lemma scan_digits (ds rest : string) (acc : Z) (nd : nat) (us : bool) :
  all_digits ds = true -> (ds <> "" \/ us = false) ->
  scan acc nd us (ds ++ rest) = scan (dec_acc acc ds) (String.length ds + nd) false rest.
Proof.
  revert acc nd us. induction ds as [|c r IH]; intros acc nd us H Hus; simpl.
  - destruct Hus as [Hus | ->]; [congruence | reflexivity].
  - apply andb_prop in H as [Hc Hr]. rewrite Hc, IH by auto.
    f_equal. lia.
Qed.

Lemma all_digits_ns (ds : string) : all_digits ds = true -> head_ns ds /\ last_ns ds.
Proof.
  induction ds as [|c r IH]; simpl; [tauto|].
  intros H. apply andb_prop in H as [Hc Hr].
  destruct (digit_not_special c Hc) as (_ & Hsp & _). split; [exact Hsp|].
  destruct r; [exact Hsp | apply IH, Hr].
Qed.

Lemma digits_head (ds rest : string) :
  all_digits ds = true -> ds <> "" ->
  skip_cspace (ds ++ rest) = ds ++ rest /\ sign_of (ds ++ rest) = (1%Z, ds ++ rest) /\
  leading_us (ds ++ rest) = false.
Proof.
  intros Hd Hne. destruct ds as [|c r]; [congruence|].
  assert (Hc : is_digit c = true) by (simpl in Hd; now apply andb_prop in Hd).
  destruct (digit_not_special c Hc) as (Hsp & _ & Hus & Hp & Hm & _).
  simpl. now rewrite Hsp, Hp, Hm, Hus.
Qed.

Lemma py_int_digits_head (ds rest : string) :
  all_digits ds = true -> ds <> "" -> ascii7 rest = true ->
  py_int (ds ++ rest) = int_body 1 (ds ++ rest).
Proof.
  intros Hd Hne Hr. unfold py_int.
  rewrite to_ascii_id by (rewrite ascii7_app, all_digits_ascii7 by exact Hd; exact Hr).
  destruct (digits_head ds rest Hd Hne) as (-> & -> & _). reflexivity.
Qed.

(** A non-empty digit string within the limit is read as its value. *)
Lemma int_body_digits (sg : Z) (ds : string) :
  all_digits ds = true -> ds <> "" ->
  (String.length ds <= max_str_digits)%nat ->
  int_body sg ds = Ok (sg * dec_val ds)%Z.
Proof.
  intros Hd Hne Hlen. unfold int_body.
  destruct ds as [|c r]; [congruence|].
  assert (Hc : is_digit c = true) by (simpl in Hd; now apply andb_prop in Hd).
  destruct (digit_not_special c Hc) as (_ & _ & Hus & _).
  simpl leading_us. rewrite Hus.
  rewrite <- (str_app_nil_r (String c r)), scan_digits by auto.
  cbn [scan]. rewrite str_app_nil_r, Nat.add_0_r.
  apply Nat.ltb_ge in Hlen. rewrite Hlen. reflexivity.
Qed.

Lemma py_int_digits (ds : string) :
  all_digits ds = true -> ds <> "" ->
  (String.length ds <= max_str_digits)%nat ->
  py_int ds = Ok (dec_val ds).
Proof.
  intros Hd Hne Hlen. rewrite <- (str_app_nil_r ds), py_int_digits_head by auto.
  rewrite str_app_nil_r, int_body_digits by assumption. now rewrite Z.mul_1_l.
Qed.

Lemma py_int_neg_digits (ds : string) :
  all_digits ds = true -> ds <> "" ->
  (String.length ds <= max_str_digits)%nat ->
  py_int ("-" ++ ds) = Ok (- dec_val ds)%Z.
Proof.
  intros Hd Hne Hlen. unfold py_int. simpl to_ascii.
  rewrite to_ascii_id by now apply all_digits_ascii7.
  simpl. rewrite int_body_digits by assumption. f_equal; lia.
Qed.


(** ** The decimal strings that [str(int)] prints *)

Lemma uint_digits (u : Decimal.uint) :
  all_digits (NilEmpty.string_of_uint u) = true /\
  String.length (NilEmpty.string_of_uint u) = Decimal.nb_digits u.
Proof. induction u; simpl; try tauto; destruct IHu as [-> ->]; auto. Qed.

Lemma uint_dec_acc (u : Decimal.uint) (acc : positive) :
  dec_acc (Z.pos acc) (NilEmpty.string_of_uint u) = Z.pos (Pos.of_uint_acc u acc).
Proof.
  revert acc. induction u; intros acc;
    cbn [dec_acc NilEmpty.string_of_uint Pos.of_uint_acc]; try reflexivity;
    rewrite <- IHu; f_equal; unfold digit_val; eval_ascii_codes; lia.
Qed.

Lemma uint_dec_val (u : Decimal.uint) :
  dec_val (NilEmpty.string_of_uint u) = Z.of_N (N.of_uint u).
Proof.
  unfold dec_val, N.of_uint. induction u; simpl; try exact IHu; try reflexivity;
    rewrite <- uint_dec_acc; reflexivity.
Qed.

Lemma nilzero_digits (u : Decimal.uint) :
  all_digits (NilZero.string_of_uint u) = true /\
  NilZero.string_of_uint u <> "" /\
  (String.length (NilZero.string_of_uint u) <= Nat.max 1 (Decimal.nb_digits u))%nat /\
  dec_val (NilZero.string_of_uint u) = Z.of_N (N.of_uint u).
Proof.
  destruct (uint_digits u) as [Hd Hl].
  destruct u; unfold NilZero.string_of_uint; [repeat split; easy|..];
    (repeat split; [exact Hd | discriminate | rewrite Hl; lia | apply uint_dec_val]).
Qed.



(** ** Bounds: what [int] accepts, [str] prints *)

Lemma digit_cases (c : ascii) :
  is_digit c = true ->
  (c = "0" \/ c = "1" \/ c = "2" \/ c = "3" \/ c = "4" \/
   c = "5" \/ c = "6" \/ c = "7" \/ c = "8" \/ c = "9")%char.
Proof.
  destruct c as [[] [] [] [] [] [] [] []]; intros H; vm_compute in H;
    try discriminate H;
    solve [repeat (first [left; reflexivity | right]); reflexivity].
Qed.

Lemma digits_uint (ds : string) :
  all_digits ds = true -> exists d, NilEmpty.string_of_uint d = ds.
Proof.
  induction ds as [|c r IH]; simpl; [now exists Decimal.Nil|].
  intros H. apply andb_prop in H as [Hc Hr]. destruct (IH Hr) as [d <-].
  destruct (digit_cases c Hc) as [E|[E|[E|[E|[E|[E|[E|[E|[E|E]]]]]]]]]; subst c;
    first [ now exists (Decimal.D0 d) | now exists (Decimal.D1 d) | now exists (Decimal.D2 d)
          | now exists (Decimal.D3 d) | now exists (Decimal.D4 d) | now exists (Decimal.D5 d)
          | now exists (Decimal.D6 d) | now exists (Decimal.D7 d) | now exists (Decimal.D8 d)
          | now exists (Decimal.D9 d) ].
Qed.

Lemma scan_inv (t : string) (acc v : Z) (nd nd' : nat) (us : bool) (rest : string) :
  scan acc nd us t = Some (v, nd', rest) ->
  exists ds, all_digits ds = true /\ (String.length ds + nd = nd')%nat /\ v = dec_acc acc ds.
Proof.
  revert acc nd us. induction t as [|c r IH]; intros acc nd us; simpl.
  - destruct us; [discriminate|]. intros [= <- <- _]. now exists "".
  - destruct (is_digit c) eqn:Hc.
    + intros H. destruct (IH _ _ _ H) as (ds & Hd & Hl & Hv).
      exists (String c ds). simpl. rewrite Hc, Hd. split; [reflexivity|]. split; [lia | exact Hv].
    + destruct (Ascii.eqb c "_"); destruct us; try discriminate; [apply IH|].
      intros [= <- <- _]. now exists "".
Qed.

Lemma py_int_inv (s : string) (z : Z) :
  py_int s = Ok z ->
  exists ds, all_digits ds = true /\ ds <> "" /\
    (String.length ds <= max_str_digits)%nat /\ Z.abs z = dec_val ds.
Proof.
  unfold py_int.
  assert (Hsg : forall t, fst (sign_of t) = 1%Z \/ fst (sign_of t) = (-1)%Z).
  { intros [|c r]; simpl; [now left|].
    destruct (Ascii.eqb c "+"); [now left|]. destruct (Ascii.eqb c "-"); [now right | now left]. }
  destruct (sign_of _) as [sg t] eqn:Es. specialize (Hsg (skip_cspace (to_ascii s))).
  rewrite Es in Hsg. simpl in Hsg. unfold int_body.
  destruct (leading_us t); [discriminate|].
  destruct (scan 0 0 false t) as [[[v nd] rest]|] eqn:Hs; [|discriminate].
  destruct (max_str_digits <? nd)%nat eqn:L; [discriminate|].
  destruct (nd =? 0)%nat eqn:N0; [discriminate|].
  destruct (skip_cspace rest); [|discriminate]. intros [= <-].
  destruct (scan_inv _ _ _ _ _ _ _ Hs) as (ds & Hd & Hl & ->).
  apply Nat.ltb_ge in L. apply Nat.eqb_neq in N0.
  exists ds. split; [exact Hd|]. split; [intros ->; simpl in Hl; lia|].
  split; [lia|].
  destruct (digits_uint ds Hd) as [d <-]. fold (dec_val (NilEmpty.string_of_uint d)).
  rewrite uint_dec_val. destruct Hsg as [-> | ->]; lia.
Qed.

(** ** Properties of the normalisation of lines 71-76 *)

Lemma py_int_raises_value_error (s : string) (e : exc) :
  py_int s = Raise e -> exists m, e = ValueError m.
Proof.
  unfold py_int. destruct (sign_of _) as [sg t]. unfold int_body, int_invalid, int_limit.
  destruct (leading_us t); [intros [= <-]; eauto|].
  destruct (scan 0 0 false t) as [[[v nd] rest]|]; [|intros [= <-]; eauto].
  destruct (max_str_digits <? nd)%nat; [intros [= <-]; eauto|].
  destruct (nd =? 0)%nat; [intros [= <-]; eauto|].
  destruct (skip_cspace rest); intros [= <-]; eauto.
Qed.

Lemma strip_digits_padded (w1 p ds w2 : string) :
  all_space w1 = true -> all_space w2 = true -> all_digits ds = true -> ds <> "" ->
  (p = "" \/ p = "-") -> strip (w1 ++ p ++ ds ++ w2) = p ++ ds.
Proof.
  intros H1 H2 Hd Hne Hp. destruct (all_digits_ns ds Hd) as [Hh Hl].
  rewrite (str_app_assoc p ds w2). apply strip_pad; auto;
    destruct Hp as [-> | ->]; simpl; auto; destruct ds; [congruence | exact Hl].
Qed.

(** C7: A citation text made of decimal digits, possibly with leading zeros
    and surrounded by any Python whitespace, is normalised to exactly its
    decimal value by [int(text.strip())] (lines 71-76). *)
Theorem citations_int_padded_digits (w1 ds w2 : string) :
  all_space w1 = true -> all_space w2 = true ->
  all_digits ds = true -> ds <> "" -> (String.length ds <= max_str_digits)%nat ->
  citations_int (strip (w1 ++ ds ++ w2)) = Ok (dec_val ds).
Proof.
  intros H1 H2 Hd Hne Hlen.
  replace (strip (w1 ++ ds ++ w2)) with ds
    by (symmetry; exact (strip_digits_padded w1 "" ds w2 H1 H2 Hd Hne (or_introl eq_refl))).
  unfold citations_int. now rewrite py_int_digits.
Qed.

(** [int] reads back what [str] prints: whenever [str(z)] succeeds,
    [int(str(z))] is [z]. *)
Theorem py_int_str_roundtrip (z : Z) (s : string) :
  py_str_int z = Ok s -> py_int s = Ok z.
Proof.
  unfold py_str_int. set (u := N.to_uint (Z.abs_N z)).
  destruct (max_str_digits <? Decimal.nb_digits u)%nat eqn:L; [discriminate|].
  intros [= <-]. apply Nat.ltb_ge in L.
  destruct (nilzero_digits u) as (Hd & Hne & Hlen & Hv).
  assert (Hv' : dec_val (NilZero.string_of_uint u) = Z.abs z).
  { rewrite Hv. unfold u. rewrite DecimalN.Unsigned.of_to. apply N2Z.inj_abs_N. }
  assert (Hl' : (String.length (NilZero.string_of_uint u) <= max_str_digits)%nat)
    by (unfold max_str_digits in *; lia).
  destruct (Z.ltb_spec z 0).
  - rewrite py_int_neg_digits, Hv' by assumption. f_equal. lia.
  - simpl. rewrite py_int_digits, Hv' by assumption. f_equal. lia.
Qed.

Lemma citations_int_ok (s : string) : exists z, citations_int s = Ok z.
Proof.
  unfold citations_int. destruct (py_int s) as [z|e] eqn:E; [eauto|].
  destruct (py_int_raises_value_error _ _ E) as [m ->]. eauto.
Qed.

(** A citation text ["-"] followed by digits is normalised to a
    negative number: the code does not clamp to 0. *)
Theorem citations_int_negative (w1 ds w2 : string) :
  all_space w1 = true -> all_space w2 = true ->
  all_digits ds = true -> ds <> "" -> (String.length ds <= max_str_digits)%nat ->
  citations_int (strip (w1 ++ "-" ++ ds ++ w2)) = Ok (- dec_val ds)%Z.
Proof.
  intros H1 H2 Hd Hne Hlen.
  rewrite (strip_digits_padded w1 "-" ds w2) by auto.
  unfold citations_int. now rewrite py_int_neg_digits.
Qed.

(** C24: A citation count of more than 4300 digits hits CPython's
    integer-string conversion limit; the [ValueError] is caught, so the
    count becomes 0. *)
Theorem citations_int_digit_limit (ds : string) :
  all_digits ds = true -> (max_str_digits < String.length ds)%nat ->
  citations_int ds = Ok 0%Z.
Proof.
  intros Hd Hlen. assert (Hne : ds <> "") by (intros ->; simpl in Hlen; lia).
  unfold citations_int. rewrite <- (str_app_nil_r ds), py_int_digits_head by auto.
  unfold int_body. rewrite (proj2 (proj2 (digits_head ds "" Hd Hne))).
  rewrite scan_digits by auto. cbn [scan]. rewrite Nat.add_0_r.
  apply Nat.ltb_lt in Hlen. now rewrite Hlen.
Qed.

(** [int] accepts one underscore between digit groups, so a citation
    text such as ["1_000"] counts as 1000. *)
Theorem py_int_underscore (ds1 ds2 : string) :
  all_digits ds1 = true -> all_digits ds2 = true -> ds1 <> "" -> ds2 <> "" ->
  (String.length ds1 + String.length ds2 <= max_str_digits)%nat ->
  py_int (ds1 ++ "_" ++ ds2) = Ok (dec_val (ds1 ++ ds2)).
Proof.
  intros Hd1 Hd2 Hn1 Hn2 Hlen.
  rewrite py_int_digits_head by (simpl; auto using all_digits_ascii7).
  unfold int_body. rewrite (proj2 (proj2 (digits_head ds1 _ Hd1 Hn1))).
  rewrite scan_digits by auto. cbn [scan String.append].
  replace (is_digit "_") with false by reflexivity.
  replace (Ascii.eqb "_" "_") with true by reflexivity.
  rewrite <- (str_app_nil_r ds2), scan_digits by auto. cbn [scan].
  replace (max_str_digits <? String.length ds2 + (String.length ds1 + 0))%nat with false
    by (symmetry; apply Nat.ltb_ge; lia).
  replace (String.length ds2 + (String.length ds1 + 0) =? 0)%nat with false
    by (symmetry; apply Nat.eqb_neq; destruct ds2; simpl; [congruence | lia]).
  unfold dec_val. rewrite dec_acc_app, str_app_nil_r. cbn [skip_cspace]. now rewrite Z.mul_1_l.
Qed.

Lemma py_int_str_bounded (s : string) (z : Z) :
  py_int s = Ok z -> exists out, py_str_int z = Ok out.
Proof.
  intros H. destruct (py_int_inv s z H) as (ds & Hd & Hne & Hlen & Habs).
  destruct (digits_uint ds Hd) as [d Ed].
  assert (Hnil : d <> Decimal.Nil) by (intros ->; simpl in Ed; subst ds; congruence).
  assert (Hn : Z.abs_N z = N.of_uint d).
  { apply N2Z.inj. rewrite N2Z.inj_abs_N, Habs, <- Ed. apply uint_dec_val. }
  unfold py_str_int. rewrite Hn, DecimalN.Unsigned.to_of.
  pose proof (nb_digits_unorm d Hnil).
  destruct (uint_digits d) as [_ Hl]. rewrite Ed in Hl.
  replace (max_str_digits <? Decimal.nb_digits (Decimal.unorm d))%nat with false
    by (symmetry; apply Nat.ltb_ge; lia).
  eauto.
Qed.


Lemma citations_int_str_ok (s : string) (z : Z) :
  citations_int s = Ok z -> exists out, py_str_int z = Ok out.
Proof.
  unfold citations_int. destruct (py_int s) as [z'|e] eqn:E.
  - intros [= <-]. eapply py_int_str_bounded, E.
  - destruct e; try discriminate. intros [= <-]. eexists. reflexivity.
Qed.

(** Every integer that [int] accepts has at most 4300 digits, so
    printing it in the f-string of line 84 never raises. *)
Theorem py_int_str_ok (s : string) (z : Z) :
  py_int s = Ok z -> exists out, py_str_int z = Ok out.
Proof. apply py_int_str_bounded. Qed.

(** ** Witnesses *)

Fixpoint ones (n : nat) : string :=
  match n with
  | O => EmptyString
  | S k => String "1" (ones k)
  end.

Lemma citations_int_padded_digits_witness :
  citations_int (strip (" " ++ "0120" ++ String (ascii_of_nat 160) "")) = Ok 120%Z.
Proof.
  apply (citations_int_padded_digits " " "0120" (String (ascii_of_nat 160) ""));
    vm_compute; first [reflexivity | discriminate | lia].
Defined.

Lemma citations_int_negative_witness :
  citations_int (strip ("" ++ "-" ++ "5" ++ " ")) = Ok (-5)%Z.
Proof.
  apply (citations_int_negative "" "5" " "); vm_compute; first [reflexivity | discriminate | lia].
Defined.

Lemma py_int_str_roundtrip_witness : py_int "-1234" = Ok (-1234)%Z.
Proof. apply py_int_str_roundtrip. vm_compute. reflexivity. Defined.

Lemma py_int_str_ok_witness : exists out, py_str_int 1000%Z = Ok out.
Proof. apply (py_int_str_ok "1_000"). vm_compute. reflexivity. Defined.

Lemma citations_int_digit_limit_witness : citations_int (ones 4301) = Ok 0%Z.
Proof. apply citations_int_digit_limit; vm_compute; reflexivity. Defined.

Lemma py_int_underscore_witness : py_int ("1" ++ "_" ++ "000") = Ok 1000%Z.
Proof.
  apply (py_int_underscore "1" "000"); vm_compute; first [reflexivity | discriminate | lia].
Defined.

End PyInt.
