(* ===== verification/Dotenv.v ===== *)
(** * python-dotenv: finding and reading the [.env] file (line 26)

    [load_dotenv(find_dotenv())] first looks for the file: [find_dotenv]
    takes the directory of the script that calls it (the current
    directory when Python runs interactively, as in a notebook) and walks
    up to the root ([_walk_to_root]), returning the first [.env] that is a
    file, or [""].  [load_dotenv] then reads the file with
    [dotenv.parser.parse_stream]: a [Reader] over the text that reads with
    [regex.match] at its position, and [parse_binding], which reads one
    statement ([export], a key, an optional [=] and value, a comment, the
    end of the line) and, when a read fails, skips the rest of the line and
    reports an error binding.  The keys and values of the bindings are the
    entries [Env.load_dotenv] expands and sets.

    The reader's state is the text not read yet; the text a binding read
    ([Binding.original]) is kept, its line number (used only by the
    warning python-dotenv logs for an error binding) is not.  A directory
    is the list of its components from the root; the file system is a
    predicate [os.path.isfile] and the text of each file.

    The lemmas show that every read moves forward ([mono], from
    [PyRe.mt_forward]) and that a successful statement ends at a line
    break it read or at the end of the text; hence every round of the loop
    reads a character.  The theorems: [find_dotenv] returns the nearest
    [.env]; a text of plain [KEY=VALUE] lines reads back as its entries,
    and so does a text of double-quoted values escaped with backslashes
    (section [Written] proves the reading of the lines once for any writer
    of values, [rep_escape] follows the repetition of
    [_double_quoted_value] over an escaped value token by token) unless a
    value ends with a backslash, in which case the escape's second
    backslash closes with the quote and the line swallows the next quoted
    line into one error binding ([dotenv_values_trailing_backslash]);
    [parse_stream] terminates within its rounds; a line with no key is an
    error binding that does not disturb the lines after it. *)

From Stdlib Require Import String Ascii List Arith Lia Bool.
From S2P Require Import Prelude PyStr PyRe.
Import ListNotations.
Local Open Scope string_scope.

Module Dotenv.
Import PyStr PyRe.

(** ** The reader *)

Definition cr : ascii := "013"%char.
Definition lf : ascii := "010"%char.
Definition backslash : ascii := "092"%char.

(** [[^\S\r\n]]: whitespace other than a line break. *)
Definition hspace (c : ascii) : bool := py_isspace c && negb (Ascii.eqb c cr) && negb (Ascii.eqb c lf).

(** [[^\r\n]] *)
Definition not_eol (c : ascii) : bool := negb (Ascii.eqb c cr) && negb (Ascii.eqb c lf).

Definition not_char (q : ascii) (c : ascii) : bool := negb (Ascii.eqb c q).

(** [[^=\#\s]] *)
Definition key_char (c : ascii) : bool :=
  negb (Ascii.eqb c "=") && negb (Ascii.eqb c "#") && negb (py_isspace c).

Definition str1 (c : ascii) : string := String c EmptyString.

(** The line breaks [\r\n], [\n], [\r], tried in the order a pattern
    lists them. *)
Definition crlf : string := String cr (str1 lf).

(** [\s*] *)
Definition multiline_whitespace : regex := Star true py_isspace.
(** [[^\S\r\n]*] *)
Definition whitespace : regex := Star true hspace.
(** [(?:export[^\S\r\n]+)?] *)
Definition export_re : regex := Alt (Seq (Lit "export") (Seq (Cls hspace) (Star true hspace))) (Lit "").
(** ['([^']+)'] *)
Definition single_quoted_key : regex :=
  Seq (Lit "'") (Seq (Group (Seq (Cls (not_char "'")) (Star true (not_char "'")))) (Lit "'")).
(** [([^=\#\s]+)] *)
Definition unquoted_key : regex := Group (Seq (Cls key_char) (Star true key_char)).
(** [( =[^\S\r\n]* )], spaced out here *)
Definition equal_sign : regex := Group (Seq (Lit "=") (Star true hspace)).
(** A quote, a group repeating either a backslash and the quote or a
    character other than the quote, and the quote: the pattern
    [_single_quoted_value] and its double-quoted twin. *)
Definition quoted_char (q : ascii) : regex := Alt (Lit (String backslash (str1 q))) (Cls (not_char q)).
Definition quoted_value (q : ascii) : regex :=
  Seq (Lit (str1 q)) (Seq (Group (Rep (quoted_char q))) (Lit (str1 q))).
(** [( [^\r\n]* )], spaced out here *)
Definition unquoted_value : regex := Group (Star true not_eol).
(** [(?: [^\S\r\n]*#[^\r\n]* )?], spaced out here *)
Definition comment : regex := Alt (Seq (Star true hspace) (Seq (Lit "#") (Star true not_eol))) (Lit "").
(** [[^\S\r\n]*(?:\r\n|\n|\r|$)] *)
Definition end_of_line : regex :=
  Seq (Star true hspace) (Alt (Lit crlf) (Alt (Lit (str1 lf)) (Alt (Lit (str1 cr)) Eol))).
(** [[^\r\n]*(?:\r|\n|\r\n)?] *)
Definition rest_of_line : regex :=
  Seq (Star true not_eol) (Alt (Alt (Lit (str1 cr)) (Alt (Lit (str1 lf)) (Lit crlf))) (Lit "")).

(** [dotenv.parser.Error] *)
Definition parse_error : exc := OtherError "Error" "read_regex: Pattern not found".

(** The reader: the text not read yet. *)
Definition reader (A : Type) : Type := string -> res A * string.

(** [reader.read_regex(regex)]: the groups of [regex.match] at the
    position, or [Error]. *)
Definition read_regex (r : regex) : reader (list string) :=
  fun s => match mt r s [] found with
           | Some (rest, caps) => (Ok caps, rest)
           | None => (Raise parse_error, s)
           end.

(** [reader.peek(1)] *)
Definition peek1 (s : string) : string := String.substring 0 1 s.

(** [(x,) = reader.read_regex(regex)] for a pattern with one group. *)
Definition read_group (r : regex) : reader string :=
  fun s => match read_regex r s with
           | (Ok [g], s') => (Ok g, s')
           | (Ok _, s') => (Raise (ValueError "not enough values to unpack"), s')
           | (Raise e, s') => (Raise e, s')
           end.

Definition rbind {A B} (m : reader A) (k : A -> reader B) : reader B :=
  fun s => match m s with
           | (Ok a, s') => k a s'
           | (Raise e, s') => (Raise e, s')
           end.

Definition rret {A} (a : A) : reader A := fun s => (Ok a, s).

Local Notation "x <- m ;; k" := (rbind m (fun x => k)) (at level 100, m at next level, right associativity).

(** ** Values *)

(** [regex.sub(repl, s)]: the matches, left to right, replaced; a round
    of the loop either replaces a match or copies a character, so
    [S (length s)] rounds are enough. *)
Fixpoint sub_from (r : regex) (repl : string) (n : nat) (s : string) : string :=
  match n with
  | O => s
  | S n' =>
      match mt r s [] found with
      | Some (rest, _) =>
          if (String.length rest <? String.length s)%nat then repl ++ sub_from r repl n' rest
          else repl ++ match s with EmptyString => "" | String c s' => String c (sub_from r repl n' s') end
      | None => match s with EmptyString => "" | String c s' => String c (sub_from r repl n' s') end
      end
  end.

Definition re_sub (r : regex) (repl s : string) : string := sub_from r repl (S (String.length s)) s.

(** [\s+#.*] *)
Definition inline_comment : regex :=
  Seq (Cls py_isspace) (Seq (Star true py_isspace) (Seq (Lit "#") (Star true (not_char lf)))).

(** [parse_unquoted_value] *)
Definition parse_unquoted_value : reader string :=
  part <- read_group unquoted_value ;; rret (rstrip (re_sub inline_comment "" part)).

(** [codecs.decode(m, 'unicode-escape')] on the two-character escapes the
    quoted values accept: a backslash followed by a backslash, a quote, a
    double quote, or one of [a b f n r t v]. *)
Definition unicode_escape (d : ascii) : option ascii :=
  if Ascii.eqb d backslash then Some backslash
  else if Ascii.eqb d "'" then Some "'"%char
  else if Ascii.eqb d "034" then Some "034"%char
  else if Ascii.eqb d "a" then Some "007"%char
  else if Ascii.eqb d "b" then Some "008"%char
  else if Ascii.eqb d "f" then Some "012"%char
  else if Ascii.eqb d "n" then Some lf
  else if Ascii.eqb d "r" then Some cr
  else if Ascii.eqb d "t" then Some "009"%char
  else if Ascii.eqb d "v" then Some "011"%char
  else None.

(** [_single_quote_escapes]: a backslash then a backslash or a quote;
    [_double_quote_escapes]: a backslash then any escape above. *)
Definition single_escape (d : ascii) : bool := Ascii.eqb d backslash || Ascii.eqb d "'".
Definition double_escape (d : ascii) : bool := match unicode_escape d with Some _ => true | None => false end.

(** [decode_escapes(regex, s)]: the escapes the class accepts, decoded,
    left to right without overlap. *)
Fixpoint decode_escapes (accept : ascii -> bool) (s : string) : string :=
  match s with
  | String c ((String d r) as t) =>
      if Ascii.eqb c backslash && accept d then
        match unicode_escape d with
        | Some e => String e (decode_escapes accept r)
        | None => String c (decode_escapes accept t)
        end
      else String c (decode_escapes accept t)
  | _ => s
  end.

(** [parse_value] *)
Definition parse_value : reader string :=
  fun s =>
    let c := peek1 s in
    if String.eqb c "'" then
      (v <- read_group (quoted_value "'") ;; rret (decode_escapes single_escape v)) s
    else if String.eqb c (str1 "034") then
      (v <- read_group (quoted_value "034") ;; rret (decode_escapes double_escape v)) s
    else if String.eqb c "" || String.eqb c (str1 lf) || String.eqb c (str1 cr) then (Ok "", s)
    else parse_unquoted_value s.

(** [parse_key] *)
Definition parse_key : reader (option string) :=
  fun s =>
    let c := peek1 s in
    if String.eqb c "#" then (Ok None, s)
    else if String.eqb c "'" then (k <- read_group single_quoted_key ;; rret (Some k)) s
    else (k <- read_group unquoted_key ;; rret (Some k)) s.

(** ** Bindings *)

Record binding : Type := { b_key : option string; b_value : option string; b_original : string; b_error : bool }.

(** [if reader.peek(1) == "=": reader.read_regex(_equal_sign); value =
    parse_value(reader)], else [value = None]. *)
Definition value_part : reader (option string) :=
  fun s => if String.eqb (peek1 s) "=" then (_ <- read_regex equal_sign ;; v <- parse_value ;; rret (Some v)) s
           else (Ok None, s).

(** The statement after the leading whitespace, up to the end of its line. *)
Definition parse_statement : reader (option string * option string) :=
  _ <- read_regex export_re ;;
  key <- parse_key ;;
  _ <- read_regex whitespace ;;
  value <- value_part ;;
  _ <- read_regex comment ;;
  _ <- read_regex end_of_line ;;
  rret (key, value).

(** [parse_binding]: [set_mark], the statement, and on [Error] the rest of
    the line. *)
Definition parse_binding (s : string) : binding * string :=
  match read_regex multiline_whitespace s with
  | (_, s1) =>
      match s1 with
      | EmptyString => ({| b_key := None; b_value := None; b_original := consumed s s1; b_error := false |}, s1)
      | _ =>
          match parse_statement s1 with
          | (Ok (k, v), s2) => ({| b_key := k; b_value := v; b_original := consumed s s2; b_error := false |}, s2)
          | (Raise _, s2) =>
              let s3 := snd (read_regex rest_of_line s2) in
              ({| b_key := None; b_value := None; b_original := consumed s s3; b_error := true |}, s3)
          end
      end
  end.

(** [parse_stream]: [while reader.has_next(): yield parse_binding(reader)];
    every binding reads at least one character, so [S (length s)] rounds
    are enough. *)
Fixpoint parse_from (n : nat) (s : string) : list binding :=
  match n, s with
  | O, _ => []
  | _, EmptyString => []
  | S n', _ => let (b, s') := parse_binding s in b :: parse_from n' s'
  end.

Definition parse_stream (text : string) : list binding := parse_from (S (String.length text)) text.

(** [DotEnv.parse]: the bindings with a key, in the order of the text. *)
Definition key_value (b : binding) : list (string * option string) :=
  match b_key b with Some k => [(k, b_value b)] | None => [] end.

Definition dotenv_values (text : string) : list (string * option string) :=
  flat_map key_value (parse_stream text).

(** A [KEY=VALUE] line python-dotenv reads back as written: a key of
    [[^=\#\s]] characters that does not open a quote, a value on one line
    without [#], without surrounding whitespace and not opening a quote. *)
Definition plain_key (k : string) : bool :=
  match k with String c _ => negb (Ascii.eqb c "'") | EmptyString => false end && all_chars key_char k.

Definition plain_value (v : string) : bool :=
  all_chars not_eol v && negb (has_char "#" v) && String.eqb (rstrip v) v &&
  match v with
  | String c _ => negb (hspace c) && negb (Ascii.eqb c "'") && negb (Ascii.eqb c "034")
  | EmptyString => true
  end.

Definition plain_entry (kv : string * string) : bool := plain_key (fst kv) && plain_value (snd kv).

Definition nl : string := str1 lf.

Definition env_line (kv : string * string) : string := fst kv ++ "=" ++ snd kv.

(** A [.env] text of one [KEY=VALUE] line per entry. *)
Definition env_text (kvs : list (string * string)) : string := join nl (map env_line kvs).

(** A value between quotes, its backslashes and quotes escaped with a
    backslash: python-dotenv's [_single_quote_escapes] and
    [_double_quote_escapes] decode both. *)
Fixpoint escape_quoted (q : ascii) (v : string) : string :=
  match v with
  | EmptyString => EmptyString
  | String c r =>
      if Ascii.eqb c backslash || Ascii.eqb c q then String backslash (String c (escape_quoted q r))
      else String c (escape_quoted q r)
  end.

Definition quote_with (q : ascii) (v : string) : string := String q (escape_quoted q v ++ str1 q).

Definition quoted_line (q : ascii) (kv : string * string) : string := fst kv ++ "=" ++ quote_with q (snd kv).

(** A [.env] text of one [KEY=VALUE] entry per line, each value between
    the quote [q]; a value may hold line breaks, quotes and [#]. *)
Definition quoted_text (q : ascii) (kvs : list (string * string)) : string := join nl (map (quoted_line q) kvs).

(** The two quotes [parse_value] reads a value between, and the escapes it
    decodes between each. *)
Definition value_quote (q : ascii) : bool := Ascii.eqb q "'" || Ascii.eqb q "034".
Definition quote_escapes (q : ascii) : ascii -> bool := if Ascii.eqb q "'" then single_escape else double_escape.

(** A value whose quoted form reads back: one that does not end with a
    backslash (the second backslash of its escape would pair with the
    closing quote). *)
Definition quotable (v : string) : bool := negb (ends_with_char backslash v).

Definition quoted_entry (kv : string * string) : bool := plain_key (fst kv) && quotable (snd kv).

(** A value that starts with neither a blank nor [#]: after its opening
    quote, [_comment] matches nothing. *)
Definition bare_start (v : string) : bool :=
  match v with String c _ => negb (hspace c) && negb (Ascii.eqb c "#") | EmptyString => true end.

(** The text after a line: the end of the text, or a line feed and the
    next lines. *)
Definition line_end (t : string) : option string :=
  match t with
  | EmptyString => Some EmptyString
  | String c r => if Ascii.eqb c lf then Some r else None
  end.

(** ** [find_dotenv] *)

Record file_system : Type := { is_file : string -> bool; read_text : string -> string }.

(** [os.path.join(dirname, filename)] for an absolute directory. *)
Definition path_of (dir : list string) (name : string) : string := "/" ++ join "/" (dir ++ [name]).

(** [_walk_to_root(path)]: the directory, then each parent up to the root. *)
Definition walk_to_root (dir : list string) : list (list string) :=
  map (fun k => firstn k dir) (rev (seq 0 (S (length dir)))).

(** The search loop of [find_dotenv]: the first [.env] on the way up. *)
Definition find_from (fs : file_system) (start : list string) : string :=
  match find (fun d => is_file fs (path_of d ".env")) (walk_to_root start) with
  | Some d => path_of d ".env"
  | None => ""
  end.

(** [find_dotenv()] from the directory of the calling script, or from the
    current directory when Python runs interactively ([__main__] has no
    [__file__]). *)
Definition find_dotenv (fs : file_system) (interactive : bool) (script_dir cwd : list string) : string :=
  find_from fs (if interactive then cwd else script_dir).

(** [DotEnv(path).dict()] before expansion: [_get_stream] reads the file
    when [self.dotenv_path and os.path.isfile(self.dotenv_path)], and an
    empty text otherwise. *)
Definition file_values (fs : file_system) (path : string) : list (string * option string) :=
  if negb (String.eqb path "") && is_file fs path then dotenv_values (read_text fs path) else [].

(** ** Lemmas *)

Lemma find_map {A B} (f : B -> bool) (g : A -> B) (l : list A) :
  find f (map g l) = option_map g (find (fun x => f (g x)) l).
Proof. induction l as [|a l IH]; simpl; [reflexivity|]. destruct (f (g a)); [reflexivity | exact IH]. Qed.

(** The first index, counting down from [n], at which [f] holds. *)
Lemma find_down (f : nat -> bool) (n : nat) :
  (find f (rev (seq 0 (S n))) = None /\ forall k, k <= n -> f k = false) \/
  (exists k, k <= n /\ find f (rev (seq 0 (S n))) = Some k /\ f k = true /\
             forall k', k < k' <= n -> f k' = false).
Proof.
  induction n as [|n IH].
  - cbn. destruct (f 0) eqn:E.
    + right. exists 0. repeat split; [lia | exact E | lia].
    + left. split; [reflexivity|]. intros k Hk. now replace k with 0 by lia.
  - rewrite (seq_S (S n)), rev_app_distr. cbn [rev app find]. cbn [Nat.add].
    destruct (f (S n)) eqn:E.
    + right. exists (S n). repeat split; [lia | exact E | lia].
    + destruct IH as [[Hn Hall] | (k & Hk & Hf & Ht & Hgt)].
      * left. split; [exact Hn|]. intros k Hk. destruct (Nat.eq_dec k (S n)) as [->|]; [exact E|].
        apply Hall. lia.
      * right. exists k. repeat split; [lia | exact Hf | exact Ht|].
        intros k' Hk'. destruct (Nat.eq_dec k' (S n)) as [->|]; [exact E|]. apply Hgt. lia.
Qed.

Lemma star_greedy_stop {R} (p : ascii -> bool) (c : ascii) (s : string) (caps : list string) (k : @cont R) :
  p c = false -> star_greedy p (String c s) caps k = k (String c s) caps.
Proof. intros H. cbn [star_greedy]. now rewrite H. Qed.

Lemma drop_while_app (p : ascii -> bool) (a s : string) :
  all_chars p a = true -> drop_while p (a ++ s) = drop_while p s.
Proof.
  induction a as [|c a IH]; [reflexivity|]. cbn [all_chars]. intros H.
  apply andb_prop in H as [Hc Ha]. cbn [String.append drop_while]. rewrite Hc. now apply IH.
Qed.

Lemma key_not_hspace (c : ascii) : key_char c = true -> hspace c = false.
Proof. unfold key_char, hspace. destruct (py_isspace c); [now rewrite andb_false_r | reflexivity]. Qed.

(** Whatever follows a run of key characters inside [k=...] starts with a
    character outside [[^\S\r\n]]. *)
Lemma key_run_next (a k s0 rest : string) :
  all_chars key_char a = true -> all_chars key_char k = true -> a ++ s0 = k ++ "=" ++ rest ->
  exists c s', s0 = String c s' /\ hspace c = false.
Proof.
  revert k. induction a as [|d a IH]; intros k Ha Hk E.
  - cbn [String.append] in E. subst s0. destruct k as [|e k]; [now exists "="%char, rest|].
    exists e, (k ++ "=" ++ rest). split; [reflexivity|]. apply key_not_hspace.
    now apply andb_prop in Hk as [He _].
  - cbn [all_chars] in Ha. apply andb_prop in Ha as [Hd Ha]. destruct k as [|e k].
    + cbn in E. injection E as -> _. discriminate Hd.
    + cbn [all_chars] in Hk. apply andb_prop in Hk as [_ Hk].
      injection E as _ E. exact (IH k Ha Hk E).
Qed.

Lemma export_skip (k rest : string) :
  all_chars key_char k = true -> read_regex export_re (k ++ "=" ++ rest) = (Ok [], k ++ "=" ++ rest).
Proof.
  intros Hk. unfold read_regex, export_re. cbn [mt].
  destruct (drop_prefix "export" (k ++ "=" ++ rest)) as [s0|] eqn:E; [|reflexivity].
  apply drop_prefix_some in E.
  destruct (key_run_next "export" k s0 rest eq_refl Hk (eq_sym E)) as (c & s' & -> & Hc).
  now rewrite Hc.
Qed.

(** A group over a run of a class, followed by a character outside it. *)
Lemma read_group_star (p : ascii -> bool) (a rest : string) :
  all_chars p a = true -> drop_while p rest = rest ->
  read_group (Group (Star true p)) (a ++ rest) = (Ok a, rest).
Proof.
  intros Ha Hr. unfold read_group, read_regex. cbn [mt].
  erewrite star_greedy_longest by (rewrite drop_while_app, Hr by exact Ha; reflexivity).
  cbn [app]. now rewrite consumed_app.
Qed.

Lemma read_group_plus (p : ascii -> bool) (c : ascii) (a rest : string) :
  p c = true -> all_chars p a = true -> drop_while p rest = rest ->
  read_group (Group (Seq (Cls p) (Star true p))) (String c a ++ rest) = (Ok (String c a), rest).
Proof.
  intros Hc Ha Hr. unfold read_group, read_regex. cbn [mt String.append]. rewrite Hc.
  erewrite star_greedy_longest by (rewrite drop_while_app, Hr by exact Ha; reflexivity).
  cbn [app]. change (String c (a ++ rest)) with (String c a ++ rest). now rewrite consumed_app.
Qed.

Lemma mt_inline_comment_none (s : string) :
  has_char "#" s = false -> mt inline_comment s [] found = None.
Proof.
  intros Hs. unfold inline_comment. destruct s as [|c s']; [reflexivity|]. cbn [mt].
  cbn [has_char] in Hs. apply orb_false_iff in Hs as [_ Hs].
  destruct (py_isspace c); [|reflexivity].
  rewrite star_greedy_run.
  - destruct (drop_prefix "#" (drop_while py_isspace s')) as [x|] eqn:E; [|reflexivity].
    apply drop_prefix_some in E. destruct (drop_while_split py_isspace s') as (w & Ew & _).
    rewrite E in Ew. rewrite Ew, !has_char_app in Hs. cbn in Hs.
    now rewrite orb_true_r in Hs.
  - intros d v Hd. left. cbn [drop_prefix]. now rewrite (eqb_class py_isspace "#" d eq_refl Hd).
Qed.

(** Every round of [re.sub] reads a match or a character, so rounds beyond
    the length of the text change nothing. *)
Lemma sub_from_enough (r : regex) (repl : string) (n m : nat) (s : string) :
  String.length s < n -> String.length s < m -> sub_from r repl n s = sub_from r repl m s.
Proof.
  revert m s. induction n as [|n IH]; intros m s Hn Hm; [lia|]. destruct m as [|m]; [lia|].
  cbn [sub_from]. destruct (mt r s [] found) as [[rest caps]|].
  - destruct (String.length rest <? String.length s)%nat eqn:E.
    + apply Nat.ltb_lt in E. f_equal. apply IH; lia.
    + destruct s as [|c s]; [reflexivity|]. cbn [String.length] in *. do 2 f_equal. apply IH; lia.
  - destruct s as [|c s]; [reflexivity|]. cbn [String.length] in *. f_equal. apply IH; lia.
Qed.

(** [re.sub(r'\s+#.*', '', value)] keeps a value without [#]. *)
Lemma re_sub_inline_comment (s : string) : has_char "#" s = false -> re_sub inline_comment "" s = s.
Proof.
  unfold re_sub. generalize (S (String.length s)) as n. intros n. revert s.
  induction n as [|n IH]; intros s Hs; [reflexivity|]. cbn [sub_from].
  rewrite mt_inline_comment_none by exact Hs. destruct s as [|c s]; [reflexivity|].
  cbn [has_char] in Hs. apply orb_false_iff in Hs as [_ Hs]. now rewrite IH.
Qed.

Lemma line_end_next (t t' : string) :
  line_end t = Some t' -> t = "" /\ t' = "" \/ t = String lf t'.
Proof.
  destruct t as [|c r]; cbn; intros H; [left; split; congruence|].
  destruct (Ascii.eqb_spec c lf) as [->|]; [right; congruence | discriminate].
Qed.

Lemma line_end_reads (t t' : string) :
  line_end t = Some t' ->
  read_regex comment t = (Ok [], t) /\ read_regex end_of_line t = (Ok [], t') /\
  drop_while not_eol t = t /\ drop_while hspace t = t /\ String.eqb (peek1 t) "=" = false.
Proof. intros H. destruct (line_end_next t t' H) as [[-> ->] | ->]; repeat split. Qed.

Lemma peek1_cons (c : ascii) (s : string) : peek1 (String c s) = String c "".
Proof. now destruct s. Qed.

Lemma parse_key_plain (k rest : string) :
  plain_key k = true -> parse_key (k ++ "=" ++ rest) = (Ok (Some k), "=" ++ rest).
Proof.
  destruct k as [|c k]; [discriminate|]. unfold plain_key. intros H.
  apply andb_prop in H as [Hq Hk]. apply negb_true_iff in Hq.
  pose proof Hk as Hk'. cbn [all_chars] in Hk'. apply andb_prop in Hk' as [Hc Hk'].
  assert (Hh : Ascii.eqb c "#" = false)
    by (rewrite Ascii.eqb_sym; apply (eqb_class key_char); [reflexivity | exact Hc]).
  unfold parse_key, peek1. cbn [String.append String.substring String.eqb]. rewrite Hh, Hq.
  cbn [andb]. unfold rbind. change (String c (k ++ String "=" rest)) with (String c k ++ String "=" rest).
  cbv beta. unfold unquoted_key. now rewrite read_group_plus.
Qed.

Lemma parse_value_plain (v t t' : string) :
  plain_value v = true -> line_end t = Some t' -> parse_value (v ++ t) = (Ok v, t).
Proof.
  intros Hv Ht. destruct (line_end_reads t t' Ht) as (_ & _ & Hn & _).
  destruct v as [|c v]; [destruct (line_end_next t t' Ht) as [[-> ->] | ->];
    [reflexivity | unfold parse_value; cbn [String.append]; rewrite peek1_cons; reflexivity]|].
  unfold plain_value in Hv. rewrite !andb_true_iff, !negb_true_iff, String.eqb_eq in Hv.
  destruct Hv as [[[Hne Hh] Hr] [[Hs Hq] Hd]].
  pose proof Hne as Hc. cbn [all_chars] in Hc. apply andb_prop in Hc as [Hc _].
  unfold not_eol in Hc. apply andb_prop in Hc as [Hcr Hlf]. apply negb_true_iff in Hcr, Hlf.
  unfold parse_value, peek1. cbn [String.append String.substring String.eqb str1].
  rewrite Hq, Hd, Hcr, Hlf. cbn [andb orb]. unfold parse_unquoted_value, rbind.
  change (String c (v ++ t)) with (String c v ++ t). unfold unquoted_value. cbv beta.
  rewrite read_group_star by assumption.
  unfold rret. now rewrite re_sub_inline_comment, Hr.
Qed.

Lemma value_start {R} (v t t' : string) (caps : list string) (k : @cont R) :
  plain_value v = true -> line_end t = Some t' -> star_greedy hspace (v ++ t) caps k = k (v ++ t) caps.
Proof.
  intros Hv Ht. destruct v as [|c v].
  - destruct (line_end_next t t' Ht) as [[-> ->] | ->]; reflexivity.
  - apply star_greedy_stop. unfold plain_value in Hv. rewrite !andb_true_iff, !negb_true_iff in Hv. tauto.
Qed.

(** Where [_equal_sign]'s [[^\S\r\n]*] stops: the value's text. *)
Definition no_lead (u : string) : Prop :=
  forall caps (k : @cont (string * list string)), star_greedy hspace u caps k = k u caps.

Lemma equal_sign_at (u : string) : no_lead u -> read_regex equal_sign (String "=" u) = (Ok ["="], u).
Proof.
  intros Hu. unfold read_regex, equal_sign. cbn [mt drop_prefix Ascii.eqb Bool.eqb].
  rewrite Hu. cbn [found app]. change (String "=" u) with ("=" ++ u). now rewrite consumed_app.
Qed.

(** After a key and [=], [parse_statement] is [parse_value] then the
    comment and the end of the line. *)
Lemma parse_statement_key (k u : string) :
  plain_key k = true -> no_lead u ->
  parse_statement (k ++ "=" ++ u) =
  (v <- parse_value ;; _ <- read_regex comment ;; _ <- read_regex end_of_line ;; rret (Some k, Some v)) u.
Proof.
  intros Hk Hu.
  assert (Hk' : all_chars key_char k = true) by (unfold plain_key in Hk; now apply andb_prop in Hk as [_ ?]).
  unfold parse_statement, rbind. rewrite export_skip by exact Hk'. cbv beta iota.
  rewrite parse_key_plain by exact Hk. cbv beta iota. cbn [String.append].
  assert (Hw : read_regex whitespace (String "=" u) = (Ok [], String "=" u)) by reflexivity.
  rewrite Hw. cbv beta iota. unfold value_part, rbind. cbv beta. rewrite peek1_cons.
  change (String.eqb (String "=" "") "=") with true. cbv iota.
  rewrite equal_sign_at by exact Hu. cbv beta iota. unfold rret.
  destruct (parse_value u) as [[v|e] s']; reflexivity.
Qed.

(** A [KEY=] line whose value [parse_value] reads up to the end of the line. *)
Lemma parse_statement_value (k u v rest t' : string) :
  plain_key k = true -> no_lead u -> parse_value u = (Ok v, rest) -> line_end rest = Some t' ->
  parse_statement (k ++ "=" ++ u) = (Ok (Some k, Some v), t').
Proof.
  intros Hk Hu Hv Ht. destruct (line_end_reads rest t' Ht) as (Hc & He & _).
  rewrite parse_statement_key by assumption. unfold rbind. now rewrite Hv, Hc, He.
Qed.

(** A line that starts with a key: [_multiline_whitespace] reads nothing. *)
Lemma parse_binding_key (k x : string) :
  plain_key k = true ->
  parse_binding (k ++ x) =
  match parse_statement (k ++ x) with
  | (Ok (kk, v), s2) => ({| b_key := kk; b_value := v; b_original := consumed (k ++ x) s2; b_error := false |}, s2)
  | (Raise _, s2) =>
      let s3 := snd (read_regex rest_of_line s2) in
      ({| b_key := None; b_value := None; b_original := consumed (k ++ x) s3; b_error := true |}, s3)
  end.
Proof.
  intros Hk. destruct k as [|c k0]; [discriminate|].
  assert (Hc : py_isspace c = false).
  { unfold plain_key in Hk. cbn [all_chars] in Hk. rewrite !andb_true_iff in Hk.
    destruct Hk as (_ & Hc & _). unfold key_char in Hc.
    destruct (py_isspace c); [now rewrite andb_false_r in Hc | reflexivity]. }
  unfold parse_binding, read_regex at 1, multiline_whitespace. cbn [mt String.append].
  rewrite star_greedy_stop by exact Hc. reflexivity.
Qed.

(** One [KEY=...] line read as one binding, up to the next line. *)
Lemma parse_binding_value (k u v rest t' : string) :
  plain_key k = true -> no_lead u -> parse_value u = (Ok v, rest) -> line_end rest = Some t' ->
  exists b, parse_binding (k ++ "=" ++ u) = (b, t') /\ b_key b = Some k /\ b_value b = Some v.
Proof.
  intros Hk Hu Hv Ht. rewrite parse_binding_key, (parse_statement_value k u v rest t') by assumption.
  eexists; repeat split.
Qed.

Lemma parse_from_cons (n : nat) (s : string) :
  s <> "" -> parse_from (S n) s = let (b, s') := parse_binding s in b :: parse_from n s'.
Proof. now destruct s. Qed.

(** The lines a writer of values prints, read back. *)
Section Written.
Variable write : string -> string.
(** The values [write] prints so that [parse_value] reads them back,
    whatever line follows. *)
Variable ok : string -> bool.
Hypothesis write_lead : forall v t t', ok v = true -> line_end t = Some t' -> no_lead (write v ++ t).
Hypothesis write_reads :
  forall v t t', ok v = true -> line_end t = Some t' -> parse_value (write v ++ t) = (Ok v, t).

Definition written_text (kvs : list (string * string)) : string :=
  join nl (map (fun kv => fst kv ++ "=" ++ write (snd kv)) kvs).

(** What follows an entry's line. *)
Definition written_sep (kvs : list (string * string)) : string :=
  match kvs with [] => "" | _ :: _ => nl ++ written_text kvs end.

Lemma written_text_cons (kv : string * string) (kvs : list (string * string)) :
  written_text (kv :: kvs) = (fst kv ++ "=" ++ write (snd kv)) ++ written_sep kvs.
Proof. destruct kvs; [symmetry; apply str_app_nil_r | reflexivity]. Qed.

Lemma line_end_written_sep (kvs : list (string * string)) : line_end (written_sep kvs) = Some (written_text kvs).
Proof. now destruct kvs. Qed.

(** Enough rounds read every line. *)
Lemma parse_from_written (kvs : list (string * string)) (n : nat) :
  forallb (fun kv => plain_key (fst kv) && ok (snd kv)) kvs = true -> String.length (written_text kvs) < n ->
  flat_map key_value (parse_from n (written_text kvs)) = map (fun kv => (fst kv, Some (snd kv))) kvs.
Proof.
  revert n. induction kvs as [|[k v] kvs IH]; intros n Hp Hn; [now destruct n|].
  cbn [forallb] in Hp. apply andb_prop in Hp as [He Hp]. apply andb_prop in He as [Hk Hv].
  cbn [fst snd] in Hk, Hv. destruct n as [|n]; [lia|].
  assert (Hlen : String.length (written_text kvs) <= String.length (written_sep kvs))
    by (destruct kvs; cbn; lia).
  rewrite written_text_cons in Hn |- *. cbn [fst snd] in Hn |- *.
  rewrite !str_length_app in Hn. cbn [String.length] in Hn. rewrite <- !str_app_assoc.
  pose proof (line_end_written_sep kvs) as Hs.
  destruct (parse_binding_value k _ v _ _ Hk (write_lead v _ _ Hv Hs) (write_reads v _ _ Hv Hs) Hs)
    as (b & Eb & Hbk & Hbv).
  rewrite parse_from_cons by (destruct k; [discriminate | cbn; congruence]).
  rewrite Eb. cbn [flat_map map]. unfold key_value at 1. rewrite Hbk, Hbv, IH by (assumption || lia).
  reflexivity.
Qed.

End Written.

(** [KEY=VALUE] lines: the value as it is. *)
Lemma parse_from_plain (kvs : list (string * string)) (n : nat) :
  forallb plain_entry kvs = true -> String.length (env_text kvs) < n ->
  flat_map key_value (parse_from n (env_text kvs)) = map (fun kv => (fst kv, Some (snd kv))) kvs.
Proof.
  exact (parse_from_written (fun v => v) plain_value (fun v t t' Hv Ht caps k => value_start v t t' caps k Hv Ht)
           parse_value_plain kvs n).
Qed.

(** *** Quoted values *)

Lemma ends_with_tail (x c : ascii) (r : string) : ends_with_char x (String c r) = false -> ends_with_char x r = false.
Proof. destruct r; [reflexivity | exact id]. Qed.

(** What the two quotes share: neither is a backslash, a blank, a line
    break, [#] or [=], and each is decoded back between itself. *)
Lemma value_quote_facts (q : ascii) :
  value_quote q = true ->
  Ascii.eqb q backslash = false /\ quote_escapes q backslash = true /\ quote_escapes q q = true /\
  unicode_escape q = Some q /\ hspace q = false /\ not_eol q = true /\ Ascii.eqb q "#" = false /\
  has_char q nl = false /\ has_char q "=" = false.
Proof. unfold value_quote. intros [H|H]%orb_true_iff; apply Ascii.eqb_eq in H as ->; repeat split. Qed.

Lemma escape_head (q : ascii) (r Y : string) :
  Ascii.eqb q backslash = false -> r <> "" -> starts_with_char q (escape_quoted q r ++ Y) = false.
Proof.
  intros Hq. destruct r as [|c r]; [congruence|]. intros _. cbn [escape_quoted].
  destruct (Ascii.eqb c backslash || Ascii.eqb c q) eqn:E; cbn [String.append starts_with_char].
  - now rewrite Ascii.eqb_sym.
  - apply orb_false_iff in E as [_ E]. exact E.
Qed.

Section Tokens.
Context {R : Type}.
Variables (k : @cont R) (caps : list string) (q : ascii).
Hypothesis q_bs : Ascii.eqb q backslash = false.

(** One round of [(?:\\q|[^q])]: a character other than a backslash or
    the quote, a backslash not before the quote, an escaped quote; the
    quote ends the repetition. *)
Lemma tok_other (c : ascii) (t : string) (K : @cont R) :
  Ascii.eqb c backslash = false -> Ascii.eqb c q = false -> mt (quoted_char q) (String c t) caps K = K t caps.
Proof.
  intros Hb Hq. unfold quoted_char. cbn [mt drop_prefix str1].
  rewrite Ascii.eqb_sym, Hb. unfold not_char. now rewrite Hq.
Qed.

Lemma tok_backslash (t : string) (K : @cont R) :
  starts_with_char q t = false -> mt (quoted_char q) (String backslash t) caps K = K t caps.
Proof.
  intros Ht. unfold quoted_char. cbn [mt]. rewrite drop_prefix_none.
  - unfold not_char. now rewrite (Ascii.eqb_sym backslash q), q_bs.
  - rewrite prefix_cons, Ascii.eqb_refl, andb_true_l. unfold str1. rewrite prefix_one. exact Ht.
Qed.

Lemma tok_escaped (x : R) (t : string) (K : @cont R) :
  K t caps = Some x -> mt (quoted_char q) (String backslash (String q t)) caps K = Some x.
Proof.
  intros H. unfold quoted_char. cbn [mt].
  change (String backslash (String q t)) with (String backslash (str1 q) ++ t).
  now rewrite drop_prefix_app, H.
Qed.

Lemma tok_quote (t : string) (K : @cont R) : mt (quoted_char q) (String q t) caps K = None.
Proof.
  unfold quoted_char. cbn [mt]. rewrite drop_prefix_none.
  - unfold not_char. now rewrite Ascii.eqb_refl.
  - rewrite prefix_cons, (Ascii.eqb_sym backslash q), q_bs. reflexivity.
Qed.

Lemma rep_round (n : nat) (s : string) :
  rep_loop (mt (quoted_char q)) k (S n) s caps =
  match mt (quoted_char q) s caps (fun s' caps' =>
          if (String.length s' <? String.length s)%nat then rep_loop (mt (quoted_char q)) k n s' caps'
          else k s' caps') with
  | Some x => Some x
  | None => k s caps
  end.
Proof. reflexivity. Qed.

Lemma ltb_cons (c : ascii) (s : string) : (String.length s <? String.length (String c s))%nat = true.
Proof. apply Nat.ltb_lt. cbn. lia. Qed.

Lemma ltb_cons2 (c d : ascii) (s : string) : (String.length s <? String.length (String c (String d s)))%nat = true.
Proof. apply Nat.ltb_lt. cbn. lia. Qed.

(** The repetition reads an escaped value token by token, unless its
    last backslash meets a quote, and goes on with what follows. *)
Lemma rep_escape (x : R) (m : nat) (v Y : string) :
  ends_with_char backslash v = false \/ starts_with_char q Y = false ->
  (forall n, m <= n -> rep_loop (mt (quoted_char q)) k n Y caps = Some x) ->
  forall n, String.length (escape_quoted q v) + m <= n ->
  rep_loop (mt (quoted_char q)) k n (escape_quoted q v ++ Y) caps = Some x.
Proof.
  intros Hc HY. induction v as [|c r IH]; [exact HY|]. intros n Hn.
  assert (IH' := IH ltac:(destruct Hc as [Hc|Hc]; [left; exact (ends_with_tail _ _ _ Hc) | now right])).
  cbn [escape_quoted] in Hn |- *.
  destruct (Ascii.eqb c backslash) eqn:Eb; [|destruct (Ascii.eqb c q) eqn:Eq]; cbn [orb] in Hn |- *.
  - apply Ascii.eqb_eq in Eb as ->. cbn [String.length] in Hn.
    destruct n as [|[|n]]; [lia | lia |].
    assert (Hh : starts_with_char q (escape_quoted q r ++ Y) = false).
    { destruct r as [|d r]; [|now apply escape_head].
      destruct Hc as [Hc|Hc]; [discriminate | exact Hc]. }
    cbn [String.append]. rewrite rep_round, tok_backslash by (cbn [starts_with_char]; now rewrite Ascii.eqb_sym).
    rewrite ltb_cons, rep_round, tok_backslash, ltb_cons by exact Hh. now rewrite IH' by lia.
  - apply Ascii.eqb_eq in Eq as ->. cbn [String.length] in Hn.
    destruct n as [|n]; [lia|]. rewrite rep_round. cbn [String.append]. rewrite (tok_escaped x); [reflexivity|].
    rewrite ltb_cons2. apply IH'. lia.
  - cbn [String.length] in Hn. destruct n as [|n]; [lia|].
    rewrite rep_round. cbn [String.append]. rewrite tok_other, ltb_cons by assumption.
    now rewrite IH' by lia.
Qed.

(** The quote after the value ends the repetition. *)
Lemma rep_quote (x : R) (t : string) :
  k (String q t) caps = Some x ->
  forall n, 1 <= n -> rep_loop (mt (quoted_char q)) k n (String q t) caps = Some x.
Proof. intros Hk [|n] Hn; [lia|]. rewrite rep_round, tok_quote. exact Hk. Qed.

End Tokens.

Lemma decode_cons (acc : ascii -> bool) (c : ascii) (t : string) :
  Ascii.eqb c backslash = false -> decode_escapes acc (String c t) = String c (decode_escapes acc t).
Proof. intros H. destruct t as [|d t]; [reflexivity|]. cbn [decode_escapes]. now rewrite H. Qed.

Lemma decode_pair (acc : ascii -> bool) (d e : ascii) (t : string) :
  acc d = true -> unicode_escape d = Some e -> decode_escapes acc (String backslash (String d t)) = String e (decode_escapes acc t).
Proof. intros Ha He. cbn [decode_escapes]. now rewrite Ascii.eqb_refl, Ha, He. Qed.

Lemma escape_app (q : ascii) (a b : string) : escape_quoted q (a ++ b) = escape_quoted q a ++ escape_quoted q b.
Proof.
  induction a as [|c a IH]; [reflexivity|]. cbn [String.append escape_quoted]. rewrite IH.
  now destruct (Ascii.eqb c backslash || Ascii.eqb c q).
Qed.

Lemma escape_plain (q : ascii) (s : string) :
  has_char backslash s = false -> has_char q s = false -> escape_quoted q s = s.
Proof.
  induction s as [|c s IH]; [reflexivity|]. cbn [has_char escape_quoted].
  intros [Hb Hs]%orb_false_iff [Hq Hs']%orb_false_iff. now rewrite Hb, Hq, IH.
Qed.

Lemma ends_with_no_char (x : ascii) (s : string) : has_char x s = false -> ends_with_char x s = false.
Proof.
  induction s as [|c [|d r] IH]; [reflexivity | |]; cbn [has_char]; intros [Hc Hr]%orb_false_iff.
  - exact Hc.
  - exact (IH Hr).
Qed.

Lemma escape_not_eol (q : ascii) (v : string) : all_chars not_eol v = true -> all_chars not_eol (escape_quoted q v) = true.
Proof.
  induction v as [|c v IH]; [reflexivity|]. cbn [all_chars escape_quoted]. intros [Hc Hv]%andb_prop.
  destruct (Ascii.eqb c backslash || Ascii.eqb c q); cbn [all_chars]; now rewrite Hc, IH.
Qed.

Lemma decode_plain (acc : ascii -> bool) (s : string) : has_char backslash s = false -> decode_escapes acc s = s.
Proof.
  induction s as [|c s IH]; [reflexivity|]. cbn [has_char]. intros [Hc Hs]%orb_false_iff.
  now rewrite decode_cons, IH.
Qed.

(** [decode_escapes] undoes [escape_quoted], and goes on with what follows. *)
Lemma decode_escape_app (q : ascii) (v X : string) :
  value_quote q = true ->
  decode_escapes (quote_escapes q) (escape_quoted q v ++ X) = v ++ decode_escapes (quote_escapes q) X.
Proof.
  intros Hq. destruct (value_quote_facts q Hq) as (_ & Hab & Haq & Huq & _).
  induction v as [|c r IH]; [reflexivity|]. cbn [escape_quoted].
  destruct (Ascii.eqb c backslash) eqn:Eb; [|destruct (Ascii.eqb c q) eqn:Eq]; cbn [orb String.append].
  - apply Ascii.eqb_eq in Eb as ->. now rewrite (decode_pair _ backslash backslash), IH.
  - apply Ascii.eqb_eq in Eq as ->. now rewrite (decode_pair _ q q), IH.
  - now rewrite decode_cons, IH.
Qed.

Lemma decode_escape_quoted (q : ascii) (v : string) :
  value_quote q = true -> decode_escapes (quote_escapes q) (escape_quoted q v) = v.
Proof. intros Hq. rewrite <- (str_app_nil_r (escape_quoted q v)), decode_escape_app by exact Hq. apply str_app_nil_r. Qed.

(** [parse_value] at a quote. *)
Lemma parse_value_quote (q : ascii) (X : string) :
  value_quote q = true ->
  parse_value (String q X) =
  (v <- read_group (quoted_value q) ;; rret (decode_escapes (quote_escapes q) v)) (String q X).
Proof.
  unfold value_quote. intros [H|H]%orb_true_iff; apply Ascii.eqb_eq in H as ->;
    unfold parse_value; now rewrite peek1_cons.
Qed.

Lemma quote_with_app (q : ascii) (v t : string) : quote_with q v ++ t = String q (escape_quoted q v ++ String q t).
Proof. unfold quote_with. cbn [String.append]. now rewrite <- str_app_assoc. Qed.

(** [_single_quoted_value] and [_double_quoted_value] read a quoted value
    up to its closing quote. *)
Lemma read_quoted (q : ascii) (v t : string) :
  value_quote q = true -> quotable v = true ->
  read_group (quoted_value q) (quote_with q v ++ t) = (Ok (escape_quoted q v), t).
Proof.
  intros Hq Hv. unfold quotable in Hv. apply negb_true_iff in Hv.
  destruct (value_quote_facts q Hq) as (Hqb & _).
  rewrite quote_with_app. unfold read_group, read_regex, quoted_value. cbn [mt].
  change (String q (escape_quoted q v ++ String q t)) with (str1 q ++ (escape_quoted q v ++ String q t)).
  rewrite drop_prefix_app.
  match goal with |- context [rep_loop ?M ?K ?n ?s ?c] =>
    rewrite (rep_escape K c q Hqb (t, [consumed s (String q t)]) 1 v (String q t) (or_introl Hv)) end.
  - cbv beta iota. now rewrite consumed_app.
  - apply (rep_quote _ _ q Hqb). cbn [mt drop_prefix str1]. now rewrite Ascii.eqb_refl.
  - rewrite str_length_app. cbn [String.length]. lia.
Qed.

(** [parse_value] reads a quoted value back, whatever follows it. *)
Lemma parse_value_quoted (q : ascii) (v t : string) :
  value_quote q = true -> quotable v = true -> parse_value (quote_with q v ++ t) = (Ok v, t).
Proof.
  intros Hq Hv. rewrite quote_with_app, parse_value_quote by exact Hq. rewrite <- quote_with_app.
  unfold rbind. rewrite read_quoted by assumption. unfold rret. now rewrite decode_escape_quoted.
Qed.

Lemma quoted_lead (q : ascii) (v t : string) : value_quote q = true -> no_lead (quote_with q v ++ t).
Proof.
  intros Hq caps k. destruct (value_quote_facts q Hq) as (_ & _ & _ & _ & Hs & _).
  apply star_greedy_stop. exact Hs.
Qed.

(** A quoted value ending with a backslash, then a line of a key and a
    quoted value: the second backslash of the escape pairs with the
    closing quote, and the value runs on to the next opening quote. *)
Lemma parse_value_swallow (q : ascii) (v1 k2 T : string) :
  value_quote q = true -> has_char backslash k2 = false -> has_char q k2 = false ->
  parse_value (quote_with q (v1 ++ str1 backslash) ++ nl ++ k2 ++ "=" ++ String q T) =
  (Ok (v1 ++ String backslash (String q (nl ++ k2 ++ "="))), T).
Proof.
  intros Hq Hb Hk. destruct (value_quote_facts q Hq) as (Hqb & Hab & _ & _ & _ & _ & _ & Hnl & Heq).
  set (P := nl ++ k2 ++ "=").
  assert (HPb : has_char backslash P = false) by (unfold P; rewrite !has_char_app, Hb; reflexivity).
  assert (HPq : has_char q P = false) by (unfold P; now rewrite !has_char_app, Hk, Hnl, Heq).
  set (Y := String backslash (String backslash (String q (P ++ String q T)))).
  assert (E : quote_with q (v1 ++ str1 backslash) ++ P ++ String q T = String q (escape_quoted q v1 ++ Y)).
  { unfold quote_with, Y. rewrite escape_app. cbn [String.append]. rewrite <- !str_app_assoc. cbn [escape_quoted].
    rewrite ?Ascii.eqb_refl. reflexivity. }
  assert (HY : starts_with_char q Y = false) by (unfold Y; cbn [starts_with_char]; now rewrite Ascii.eqb_sym).
  replace (nl ++ k2 ++ "=" ++ String q T) with (P ++ String q T) by (unfold P; now rewrite <- !str_app_assoc).
  rewrite E, parse_value_quote by exact Hq. unfold rbind, read_group, read_regex, quoted_value. cbn [mt].
  change (String q (escape_quoted q v1 ++ Y)) with (str1 q ++ (escape_quoted q v1 ++ Y)). rewrite drop_prefix_app.
  match goal with |- context [rep_loop ?M ?K ?n ?s ?c] =>
    rewrite (rep_escape K c q Hqb (T, [consumed s (String q T)]) (String.length P + 3) v1 Y (or_intror HY)) end.
  - assert (Hc : consumed (escape_quoted q v1 ++ Y) (String q T) =
                 escape_quoted q v1 ++ String backslash (String backslash (String q P))).
    { rewrite <- (consumed_app (escape_quoted q v1 ++ String backslash (String backslash (String q P))) (String q T)).
      f_equal. rewrite <- str_app_assoc. reflexivity. }
    cbv beta iota. rewrite Hc. unfold rret. rewrite decode_escape_app by exact Hq.
    rewrite (decode_pair _ backslash backslash), decode_cons, decode_plain by (reflexivity || assumption).
    reflexivity.
  - intros n Hn. destruct n as [|[|n]]; [lia | lia |]. unfold Y.
    rewrite rep_round, tok_backslash by (cbn [starts_with_char]; now rewrite Ascii.eqb_sym).
    rewrite ltb_cons, rep_round. erewrite tok_escaped; [reflexivity|].
    rewrite ltb_cons2. rewrite <- (escape_plain q P HPb HPq) at 1.
    refine (rep_escape _ _ q Hqb _ 1 P _ (or_introl (ends_with_no_char _ _ HPb)) _ n _).
    + apply (rep_quote _ _ q Hqb). cbn [mt drop_prefix str1]. now rewrite Ascii.eqb_refl.
    + rewrite escape_plain by assumption. lia.
  - unfold Y. rewrite str_length_app. cbn [String.length]. rewrite str_length_app. cbn [String.length]. lia.
Qed.

(** The text at a quoted value's opening quote starts with a character
    [_comment] and [_end_of_line] do not accept. *)
Lemma escape_start (q : ascii) (v X : string) :
  value_quote q = true -> bare_start v = true -> all_chars not_eol v = true -> X <> "" ->
  exists h Z, escape_quoted q v ++ String q X = String h Z /\ hspace h = false /\ Ascii.eqb h "#" = false /\
              not_eol h = true /\ Z <> "".
Proof.
  intros Hq Hs Hn HX. destruct (value_quote_facts q Hq) as (_ & _ & _ & _ & Hsq & Heq & Hhq & _).
  destruct v as [|c r]; [exists q, X; now repeat split|].
  cbn [escape_quoted]. cbn [bare_start all_chars] in Hs, Hn. apply andb_prop in Hs as [Hs Hh].
  apply andb_prop in Hn as [Hn _]. apply negb_true_iff in Hs, Hh.
  destruct (Ascii.eqb c backslash || Ascii.eqb c q).
  - exists backslash, (String c (escape_quoted q r ++ String q X)). now repeat split.
  - exists c, (escape_quoted q r ++ String q X). repeat split; try assumption. now destruct (escape_quoted q r).
Qed.

Lemma after_quote_reads (q : ascii) (v rest : string) :
  value_quote q = true -> bare_start v = true -> all_chars not_eol v = true ->
  let W := escape_quoted q v ++ String q (nl ++ rest) in
  read_regex comment W = (Ok [], W) /\ read_regex end_of_line W = (Raise parse_error, W) /\
  read_regex rest_of_line W = (Ok [], rest).
Proof.
  intros Hq Hs Hn W. destruct (value_quote_facts q Hq) as (_ & _ & _ & _ & _ & Hnq & _).
  split; [|split].
  - destruct (escape_start q v (nl ++ rest) Hq Hs Hn ltac:(discriminate)) as (h & Z & E & Hh & Hc & _).
    unfold W. rewrite E. unfold read_regex, comment. cbn [mt]. rewrite star_greedy_stop by exact Hh.
    cbn [mt drop_prefix]. now rewrite Ascii.eqb_sym, Hc.
  - destruct (escape_start q v (nl ++ rest) Hq Hs Hn ltac:(discriminate)) as (h & Z & E & Hh & _ & He & HZ).
    unfold not_eol in He. apply andb_prop in He as [Hcr Hlf]. apply negb_true_iff in Hcr, Hlf.
    unfold W. rewrite E. unfold read_regex, end_of_line. cbn [mt]. rewrite star_greedy_stop by exact Hh.
    unfold crlf, str1. cbn [mt drop_prefix]. rewrite (Ascii.eqb_sym cr), (Ascii.eqb_sym lf), Hcr, Hlf.
    destruct Z; [congruence | reflexivity].
  - assert (Ha : all_chars not_eol (escape_quoted q v ++ str1 q) = true)
      by (rewrite all_chars_app, escape_not_eol by exact Hn; cbn [all_chars str1]; now rewrite Hnq).
    unfold read_regex, rest_of_line, W. rewrite mt_seq, mt_star_greedy.
    rewrite (star_greedy_longest not_eol [] _ _ (rest, [])); [reflexivity|].
    change (String q (nl ++ rest)) with (str1 q ++ nl ++ rest).
    rewrite str_app_assoc, drop_while_app by exact Ha. reflexivity.
Qed.

(** The line of a value ending with a backslash and the next quoted line
    are one binding with an error, and reading goes on after them. *)
Lemma parse_binding_swallow (q : ascii) (k1 v1 k2 v2 rest : string) :
  value_quote q = true -> plain_key k1 = true -> has_char backslash k2 = false -> has_char q k2 = false ->
  bare_start v2 = true -> all_chars not_eol v2 = true ->
  exists b, parse_binding (quoted_line q (k1, v1 ++ str1 backslash) ++ nl ++ quoted_line q (k2, v2) ++ nl ++ rest) =
            (b, rest) /\ b_key b = None /\ b_error b = true.
Proof.
  intros Hq Hk Hb Hkq Hs Hn.
  assert (E : quoted_line q (k1, v1 ++ str1 backslash) ++ nl ++ quoted_line q (k2, v2) ++ nl ++ rest =
              k1 ++ "=" ++ (quote_with q (v1 ++ str1 backslash) ++ nl ++ k2 ++ "=" ++
                            String q (escape_quoted q v2 ++ String q (nl ++ rest)))).
  { unfold quoted_line, quote_with. cbn [fst snd]. rewrite <- !str_app_assoc. cbn [String.append].
    now rewrite <- !str_app_assoc. }
  destruct (after_quote_reads q v2 rest Hq Hs Hn) as (Hc & He & Hr).
  rewrite E, parse_binding_key, parse_statement_key by (first [apply quoted_lead; exact Hq | assumption]).
  unfold rbind. rewrite parse_value_swallow, Hc, He by assumption. cbv beta iota zeta. rewrite Hr.
  eexists; repeat split.
Qed.

(** *** The reader moves forward *)

Lemma mt_found_le (r : regex) (s rest : string) (caps : list string) :
  mt r s [] found = Some (rest, caps) -> String.length rest <= String.length s.
Proof.
  intros H. refine (mt_forward r s [] found (fun x => String.length (fst x) <= String.length s) _ _ H).
  intros s' caps' x Hs E. injection E as <-. exact Hs.
Qed.

(** A reader that never moves back, and one whose successes end at the
    end of the text or past a line break it read. *)
Definition mono {A} (m : reader A) : Prop := forall s, String.length (snd (m s)) <= String.length s.
Definition ends_line {A} (m : reader A) : Prop :=
  forall s a s', m s = (Ok a, s') -> s' = "" \/ String.length s' < String.length s.

Lemma read_regex_mono (r : regex) : mono (read_regex r).
Proof.
  intros s. unfold read_regex. destruct (mt r s [] found) as [[rest caps]|] eqn:E; [|reflexivity].
  exact (mt_found_le r s rest caps E).
Qed.

Lemma read_group_mono (r : regex) : mono (read_group r).
Proof.
  intros s. pose proof (read_regex_mono r s) as H. unfold read_group.
  destruct (read_regex r s) as [[[|g [|]]|e] s']; exact H.
Qed.

Lemma rret_mono {A} (a : A) : mono (rret a).
Proof. intros s. reflexivity. Qed.

Lemma rbind_mono {A B} (m : reader A) (k : A -> reader B) :
  mono m -> (forall a, mono (k a)) -> mono (rbind m k).
Proof.
  intros Hm Hk s. specialize (Hm s). unfold rbind. destruct (m s) as [[a|e] s']; [|exact Hm].
  specialize (Hk a s'). cbn [snd] in Hm. lia.
Qed.

Lemma rbind_ends {A B} (m : reader A) (k : A -> reader B) :
  mono m -> (forall a, ends_line (k a)) -> ends_line (rbind m k).
Proof.
  intros Hm Hk s b s''. specialize (Hm s). unfold rbind. destruct (m s) as [[a|e] s']; [|discriminate].
  intros H. destruct (Hk a s' b s'' H) as [-> | Hlt]; [now left | right]. cbn [snd] in Hm. lia.
Qed.

Lemma read_regex_rret_ends (r : regex) {A} (a : A) :
  (forall s caps s' caps', mt r s caps found = Some (s', caps') -> s' = "" \/ String.length s' < String.length s) ->
  ends_line (rbind (read_regex r) (fun _ => rret a)).
Proof.
  intros Hr s b s'. unfold rbind, read_regex. destruct (mt r s [] found) as [[rest caps]|] eqn:E; [|discriminate].
  intros H. injection H as _ <-. exact (Hr _ _ _ _ E).
Qed.

Ltac reader_mono :=
  repeat match goal with
         | |- mono (rbind _ _) => apply rbind_mono; [|intros ?]
         | |- mono (read_regex _) => apply read_regex_mono
         | |- mono (read_group _) => apply read_group_mono
         | |- mono (rret _) => apply rret_mono
         | |- String.length (snd (?m ?s)) <= String.length ?s =>
             let Hm := fresh "Hm" in enough (Hm : mono m) by exact (Hm s)
         end.

Lemma parse_unquoted_value_mono : mono parse_unquoted_value.
Proof. unfold parse_unquoted_value. reader_mono. Qed.

Lemma parse_value_mono : mono parse_value.
Proof.
  intros s. unfold parse_value.
  repeat match goal with |- context [if ?b then _ else _] => destruct b end;
    try (apply parse_unquoted_value_mono || reflexivity); reader_mono.
Qed.

Lemma parse_key_mono : mono parse_key.
Proof.
  intros s. unfold parse_key.
  repeat match goal with |- context [if ?b then _ else _] => destruct b end; try reflexivity; reader_mono.
Qed.

(** One literal alternative of [end_of_line]: it reads a line break, or
    the next alternative is tried. *)
Local Ltac lit_branch :=
  match goal with
  | |- match match drop_prefix ?l ?t with _ => _ end with _ => _ end = _ -> _ =>
      let E := fresh "E" in
      destruct (drop_prefix l t) as [?|] eqn:E;
      [cbn [found]; intros H; injection H as <-; apply drop_prefix_some in E; subst t; right;
       rewrite str_length_app in *; unfold crlf, str1 in *; cbn [String.length fst] in *; lia | cbn beta iota]
  end.

(** [end_of_line] reads a line break, or stops at the end of the text. *)
Lemma end_of_line_ends (s : string) (caps : list string) (s' : string) (caps' : list string) :
  mt end_of_line s caps found = Some (s', caps') -> s' = "" \/ String.length s' < String.length s.
Proof.
  unfold end_of_line. rewrite mt_seq, mt_star_greedy.
  apply (star_greedy_forward hspace s caps _ (fun x => fst x = "" \/ String.length (fst x) < String.length s)).
  intros t ct x Ht. cbn [mt].
  lit_branch. lit_branch. lit_branch.
  destruct t as [|c [|d t]]; [intros H; injection H as <-; now left| |discriminate].
  destruct (Ascii.eqb_spec c "010") as [->|]; [discriminate | discriminate].
Qed.

Lemma alt_nil_some (r : regex) (t : string) (caps : list string) :
  mt (Alt r (Lit "")) t caps found <> None.
Proof. cbn [mt]. destruct (mt r t caps found); discriminate. Qed.

(** [rest_of_line] reads at least one character of a text that is not empty. *)
Lemma rest_of_line_reads (s : string) :
  s <> "" -> String.length (snd (read_regex rest_of_line s)) < String.length s.
Proof.
  destruct s as [|c s]; [congruence|]. intros _. unfold read_regex, rest_of_line.
  rewrite mt_seq, mt_star_greedy. set (brk := Alt (Alt (Lit (str1 cr)) (Alt (Lit (str1 lf)) (Lit crlf))) (Lit "")).
  destruct (not_eol c) eqn:Hc.
  - cbn [star_greedy]. rewrite Hc.
    destruct (star_greedy not_eol s [] (fun s' caps' => mt brk s' caps' found)) as [[u cs]|] eqn:E.
    + enough (String.length u <= String.length s) by (cbn; lia).
      refine (star_greedy_forward not_eol s [] _ (fun y => String.length (fst y) <= String.length s) _ _ E).
      intros t ct y Ht H. refine (mt_forward brk t ct found (fun y => String.length (fst y) <= String.length s) y _ H).
      intros ? ? ? ? E'. injection E' as <-. cbn. lia.
    + exfalso. destruct (mt brk (drop_while not_eol s) [] found) eqn:E2.
      * rewrite (star_greedy_longest not_eol [] _ s p E2) in E. discriminate.
      * exact (alt_nil_some _ _ _ E2).
  - cbn [star_greedy]. rewrite Hc. unfold not_eol in Hc.
    destruct (Ascii.eqb_spec c cr) as [->|]; [cbn; lia|].
    destruct (Ascii.eqb_spec c lf) as [->|]; [cbn; lia | discriminate].
Qed.


Lemma value_part_mono : mono value_part.
Proof.
  intros s. unfold value_part. destruct (String.eqb (peek1 s) "="); [|reflexivity].
  reader_mono; apply parse_value_mono.
Qed.

Lemma parse_statement_mono : mono parse_statement.
Proof.
  unfold parse_statement. reader_mono; (apply parse_key_mono || apply value_part_mono).
Qed.

Lemma parse_statement_ends : ends_line parse_statement.
Proof.
  unfold parse_statement.
  do 5 (apply rbind_ends; [(apply read_regex_mono || apply parse_key_mono || apply value_part_mono) | intros ?]).
  apply read_regex_rret_ends. intros s caps s' caps'. apply end_of_line_ends.
Qed.

(** Every round of [parse_stream] reads at least one character. *)
Lemma parse_binding_reads (s : string) :
  s <> "" -> String.length (snd (parse_binding s)) < String.length s.
Proof.
  intros Hs. assert (Hpos : 0 < String.length s) by (destruct s; [congruence | cbn; lia]).
  unfold parse_binding. pose proof (read_regex_mono multiline_whitespace s) as H1.
  destruct (read_regex multiline_whitespace s) as [r1 s1]. cbn [snd] in H1.
  destruct s1 as [|c s1]; [cbn; lia|].
  pose proof (parse_statement_mono (String c s1)) as H2. pose proof (parse_statement_ends (String c s1)) as H3.
  destruct (parse_statement (String c s1)) as [[[k v]|e] s2]; cbn [snd] in H2 |- *.
  - destruct (H3 _ _ eq_refl) as [-> | Hlt]; cbn; lia.
  - destruct s2 as [|d s2]; [cbn; lia|].
    pose proof (rest_of_line_reads (String d s2) ltac:(discriminate)). lia.
Qed.

(** Rounds beyond the length of the text change nothing. *)
Lemma parse_from_enough (n m : nat) (s : string) :
  String.length s < n -> String.length s < m -> parse_from n s = parse_from m s.
Proof.
  revert m s. induction n as [|n IH]; intros m s Hn Hm; [lia|]. destruct m as [|m]; [lia|].
  destruct s as [|c s]; [reflexivity|]. cbn [parse_from].
  pose proof (parse_binding_reads (String c s) ltac:(discriminate)) as H.
  destruct (parse_binding (String c s)) as [b s']. cbn [snd] in H. f_equal. apply IH; lia.
Qed.

(** A line that starts with [=] has no key: the statement fails at once and
    the rest of the line is skipped. *)
Lemma parse_binding_no_key (w rest : string) :
  all_chars not_eol w = true ->
  parse_binding ("=" ++ w ++ nl ++ rest) =
  ({| b_key := None; b_value := None; b_original := "=" ++ w ++ nl; b_error := true |}, rest).
Proof.
  intros Hw. change ("=" ++ w ++ nl ++ rest) with (String "=" (w ++ nl ++ rest)).
  assert (Hs : parse_statement (String "=" (w ++ nl ++ rest)) = (Raise parse_error, String "=" (w ++ nl ++ rest))).
  { unfold parse_statement, rbind.
    assert (E : read_regex export_re (String "=" (w ++ nl ++ rest)) = (Ok [], String "=" (w ++ nl ++ rest)))
      by reflexivity.
    rewrite E. cbv beta iota. unfold parse_key. cbv beta zeta. rewrite peek1_cons. reflexivity. }
  assert (Hr : read_regex rest_of_line (String "=" (w ++ nl ++ rest)) = (Ok [], rest)).
  { unfold read_regex, rest_of_line. rewrite mt_seq, mt_star_greedy.
    rewrite (star_greedy_longest not_eol [] _ _ (rest, [])); [reflexivity|].
    change (String "=" (w ++ nl ++ rest)) with ("=" ++ w ++ nl ++ rest).
    rewrite (drop_while_app not_eol "=" (w ++ nl ++ rest) eq_refl), drop_while_app by exact Hw.
    reflexivity. }
  unfold parse_binding. cbv beta. unfold read_regex at 1, multiline_whitespace. rewrite mt_star_greedy.
  rewrite star_greedy_stop by reflexivity. cbn [found]. cbv iota. rewrite Hs. cbv zeta.
  rewrite Hr. cbn [snd]. change (String "=" (w ++ nl ++ rest)) with ("=" ++ w ++ nl ++ rest).
  rewrite (str_app_assoc w nl rest), (str_app_assoc "=" (w ++ nl) rest), consumed_app.
  reflexivity.
Qed.

(** ** Runs *)

Example parse_sample :
  dotenv_values ("# LangSmith" ++ nl ++ "export LANGSMITH_TRACING=true" ++ nl
                 ++ "PROXY = proxy.corp:3128  # office" ++ nl ++ "KEY='a#b'" ++ nl
                 ++ "=broken" ++ nl ++ "MSG=" ++ str1 "034" ++ "x\ny" ++ str1 "034" ++ nl ++ "EMPTY")
  = [("LANGSMITH_TRACING", Some "true"); ("PROXY", Some "proxy.corp:3128"); ("KEY", Some "a#b");
     ("MSG", Some ("x" ++ nl ++ "y")); ("EMPTY", None)].
Proof. vm_compute. reflexivity. Qed.

(** ** Theorems *)

(** C28: [find_dotenv] returns the [.env] of the nearest directory, from the
    starting one up to the root, that has one as a file, and [""] when
    none has: no [.env] further up is read while a nearer one exists. *)
Theorem find_dotenv_nearest (fs : file_system) (start : list string) :
  (find_from fs start = "" /\
   forall k, k <= length start -> is_file fs (path_of (firstn k start) ".env") = false) \/
  (exists k, k <= length start /\ find_from fs start = path_of (firstn k start) ".env" /\
             is_file fs (path_of (firstn k start) ".env") = true /\
             forall k', k < k' <= length start -> is_file fs (path_of (firstn k' start) ".env") = false).
Proof.
  unfold find_from, walk_to_root. rewrite find_map.
  destruct (find_down (fun k => is_file fs (path_of (firstn k start) ".env")) (length start))
    as [[-> Hall] | (k & Hk & -> & Ht & Hgt)]; [left | right]; cbn [option_map].
  - split; [reflexivity | exact Hall].
  - exists k. repeat split; assumption.
Qed.

(** C31: A [.env] file of [KEY=VALUE] lines, with keys of [[^=\#\s]]
    characters that do not open a quote and values on one line without
    [#], surrounding whitespace or an opening quote, is read back as
    exactly its entries, in order, each with its value. *)
Theorem dotenv_values_plain (kvs : list (string * string)) :
  forallb plain_entry kvs = true ->
  dotenv_values (env_text kvs) = map (fun kv => (fst kv, Some (snd kv))) kvs.
Proof. intros H. unfold dotenv_values, parse_stream. apply parse_from_plain; [exact H | lia]. Qed.

Lemma dotenv_values_plain_witness :
  dotenv_values (env_text [("LANGSMITH_TRACING", "true"); ("PROXY", "proxy.corp:3128")])
  = [("LANGSMITH_TRACING", Some "true"); ("PROXY", Some "proxy.corp:3128")].
Proof. exact (dotenv_values_plain [("LANGSMITH_TRACING", "true"); ("PROXY", "proxy.corp:3128")] eq_refl). Defined.

(** [parse_stream] terminates: every round of its loop reads at least
    one character of a text that is not empty, so the [S (length text)]
    rounds the model allows are never exhausted, and any number of rounds
    above the length of the text gives the same bindings. *)
Theorem parse_stream_terminates :
  (forall s, s <> "" -> String.length (snd (parse_binding s)) < String.length s) /\
  (forall n s, String.length s < n -> parse_from n s = parse_stream s).
Proof.
  split; [exact parse_binding_reads|]. intros n s Hn. apply parse_from_enough; [exact Hn | lia].
Qed.

Lemma parse_stream_terminates_witness :
  parse_from 40 ("A=1" ++ nl ++ "=x") = parse_stream ("A=1" ++ nl ++ "=x").
Proof. apply (proj2 parse_stream_terminates). cbn. lia. Defined.

(** C34: A line with no key before its [=] is an error binding ([Error]
    caught in [parse_binding], which reads the rest of the line with
    [_rest_of_line] and yields [Binding(key=None, value=None,
    original=..., error=True)]), and the lines after it are read as if it
    were not there. *)
Theorem parse_stream_error_line (w rest : string) :
  all_chars not_eol w = true ->
  parse_stream ("=" ++ w ++ nl ++ rest) =
  {| b_key := None; b_value := None; b_original := "=" ++ w ++ nl; b_error := true |} :: parse_stream rest.
Proof.
  intros Hw. unfold parse_stream at 1. rewrite parse_from_cons by discriminate.
  rewrite parse_binding_no_key by exact Hw. f_equal. apply parse_from_enough; [|lia].
  rewrite !str_length_app. cbn [String.length nl str1]. lia.
Qed.

Lemma parse_stream_error_line_witness :
  parse_stream ("=" ++ "broken" ++ nl ++ "KEY=1")
  = {| b_key := None; b_value := None; b_original := "=" ++ "broken" ++ nl; b_error := true |}
    :: parse_stream "KEY=1".
Proof. apply (parse_stream_error_line "broken" "KEY=1"). reflexivity. Defined.

(** C22: A [.env] text of [KEY=VALUE] lines, each value written between
    single or double quotes with its backslashes and quotes escaped by a
    backslash, is read back by [parse_stream] and [DotEnv.parse] as
    exactly its entries, in order, whatever the values hold (the other
    quote, [#], blanks, line breaks), provided no value ends with a
    backslash: [_single_quoted_value] and [_double_quoted_value] read the
    escaped text and [decode_escapes] undoes the escapes. *)
Theorem dotenv_values_quoted (q : ascii) (kvs : list (string * string)) :
  value_quote q = true -> forallb quoted_entry kvs = true ->
  dotenv_values (quoted_text q kvs) = map (fun kv => (fst kv, Some (snd kv))) kvs.
Proof.
  intros Hq H. unfold dotenv_values, parse_stream.
  exact (parse_from_written (quote_with q) quotable (fun v t _ _ _ => quoted_lead q v t Hq)
           (fun v t _ Hv _ => parse_value_quoted q v t Hq Hv) kvs _ H (Nat.lt_succ_diag_r _)).
Qed.

Lemma dotenv_values_quoted_witness :
  value_quote "'" = true /\
  forallb quoted_entry [("OPENAI_API_KEY", "sk-'x' " ++ str1 "034" ++ "y" ++ str1 "034" ++ " #1");
                        ("PROMPT", "a\b" ++ nl ++ " c")] = true /\
  dotenv_values (quoted_text "'" [("OPENAI_API_KEY", "sk-'x' " ++ str1 "034" ++ "y" ++ str1 "034" ++ " #1");
                                  ("PROMPT", "a\b" ++ nl ++ " c")]) =
  [("OPENAI_API_KEY", Some ("sk-'x' " ++ str1 "034" ++ "y" ++ str1 "034" ++ " #1")); ("PROMPT", Some ("a\b" ++ nl ++ " c"))].
Proof. split; [reflexivity|]. split; [reflexivity|]. apply dotenv_values_quoted; reflexivity. Defined.

(** The same entries between double quotes. *)
Example dotenv_values_double_quoted :
  dotenv_values (quoted_text "034" [("OPENAI_API_KEY", "sk-'x' " ++ str1 "034" ++ "y" ++ str1 "034" ++ " #1");
                                    ("PROMPT", "a\b" ++ nl ++ " c")]) =
  [("OPENAI_API_KEY", Some ("sk-'x' " ++ str1 "034" ++ "y" ++ str1 "034" ++ " #1")); ("PROMPT", Some ("a\b" ++ nl ++ " c"))].
Proof. vm_compute. reflexivity. Qed.

(** C33: A quoted value that ends with a backslash, escaped as
    [decode_escapes] reads it, is not read back when a line with a value
    between the same quotes follows: the second backslash of the escape
    and the closing quote match the escaped-quote alternative, the value
    runs on to the next line's opening quote, and [_end_of_line] fails
    there, so both lines become one error binding and neither key is set;
    the text after them is read as if they were not there. *)
Theorem dotenv_values_trailing_backslash (q : ascii) (k1 v1 k2 v2 rest : string) :
  value_quote q = true -> plain_key k1 = true -> has_char backslash k2 = false -> has_char q k2 = false ->
  bare_start v2 = true -> all_chars not_eol v2 = true ->
  dotenv_values (quoted_text q [(k1, v1 ++ str1 backslash); (k2, v2)] ++ nl ++ rest) = dotenv_values rest.
Proof.
  intros Hq Hk Hb Hkq Hs Hn.
  destruct (parse_binding_swallow q k1 v1 k2 v2 rest Hq Hk Hb Hkq Hs Hn) as (b & Eb & Hbk & _).
  change (quoted_text q [(k1, v1 ++ str1 backslash); (k2, v2)])
    with (quoted_line q (k1, v1 ++ str1 backslash) ++ nl ++ quoted_line q (k2, v2)).
  rewrite <- !str_app_assoc. unfold dotenv_values, parse_stream at 1.
  rewrite parse_from_cons by (destruct k1; [discriminate | cbn; congruence]). rewrite Eb.
  cbn [flat_map]. unfold key_value at 1. rewrite Hbk. cbn [app]. unfold parse_stream. f_equal.
  apply parse_from_enough; [|lia]. rewrite !str_length_app. cbn [String.length nl str1]. lia.
Qed.

Lemma dotenv_values_trailing_backslash_witness :
  dotenv_values (quoted_text "034" [("BASE_DIR", "C:\tools" ++ str1 backslash); ("LANGSMITH_PROJECT", "bipolar")]
                 ++ nl ++ "LANGSMITH_TRACING=true") =
  dotenv_values "LANGSMITH_TRACING=true".
Proof. apply dotenv_values_trailing_backslash; reflexivity. Defined.

End Dotenv.
