(* ===== verification/Env.v ===== *)
(** * Module-level configuration (lines 25-40)

    [os.environ] is a finite map from names to values, a
    [gmap string string].  [load_dotenv] is python-dotenv's default
    ([override=False], [interpolate=True]) on the entries its
    [parse_stream] reads from the file: each value is expanded
    ([parse_variables], [resolve_variables]: [${NAME}] and
    [${NAME:-default}] take the environment's value, else the value of an
    earlier entry, else the default or the empty string), then each name
    is set only when the environment does not already have it, a name
    written without [=] (no value) is skipped, and when the file repeats a
    name the last value counts.  [load_dotenv] takes the entries
    [parse_stream] reads; [load_dotenv_found] is line 26, reading the file
    [Dotenv.find_dotenv] finds with [Dotenv.file_values].  [getenv] is
    [os.getenv(k, default)].  [copy_langsmith] is lines 29-32;
    [normalize_proxy] and [set_proxy] are lines 35-40; [configure] runs
    lines 26-40 in order.

    The theorems: variables already in the environment win over the
    [.env] file; the LANGCHAIN_* variables hold the LANGSMITH_* values or
    their defaults; a non-empty PROXY is copied, normalised, into both
    proxy variables and an empty or missing one leaves them alone; the
    normalisation is idempotent; and any value that merely starts with
    the letters "http" (a host name such as "httpbin.local:8080") is taken
    as already having a scheme; and, through the whole of lines 26-40, the
    PROXY of the [.env] found reaches both proxy variables. *)

From stdpp Require Import base gmap strings list.
From Stdlib Require Import String Ascii.
From S2P Require Import Prelude PyStr Dotenv.
Local Open Scope string_scope.

Module Env.
Import PyStr.

Abbreviation env := (gmap string string).

(** ** Definitions *)

Definition getenv (e : env) (k : string) (default : string) : string :=
  match e !! k with
  | Some v => v
  | None => default
  end.

(** python-dotenv: a name already in the environment [e0] is kept; otherwise
    the last entry of the file for that name decides, and an entry without
    a value leaves the name unset. *)
Definition dotenv_step (e0 : env) (acc : env) (entry : string * option string) : env :=
  let (k, ov) := entry in
  match e0 !! k with
  | Some _ => acc
  | None => match ov with
            | Some v => <[k := v]> acc
            | None => delete k acc
            end
  end.

(** *** Variable expansion ([dotenv.variables], [resolve_variables])

    With [interpolate=True], the default, every value is split by the
    regular expression [_posix_variable] into literals and variables: a
    variable is [${], a name of characters other than [}] and [:],
    optionally [:-] and a default of characters other than [}], and [}].  [scan_char] reads the value one
    character at a time in the states of that expression; when a partial
    match fails, its text is a literal and the failing character is read
    again from the text state, which is where the regular expression's
    next match can start. *)

(** [Literal] and [Variable] of [dotenv.variables] ([Variable] is a
    keyword of Rocq). *)
Inductive atom : Type :=
| Literal (s : string)
| Variable_ (name : string) (default : option string).

Inductive scan : Type :=
| SText
| SDollar
| SName (name : string)
| SColon (name : string)
| SDefault (name default : string).

Definition snoc (s : string) (c : ascii) : string := s ++ String c EmptyString.

(** The text read since the start of a partial match. *)
Definition pending (st : scan) : string :=
  match st with
  | SText => ""
  | SDollar => "$"
  | SName n => "${" ++ n
  | SColon n => "${" ++ n ++ ":"
  | SDefault n d => "${" ++ n ++ ":-" ++ d
  end.

Definition flush (lit : string) (acc : list atom) : list atom :=
  match lit with
  | EmptyString => acc
  | _ => Literal lit :: acc
  end.

Definition text_char (acc : list atom) (lit : string) (c : ascii) : list atom * string * scan :=
  if Ascii.eqb c "$" then (acc, lit, SDollar) else (acc, snoc lit c, SText).

Definition scan_char (acc : list atom) (lit : string) (st : scan) (c : ascii)
  : list atom * string * scan :=
  match st with
  | SText => text_char acc lit c
  | SDollar => if Ascii.eqb c "{" then (acc, lit, SName "") else text_char acc (lit ++ "$") c
  | SName n =>
      if Ascii.eqb c "}" then (Variable_ n None :: flush lit acc, "", SText)
      else if Ascii.eqb c ":" then (acc, lit, SColon n)
      else (acc, lit, SName (snoc n c))
  | SColon n =>
      if Ascii.eqb c "-" then (acc, lit, SDefault n "")
      else text_char acc (lit ++ pending st) c
  | SDefault n d =>
      if Ascii.eqb c "}" then (Variable_ n (Some d) :: flush lit acc, "", SText)
      else (acc, lit, SDefault n (snoc d c))
  end.

Fixpoint scan_from (acc : list atom) (lit : string) (st : scan) (s : string) : list atom :=
  match s with
  | EmptyString => rev (flush (lit ++ pending st) acc)
  | String c r =>
      let '(acc', lit', st') := scan_char acc lit st c in scan_from acc' lit' st' r
  end.

(** [parse_variables(value)] *)
Definition parse_variables (v : string) : list atom := scan_from [] "" SText v.

(** [atom.resolve(env)] where [env] is the values resolved so far updated
    with [os.environ] ([override=False]: the environment wins). *)
Definition resolve_atom (e : env) (nv : gmap string (option string)) (a : atom) : string :=
  match a with
  | Literal s => s
  | Variable_ n d =>
      match e !! n with
      | Some v => v
      | None =>
          match nv !! n with
          | Some (Some v) => v
          | Some None => ""
          | None => match d with Some x => x | None => "" end
          end
      end
  end.

(** [resolve_variables(values, override=False)]: each value expanded with
    the values before it. *)
Fixpoint resolve_variables (e : env) (nv : gmap string (option string))
    (file : list (string * option string)) : list (string * option string) :=
  match file with
  | [] => []
  | (k, ov) :: r =>
      let rv := match ov with
                | Some v => Some (concat "" (map (resolve_atom e nv) (parse_variables v)))
                | None => None
                end in
      (k, rv) :: resolve_variables e (<[k := rv]> nv) r
  end.

(** [load_dotenv(path)]: the entries of the file, as python-dotenv's
    [parse_stream] returns them, expanded, then set when absent. *)
Definition load_dotenv (file : list (string * option string)) (e : env) : env :=
  fold_left (dotenv_step e) (resolve_variables e ∅ file) e.

(** Lines 29-32. *)
Definition copy_langsmith (e : env) : env :=
  let e := <["LANGCHAIN_TRACING_V2" := getenv e "LANGSMITH_TRACING" "false"]> e in
  let e := <["LANGCHAIN_ENDPOINT" := getenv e "LANGSMITH_ENDPOINT" ""]> e in
  let e := <["LANGCHAIN_API_KEY" := getenv e "LANGSMITH_API_KEY" ""]> e in
  <["LANGCHAIN_PROJECT" := getenv e "LANGSMITH_PROJECT" ""]> e.

(** Lines 36-37: [if proxy and not proxy.startswith("http")]. *)
Definition normalize_proxy (p : string) : string :=
  match p with
  | EmptyString => p
  | _ => if startswith p "http" then p else "http://" +:+ p
  end.

(** Lines 35-40. *)
Definition set_proxy (e : env) : env :=
  match e !! "PROXY" with
  | None | Some EmptyString => e
  | Some p =>
      let p' := normalize_proxy p in
      <["https_proxy" := p']> (<["http_proxy" := p']> e)
  end.

(** Line 26: [load_dotenv(find_dotenv())], the file found read with
    [parse_stream] ([Dotenv.file_values]). *)
Definition load_dotenv_found (fs : Dotenv.file_system) (interactive : bool) (script_dir cwd : list string)
    (e : env) : env :=
  load_dotenv (Dotenv.file_values fs (Dotenv.find_dotenv fs interactive script_dir cwd)) e.

(** Lines 26-40. *)
Definition configure (fs : Dotenv.file_system) (interactive : bool) (script_dir cwd : list string)
    (e : env) : env :=
  set_proxy (copy_langsmith (load_dotenv_found fs interactive script_dir cwd e)).

(** ** Lemmas *)

(** A value without [$] has no variable: it expands to itself. *)
Lemma scan_from_no_dollar (acc : list atom) (lit v : string) :
  has_char "$" v = false -> scan_from acc lit SText v = rev (flush (lit ++ v) acc).
Proof.
  revert lit. induction v as [|c v IH]; intros lit Hv; cbn [scan_from].
  - cbn [pending]. now rewrite !str_app_nil_r.
  - cbn [has_char] in Hv. apply Bool.orb_false_iff in Hv as [Hc Hv].
    cbn [scan_char]. unfold text_char. rewrite Hc. rewrite IH by exact Hv. unfold snoc.
    now rewrite <- str_app_assoc.
Qed.

Lemma expand_no_dollar (e : env) (nv : gmap string (option string)) (v : string) :
  has_char "$" v = false -> concat "" (map (resolve_atom e nv) (parse_variables v)) = v.
Proof.
  intros Hv. unfold parse_variables. rewrite scan_from_no_dollar by exact Hv.
  destruct v; reflexivity.
Qed.

Lemma resolve_variables_snoc (e : env) (nv : gmap string (option string))
    (l : list (string * option string)) (k v : string) :
  has_char "$" v = false ->
  resolve_variables e nv (l ++ [(k, Some v)])%list = (resolve_variables e nv l ++ [(k, Some v)])%list.
Proof.
  intros Hv. revert nv. induction l as [|[k' ov] l IH]; intros nv; cbn [app resolve_variables].
  - now rewrite expand_no_dollar.
  - f_equal. apply IH.
Qed.

(** The last entry of the file sets a name the environment does not have. *)
Lemma load_dotenv_last (l : list (string * option string)) (e : env) (k v : string) :
  e !! k = None -> has_char "$" v = false -> load_dotenv (l ++ [(k, Some v)])%list e !! k = Some v.
Proof.
  intros Hk Hv. unfold load_dotenv. rewrite resolve_variables_snoc, fold_left_app by exact Hv.
  cbn [fold_left dotenv_step]. rewrite Hk. apply lookup_insert_eq.
Qed.

Lemma copy_langsmith_proxy (e : env) : copy_langsmith e !! "PROXY" = e !! "PROXY".
Proof. unfold copy_langsmith. now rewrite !lookup_insert_ne by discriminate. Qed.

Lemma set_proxy_set (e : env) (p : string) :
  e !! "PROXY" = Some p -> p <> "" ->
  set_proxy e !! "http_proxy" = Some (normalize_proxy p) /\ set_proxy e !! "https_proxy" = Some (normalize_proxy p).
Proof.
  intros Hp Hne. unfold set_proxy. rewrite Hp. destruct p as [|c r]; [congruence|]. split.
  - rewrite lookup_insert_ne by discriminate. apply lookup_insert_eq.
  - apply lookup_insert_eq.
Qed.

(** What [find_dotenv] found, read as plain [KEY=VALUE] lines. *)
Lemma file_values_found (fs : Dotenv.file_system) (path : string) (kvs : list (string * string)) :
  path <> "" -> Dotenv.is_file fs path = true -> Dotenv.read_text fs path = Dotenv.env_text kvs ->
  forallb Dotenv.plain_entry kvs = true ->
  Dotenv.file_values fs path = map (fun kv => (fst kv, Some (snd kv))) kvs.
Proof.
  intros Hne Hf Ht Hp. unfold Dotenv.file_values. destruct (String.eqb_spec path "") as [|_]; [congruence|].
  rewrite Hf, Ht. cbn [negb andb]. unfold Dotenv.dotenv_values, Dotenv.parse_stream.
  apply Dotenv.parse_from_plain; [exact Hp | lia].
Qed.

(** ** Theorems *)

(** [load_dotenv] never overrides: a variable already set in the
    process environment keeps its value whatever the [.env] file says. *)
Theorem load_dotenv_env_wins (file : list (string * option string)) (e : env)
    (k v : string) :
  e !! k = Some v -> load_dotenv file e !! k = Some v.
Proof.
  intros Hk. unfold load_dotenv. generalize (resolve_variables e ∅ file) as l.
  intros l.
  assert (G : forall acc, acc !! k = Some v ->
                          fold_left (dotenv_step e) l acc !! k = Some v).
  { induction l as [|[k' ov] l IH]; intros acc Hacc; simpl; [exact Hacc|].
    apply IH. unfold dotenv_step. destruct (e !! k') eqn:E; [exact Hacc|].
    assert (k' <> k) by congruence.
    destruct ov; [rewrite lookup_insert_ne | rewrite lookup_delete_ne]; auto. }
  now apply G.
Qed.

Lemma normalize_proxy_http (p : string) :
  p <> "" -> startswith (normalize_proxy p) "http" = true.
Proof.
  destruct p as [|c r]; [congruence|]. intros _. unfold normalize_proxy.
  destruct (startswith (String c r) "http") eqn:E; [exact E|].
  apply (startswith_app "http" ("://" +:+ String c r)).
Qed.

(** After lines 35-40, [http_proxy] and [https_proxy] both hold the
    normalised PROXY value when PROXY is set and non-empty, and that value
    starts with "http"; otherwise they are left as they were. *)
Theorem set_proxy_spec (e : env) (k : string) :
  k = "http_proxy" \/ k = "https_proxy" ->
  set_proxy e !! k =
    match e !! "PROXY" with
    | Some p => if String.eqb p "" then e !! k else Some (normalize_proxy p)
    | None => e !! k
    end /\
  (forall p, e !! "PROXY" = Some p -> p <> "" ->
     startswith (normalize_proxy p) "http" = true).
Proof.
  intros Hk. split; [|intros p _; apply normalize_proxy_http].
  unfold set_proxy. destruct (e !! "PROXY") as [[|c r]|]; [reflexivity| |reflexivity].
  simpl. destruct Hk as [-> | ->].
  - rewrite lookup_insert_ne by discriminate. now rewrite lookup_insert_eq.
  - now rewrite lookup_insert_eq.
Qed.

(** Normalising the proxy twice is normalising it once. *)
Theorem normalize_proxy_idem (p : string) :
  normalize_proxy (normalize_proxy p) = normalize_proxy p.
Proof.
  destruct p as [|c r]; [reflexivity|].
  pose proof (normalize_proxy_http (String c r) ltac:(discriminate)) as H.
  destruct (normalize_proxy (String c r)) as [|c' r'] eqn:E; [reflexivity|].
  unfold normalize_proxy at 1. now rewrite H.
Qed.

(** C37: A PROXY value that starts with the letters "http" is kept as it
    is, even when it is a bare host name without a scheme such as
    "httpbin.local:8080"; only other values get "http://" prepended. *)
Theorem normalize_proxy_http_prefix (r : string) :
  normalize_proxy ("http" +:+ r) = "http" +:+ r.
Proof. unfold normalize_proxy. rewrite startswith_app. reflexivity. Qed.

(** C23: Lines 26-40 together: when the nearest [.env] that [find_dotenv]
    finds is made of plain [KEY=VALUE] lines whose last one sets PROXY to a
    non-empty value without [$], and the environment has no PROXY, then
    [http_proxy] and [https_proxy] both end up holding that value,
    normalised. *)
Theorem configure_dotenv_proxy (fs : Dotenv.file_system) (interactive : bool) (script_dir cwd : list string)
    (e : env) (kvs : list (string * string)) (p : string) :
  let path := Dotenv.find_dotenv fs interactive script_dir cwd in
  path <> "" -> Dotenv.is_file fs path = true ->
  Dotenv.read_text fs path = Dotenv.env_text (kvs ++ [("PROXY", p)])%list ->
  forallb Dotenv.plain_entry (kvs ++ [("PROXY", p)])%list = true ->
  p <> "" -> has_char "$" p = false -> e !! "PROXY" = None ->
  configure fs interactive script_dir cwd e !! "http_proxy" = Some (normalize_proxy p) /\
  configure fs interactive script_dir cwd e !! "https_proxy" = Some (normalize_proxy p).
Proof.
  intros path Hne Hf Ht Hp Hpne Hd He. apply set_proxy_set; [|exact Hpne].
  rewrite copy_langsmith_proxy. unfold load_dotenv_found.
  rewrite (file_values_found fs (Dotenv.find_dotenv fs interactive script_dir cwd) _ Hne Hf Ht Hp), map_app.
  cbn [map fst snd].
  now apply load_dotenv_last.
Qed.

(** ** Witnesses *)

Lemma load_dotenv_env_wins_witness :
  load_dotenv [("PROXY", Some "file-proxy:1"); ("OTHER", None)]
    (<["PROXY" := "env-proxy:2"]> ∅) !! "PROXY" = Some "env-proxy:2".
Proof. apply load_dotenv_env_wins. vm_compute. reflexivity. Defined.

Lemma set_proxy_spec_witness :
  set_proxy (<["PROXY" := "proxy.corp:3128"]> ∅) !! "https_proxy" =
    match (<["PROXY" := "proxy.corp:3128"]> ∅ : env) !! "PROXY" with
    | Some p => if String.eqb p "" then (<["PROXY" := "proxy.corp:3128"]> ∅ : env) !! "https_proxy"
                else Some (normalize_proxy p)
    | None => (<["PROXY" := "proxy.corp:3128"]> ∅ : env) !! "https_proxy"
    end /\
  (forall p, (<["PROXY" := "proxy.corp:3128"]> ∅ : env) !! "PROXY" = Some p -> p <> "" ->
     startswith (normalize_proxy p) "http" = true).
Proof. apply set_proxy_spec. right. reflexivity. Defined.

Definition project_fs : Dotenv.file_system :=
  {| Dotenv.is_file := fun path => String.eqb path "/home/dev/scraper/.env";
     Dotenv.read_text := fun _ => Dotenv.env_text [("LANGSMITH_TRACING", "true"); ("PROXY", "proxy.corp:3128")] |}.

Lemma configure_dotenv_proxy_witness :
  configure project_fs false ["home"; "dev"; "scraper"] [] ∅ !! "http_proxy"
    = Some (normalize_proxy "proxy.corp:3128") /\
  configure project_fs false ["home"; "dev"; "scraper"] [] ∅ !! "https_proxy"
    = Some (normalize_proxy "proxy.corp:3128").
Proof.
  apply (configure_dotenv_proxy project_fs false ["home"; "dev"; "scraper"] [] ∅
           [("LANGSMITH_TRACING", "true")] "proxy.corp:3128");
    vm_compute; first [reflexivity | discriminate].
Defined.

End Env.
