(* ===== verification/Logging.v ===== *)
(** * [logging.basicConfig(level=logging.DEBUG)] (lines 19-20)

    CPython's [logging] keeps a root logger, initially at level [WARNING]
    with no handler.  [basicConfig] does its work only when the root has no
    handler: it adds a [StreamHandler] on [sys.stderr] with the format
    [BASIC_FORMAT = "%(levelname)s:%(name)s:%(message)s"] and sets the root's
    level.  A record logged through a logger ([logger.debug(msg)] and the
    like, as selenium, urllib3, httpx and LangChain do) is created when its
    level reaches the logger's effective level (the first level set along
    the chain of parents) and is handed to the handlers of every logger up
    the chain while [propagate] holds; when no handler is found at all,
    [lastResort] writes the bare message of records at [WARNING] and above
    to [sys.stderr].  No handler writes to standard output, where line 115
    prints.

    A logger is given with the chain of its parents below the root
    ([Logger.parent] in CPython); the standard output and the standard
    error are the texts written so far. *)

From Stdlib Require Import String List Arith Lia Bool.
From S2P Require Import Prelude PyStr.
Import ListNotations.
Local Open Scope string_scope.

Module Logging.

(** ** Levels, handlers and loggers *)

Inductive level : Type := NOTSET | DEBUG | INFO | WARNING | ERROR | CRITICAL.

Definition level_value (l : level) : nat :=
  match l with
  | NOTSET => 0 | DEBUG => 10 | INFO => 20 | WARNING => 30 | ERROR => 40 | CRITICAL => 50
  end.

(** [logging.getLevelName] *)
Definition level_name (l : level) : string :=
  match l with
  | NOTSET => "NOTSET" | DEBUG => "DEBUG" | INFO => "INFO"
  | WARNING => "WARNING" | ERROR => "ERROR" | CRITICAL => "CRITICAL"
  end.

Inductive stream : Type := Stdout | Stderr.

(** The two formatters of this program: [BASIC_FORMAT], and the
    [%(message)s] of [lastResort]. *)
Inductive formatter : Type := BasicFormat | MessageOnly.

Record handler : Type := { h_level : level; h_stream : stream; h_format : formatter }.

Record logger : Type := {
  lg_name : string; lg_level : level; lg_handlers : list handler; lg_propagate : bool }.

(** [logging.LogRecord]: the logger's name, the level and the message. *)
Record log_record : Type := { r_name : string; r_level : level; r_msg : string }.

Record log_state : Type := { root : logger; stdout_text : string; stderr_text : string }.

(** The root logger at import: [WARNING], no handler. *)
Definition root_at_import : logger :=
  {| lg_name := "root"; lg_level := WARNING; lg_handlers := []; lg_propagate := true |}.

(** ** [basicConfig] *)

Definition stderr_handler : handler := {| h_level := NOTSET; h_stream := Stderr; h_format := BasicFormat |}.

(** [logging.basicConfig(level=l)]: with no [force], [handlers],
    [filename] or [stream] argument. *)
Definition basic_config (l : level) (st : log_state) : log_state :=
  match lg_handlers (root st) with
  | [] =>
      {| root := {| lg_name := lg_name (root st); lg_level := l;
                    lg_handlers := [stderr_handler]; lg_propagate := lg_propagate (root st) |};
         stdout_text := stdout_text st; stderr_text := stderr_text st |}
  | _ :: _ => st
  end.

(** ** Logging a record *)

(** [Formatter.format] *)
Definition format_record (f : formatter) (r : log_record) : string :=
  match f with
  | BasicFormat => level_name (r_level r) ++ ":" ++ r_name r ++ ":" ++ r_msg r
  | MessageOnly => r_msg r
  end.

(** [StreamHandler.emit]: the formatted record and the terminator. *)
Definition emit (h : handler) (r : log_record) (st : log_state) : log_state :=
  let line := format_record (h_format h) r ++ String (Ascii.ascii_of_nat 10) "" in
  match h_stream h with
  | Stdout => {| root := root st; stdout_text := stdout_text st ++ line; stderr_text := stderr_text st |}
  | Stderr => {| root := root st; stdout_text := stdout_text st; stderr_text := stderr_text st ++ line |}
  end.

(** [Handler.handle] behind the level test of [callHandlers]. *)
Definition handle (r : log_record) (st : log_state) (h : handler) : log_state :=
  if (level_value (h_level h) <=? level_value (r_level r))%nat then emit h r st else st.

(** [Logger.callHandlers] over the chain from the logger to the root:
    the handlers found so far, and the output. *)
Fixpoint call_handlers (chain : list logger) (r : log_record) (found : nat) (st : log_state)
  : nat * log_state :=
  match chain with
  | [] => (found, st)
  | c :: rest =>
      let st' := fold_left (handle r) (lg_handlers c) st in
      let found' := found + length (lg_handlers c) in
      if lg_propagate c then call_handlers rest r found' st' else (found', st')
  end.

Definition last_resort : handler := {| h_level := WARNING; h_stream := Stderr; h_format := MessageOnly |}.

(** [Logger.getEffectiveLevel] *)
Fixpoint effective_level (chain : list logger) : level :=
  match chain with
  | [] => NOTSET
  | c :: rest => match lg_level c with NOTSET => effective_level rest | l => l end
  end.

(** [logger.log(l, msg)] for the logger whose parents below the root are
    the rest of [chain]: [isEnabledFor] ([manager.disable] is [0]), then
    [handle]. *)
Definition log (chain : list logger) (l : level) (msg : string) (st : log_state) : log_state :=
  let all := (chain ++ [root st])%list in
  let name := match chain with c :: _ => lg_name c | [] => lg_name (root st) end in
  let r := {| r_name := name; r_level := l; r_msg := msg |} in
  if ((0 <? level_value l) && (level_value (effective_level all) <=? level_value l))%nat then
    let (found, st') := call_handlers all r 0 st in
    if (found =? 0)%nat then handle r st' last_resort else st'
  else st.

(** A library's logger: no level, no handler, propagating. *)
Definition library_logger (c : logger) : bool :=
  match lg_level c with NOTSET => true | _ => false end
  && match lg_handlers c with [] => true | _ => false end && lg_propagate c.

(** ** Lemmas *)

Lemma call_handlers_library (chain : list logger) (rt : logger) (r : log_record) (found : nat)
    (st : log_state) :
  forallb library_logger chain = true ->
  call_handlers (chain ++ [rt])%list r found st = call_handlers [rt] r found st.
Proof.
  induction chain as [|c chain IH]; [reflexivity|]. cbn [forallb]. intros H.
  apply andb_prop in H as [Hc H]. unfold library_logger in Hc.
  destruct (lg_level c), (lg_handlers c) eqn:Eh, (lg_propagate c) eqn:Ep; try discriminate.
  cbn [app call_handlers]. rewrite Eh, Ep. cbn [fold_left length]. rewrite Nat.add_0_r. now apply IH.
Qed.

Lemma effective_level_library (chain : list logger) (rt : logger) :
  forallb library_logger chain = true -> effective_level (chain ++ [rt])%list = effective_level [rt].
Proof.
  induction chain as [|c chain IH]; [reflexivity|]. cbn [forallb]. intros H.
  apply andb_prop in H as [Hc H]. unfold library_logger in Hc.
  destruct (lg_level c) eqn:El; try discriminate. cbn [app effective_level]. rewrite El. now apply IH.
Qed.

(** Once the root has a handler, [basicConfig] does nothing. *)
Lemma basic_config_configured (l : level) (st : log_state) :
  lg_handlers (root st) <> [] -> basic_config l st = st.
Proof. unfold basic_config. destruct (lg_handlers (root st)); congruence. Qed.

Lemma basic_config_twice (l l' : level) (st : log_state) :
  basic_config l (basic_config l' st) = basic_config l' st.
Proof.
  apply basic_config_configured. unfold basic_config.
  destruct (lg_handlers (root st)) eqn:E; cbn; [discriminate | rewrite E; discriminate].
Qed.

(** ** Theorems *)

(** C38: [basicConfig(level=DEBUG)] makes the DEBUG records of a library's
    logger appear on standard error as [DEBUG:<logger>:<message>], and
    never on standard output, when the root logger had no handler; when it
    already had one (as under a notebook kernel that configured logging)
    the call does nothing, and with the root above DEBUG those records are
    dropped. *)
Theorem basic_config_debug (st : log_state) (c : logger) (parents : list logger) (msg : string) :
  forallb library_logger (c :: parents) = true ->
  (lg_handlers (root st) = [] ->
   stderr_text (log (c :: parents) DEBUG msg (basic_config DEBUG st))
     = stderr_text st ++ "DEBUG:" ++ lg_name c ++ ":" ++ msg ++ String (Ascii.ascii_of_nat 10) "" /\
   stdout_text (log (c :: parents) DEBUG msg (basic_config DEBUG st)) = stdout_text st) /\
  (lg_handlers (root st) <> [] -> level_value DEBUG < level_value (lg_level (root st)) ->
   log (c :: parents) DEBUG msg (basic_config DEBUG st) = st).
Proof.
  intros Hlib. split.
  - intros Hh. unfold basic_config. rewrite Hh. unfold log. cbn [root].
    rewrite (effective_level_library _ _ Hlib), (call_handlers_library _ _ _ _ _ Hlib).
    destruct (lg_propagate (root st)); cbn; rewrite <- ?str_app_assoc; split; reflexivity.
  - intros Hh Hlt. rewrite (basic_config_configured _ _ Hh). unfold log.
    rewrite (effective_level_library _ _ Hlib). cbn [effective_level].
    destruct (lg_level (root st)) eqn:El; cbn in Hlt |- *; try lia; reflexivity.
Qed.

(** ** Witness *)

Definition urllib3_logger : logger :=
  {| lg_name := "urllib3.connectionpool"; lg_level := NOTSET; lg_handlers := []; lg_propagate := true |}.

Definition at_import : log_state := {| root := root_at_import; stdout_text := ""; stderr_text := "" |}.

Lemma basic_config_debug_witness :
  stderr_text (log [urllib3_logger] DEBUG "Starting new HTTPS connection" (basic_config DEBUG at_import))
  = "" ++ "DEBUG:" ++ "urllib3.connectionpool" ++ ":" ++ "Starting new HTTPS connection"
    ++ String (Ascii.ascii_of_nat 10) "".
Proof.
  exact (proj1 (proj1 (basic_config_debug at_import urllib3_logger [] "Starting new HTTPS connection"
                         eq_refl) eq_refl)).
Defined.

End Logging.
