(* ===== verification/Url.v ===== *)
(** * The search URL of line 48

    [build_url] is
    [f"https://www.sciencedirect.com/search?qs={query.replace(' ', '%20')}"]:
    only spaces are encoded.  To say what the server reads back, [qs_value]
    is the value of the [qs] parameter as a form decoder reads it (the
    value ends at the first ['&'] or ['#']; ['+'] is a space; ["%XY"] is the
    byte XY).  It is a reference reading of the URL, not code of the
    repository.

    The theorems: the encoded query has no space; the server reads back the
    query exactly when it contains none of ['%'], ['&'], ['#'], ['+']
    ([qs_value_build_url]); a query with ['&'] is cut there
    ([qs_value_ampersand]), so the code does not percent-encode the query as
    the spec requires. *)

From Stdlib Require Import String Ascii List Bool Arith Lia.
From S2P Require Import Prelude PyStr.
Import ListNotations.
Local Open Scope string_scope.

Module Url.
Import PyStr.

(** ** Line 48 *)

Definition search_prefix : string := "https://www.sciencedirect.com/search?qs=".

Definition build_url (query : string) : string :=
  search_prefix ++ py_replace query " " "%20".

(** ** Reading the parameter back *)

Fixpoint form_decode (s : string) : string :=
  match s with
  | EmptyString => EmptyString
  | String c t =>
      if Ascii.eqb c "+" then String " " (form_decode t)
      else if Ascii.eqb c "%" then
        match t with
        | String h1 (String h2 r) =>
            match hex_val h1, hex_val h2 with
            | Some a, Some b => String (ascii_of_nat (16 * a + b)) (form_decode r)
            | _, _ => String c (form_decode t)
            end
        | _ => String c (form_decode t)
        end
      else String c (form_decode t)
  end.

(** The raw parameter: up to the first ['&'] or ['#']. *)
Fixpoint raw_param (s : string) : string :=
  match s with
  | EmptyString => EmptyString
  | String c t =>
      if Ascii.eqb c "&" || Ascii.eqb c "#" then EmptyString else String c (raw_param t)
  end.

Definition qs_value (url : string) : option string :=
  match drop_prefix search_prefix url with
  | Some rest => Some (form_decode (raw_param rest))
  | None => None
  end.

(** A character that the URL syntax treats specially. *)
Definition special (c : ascii) : bool :=
  Ascii.eqb c "%" || Ascii.eqb c "&" || Ascii.eqb c "#" || Ascii.eqb c "+".

Fixpoint no_special (s : string) : bool :=
  match s with
  | EmptyString => true
  | String c t => negb (special c) && no_special t
  end.

(** ** Lemmas *)

(** Replacing the one-character string [" "] encodes character by character. *)
Fixpoint enc (q : string) : string :=
  match q with
  | EmptyString => EmptyString
  | String c r => if Ascii.eqb c " " then "%20" ++ enc r else String c (enc r)
  end.

Lemma prefix_single (a c : ascii) (r : string) :
  String.prefix (String a "") (String c r) = Ascii.eqb c a.
Proof.
  simpl. destruct (ascii_dec a c) as [<- | Hne].
  - rewrite Ascii.eqb_refl. now destruct r.
  - destruct (Ascii.eqb_spec c a); congruence.
Qed.

Lemma py_replace_space (q : string) : py_replace q " " "%20" = enc q.
Proof.
  unfold py_replace. induction q as [|c r IH]; [reflexivity|].
  cbn [replace_from enc]. rewrite prefix_single.
  destruct (Ascii.eqb c " "); cbn [String.length Nat.sub]; now rewrite ?IH.
Qed.

Lemma enc_app (a b : string) : enc (a ++ b) = enc a ++ enc b.
Proof.
  induction a as [|c r IH]; simpl; [reflexivity|].
  rewrite IH. destruct (Ascii.eqb c " "); [reflexivity | reflexivity].
Qed.

Lemma no_special_cons (c : ascii) (t : string) :
  no_special (String c t) = true ->
  Ascii.eqb c "%" = false /\ Ascii.eqb c "&" = false /\ Ascii.eqb c "#" = false /\
  Ascii.eqb c "+" = false /\ no_special t = true.
Proof.
  simpl. unfold special. intros H. apply andb_prop in H as [Hc Ht].
  apply negb_true_iff in Hc. repeat (apply orb_false_elim in Hc as [Hc ?]). tauto.
Qed.

Lemma enc_no_special (q : string) :
  no_special q = true -> raw_param (enc q) = enc q /\ form_decode (enc q) = q.
Proof.
  induction q as [|c r IH]; [split; reflexivity|].
  intros H. destruct (no_special_cons c r H) as (Hp & Ha & Hh & Hplus & Hr).
  destruct (IH Hr) as [IH1 IH2]. simpl.
  destruct (Ascii.eqb_spec c " ") as [-> | Hsp]; simpl.
  - rewrite IH1, IH2. split; reflexivity.
  - rewrite Ha, Hh, Hplus, Hp. simpl. rewrite IH1, IH2. split; reflexivity.
Qed.

(** ** Theorems *)

(** The URL built on line 48 contains no space in the query part:
    every space of the query is replaced by ["%20"]. *)
Theorem build_url_no_space (q : string) : has_char " " (py_replace q " " "%20") = false.
Proof.
  rewrite py_replace_space. induction q as [|c r IH]; [reflexivity|].
  simpl. destruct (Ascii.eqb_spec c " ") as [-> | Hne]; simpl; [exact IH|].
  destruct (Ascii.eqb_spec c " "); [congruence | exact IH].
Qed.

(** A query with no ['%'], ['&'], ['#'] or ['+'] is read back exactly
    from the URL: [%20] decodes to the spaces that were replaced. *)
Theorem qs_value_build_url (q : string) :
  no_special q = true -> qs_value (build_url q) = Some q.
Proof.
  intros H. unfold qs_value, build_url. rewrite drop_prefix_app, py_replace_space.
  destruct (enc_no_special q H) as [-> ->]. reflexivity.
Qed.

(** C35: A query containing ['&'] is cut at the ['&']: the code only encodes
    spaces, so the server reads the text before the ['&'] as the whole
    query and the rest as another parameter. *)
Theorem qs_value_ampersand (q1 q2 : string) :
  no_special q1 = true -> qs_value (build_url (q1 ++ "&" ++ q2)) = Some q1.
Proof.
  intros H. unfold qs_value, build_url. rewrite drop_prefix_app, py_replace_space, !enc_app.
  destruct (enc_no_special q1 H) as [H1 H2].
  assert (E : forall t, raw_param (enc q1 ++ t) = enc q1 ++ raw_param t).
  { clear H1 H2. induction q1 as [|c r IH]; intros t; [reflexivity|].
    destruct (no_special_cons c r H) as (_ & Ha & Hh & _ & Hr). simpl.
    destruct (Ascii.eqb_spec c " ") as [-> | _]; simpl; [now rewrite IH|].
    rewrite Ha, Hh. simpl. now rewrite IH. }
  rewrite E. simpl. now rewrite str_app_nil_r, H2.
Qed.

(** ** Witnesses *)

Lemma qs_value_build_url_witness :
  qs_value (build_url "bipolar disorder") = Some "bipolar disorder".
Proof. apply qs_value_build_url. vm_compute. reflexivity. Defined.

Lemma qs_value_ampersand_witness :
  qs_value (build_url ("Johnson" ++ "&" ++ "Johnson bipolar")) = Some "Johnson".
Proof. apply qs_value_ampersand. vm_compute. reflexivity. Defined.

End Url.
