(* ===== verification/Rank.v ===== *)
(** * Python's [max(iterable, key=...)]

    Line 83 of [src/ScrapingWLangsmith.py] selects
    [max(results, key=lambda x: x[2])].  CPython's [min_max] keeps the
    first item, and replaces it by a later item only when the later key is
    strictly greater ([PyObject_RichCompareBool(val, maxval, Py_GT)]); an
    empty iterable raises [ValueError].  [max_from] and [py_max] model that
    loop.  [first_max] is the reference definition the spec asks for: the
    first element, in list order, whose key is the maximum of all keys.

    The theorems show that the loop implements the reference
    ([py_max_first_max]), and characterise the result by its index: it is
    an element of the list, no key is larger, and every element before it
    has a strictly smaller key ([py_max_spec]).  Keys are integers ([Z]),
    as the citation counts are. *)

From Stdlib Require Import List String ZArith Lia Permutation.
From S2P Require Import Prelude.
Import ListNotations.

Module Rank.

Section PyMax.
Context {A : Type} (key : A -> Z).

(** ** Definitions *)

(** The loop of [min_max]: [best] is the item kept so far. *)
Fixpoint max_from (best : A) (l : list A) : A :=
  match l with
  | [] => best
  | x :: r => if (key best <? key x)%Z then max_from x r else max_from best r
  end.

Definition max_empty : exc := ValueError "max() arg is an empty sequence"%string.

Definition py_max (l : list A) : res A :=
  match l with
  | [] => Raise max_empty
  | x :: r => Ok (max_from x r)
  end.

(** The reference: the largest key, then the first element carrying it. *)
Definition max_key (m : Z) (l : list A) : Z :=
  fold_left (fun m y => Z.max m (key y)) l m.

Fixpoint find_key (k : Z) (l : list A) : option A :=
  match l with
  | [] => None
  | y :: r => if (key y =? k)%Z then Some y else find_key k r
  end.

Definition first_max (l : list A) : option A :=
  match l with
  | [] => None
  | x :: r => find_key (max_key (key x) r) l
  end.

(** ** Lemmas *)

Lemma max_key_ge (m : Z) (l : list A) : (m <= max_key m l)%Z.
Proof.
  revert m. induction l as [|y r IH]; intros m; simpl; [lia|].
  specialize (IH (Z.max m (key y))). lia.
Qed.

Lemma max_key_upper (m : Z) (l : list A) (y : A) :
  In y l -> (key y <= max_key m l)%Z.
Proof.
  revert m. induction l as [|x r IH]; intros m Hin; [destruct Hin|].
  destruct Hin as [-> | Hin]; simpl.
  - pose proof (max_key_ge (Z.max m (key y)) r). lia.
  - now apply IH.
Qed.

Lemma find_key_spec (k : Z) (l : list A) (a : A) :
  find_key k l = Some a ->
  exists i, nth_error l i = Some a /\ key a = k /\
    (forall j y, (j < i)%nat -> nth_error l j = Some y -> key y <> k).
Proof.
  induction l as [|x r IH]; simpl; [discriminate|].
  destruct (Z.eqb_spec (key x) k) as [Hx|Hx].
  - intros [= <-]. exists 0%nat. split; [reflexivity|]. split; [exact Hx|]. lia.
  - intros H. destruct (IH H) as (i & Hi & Hk & Hlt). exists (S i).
    split; [exact Hi|]. split; [exact Hk|].
    intros [|j] y Hj Hy; simpl in Hy; [congruence|]. apply (Hlt j); [lia | exact Hy].
Qed.

(** The loop returns the first element of [best :: l] whose key is the
    maximum. *)
Lemma max_from_find_key (best : A) (l : list A) :
  find_key (max_key (key best) l) (best :: l) = Some (max_from best l).
Proof.
  revert best. induction l as [|x r IH]; intros best; simpl.
  - now rewrite Z.eqb_refl.
  - pose proof (max_key_ge (Z.max (key best) (key x)) r) as Hge.
    destruct (Z.ltb_spec (key best) (key x)) as [Hlt|Hle].
    + rewrite Z.max_r by lia. rewrite <- IH. simpl.
      destruct (Z.eqb_spec (key best) (max_key (key x) r)); [|reflexivity].
      rewrite Z.max_r in Hge by lia. lia.
    + rewrite Z.max_l by lia. specialize (IH best). simpl in IH |- *.
      destruct (Z.eqb_spec (key best) (max_key (key best) r)); [exact IH|].
      destruct (Z.eqb_spec (key x) (max_key (key best) r)); [|exact IH].
      rewrite Z.max_l in Hge by lia. lia.
Qed.

Lemma max_from_in (best : A) (l : list A) : In (max_from best l) (best :: l).
Proof.
  revert best. induction l as [|x r IH]; intros best; simpl; [now left|].
  destruct (key best <? key x)%Z.
  - right. apply IH.
  - destruct (IH best) as [E | E]; [now left | right; now right].
Qed.


Lemma max_key_bound (x : A) (r : list A) (y : A) :
  In y (x :: r) -> (key y <= max_key (key x) r)%Z.
Proof.
  intros [-> | Hin]; [apply max_key_ge | now apply max_key_upper].
Qed.

(** ** Theorems *)

(** C2: Python's [max] loop implements the reference selection: on a
    non-empty list it returns the first element whose key is the largest
    key, and on an empty list it raises [ValueError]. *)
Theorem py_max_first_max (l : list A) :
  py_max l = match first_max l with Some a => Ok a | None => Raise max_empty end.
Proof.
  destruct l as [|x r]; [reflexivity|]. unfold py_max, first_max. now rewrite max_from_find_key.
Qed.

Lemma py_max_index (l : list A) :
  l <> [] ->
  exists i a, py_max l = Ok a /\ nth_error l i = Some a /\
    (forall y, In y l -> (key y <= key a)%Z) /\
    (forall j y, (j < i)%nat -> nth_error l j = Some y -> (key y < key a)%Z).
Proof.
  destruct l as [|x r]; [congruence|]. intros _.
  destruct (find_key_spec _ _ _ (max_from_find_key x r)) as (i & Hi & Hk & Hlt).
  exists i, (max_from x r). split; [reflexivity|]. split; [exact Hi|].
  rewrite Hk. split; [apply max_key_bound|].
  intros j y Hj Hy. specialize (Hlt j y Hj Hy).
  pose proof (max_key_bound x r y (nth_error_In _ _ Hy)). lia.
Qed.

(** The key of the selected element, the citation count reported,
    does not depend on the order of the candidates. *)
Theorem py_max_key_perm (l l' : list A) (a a' : A) :
  Permutation l l' -> py_max l = Ok a -> py_max l' = Ok a' -> key a = key a'.
Proof.
  intros Hp Ha Ha'.
  assert (Hne : forall m b, py_max m = Ok b -> m <> []) by (now intros [|] ? ?).
  destruct (py_max_index l (Hne _ _ Ha)) as (i & b & Hb & Hib & Hub & _).
  destruct (py_max_index l' (Hne _ _ Ha')) as (i' & b' & Hb' & Hib' & Hub' & _).
  rewrite Ha in Hb. rewrite Ha' in Hb'. injection Hb as <-. injection Hb' as <-.
  apply nth_error_In in Hib, Hib'.
  pose proof (Hub a' (Permutation_in _ (Permutation_sym Hp) Hib')).
  pose proof (Hub' a (Permutation_in _ Hp Hib)). lia.
Qed.

(** On a non-empty list, [max(l, key=k)] returns the element at some
    index [i] such that no element has a larger key and every element
    before index [i] has a strictly smaller key: ties go to the earliest. *)
Theorem py_max_spec (l : list A) :
  l <> [] ->
  exists i a, py_max l = Ok a /\ nth_error l i = Some a /\
    (forall y, In y l -> (key y <= key a)%Z) /\
    (forall j y, (j < i)%nat -> nth_error l j = Some y -> (key y < key a)%Z).
Proof. apply py_max_index. Qed.

End PyMax.

(** ** Witnesses *)

(** Keys 120, 45, 300, 300: the first 300 (index 2) is chosen. *)
Lemma py_max_spec_witness :
  exists i a, py_max (fun z => z) [120; 45; 300; 300]%Z = Ok a /\
    nth_error [120; 45; 300; 300]%Z i = Some a /\
    (forall y, In y [120; 45; 300; 300]%Z -> (y <= a)%Z) /\
    (forall j y, (j < i)%nat -> nth_error [120; 45; 300; 300]%Z j = Some y -> (y < a)%Z).
Proof. apply (py_max_spec (fun z => z)). discriminate. Defined.

Lemma py_max_key_perm_witness :
  (fun z : Z => z) 300%Z = (fun z : Z => z) 300%Z.
Proof.
  apply (py_max_key_perm (fun z => z) [120; 300; 45]%Z [300; 45; 120]%Z).
  - apply (Permutation_trans (l' := [300; 120; 45]%Z)); [apply perm_swap|].
    apply perm_skip, perm_swap.
  - reflexivity.
  - reflexivity.
Defined.

End Rank.
