(* ===== verification/Dom.v ===== *)
(** * The document tree and the CSS selection used on lines 62-71

    [BeautifulSoup(page, "html.parser")] (line 62) gives a tree of tags,
    strings and comments; tag and attribute names are lower case and each
    tag carries its attribute dictionary.  [node] is that tree; the
    [BeautifulSoup] object itself is the root tag named ["[document]"]
    ([soup_root]).  A [handle] is a tag together with its chain of parents
    (nearest first), which is what [Tag.parent] gives soupsieve.

    The selectors of the code are a type selector with classes
    ([article.result-item-content], [span.CitationCount]) and a
    descendant combinator ([h2 a]).  A [selector] is a [subject] compound and the
    compounds of its [context], nearest first: [h2 a] has subject [a] and
    context [[h2]].  soupsieve matches the context by walking up the parents
    ([match_past_relations]); [ancestors_match] takes the nearest matching
    parent for each context compound, and [ancestors_match_spec] shows this
    greedy walk decides the descendant-combinator semantics [anc_spec].

    [select] is [Tag.select]: the matching descendants of the tag (not the
    tag itself), in document order; [select_one] is its first element.
    [get_text] is [Tag.text]: the tag's strings in document order,
    comments excluded, and the strings under a [script], [style],
    [template], [rt] or [rp] tag excluded too, since bs4 gives them a
    string class of their own that [.text] of another tag skips.  [getitem] is [tag[key]], which raises [KeyError]
    when the attribute is absent.  The [class] attribute is split on
    whitespace as BeautifulSoup does for multi-valued attributes.  A
    [CData] string, a [Text] node of the tree, is given the class of the
    string container around it, while bs4 keeps it a [CData] that
    [.text] reads: a marked section inside [template], [rt] or [rp]. *)

From Stdlib Require Import String List Bool Arith Lia.
From S2P Require Import Prelude PyStr.
Import ListNotations.
Local Open Scope string_scope.

Module Dom.
Import PyStr.

(** ** The tree *)

Scheme All for list.

Inductive node : Type :=
| Elem (name : string) (attrs : list (string * string)) (kids : list node)
| Text (s : string)
| Comment (s : string).

Definition handle : Type := (list node * node)%type.

Definition soup_root (top : list node) : node := Elem "[document]" [] top.

Fixpoint attr_lookup (k : string) (attrs : list (string * string)) : option string :=
  match attrs with
  | [] => None
  | (k', v) :: r => if String.eqb k k' then Some v else attr_lookup k r
  end.

(** [tag[key]] *)
Definition getitem (n : node) (k : string) : res string :=
  match n with
  | Elem _ attrs _ =>
      match attr_lookup k attrs with
      | Some v => Ok v
      | None => Raise (KeyError k)
      end
  | _ => Raise (KeyError k)
  end.

Definition classes (n : node) : list string :=
  match n with
  | Elem _ attrs _ =>
      match attr_lookup "class" attrs with
      | Some v => split_ws v
      | None => []
      end
  | _ => []
  end.

(** bs4's [HTMLTreeBuilder.DEFAULT_STRING_CONTAINERS]: a string created
    while one of these tags is the innermost open one of them is a
    [RubyTextString], [RubyParenthesisString], [Stylesheet], [Script] or
    [TemplateString] instead of a [NavigableString]. *)
Definition string_containers : list string := ["rt"; "rp"; "style"; "script"; "template"].

Definition container_of (n : node) : option string :=
  match n with
  | Elem name _ _ => if existsb (String.eqb name) string_containers then Some name else None
  | _ => None
  end.

(** The class of the strings created under the open tags [anc], innermost
    first ([BeautifulSoup.string_container]): the innermost string
    container, or [None] for [NavigableString]. *)
Fixpoint string_class (anc : list node) : option string :=
  match anc with
  | [] => None
  | a :: r => match container_of a with Some c => Some c | None => string_class r end
  end.

Definition same_class (a b : option string) : bool :=
  match a, b with
  | None, None => true
  | Some x, Some y => String.eqb x y
  | _, _ => false
  end.

(** The strings of class [want] below [n], whose own strings, when [n] is
    not a string container, are of class [cur]; comments are never read. *)
Fixpoint strings_of (want cur : option string) (n : node) : string :=
  match n with
  | Elem _ _ kids =>
      let cur' := match container_of n with Some c => Some c | None => cur end in
      (fix go (l : list node) : string :=
         match l with
         | [] => ""
         | k :: r => strings_of want cur' k ++ go r
         end) kids
  | Text s => if same_class want cur then s else ""
  | Comment _ => ""
  end.

(** [Tag.text], that is [get_text()] with [types=PageElement.default]:
    the strings below the tag, in document order, whose class is one of
    the tag's [interesting_string_types], its own string class for a
    string container and [NavigableString] (or [CData]) for any other
    tag. *)
Definition get_text (h : handle) : string :=
  strings_of (container_of (snd h)) (string_class (fst h)) (snd h).

(** ** Selectors *)

Record compound : Type := {
  c_tag : option string;
  c_classes : list string
}.

Record selector : Type := {
  subject : compound;
  context : list compound
}.

Definition matches_compound (c : compound) (n : node) : bool :=
  match n with
  | Elem name _ _ =>
      match c_tag c with
      | Some t => String.eqb t name
      | None => true
      end
      && forallb (fun k => existsb (String.eqb k) (classes n)) (c_classes c)
  | _ => false
  end.

(** Each context compound is matched by the nearest remaining parent that
    matches it. *)
Fixpoint ancestors_match (cs : list compound) (ancs : list node) : bool :=
  match cs with
  | [] => true
  | c :: cs' =>
      match ancs with
      | [] => false
      | a :: ancs' =>
          if matches_compound c a then ancestors_match cs' ancs'
          else ancestors_match cs ancs'
      end
  end.

Definition matches (sel : selector) (h : handle) : bool :=
  matches_compound (subject sel) (snd h) && ancestors_match (context sel) (fst h).

(** ** Traversal in document order *)

(** The tags of the subtree of [n] (itself first), each with its parents. *)
Fixpoint elems (ancs : list node) (n : node) : list handle :=
  match n with
  | Elem _ _ kids =>
      (ancs, n) ::
      (fix go (l : list node) : list handle :=
         match l with
         | [] => []
         | k :: r => (elems (n :: ancs) k ++ go r)%list
         end) kids
  | _ => []
  end.

(** The tags strictly below the handle. *)
Definition descendants (h : handle) : list handle :=
  match snd h with
  | Elem _ _ kids => flat_map (elems (snd h :: fst h)) kids
  | _ => []
  end.

(** [tag.select(sel)] and [tag.select_one(sel)] *)
Definition select (sel : selector) (h : handle) : list handle :=
  filter (matches sel) (descendants h).

Definition select_one (sel : selector) (h : handle) : option handle :=
  match select sel h with
  | [] => None
  | x :: _ => Some x
  end.

(** The three selectors of the code. *)
Definition tag (t : string) : compound := {| c_tag := Some t; c_classes := [] |}.

Definition sel_articles : selector :=
  {| subject := {| c_tag := Some "article"; c_classes := ["result-item-content"] |};
     context := [] |}.

Definition sel_title : selector := {| subject := tag "a"; context := [tag "h2"] |}.

Definition sel_citation : selector :=
  {| subject := {| c_tag := Some "span"; c_classes := ["CitationCount"] |};
     context := [] |}.

(** ** The descendant combinator *)

(** [anc_spec cs ancs]: the compounds [cs] (nearest first) are matched by
    parents taken from [ancs] in order, any parents skipped. *)
Inductive anc_spec : list compound -> list node -> Prop :=
| anc_nil ancs : anc_spec [] ancs
| anc_here c cs a ancs :
    matches_compound c a = true -> anc_spec cs ancs -> anc_spec (c :: cs) (a :: ancs)
| anc_skip c cs a ancs : anc_spec (c :: cs) ancs -> anc_spec (c :: cs) (a :: ancs).

Lemma ancestors_match_mono (ancs : list node) :
  (forall c cs, ancestors_match (c :: cs) ancs = true -> ancestors_match cs ancs = true) /\
  (forall cs a, ancestors_match cs ancs = true -> ancestors_match cs (a :: ancs) = true).
Proof.
  induction ancs as [|b ancs [IHp IHq]].
  - split; [intros c cs H; discriminate H|]. intros [|c cs] a H; [reflexivity | discriminate H].
  - assert (P : forall c cs, ancestors_match (c :: cs) (b :: ancs) = true ->
                             ancestors_match cs (b :: ancs) = true).
    { intros c cs. simpl. destruct (matches_compound c b); intros H; apply IHq; eauto. }
    split; [exact P|]. intros [|c cs] a H; [reflexivity|]. simpl.
    destruct (matches_compound c a); [exact (P c cs H) | exact H].
Qed.

(** C26: The greedy walk up the parents used for the descendant combinator
    decides the combinator's meaning: the context compounds are matched,
    in order, by some of the element's ancestors. *)
Theorem ancestors_match_spec (cs : list compound) (ancs : list node) :
  ancestors_match cs ancs = true <-> anc_spec cs ancs.
Proof.
  split.
  - revert cs. induction ancs as [|a ancs IH]; intros [|c cs] H;
      [constructor | discriminate | constructor |].
    simpl in H. destruct (matches_compound c a) eqn:E.
    + apply anc_here; [exact E | now apply IH].
    + apply anc_skip. now apply IH.
  - induction 1 as [ancs|c cs a ancs Hm _ IH|c cs a ancs _ IH]; simpl.
    + destruct ancs; reflexivity.
    + now rewrite Hm.
    + destruct (matches_compound c a); [|exact IH].
      now apply (proj1 (ancestors_match_mono ancs)) in IH.
Qed.

End Dom.
