(* ===== verification/Extract.v ===== *)
(** * Extraction and ranking of the result page (lines 62-84)

    Given the tree [BeautifulSoup] built from the page source, the code
    selects [article.result-item-content] (line 63), keeps the first ten
    (line 66), and for each builds the tuple (title, link, citations)
    (lines 67-78): [extract_one] is one iteration of the loop and
    [extract_all] the loop; an exception raised inside an iteration leaves
    the loop and the function.  [page_results] is lines 62-78.
    [scrape_page] is lines 63-84: ["No articles found."] for an empty
    result list, else [max] by citation count and the f-string of line 84.

    The theorems show: the selection of the most cited record with the
    earliest index on ties; the ten-article cap and the document order of
    the records; the empty outcome; that an article whose title anchor
    has no [href] makes the whole page raise [KeyError('href')]; and the
    fields of each record on each branch of lines 68-71: the sentinels
    "No Title" and an empty link exactly when the title anchor is missing,
    the stripped anchor text and the site's address with the [href]
    otherwise. *)

From Stdlib Require Import String List ZArith Lia Bool.
From S2P Require Import Prelude PyStr PyInt Rank Dom.
Import ListNotations.
Local Open Scope string_scope.
Local Open Scope py_scope.

Module Extract.
Import PyStr PyInt Rank Dom.

(** ** Records *)

(** The tuple [(title, link, citations_int)] of line 78. *)
Record candidate : Type := {
  title : string;
  link : string;
  citations : Z
}.

Definition base_url : string := "https://www.sciencedirect.com".

(** ** One iteration: lines 67-78 *)

Definition extract_one (art : handle) : res candidate :=
  let title_tag := select_one sel_title art in
  let t := match title_tag with
           | Some h => strip (get_text h)
           | None => "No Title"
           end in
  l <- match title_tag with
       | Some h => href <- getitem (snd h) "href" ;; Ok (base_url ++ href)
       | None => Ok ""
       end ;;
  let citation_tag := select_one sel_citation art in
  let c := match citation_tag with
           | Some h => strip (get_text h)
           | None => "0"
           end in
  ci <- citations_int c ;;
  Ok {| title := t; link := l; citations := ci |}.

(** ** The loop: lines 65-78 *)

Fixpoint extract_all (arts : list handle) : res (list candidate) :=
  match arts with
  | [] => Ok []
  | a :: r =>
      c <- extract_one a ;;
      cs <- extract_all r ;;
      Ok (c :: cs)
  end.

(** [soup.select("article.result-item-content")] on the parsed page. *)
Definition articles (top : list node) : list handle :=
  select sel_articles ([], soup_root top).

Definition page_results (top : list node) : res (list candidate) :=
  extract_all (firstn 10 (articles top)).

(** ** The outcome: lines 80-84 *)

Definition format_result (m : candidate) : res string :=
  s <- py_str_int (citations m) ;;
  Ok (title m ++ " (" ++ s ++ " citations): " ++ link m).

Definition no_articles : string := "No articles found.".

Definition scrape_page (top : list node) : res string :=
  results <- page_results top ;;
  match results with
  | [] => Ok no_articles
  | _ :: _ =>
      most <- py_max citations results ;;
      format_result most
  end.

(** ** Lemmas *)

Lemma extract_all_Forall2 (arts : list handle) (cs : list candidate) :
  extract_all arts = Ok cs <-> Forall2 (fun a c => extract_one a = Ok c) arts cs.
Proof.
  revert cs. induction arts as [|a r IH]; intros cs; simpl.
  - split; [intros [= <-]; constructor | intros H; inversion H; reflexivity].
  - split.
    + destruct (extract_one a) as [c|e] eqn:Ea; [|discriminate]. simpl.
      destruct (extract_all r) as [cs'|e]; [|discriminate]. intros [= <-].
      constructor; [exact Ea | now apply IH].
    + intros H. inversion H as [|a' c l l' Hc Hr]; subst.
      rewrite Hc. simpl. apply IH in Hr. now rewrite Hr.
Qed.

(** The only exception an iteration can raise is the [KeyError] of
    [title_tag["href"]]: the citation parsing never raises. *)
Lemma extract_one_raise (a : handle) (e : exc) :
  extract_one a = Raise e -> e = KeyError "href".
Proof.
  unfold extract_one. destruct (select_one sel_title a) as [h|].
  - unfold getitem. destruct (snd h) as [nm attrs kids| |]; simpl;
      try (intros [= <-]; reflexivity).
    destruct (attr_lookup "href" attrs); simpl; [|intros [= <-]; reflexivity].
    destruct (citations_int_ok
      (match select_one sel_citation a with Some h0 => strip (get_text h0) | None => "0" end))
      as [z ->].
    discriminate.
  - simpl. destruct (citations_int_ok
      (match select_one sel_citation a with Some h0 => strip (get_text h0) | None => "0" end))
      as [z ->].
    discriminate.
Qed.

Lemma extract_all_raise (arts : list handle) (e : exc) :
  extract_all arts = Raise e -> e = KeyError "href".
Proof.
  induction arts as [|a r IH]; simpl; [discriminate|].
  destruct (extract_one a) as [c|e'] eqn:E; simpl; [|intros [= <-]; eapply extract_one_raise, E].
  destruct (extract_all r); simpl; [discriminate | intros [= <-]; now apply IH].
Qed.

Lemma extract_all_some_raise (arts : list handle) (a : handle) (e : exc) :
  In a arts -> extract_one a = Raise e -> extract_all arts = Raise (KeyError "href").
Proof.
  intros Hin Ha. destruct (extract_all arts) as [cs|e'] eqn:E.
  - apply extract_all_Forall2 in E. destruct (Forall2_in_left _ _ _ _ E Hin) as (c & _ & Hc). congruence.
  - now rewrite (extract_all_raise _ _ E).
Qed.

Lemma page_results_nth (top : list node) (rs : list candidate) (i : nat) (c : candidate) :
  page_results top = Ok rs -> nth_error rs i = Some c ->
  (i < 10)%nat /\ exists a, nth_error (articles top) i = Some a /\ extract_one a = Ok c.
Proof.
  unfold page_results. intros H Hc. apply extract_all_Forall2 in H.
  destruct (Forall2_nth_error _ _ _ _ _ H Hc) as (a & Ha & Hac).
  rewrite nth_error_firstn in Ha.
  destruct (Nat.ltb_spec i 10); [|discriminate]. split; [assumption|]. eauto.
Qed.

Lemma base_url_app_nonempty (href : string) : base_url ++ href <> "".
Proof. discriminate. Qed.

(** The fields of the record one iteration builds, on each branch of the
    conditional expressions of lines 68-71. *)
Lemma extract_one_fields (a : handle) (c : candidate) :
  extract_one a = Ok c ->
  (link c = "" <-> select_one sel_title a = None) /\
  match select_one sel_title a with
  | None => title c = "No Title"
  | Some h => title c = strip (get_text h) /\
              exists href, getitem (snd h) "href" = Ok href /\ link c = base_url ++ href
  end /\
  citations_int (match select_one sel_citation a with Some h => strip (get_text h) | None => "0" end)
    = Ok (citations c).
Proof.
  unfold extract_one. destruct (select_one sel_title a) as [h|]; cbn -[base_url strip].
  - destruct (getitem (snd h) "href") as [href|e]; cbn -[base_url strip]; [|discriminate].
    destruct (citations_int _); cbn -[base_url strip]; [|discriminate]. intros [= <-]. cbn.
    split; [split; [intros E; exfalso; exact (base_url_app_nonempty href E) | discriminate]|].
    split; [split; [reflexivity | eauto] | reflexivity].
  - destruct (citations_int _); simpl; [|discriminate]. intros [= <-]. cbn.
    split; [tauto|]. split; reflexivity.
Qed.

Lemma format_result_ok (m : candidate) (s : string) :
  py_int s = Ok (citations m) -> exists out, format_result m = Ok out.
Proof.
  intros H. unfold format_result. destruct (py_int_str_bounded _ _ H) as [out ->]. simpl. eauto.
Qed.

Lemma extract_one_str_ok (a : handle) (c : candidate) :
  extract_one a = Ok c -> exists s, py_str_int (citations c) = Ok s.
Proof.
  unfold extract_one. intros H.
  repeat match type of H with
         | res_bind ?r _ = Ok _ =>
             let E := fresh "E" in destruct r eqn:E; simpl in H; [|discriminate H]
         end.
  injection H as <-. simpl. eapply citations_int_str_ok; eassumption.
Qed.

Lemma scrape_page_results (top : list node) (rs : list candidate) (m : candidate) :
  page_results top = Ok rs -> rs <> [] -> py_max citations rs = Ok m ->
  exists s, py_str_int (citations m) = Ok s /\
    scrape_page top = Ok (title m ++ " (" ++ s ++ " citations): " ++ link m).
Proof.
  intros Hr Hne Hm. unfold scrape_page. rewrite Hr. simpl.
  destruct rs as [|r0 rs']; [congruence|]. rewrite Hm. simpl.
  apply extract_all_Forall2 in Hr.
  pose proof (Rank.max_from_in citations r0 rs') as Hin. simpl in Hm. injection Hm as Hm.
  rewrite Hm in Hin. destruct (Forall2_in_left (fun c a => extract_one a = Ok c) _ _ m
    (Forall2_flip Hr) Hin) as (a & _ & Ha).
  destruct (extract_one_str_ok a m Ha) as [s Hs]. exists s. split; [exact Hs|].
  unfold format_result. now rewrite Hs.
Qed.

(** ** Theorems *)

(** C1: When the page yields a non-empty list of records, the tool's text
    names a record with the largest citation count, and every record before
    it in document order has a strictly smaller count (the first of the
    tied records wins). *)
Theorem scrape_page_most_cited (top : list node) (rs : list candidate) :
  page_results top = Ok rs -> rs <> [] ->
  exists i m s, nth_error rs i = Some m /\
    (forall y, In y rs -> (citations y <= citations m)%Z) /\
    (forall j y, (j < i)%nat -> nth_error rs j = Some y -> (citations y < citations m)%Z) /\
    py_str_int (citations m) = Ok s /\
    scrape_page top = Ok (title m ++ " (" ++ s ++ " citations): " ++ link m).
Proof.
  intros Hr Hne.
  destruct (py_max_index citations rs Hne) as (i & m & Hm & Hi & Hub & Hlt).
  destruct (scrape_page_results top rs m Hr Hne Hm) as (s & Hs & Hout).
  exists i, m, s. auto.
Qed.

(** C8: Only the first ten matching articles are read, in document order:
    the record list has [min 10 n] entries for [n] matching articles, and
    the [i]-th record is extracted from the [i]-th article. *)
Theorem page_results_first_ten (top : list node) (rs : list candidate) :
  page_results top = Ok rs ->
  length rs = Nat.min 10 (length (articles top)) /\
  (forall i c, nth_error rs i = Some c ->
     (i < 10)%nat /\ exists a, nth_error (articles top) i = Some a /\ extract_one a = Ok c).
Proof.
  intros H. split; [|intros i c; now apply page_results_nth].
  unfold page_results in H. apply extract_all_Forall2 in H.
  rewrite <- (Forall2_length H), length_firstn. reflexivity.
Qed.

(** C9: An article among the first ten whose title anchor [h2 a] has no
    [href] attribute makes the whole page raise [KeyError('href')]: the
    code does not fall back to an empty link. *)
Theorem scrape_page_missing_href (top : list node) (a h : handle) :
  In a (firstn 10 (articles top)) -> select_one sel_title a = Some h ->
  getitem (snd h) "href" = Raise (KeyError "href") ->
  scrape_page top = Raise (KeyError "href").
Proof.
  intros Hin Ht Hh. unfold scrape_page, page_results.
  assert (Ha : extract_one a = Raise (KeyError "href"))
    by (unfold extract_one; now rewrite Ht, Hh).
  now rewrite (extract_all_some_raise _ _ _ Hin Ha).
Qed.

Lemma scrape_page_raise_href (top : list node) (e : exc) :
  scrape_page top = Raise e -> e = KeyError "href".
Proof.
  unfold scrape_page. destruct (page_results top) as [rs|e'] eqn:Hr; simpl;
    [|intros [= <-]; eapply extract_all_raise, Hr].
  destruct rs as [|r0 rs']; [discriminate|].
  destruct (py_max citations (r0 :: rs')) as [m|e'] eqn:Hm; [|discriminate].
  destruct (scrape_page_results top (r0 :: rs') m Hr ltac:(discriminate) Hm) as (s & Hs & _).
  simpl. unfold format_result. rewrite Hs. discriminate.
Qed.

(** The only exception the extraction and ranking can raise is that
    [KeyError('href')]: citation texts never make it fail, and printing the
    selected count never exceeds the digit limit. *)
Theorem scrape_page_raise (top : list node) (e : exc) :
  scrape_page top = Raise e -> e = KeyError "href".
Proof. apply scrape_page_raise_href. Qed.

(** C21: Each record the loop of lines 65-78 builds comes from the
    article at its index, field by field: its link is empty exactly when
    the article has no title anchor [h2 a]; then its title is the
    sentinel "No Title"; otherwise the title is the anchor's text
    stripped and the link is ["https://www.sciencedirect.com"] followed
    by the anchor's [href]; and the count is what [citations_int] makes of
    the stripped text of the citation span, or of ["0"] without one. *)
Theorem page_results_fields (top : list node) (rs : list candidate) (i : nat) (c : candidate) :
  page_results top = Ok rs -> nth_error rs i = Some c ->
  exists a, nth_error (articles top) i = Some a /\
    (link c = "" <-> select_one sel_title a = None) /\
    match select_one sel_title a with
    | None => title c = "No Title"
    | Some h => title c = strip (get_text h) /\
                exists href, getitem (snd h) "href" = Ok href /\ link c = base_url ++ href
    end /\
    citations_int (match select_one sel_citation a with Some h => strip (get_text h) | None => "0" end)
      = Ok (citations c).
Proof.
  intros Hr Hc. destruct (page_results_nth top rs i c Hr Hc) as (_ & a & Ha & Hac).
  exists a. split; [exact Ha | exact (extract_one_fields a c Hac)].
Qed.

(** ** Fixtures: result pages shaped like ScienceDirect's *)

Definition fixture_article (t : string) (href : option string) (cit : option string) : node :=
  Elem "article" [("class", "result-item-content")]
    ([Elem "h2" [] [Elem "a" (match href with Some h => [("href", h)] | None => [] end) [Text t]]]
     ++ match cit with
        | Some c => [Elem "div" [] [Elem "span" [("class", "CitationCount")] [Text c]]]
        | None => []
        end)%list.

Definition fixture_page (arts : list node) : list node :=
  [Elem "html" [] [Elem "body" [] [Elem "ol" [("class", "search-result-wrapper")] arts]]].

Definition page_three : list node :=
  fixture_page [fixture_article "A" (Some "/a") (Some " 120 ");
                fixture_article "B" (Some "/b") (Some "45");
                fixture_article "C" (Some "/c") (Some "300")].

Definition records_three : list candidate :=
  [{| title := "A"; link := "https://www.sciencedirect.com/a"; citations := 120 |};
   {| title := "B"; link := "https://www.sciencedirect.com/b"; citations := 45 |};
   {| title := "C"; link := "https://www.sciencedirect.com/c"; citations := 300 |}].

Definition page_twelve : list node :=
  fixture_page (map (fun n => fixture_article "T" (Some "/t") (Some (if Nat.even n then "1" else "2")))
                    (seq 0 12)).

Definition records_of (top : list node) : list candidate :=
  match page_results top with Ok rs => rs | Raise _ => [] end.

Definition page_nohref : list node :=
  fixture_page [fixture_article "A" (Some "/a") (Some "7"); fixture_article "B" None (Some "9")].

Definition second_article (top : list node) : handle :=
  nth 1 (articles top) ([], Text "").

Definition title_of (a : handle) : handle :=
  match select_one sel_title a with Some h => h | None => ([], Text "") end.

(** The end-to-end scenarios of the spec. *)
Example scenario_three_articles :
  scrape_page page_three = Ok "C (300 citations): https://www.sciencedirect.com/c".
Proof. vm_compute. reflexivity. Qed.

Example scenario_missing_count :
  scrape_page (fixture_page [fixture_article "A" (Some "/a") None])
  = Ok "A (0 citations): https://www.sciencedirect.com/a".
Proof. vm_compute. reflexivity. Qed.

Example scenario_no_articles : scrape_page (fixture_page []) = Ok "No articles found.".
Proof. vm_compute. reflexivity. Qed.

Example scenario_tie :
  scrape_page (fixture_page [fixture_article "A" (Some "/a") (Some "50");
                             fixture_article "B" (Some "/b") (Some "50")])
  = Ok "A (50 citations): https://www.sciencedirect.com/a".
Proof. vm_compute. reflexivity. Qed.

(** ** Witnesses *)

Lemma scrape_page_most_cited_witness :
  exists i m s, nth_error records_three i = Some m /\
    (forall y, In y records_three -> (citations y <= citations m)%Z) /\
    (forall j y, (j < i)%nat -> nth_error records_three j = Some y ->
                 (citations y < citations m)%Z) /\
    py_str_int (citations m) = Ok s /\
    scrape_page page_three = Ok (title m ++ " (" ++ s ++ " citations): " ++ link m).
Proof. apply scrape_page_most_cited; [vm_compute; reflexivity | discriminate]. Defined.

Lemma page_results_first_ten_witness :
  length (records_of page_twelve) = Nat.min 10 (length (articles page_twelve)) /\
  (forall i c, nth_error (records_of page_twelve) i = Some c ->
     (i < 10)%nat /\ exists a, nth_error (articles page_twelve) i = Some a /\ extract_one a = Ok c).
Proof. apply page_results_first_ten. vm_compute. reflexivity. Defined.

Lemma scrape_page_missing_href_witness : scrape_page page_nohref = Raise (KeyError "href").
Proof.
  apply (scrape_page_missing_href page_nohref (second_article page_nohref)
           (title_of (second_article page_nohref))).
  - vm_compute. right. left. reflexivity.
  - vm_compute. reflexivity.
  - vm_compute. reflexivity.
Defined.

Lemma scrape_page_raise_witness : KeyError "href" = KeyError "href".
Proof. apply (scrape_page_raise page_nohref). vm_compute. reflexivity. Defined.

(** A page whose first article has no title anchor and whose second has a
    padded title. *)
Definition page_mixed : list node :=
  fixture_page [Elem "article" [("class", "result-item-content")]
                  [Elem "span" [("class", "CitationCount")] [Text "7"]];
                fixture_article "  D  " (Some "/d") None].

Definition record_d : candidate :=
  {| title := "D"; link := "https://www.sciencedirect.com/d"; citations := 0 |}.

Lemma page_results_fields_witness :
  exists a, nth_error (articles page_mixed) 1 = Some a /\
    (link record_d = "" <-> select_one sel_title a = None) /\
    match select_one sel_title a with
    | None => title record_d = "No Title"
    | Some h => title record_d = strip (get_text h) /\
                exists href, getitem (snd h) "href" = Ok href /\ link record_d = base_url ++ href
    end /\
    citations_int (match select_one sel_citation a with Some h => strip (get_text h) | None => "0" end)
      = Ok (citations record_d).
Proof.
  apply (page_results_fields page_mixed (records_of page_mixed)); vm_compute; reflexivity.
Defined.

End Extract.
