(* ===== verification/Repr.v ===== *)
(** * What line 115 prints: [print(response)]

    [response] is the dictionary [{"input": ..., "output": ...}] returned
    by [agent.invoke]; [print] writes [repr] of it and a newline.  CPython's
    [dict.__repr__] writes ["{"], the [repr(key) + ": " + repr(value)] of
    each item joined by [", "], and ["}"]; [str.__repr__]
    ([unicode_repr] in [Objects/unicodeobject.c]) picks the quote (a double
    quote when the text has a single quote and no double quote, else a
    single quote), escapes that quote and the backslash, writes [\t],
    [\n], [\r], writes the other characters below U+0020, U+007F and the
    non-printable Latin-1 characters (U+0080..U+00A0 and U+00AD) as
    [\xhh], and copies the rest.

    [lex_str] reads a Python string literal back (the escapes [repr]
    writes, and upper-case hex digits); it is the reference reading of the
    printed text, not code of the repository.  The theorems: [repr] of a
    string reads back as that string whatever follows it, and the printed
    response reads back as the input and the agent's answer. *)

From Stdlib Require Import String Ascii List Bool Arith Lia.
From S2P Require Import Prelude PyStr.
Import ListNotations.
Local Open Scope string_scope.

Module Repr.
Import PyStr.

(** ** [repr] of a [str] *)

Definition q_single : ascii := "039"%char.
Definition q_double : ascii := "034"%char.
Definition backslash : ascii := "092"%char.

Definition hex_char (k : nat) : ascii :=
  if (k <? 10)%nat then ascii_of_nat (48 + k) else ascii_of_nat (87 + k).

(** [\xhh], lower-case digits. *)
Definition hex_escape (c : ascii) : string :=
  let n := nat_of_ascii c in
  String backslash (String "x" (String (hex_char (n / 16)) (String (hex_char (n mod 16)) ""))).

Definition repr_quote (s : string) : ascii :=
  if has_char q_single s && negb (has_char q_double s) then q_double else q_single.

(** One character of the text, quoted with [q]. *)
Definition escape_char (q c : ascii) : string :=
  let n := nat_of_ascii c in
  if Ascii.eqb c q || Ascii.eqb c backslash then String backslash (String c "")
  else if (n =? 9)%nat then String backslash "t"
  else if (n =? 10)%nat then String backslash "n"
  else if (n =? 13)%nat then String backslash "r"
  else if ((n <? 32) || (n =? 127))%nat then hex_escape c
  else if (n <? 127)%nat then String c ""
  else if ((n <=? 160) || (n =? 173))%nat then hex_escape c
  else String c "".

Fixpoint escape_all (q : ascii) (s : string) : string :=
  match s with
  | EmptyString => EmptyString
  | String c r => escape_char q c ++ escape_all q r
  end.

(** [repr(s)] *)
Definition py_repr (s : string) : string :=
  let q := repr_quote s in String q (escape_all q s ++ String q "").

(** [repr(d)] of a dictionary of strings, items in insertion order. *)
Definition dict_repr (kvs : list (string * string)) : string :=
  "{" ++ join ", " (map (fun kv => py_repr (fst kv) ++ ": " ++ py_repr (snd kv)) kvs) ++ "}".

(** [print(x)] writes [str(x)] and a newline. *)
Definition print_text (s : string) : string := s ++ String (ascii_of_nat 10) "".

(** ** Reading a string literal back *)

Definition cons_lex (c : ascii) (o : option (string * string)) : option (string * string) :=
  match o with
  | Some (v, t) => Some (String c v, t)
  | None => None
  end.

(** The body of a literal opened by [q]: its value and what follows the
    closing quote. *)
Fixpoint lex_body (q : ascii) (s : string) : option (string * string) :=
  match s with
  | EmptyString => None
  | String c r =>
      if Ascii.eqb c q then Some (EmptyString, r)
      else if Ascii.eqb c backslash then
        match r with
        | EmptyString => None
        | String d r1 =>
            if Ascii.eqb d backslash || Ascii.eqb d q_single || Ascii.eqb d q_double
            then cons_lex d (lex_body q r1)
            else if Ascii.eqb d "t" then cons_lex (ascii_of_nat 9) (lex_body q r1)
            else if Ascii.eqb d "n" then cons_lex (ascii_of_nat 10) (lex_body q r1)
            else if Ascii.eqb d "r" then cons_lex (ascii_of_nat 13) (lex_body q r1)
            else if Ascii.eqb d "x" then
              match r1 with
              | String h1 (String h2 r2) =>
                  match hex_val h1, hex_val h2 with
                  | Some a, Some b => cons_lex (ascii_of_nat (16 * a + b)) (lex_body q r2)
                  | _, _ => None
                  end
              | _ => None
              end
            else None
        end
      else cons_lex c (lex_body q r)
  end.

Definition lex_str (s : string) : option (string * string) :=
  match s with
  | String q r => if Ascii.eqb q q_single || Ascii.eqb q q_double then lex_body q r else None
  | EmptyString => None
  end.

(** The line printed for [{"input": i, "output": o}]. *)
Definition read_response (out : string) : option (string * string) :=
  match drop_prefix "{" out with
  | None => None
  | Some r1 =>
      match lex_str r1 with
      | None => None
      | Some (k1, r2) =>
          match drop_prefix ": " r2 with
          | None => None
          | Some r3 =>
              match lex_str r3 with
              | None => None
              | Some (v1, r4) =>
                  match drop_prefix ", " r4 with
                  | None => None
                  | Some r5 =>
                      match lex_str r5 with
                      | None => None
                      | Some (k2, r6) =>
                          match drop_prefix ": " r6 with
                          | None => None
                          | Some r7 =>
                              match lex_str r7 with
                              | Some (v2, r8) =>
                                  if String.eqb k1 "input" && String.eqb k2 "output"
                                     && String.eqb r8 (print_text "}")
                                  then Some (v1, v2) else None
                              | None => None
                              end
                          end
                      end
                  end
              end
          end
      end
  end.

(** ** Lemmas *)

Lemma hex_char_val (k : nat) : (k < 16)%nat -> hex_val (hex_char k) = Some k.
Proof. intros Hk. do 16 (destruct k as [|k]; [reflexivity|]). lia. Qed.

Lemma hex_split (c : ascii) :
  ascii_of_nat (16 * (nat_of_ascii c / 16) + nat_of_ascii c mod 16) = c.
Proof. rewrite <- Nat.div_mod_eq. apply ascii_nat_embedding. Qed.

Lemma nat_of_ascii_eq (c : ascii) (n : nat) : nat_of_ascii c = n -> c = ascii_of_nat n.
Proof. intros <-. symmetry. apply ascii_nat_embedding. Qed.

Section Quote.
Variable q : ascii.
Hypothesis Hq : q = q_single \/ q = q_double.

Lemma lex_plain (c : ascii) (u : string) :
  Ascii.eqb c q = false -> Ascii.eqb c backslash = false ->
  lex_body q (String c u) = cons_lex c (lex_body q u).
Proof. intros E1 E2. simpl. now rewrite E1, E2. Qed.

Lemma lex_hex (c : ascii) (u : string) :
  lex_body q (hex_escape c ++ u) = cons_lex c (lex_body q u).
Proof.
  pose proof (nat_ascii_bounded c) as Hb.
  assert (H1 : (nat_of_ascii c / 16 < 16)%nat) by (apply Nat.Div0.div_lt_upper_bound; lia).
  assert (H2 : (nat_of_ascii c mod 16 < 16)%nat) by (apply Nat.mod_upper_bound; lia).
  pose proof (hex_char_val _ H1) as V1. pose proof (hex_char_val _ H2) as V2.
  pose proof (hex_split c) as Hc. unfold hex_escape.
  set (a := nat_of_ascii c / 16) in *. set (b := nat_of_ascii c mod 16) in *.
  set (h1 := hex_char a) in *. set (h2 := hex_char b) in *. clearbody h1 h2 a b.
  destruct Hq as [-> | ->]; simpl; rewrite V1, V2; f_equal; rewrite <- Hc; f_equal; lia.
Qed.

Lemma lex_escape_char (c : ascii) (u : string) :
  lex_body q (escape_char q c ++ u) = cons_lex c (lex_body q u).
Proof.
  unfold escape_char.
  destruct (Ascii.eqb c q || Ascii.eqb c backslash) eqn:E1.
  - apply orb_true_iff in E1.
    destruct Hq as [-> | ->]; simpl;
      destruct E1 as [E|E]; apply Ascii.eqb_eq in E; subst c; reflexivity.
  - apply orb_false_iff in E1 as [Eq Eb].
    destruct (Nat.eqb_spec (nat_of_ascii c) 9) as [E|_];
      [rewrite (nat_of_ascii_eq _ _ E); destruct Hq as [-> | ->]; reflexivity|].
    destruct (Nat.eqb_spec (nat_of_ascii c) 10) as [E|_];
      [rewrite (nat_of_ascii_eq _ _ E); destruct Hq as [-> | ->]; reflexivity|].
    destruct (Nat.eqb_spec (nat_of_ascii c) 13) as [E|_];
      [rewrite (nat_of_ascii_eq _ _ E); destruct Hq as [-> | ->]; reflexivity|].
    destruct (_ || _)%nat; [apply lex_hex|].
    destruct (_ <? _)%nat; [now apply lex_plain|].
    destruct (_ || _)%nat; [apply lex_hex | now apply lex_plain].
Qed.

Lemma lex_escape_all (s t : string) :
  lex_body q (escape_all q s ++ String q t) = Some (s, t).
Proof.
  induction s as [|c r IH]; simpl.
  - now rewrite Ascii.eqb_refl.
  - now rewrite <- str_app_assoc, lex_escape_char, IH.
Qed.

End Quote.

Lemma repr_quote_cases (s : string) : repr_quote s = q_single \/ repr_quote s = q_double.
Proof. unfold repr_quote. destruct (_ && _); [now right | now left]. Qed.

(** [repr] of a string reads back as that string, whatever text follows
    it: the quote [repr] picks closes the literal and every character it
    escapes is decoded to itself. *)
Lemma lex_repr (s t : string) : lex_str (py_repr s ++ t) = Some (s, t).
Proof.
  unfold py_repr. destruct (repr_quote_cases s) as [Hq|Hq];
    simpl; rewrite <- str_app_assoc; simpl; rewrite Hq; simpl;
    rewrite <- Hq; apply lex_escape_all; rewrite Hq; auto.
Qed.

Lemma read_printed (i o : string) :
  read_response (print_text (dict_repr [("input", i); ("output", o)])) = Some (i, o).
Proof.
  unfold print_text, dict_repr. cbn [map join fst snd].
  rewrite <- !str_app_assoc. unfold read_response.
  rewrite drop_prefix_app, lex_repr, drop_prefix_app, lex_repr, drop_prefix_app, lex_repr,
    drop_prefix_app, lex_repr.
  reflexivity.
Qed.

(** ** Theorems *)

(** The line [print(response)] writes (line 115) determines the input
    and the agent's answer: reading it back gives exactly both strings,
    whatever characters the answer holds. *)
Theorem print_response_roundtrip (i o : string) :
  read_response (print_text (dict_repr [("input", i); ("output", o)])) = Some (i, o).
Proof. apply read_printed. Qed.

End Repr.
