(* ===== verification/Tool.v ===== *)
(** * The tool [search_sciencedirect_bipolar] (lines 43-90)

    The browser is the [Browser] class: one method per Selenium call the
    code makes ([ChromeDriverManager().install()], [webdriver.Chrome(...)]
    with the driver path and the arguments of lines 51-55
    ([chrome_options]), [driver.get], [driver.page_source],
    [driver.quit]), each of which may raise, over an abstract world [W].
    The HTML parser is the [HtmlParser] class: [BeautifulSoup(src,
    "html.parser")] gives the top-level nodes or raises
    [ParserRejectedMarkup], an [Exception] that the tool's [except]
    turns into its error text ([HtmlTok.html_parser] is the instance
    built from html.parser's tokenizer).
    The tool runs in the monad [M]: a state of the world and the list of
    browser calls made so far, and a result that may be an exception.

    [try_except_finally] is Python's [try]/[except Exception]/[finally]
    with a [return] in the body and in the handler: an [Exception] becomes
    the handler's text, any other [BaseException] stays pending, the
    [finally] block always runs, and an exception it raises replaces the
    outcome.  [search_sciencedirect_bipolar] composes lines 48-90: the URL,
    the driver start outside the [try], the body of lines 61-84 inside it
    and [driver.quit()] in [finally].

    The theorems give the exact sequence of browser calls on every path
    (the driver is quit exactly once, last, whenever it was started), the
    text returned on each path, the escape of start-up and [quit] failures,
    the conditions under which the tool always returns a text
    ([tool_returns_text]), and, against [BrowserLaws], that no browser
    session is left open.  [starts] counts the driver starts of a trace,
    which the agent's bound uses. *)

From Stdlib Require Import String List ZArith Lia.
From S2P Require Import Prelude PyStr PyInt Url Rank Dom Extract.
Import ListNotations.
Local Open Scope string_scope.

Module Tool.
Import Dom Extract Url.

(** ** Interfaces *)

(** [BeautifulSoup(src, "html.parser")]: the document's top-level nodes,
    or the [ParserRejectedMarkup] bs4 raises when html.parser rejects the
    markup, which is an [Exception]. *)
Class HtmlParser : Type := {
  parse : string -> res (list node);
  parse_exc : forall src e, parse src = Raise e -> is_exception e = true
}.

Class Browser (W : Type) : Type := {
  install : W -> res string * W;
  start : string -> list string -> W -> res unit * W;
  get : string -> W -> res unit * W;
  page_source : W -> res string * W;
  quit : W -> res unit * W
}.

Inductive call : Type :=
| CallInstall
| CallStart (path : string) (args : list string)
| CallGet (url : string)
| CallSource
| CallQuit.

(** The driver starts in a list of calls. *)
Definition is_start (c : call) : bool := match c with CallStart _ _ => true | _ => false end.

Definition starts (cs : list call) : nat := length (filter is_start cs).

Declare Scope browser_scope.
Delimit Scope browser_scope with browser.

Section WithBrowser.
Context {W : Type} `{Browser W} `{HtmlParser}.

(** ** The monad of the tool *)

Record state : Type := { world : W; calls : list call }.

Definition M (A : Type) : Type := state -> res A * state.

Definition bind {A B} (m : M A) (k : A -> M B) : M B :=
  fun s => let (r, s1) := m s in
           match r with
           | Ok a => k a s1
           | Raise e => (Raise e, s1)
           end.

Definition lift {A} (r : res A) : M A := fun s => (r, s).

(** A browser method, recorded in the list of calls. *)
Definition browser_op {A} (c : call) (op : W -> res A * W) : M A :=
  fun s => let (r, w') := op (world s) in (r, {| world := w'; calls := calls s ++ [c] |}).

Local Notation "x <- c ;; k" := (bind c (fun x => k))
  (at level 100, c at next level, right associativity) : browser_scope.
Local Open Scope browser_scope.

(** [try: body except Exception as e: return handler(e) finally: fin] *)
Definition try_except_finally (body : M string) (handler : exc -> string) (fin : M unit)
  : M string :=
  fun s =>
    let (r, s1) := body s in
    let r' := match r with
              | Ok v => Ok v
              | Raise e => if is_exception e then Ok (handler e) else Raise e
              end in
    let (f, s2) := fin s1 in
    match f with
    | Ok _ => (r', s2)
    | Raise q => (Raise q, s2)
    end.

(** ** The tool *)

Definition error_text (e : exc) : string := "Error during scraping: " ++ str_exc e.

(** Lines 61-84. *)
Definition scrape_body (url : string) : M string :=
  _ <- browser_op (CallGet url) (get url) ;;
  src <- browser_op CallSource page_source ;;
  lift (res_bind (parse src) scrape_page).

(** Lines 51-55: the arguments added to [Options()]. *)
Definition chrome_options : list string :=
  ["--headless"; "--no-sandbox"; "--disable-dev-shm-usage"; "user-agent=Mozilla/5.0"].

(** Lines 44-90. *)
Definition search_sciencedirect_bipolar (query : string) : M string :=
  let url := build_url query in
  path <- browser_op CallInstall install ;;
  _ <- browser_op (CallStart path chrome_options) (start path chrome_options) ;;
  try_except_finally (scrape_body url) error_text (browser_op CallQuit quit).

(** ** Running the tool *)

(** Parsing and extraction raise only [Exception]s. *)
Lemma parsed_page_exc (src : string) (e : exc) :
  res_bind (parse src) scrape_page = Raise e -> is_exception e = true.
Proof.
  destruct (parse src) as [top|e0] eqn:Hp; cbn [res_bind].
  - intros E. now rewrite (scrape_page_raise_href _ _ E).
  - intros [= <-]. exact (parse_exc _ _ Hp).
Qed.

Lemma tool_after_start (q p : string) (s : state) (w1 w2 : W) :
  install (world s) = (Ok p, w1) -> start p chrome_options w1 = (Ok tt, w2) ->
  search_sciencedirect_bipolar q s =
  try_except_finally (scrape_body (build_url q)) error_text (browser_op CallQuit quit)
    {| world := w2; calls := (calls s ++ [CallInstall]) ++ [CallStart p chrome_options] |}.
Proof.
  intros Hi Hs. unfold search_sciencedirect_bipolar, bind at 1, browser_op at 1.
  rewrite Hi. unfold bind, browser_op at 1. simpl. now rewrite Hs.
Qed.

Lemma scrape_body_get_raise (url : string) (w2 : W) (cs : list call) (e : exc) (w3 : W) :
  get url w2 = (Raise e, w3) ->
  scrape_body url {| world := w2; calls := cs |} =
  (Raise e, {| world := w3; calls := cs ++ [CallGet url] |}).
Proof. intros Hg. unfold scrape_body, bind, browser_op. simpl. now rewrite Hg. Qed.

Lemma scrape_body_get_ok (url : string) (w2 : W) (cs : list call) (w3 w4 : W)
    (rs : res string) :
  get url w2 = (Ok tt, w3) -> page_source w3 = (rs, w4) ->
  scrape_body url {| world := w2; calls := cs |} =
  (res_bind rs (fun src => res_bind (parse src) scrape_page),
   {| world := w4; calls := (cs ++ [CallGet url]) ++ [CallSource] |}).
Proof.
  intros Hg Hs. unfold scrape_body, bind, browser_op. simpl. rewrite Hg. simpl. rewrite Hs.
  destruct rs; reflexivity.
Qed.

Lemma try_except_finally_run (body : M string) (handler : exc -> string) (s s1 : state)
    (r : res string) (w : W) (f : res unit) :
  body s = (r, s1) -> quit (world s1) = (f, w) ->
  try_except_finally body handler (browser_op CallQuit quit) s =
  (match f with
   | Ok _ => match r with
             | Ok v => Ok v
             | Raise e => if is_exception e then Ok (handler e) else Raise e
             end
   | Raise q => Raise q
   end, {| world := w; calls := calls s1 ++ [CallQuit] |}).
Proof.
  intros Hb Hq. unfold try_except_finally, browser_op. rewrite Hb, Hq. now destruct f.
Qed.

(** ** Theorems *)

Lemma tool_trace_started (q p : string) (s s' : state) (w1 w2 : W) (r : res string) :
  install (world s) = (Ok p, w1) -> start p chrome_options w1 = (Ok tt, w2) ->
  search_sciencedirect_bipolar q s = (r, s') ->
  exists mid, calls s' = (calls s ++ [CallInstall; CallStart p chrome_options] ++ mid ++ [CallQuit])%list /\
    (mid = [CallGet (build_url q)] \/ mid = [CallGet (build_url q); CallSource]).
Proof.
  intros Hi Hs. rewrite (tool_after_start q p s w1 w2 Hi Hs).
  destruct (get (build_url q) w2) as [[[]|e] w3] eqn:Hg.
  - destruct (page_source w3) as [rs w4] eqn:Hp. destruct (quit w4) as [f w5] eqn:Hq.
    rewrite (try_except_finally_run _ _ _ _ _ w5 f (scrape_body_get_ok _ _ _ w3 w4 rs Hg Hp) Hq).
    intros [= _ <-]. exists [CallGet (build_url q); CallSource]. simpl.
    split; [now rewrite <- !app_assoc | now right].
  - destruct (quit w3) as [f w4] eqn:Hq.
    rewrite (try_except_finally_run _ _ _ _ _ w4 f (scrape_body_get_raise _ _ _ e w3 Hg) Hq).
    intros [= _ <-]. exists [CallGet (build_url q)]. simpl.
    split; [now rewrite <- !app_assoc | now left].
Qed.

(** C3: Once [webdriver.Chrome] has started the driver, every path through
    the tool ends with exactly one [driver.quit()] as the last browser
    call; in between, the tool loads [build_url query] and, if that
    succeeded, reads the page source once. *)
Theorem driver_quit_once (q p : string) (s s' : state) (w1 w2 : W) (r : res string) :
  install (world s) = (Ok p, w1) -> start p chrome_options w1 = (Ok tt, w2) ->
  search_sciencedirect_bipolar q s = (r, s') ->
  exists mid, calls s' = (calls s ++ [CallInstall; CallStart p chrome_options] ++ mid ++ [CallQuit])%list /\
    (mid = [CallGet (build_url q)] \/ mid = [CallGet (build_url q); CallSource]).
Proof. apply tool_trace_started. Qed.

Lemma tool_start_raise (q p : string) (s : state) (w1 w2 : W) (e : exc) :
  install (world s) = (Ok p, w1) -> start p chrome_options w1 = (Raise e, w2) ->
  search_sciencedirect_bipolar q s =
  (Raise e, {| world := w2; calls := (calls s ++ [CallInstall; CallStart p chrome_options])%list |}).
Proof.
  intros Hi Hs. unfold search_sciencedirect_bipolar, bind at 1, browser_op at 1.
  rewrite Hi. unfold bind, browser_op at 1. simpl. rewrite Hs. now rewrite <- app_assoc.
Qed.

(** [webdriver.Chrome(...)] is called outside the [try]: when starting
    the driver raises, the exception escapes the tool instead of becoming
    an ["Error during scraping: ..."] text, and [quit] is never called. *)
Theorem start_failure_escapes (q p : string) (s : state) (w1 w2 : W) (e : exc) :
  install (world s) = (Ok p, w1) -> start p chrome_options w1 = (Raise e, w2) ->
  search_sciencedirect_bipolar q s =
  (Raise e, {| world := w2; calls := (calls s ++ [CallInstall; CallStart p chrome_options])%list |}).
Proof. apply tool_start_raise. Qed.

(** C5: When every browser call succeeds, the tool returns the text of
    lines 80-84 for the parsed page, or ["Error during scraping: "]
    followed by the message of the exception the extraction raised. *)
Theorem tool_result (q p src : string) (s : state) (w1 w2 w3 w4 w5 : W) :
  install (world s) = (Ok p, w1) -> start p chrome_options w1 = (Ok tt, w2) ->
  get (build_url q) w2 = (Ok tt, w3) -> page_source w3 = (Ok src, w4) ->
  quit w4 = (Ok tt, w5) ->
  fst (search_sciencedirect_bipolar q s) =
  Ok (match res_bind (parse src) scrape_page with Ok t => t | Raise e => error_text e end).
Proof.
  intros Hi Hs Hg Hp Hq. rewrite (tool_after_start q p s w1 w2 Hi Hs).
  rewrite (try_except_finally_run _ _ _ _ _ w5 (Ok tt)
             (scrape_body_get_ok _ _ _ w3 w4 (Ok src) Hg Hp) Hq).
  simpl. destruct (res_bind (parse src) scrape_page) as [t|e] eqn:E; [reflexivity|].
  now rewrite (parsed_page_exc _ _ E).
Qed.

(** C6: When loading the page raises an [Exception] (a timeout, a
    WebDriver error), the tool returns ["Error during scraping: <message>"]
    and does not raise, provided [quit] succeeds. *)
Theorem tool_get_error (q p : string) (s : state) (w1 w2 w3 w4 : W) (e : exc) :
  install (world s) = (Ok p, w1) -> start p chrome_options w1 = (Ok tt, w2) ->
  get (build_url q) w2 = (Raise e, w3) -> is_exception e = true ->
  quit w3 = (Ok tt, w4) ->
  fst (search_sciencedirect_bipolar q s) = Ok ("Error during scraping: " ++ str_exc e).
Proof.
  intros Hi Hs Hg He Hq. rewrite (tool_after_start q p s w1 w2 Hi Hs).
  rewrite (try_except_finally_run _ _ _ _ _ w4 (Ok tt) (scrape_body_get_raise _ _ _ e w3 Hg) Hq).
  simpl. now rewrite He.
Qed.

(** C27: An exception raised by [driver.quit()] in [finally] replaces
    whatever the tool was returning, a successful result included. *)
Theorem tool_quit_error (q p : string) (s : state) (w1 w2 : W) (qe : exc) :
  install (world s) = (Ok p, w1) -> start p chrome_options w1 = (Ok tt, w2) ->
  (forall w, fst (quit w) = Raise qe) ->
  fst (search_sciencedirect_bipolar q s) = Raise qe.
Proof.
  intros Hi Hs Hq. rewrite (tool_after_start q p s w1 w2 Hi Hs).
  unfold try_except_finally.
  destruct (scrape_body _ _) as [r s1]. unfold browser_op.
  specialize (Hq (world s1)). destruct (quit (world s1)) as [f w]. simpl in Hq. now subst f.
Qed.

Lemma starts_app (l1 l2 : list call) : starts (l1 ++ l2) = starts l1 + starts l2.
Proof. unfold starts. now rewrite filter_app, length_app. Qed.

(** Every run of the tool appends its calls to the trace and starts the
    driver at most once. *)
Lemma tool_one_start (q : string) (s s' : state) (r : res string) :
  search_sciencedirect_bipolar q s = (r, s') ->
  exists d, calls s' = (calls s ++ d)%list /\ starts d <= 1.
Proof.
  destruct (install (world s)) as [[p|e] w1] eqn:Hi.
  2: { unfold search_sciencedirect_bipolar, bind, browser_op. rewrite Hi.
       intros [= _ <-]. exists [CallInstall]. split; [reflexivity | cbn; lia]. }
  destruct (start p chrome_options w1) as [[[]|e] w2] eqn:Hs.
  - intros Hrun. destruct (tool_trace_started q p s s' w1 w2 r Hi Hs Hrun) as (mid & -> & Hmid).
    eexists; split; [reflexivity|].
    destruct Hmid as [-> | ->]; cbn; lia.
  - rewrite (tool_start_raise q p s w1 w2 e Hi Hs). intros [= _ <-].
    eexists; split; [reflexivity | cbn; lia].
Qed.

(** Once the driver has started, a run of the tool starts it exactly
    once. *)
Lemma tool_started_once (q p : string) (s s' : state) (w1 w2 : W) (r : res string) :
  install (world s) = (Ok p, w1) -> start p chrome_options w1 = (Ok tt, w2) ->
  search_sciencedirect_bipolar q s = (r, s') ->
  exists d, calls s' = (calls s ++ d)%list /\ starts d = 1.
Proof.
  intros Hi Hs Hrun. destruct (tool_trace_started q p s s' w1 w2 r Hi Hs Hrun) as (mid & -> & Hmid).
  eexists; split; [reflexivity|]. destruct Hmid as [-> | ->]; reflexivity.
Qed.

End WithBrowser.

(** ** Browser sessions *)

(** What a browser promises about its open sessions: only a successful
    start opens one and a successful quit closes one. *)
Class BrowserLaws (W : Type) `{Browser W} : Type := {
  live : W -> nat;
  install_live : forall w r w', install w = (r, w') -> live w' = live w;
  start_ok_live : forall p o w w', start p o w = (Ok tt, w') -> live w' = S (live w);
  start_raise_live : forall p o w e w', start p o w = (Raise e, w') -> live w' = live w;
  get_live : forall u w r w', get u w = (r, w') -> live w' = live w;
  source_live : forall w r w', page_source w = (r, w') -> live w' = live w;
  quit_ok_live : forall w w', quit w = (Ok tt, w') -> live w' = pred (live w)
}.

Section Sessions.
Context {W : Type} `{BrowserLaws W} `{HtmlParser}.
Hypothesis quit_ok : forall w, fst (quit w) = Ok tt.

Lemma quit_run (w : W) : exists w', quit w = (Ok tt, w') /\ live w' = pred (live w).
Proof.
  specialize (quit_ok w). destruct (quit w) as [f w'] eqn:E. simpl in quit_ok. subst f.
  exists w'. split; [reflexivity | now apply quit_ok_live].
Qed.

Lemma tool_live (q : string) (s s' : state) (r : res string) :
  search_sciencedirect_bipolar q s = (r, s') -> live (world s') = live (world s).
Proof.
  destruct (install (world s)) as [[p|e] w1] eqn:Hi.
  2: { unfold search_sciencedirect_bipolar, bind, browser_op. rewrite Hi.
       intros [= _ <-]. simpl. eapply install_live, Hi. }
  pose proof (install_live _ _ _ Hi) as L1.
  destruct (start p chrome_options w1) as [[[]|e] w2] eqn:Hs.
  2: { rewrite (tool_start_raise q p s w1 w2 e Hi Hs). intros [= _ <-]. simpl.
       rewrite (start_raise_live _ _ _ _ _ Hs). exact L1. }
  pose proof (start_ok_live _ _ _ _ Hs) as L2.
  rewrite (tool_after_start q p s w1 w2 Hi Hs).
  destruct (get (build_url q) w2) as [[[]|e] w3] eqn:Hg; pose proof (get_live _ _ _ _ Hg) as L3.
  - destruct (page_source w3) as [rs w4] eqn:Hp. pose proof (source_live _ _ _ Hp) as L4.
    destruct (quit_run w4) as (w5 & Hq & L5).
    rewrite (try_except_finally_run _ _ _ _ _ w5 (Ok tt)
               (scrape_body_get_ok _ _ _ w3 w4 rs Hg Hp) Hq).
    intros [= _ <-]. simpl. lia.
  - destruct (quit_run w3) as (w4 & Hq & L4).
    rewrite (try_except_finally_run _ _ _ _ _ w4 (Ok tt) (scrape_body_get_raise _ _ _ e w3 Hg) Hq).
    intros [= _ <-]. simpl. lia.
Qed.

(** C4: With a browser whose [quit] succeeds, the tool leaves the number of
    open browser sessions as it found it, on every path: a failed start
    opens none, and a started driver is always quit. *)
Theorem sessions_released (q : string) (s s' : state) (r : res string) :
  search_sciencedirect_bipolar q s = (r, s') -> live (world s') = live (world s).
Proof. apply tool_live. Qed.

End Sessions.

(** ** When the tool returns a text *)

Section Total.
Context {W : Type} `{Browser W} `{HtmlParser}.
Hypothesis install_ok : forall w, exists p w', install w = (Ok p, w').
Hypothesis start_ok : forall p w, exists w', start p chrome_options w = (Ok tt, w').
Hypothesis get_exc : forall u w e w', get u w = (Raise e, w') -> is_exception e = true.
Hypothesis source_exc : forall w e w', page_source w = (Raise e, w') -> is_exception e = true.
Hypothesis quit_succeeds : forall w, fst (quit w) = Ok tt.

Lemma scrape_body_exc (url : string) (s s1 : state) (e : exc) :
  scrape_body url s = (Raise e, s1) -> is_exception e = true.
Proof.
  unfold scrape_body, bind, browser_op, lift.
  destruct (get url (world s)) as [[[]|e1] w3] eqn:Hg; simpl; [|intros [= <- _]; eauto].
  destruct (page_source w3) as [[src|e2] w4] eqn:Hp; simpl; [|intros [= <- _]; eauto].
  destruct (res_bind (parse src) scrape_page) as [t|e3] eqn:E; [discriminate|].
  intros [= <- _]. exact (parsed_page_exc _ _ E).
Qed.

Lemma tool_total (q : string) (s : state) :
  exists t s', search_sciencedirect_bipolar q s = (Ok t, s').
Proof.
  destruct (install_ok (world s)) as (p & w1 & Hi). destruct (start_ok p w1) as (w2 & Hs).
  rewrite (tool_after_start q p s w1 w2 Hi Hs). unfold try_except_finally, browser_op.
  destruct (scrape_body (build_url q) _) as [r s1] eqn:Hb.
  pose proof (quit_succeeds (world s1)) as Hq. destruct (quit (world s1)) as [f w]. simpl in Hq. subst f.
  destruct r as [t|e]; [eauto|]. now rewrite (scrape_body_exc _ _ _ _ Hb); eauto.
Qed.

(** C11: When the driver binary installs, the driver starts, [quit]
    succeeds and the browser raises only [Exception]s, the tool returns a
    text on every page: the contract of section 6 of the specification
    (no exception reaches the caller) holds exactly under these
    conditions. *)
Theorem tool_returns_text (q : string) (s : state) :
  exists t s', search_sciencedirect_bipolar q s = (Ok t, s').
Proof. apply tool_total. Qed.

End Total.

(** ** Fixtures: a scripted browser and parser *)

(** The world counts the open sessions; each method answers as scripted. *)
Definition fixture_browser (st g : res unit) (src : res string) (qr : res unit) : Browser nat := {|
  install := fun w => (Ok "/usr/local/bin/chromedriver", w);
  start := fun _ _ w => (st, if is_ok st then S w else w);
  get := fun _ w => (g, w);
  page_source := fun w => (src, w);
  quit := fun w => (qr, pred w)
|}.

Definition fixture_laws (st g : res unit) (src : res string) (qr : res unit)
  : @BrowserLaws nat (fixture_browser st g src qr).
Proof.
  refine {| live := fun w => w |}; simpl; intros;
    match goal with H : (_, _) = (_, _) |- _ => inversion H; subst; reflexivity end.
Defined.

Definition fixture_parser (top : list node) : HtmlParser.
Proof. refine {| parse := fun _ => Ok top |}. discriminate. Defined.

Definition s0 : @state nat := {| world := 0; calls := [] |}.

Definition chromedriver : string := "/usr/local/bin/chromedriver".

Definition timeout_exc : exc := SeleniumError "TimeoutException" "Message: timeout".

(** ** Witnesses *)

Lemma driver_quit_once_witness :
  exists mid,
    calls (snd (@search_sciencedirect_bipolar nat
                  (fixture_browser (Ok tt) (Raise timeout_exc) (Ok "") (Ok tt))
                  (fixture_parser page_three) "bipolar disorder" s0)) =
    (calls s0 ++ [CallInstall; CallStart chromedriver chrome_options] ++ mid ++ [CallQuit])%list /\
    (mid = [CallGet (build_url "bipolar disorder")] \/
     mid = [CallGet (build_url "bipolar disorder"); CallSource]).
Proof.
  eapply (@driver_quit_once nat (fixture_browser (Ok tt) (Raise timeout_exc) (Ok "") (Ok tt))
            (fixture_parser page_three) "bipolar disorder" chromedriver s0 _ 0 1 _);
    [reflexivity | reflexivity | apply surjective_pairing].
Defined.

Lemma sessions_released_witness :
  @live nat _ (fixture_laws (Ok tt) (Ok tt) (Ok "") (Ok tt))
    (world (snd (@search_sciencedirect_bipolar nat
                   (fixture_browser (Ok tt) (Ok tt) (Ok "") (Ok tt))
                   (fixture_parser page_three) "bipolar disorder" s0))) =
  @live nat _ (fixture_laws (Ok tt) (Ok tt) (Ok "") (Ok tt)) (world s0).
Proof.
  eapply (@sessions_released nat _ (fixture_laws (Ok tt) (Ok tt) (Ok "") (Ok tt))
            (fixture_parser page_three)); [intros w; reflexivity | apply surjective_pairing].
Defined.

Lemma tool_result_witness :
  fst (@search_sciencedirect_bipolar nat (fixture_browser (Ok tt) (Ok tt) (Ok "<html>") (Ok tt))
         (fixture_parser page_three) "bipolar disorder" s0) =
  Ok "C (300 citations): https://www.sciencedirect.com/c".
Proof.
  etransitivity.
  - apply (@tool_result nat (fixture_browser (Ok tt) (Ok tt) (Ok "<html>") (Ok tt))
             (fixture_parser page_three) "bipolar disorder" chromedriver "<html>" s0 0 1 1 1 0);
      reflexivity.
  - vm_compute. reflexivity.
Defined.

Lemma tool_get_error_witness :
  fst (@search_sciencedirect_bipolar nat
         (fixture_browser (Ok tt) (Raise timeout_exc) (Ok "") (Ok tt))
         (fixture_parser page_three) "bipolar disorder" s0) =
  Ok ("Error during scraping: " ++ "Message: timeout").
Proof.
  apply (@tool_get_error nat (fixture_browser (Ok tt) (Raise timeout_exc) (Ok "") (Ok tt))
           (fixture_parser page_three) "bipolar disorder" chromedriver s0 0 1 1 0 timeout_exc);
    reflexivity.
Defined.

Lemma tool_quit_error_witness :
  fst (@search_sciencedirect_bipolar nat
         (fixture_browser (Ok tt) (Ok tt) (Ok "") (Raise (SeleniumError "WebDriverException" "gone")))
         (fixture_parser page_three) "bipolar disorder" s0) =
  Raise (SeleniumError "WebDriverException" "gone").
Proof.
  apply (@tool_quit_error nat
           (fixture_browser (Ok tt) (Ok tt) (Ok "") (Raise (SeleniumError "WebDriverException" "gone")))
           (fixture_parser page_three) "bipolar disorder" chromedriver s0 0 1);
    [reflexivity | reflexivity | intros w; reflexivity].
Defined.

Lemma start_failure_escapes_witness :
  @search_sciencedirect_bipolar nat
    (fixture_browser (Raise (SeleniumError "SessionNotCreatedException" "no chrome")) (Ok tt) (Ok "") (Ok tt))
    (fixture_parser page_three) "bipolar disorder" s0 =
  (Raise (SeleniumError "SessionNotCreatedException" "no chrome"),
   {| world := 0; calls := (calls s0 ++ [CallInstall; CallStart chromedriver chrome_options])%list |}).
Proof.
  apply (@start_failure_escapes nat
           (fixture_browser (Raise (SeleniumError "SessionNotCreatedException" "no chrome")) (Ok tt) (Ok "") (Ok tt))
           (fixture_parser page_three) "bipolar disorder" chromedriver s0 0 0);
    reflexivity.
Defined.

Lemma tool_returns_text_witness :
  exists t s', @search_sciencedirect_bipolar nat
    (fixture_browser (Ok tt) (Raise timeout_exc) (Ok "") (Ok tt))
    (fixture_parser page_nohref) "bipolar disorder" s0 = (Ok t, s').
Proof.
  apply (@tool_returns_text nat (fixture_browser (Ok tt) (Raise timeout_exc) (Ok "") (Ok tt))
           (fixture_parser page_nohref));
    [intros w; eexists; eexists; reflexivity | intros p w; eexists; reflexivity
    | intros u w e w' [= <- _]; reflexivity | intros w e w' [=]
    | intros w; reflexivity].
Defined.

End Tool.
