(* ===== verification/Soup.v ===== *)
(** * The tree BeautifulSoup builds from html.parser's events (line 62)

    [BeautifulSoup(page, "html.parser")] feeds the page to Python's
    [html.parser.HTMLParser], which reports what it reads as calls of the
    methods of bs4's [BeautifulSoupHTMLParser]: [handle_starttag],
    [handle_startendtag] (markup [<tag/>]), [handle_endtag],
    [handle_data] (character and entity references already turned into
    text), [handle_comment], [handle_decl], [handle_pi] and
    [unknown_decl] (a marked section: a [CData] string when it is
    [<![CDATA[...]]>], a declaration otherwise).  [event] is one such
    call; the tokenizer that produces them is the parameter of
    [soup_parser], which [HtmlTok] gives.  When the tokenizer raises
    [AssertionError], bs4's [HTMLParserTreeBuilder.feed] raises
    [ParserRejectedMarkup] and [BeautifulSoup.__init__] raises it again
    with its rejection text ([soup_parse_src]).

    The builder is bs4's [BeautifulSoup] object: [tag_stack] is
    [tagStack] (innermost first, the ["[document]"] root last), each
    [frame] an open [Tag] with its children so far (most recent first);
    [current_data] is [current_data]; [already_closed] is the parser's
    [already_closed_empty_element].  The operations keep bs4's names:
    [end_data] ([endData]: the pending strings joined, a whitespace-only
    string outside [<pre>]/[<textarea>] collapsed to ["\n"] or [" "]),
    [push_tag], [pop_tag], [pop_to_tag] ([_popToTag]: pop up to the
    nearest open tag of that name, nothing when none is open),
    [soup_starttag], [soup_endtag], [soup_data], and the parser's
    [parser_starttag] (an empty-element tag such as [<br>] is closed at
    once and its later end tag ignored) and [parser_endtag].  A child is
    attached to its parent when it is closed, which gives the tree bs4
    builds by appending it when it is opened, since a tag's later siblings
    can only come after it is closed.  [soup_parse] feeds the events, ends
    the data and attaches every open tag, as [BeautifulSoup.__init__]
    does.

    Doctype and processing-instruction strings are [Comment] nodes of
    [Dom]: like comments they are strings that [Tag.text] skips.

    The theorems: no tag is lost whatever the nesting of the events
    (each start tag gives exactly one element of the tree), the events
    of a well-formed tree rebuild that tree ([soup_parse_events]), and a
    text reported in several [handle_data] calls gives the same tree as
    in one ([soup_parse_split]: builders are compared up to the cut of
    [current_data], [same_data], an equivalence every handler respects);
    [HtmlTok]'s round trip from the markup uses the last two. *)

From Stdlib Require Import String Ascii List Bool Arith Lia Setoid Morphisms.
From S2P Require Import Prelude PyStr Dom Extract Tool.
Import ListNotations.
Local Open Scope string_scope.

Module Soup.
Import PyStr Dom Extract Tool.

(** ** Events *)

Inductive event : Type :=
| StartTag (name : string) (attrs : list (string * option string))
| StartEndTag (name : string) (attrs : list (string * option string))
| EndTag (name : string)
| Data (s : string)
| CommentEv (s : string)
| Decl (s : string)
| Pi (s : string)
| UnknownDecl (s : string).

(** ** Constants of bs4 *)

Definition root_name : string := "[document]".

(** [HTMLTreeBuilder.empty_element_tags] *)
Definition empty_element_tags : list string :=
  ["area"; "base"; "br"; "col"; "embed"; "hr"; "img"; "input"; "keygen"; "link";
   "menuitem"; "meta"; "param"; "source"; "track"; "wbr";
   "basefont"; "bgsound"; "command"; "frame"; "image"; "isindex"; "nextid"; "spacer"].

(** [HTMLTreeBuilder.DEFAULT_PRESERVE_WHITESPACE_TAGS] *)
Definition preserve_whitespace_tags : list string := ["pre"; "textarea"].

Definition is_member (x : string) (l : list string) : bool := existsb (String.eqb x) l.

(** [BeautifulSoup.ASCII_SPACES]: space, newline, tab, form feed, return. *)
Definition ascii_space (c : ascii) : bool :=
  let n := nat_of_ascii c in ((n =? 32) || (n =? 10) || (n =? 9) || (n =? 12) || (n =? 13))%nat.

Fixpoint all_ascii_space (s : string) : bool :=
  match s with
  | EmptyString => true
  | String c r => ascii_space c && all_ascii_space r
  end.

Definition newline : string := String (ascii_of_nat 10) EmptyString.

(** ** The builder *)

Record frame : Type := { fname : string; fattrs : list (string * string); fkids : list node }.

Record builder : Type := {
  tag_stack : list frame;
  current_data : list string;
  already_closed : list string
}.

Definition with_stack (st : list frame) (b : builder) : builder :=
  {| tag_stack := st; current_data := current_data b; already_closed := already_closed b |}.

Definition add_child (n : node) (st : list frame) : list frame :=
  match st with
  | [] => []
  | f :: r => {| fname := fname f; fattrs := fattrs f; fkids := n :: fkids f |} :: r
  end.

Definition close_frame (f : frame) : node := Elem (fname f) (fattrs f) (rev (fkids f)).

(** [popTag]: the root is never popped. *)
Definition pop_tag (st : list frame) : list frame :=
  match st with
  | f :: ((_ :: _) as r) => add_child (close_frame f) r
  | _ => st
  end.

Definition preserving (st : list frame) : bool :=
  existsb (fun f => is_member (fname f) preserve_whitespace_tags) st.

Definition collapse (st : list frame) (s : string) : string :=
  if negb (preserving st) && all_ascii_space s
  then (if has_char (ascii_of_nat 10) s then newline else " ")
  else s.

(** [endData(containerClass)] *)
Definition end_data (mk : string -> node) (b : builder) : builder :=
  match current_data b with
  | [] => b
  | ds =>
      {| tag_stack := add_child (mk (collapse (tag_stack b) (String.concat "" ds))) (tag_stack b);
         current_data := [];
         already_closed := already_closed b |}
  end.

(** [pushTag] *)
Definition push_tag (name : string) (attrs : list (string * string)) (b : builder) : builder :=
  with_stack ({| fname := name; fattrs := attrs; fkids := [] |} :: tag_stack b) b.

(** The depth of the nearest open tag named [name], the root excluded. *)
Fixpoint find_open (name : string) (st : list frame) : option nat :=
  match st with
  | [] => None
  | [_] => None
  | f :: r => if String.eqb (fname f) name then Some 0 else option_map S (find_open name r)
  end.

Fixpoint pop_n (n : nat) (st : list frame) : list frame :=
  match n with
  | O => st
  | S n' => pop_n n' (pop_tag st)
  end.

(** [_popToTag(name)] *)
Definition pop_to_tag (name : string) (st : list frame) : list frame :=
  if String.eqb name root_name then st
  else match find_open name st with
       | Some d => pop_n (S d) st
       | None => st
       end.

(** [BeautifulSoup.handle_starttag] *)
Definition soup_starttag (name : string) (attrs : list (string * string)) (b : builder) : builder :=
  push_tag name attrs (end_data Text b).

(** [BeautifulSoup.handle_endtag] *)
Definition soup_endtag (name : string) (b : builder) : builder :=
  let b' := end_data Text b in with_stack (pop_to_tag name (tag_stack b')) b'.

(** [BeautifulSoup.handle_data] *)
Definition soup_data (s : string) (b : builder) : builder :=
  {| tag_stack := tag_stack b; current_data := current_data b ++ [s];
     already_closed := already_closed b |}.

(** The attribute dictionary: a missing value is [""], a repeated name
    keeps its place and takes the last value ([on_duplicate_attribute]
    [REPLACE]). *)
Fixpoint set_attr (k v : string) (d : list (string * string)) : list (string * string) :=
  match d with
  | [] => [(k, v)]
  | (k', v') :: r => if String.eqb k k' then (k, v) :: r else (k', v') :: set_attr k v r
  end.

Definition attr_dict (attrs : list (string * option string)) : list (string * string) :=
  fold_left (fun d kv => set_attr (fst kv) (match snd kv with Some v => v | None => "" end) d)
            attrs [].

Fixpoint remove_first (x : string) (l : list string) : list string :=
  match l with
  | [] => []
  | y :: r => if String.eqb x y then r else y :: remove_first x r
  end.

(** [BeautifulSoupHTMLParser.handle_endtag(name, check_already_closed)] *)
Definition parser_endtag (check : bool) (name : string) (b : builder) : builder :=
  if check && is_member name (already_closed b)
  then {| tag_stack := tag_stack b; current_data := current_data b;
          already_closed := remove_first name (already_closed b) |}
  else soup_endtag name b.

(** [BeautifulSoupHTMLParser.handle_starttag(name, attrs, handle_empty_element)] *)
Definition parser_starttag (handle_empty : bool) (name : string)
    (attrs : list (string * option string)) (b : builder) : builder :=
  let b1 := soup_starttag name (attr_dict attrs) b in
  if handle_empty && is_member name empty_element_tags
  then let b2 := parser_endtag false name b1 in
       {| tag_stack := tag_stack b2; current_data := current_data b2;
          already_closed := already_closed b2 ++ [name] |}
  else b1.

(** [handle_decl] drops a leading ["DOCTYPE "]. *)
Definition doctype_text (s : string) : string :=
  match drop_prefix "DOCTYPE " s with Some r => r | None => s end.

(** [BeautifulSoupHTMLParser.unknown_decl] (a marked section [<![...]]>]):
    a text whose upper case starts with ["CDATA["] is a [CData] string
    without those six characters, which [.text] reads as text; anything
    else is a [Declaration], which [.text] skips like a comment.  Only
    ASCII letters upper-case to ASCII on Latin-1, so the test compares the
    first six characters upper-cased one by one. *)
Definition ascii_upper (c : ascii) : ascii :=
  let n := nat_of_ascii c in if ((97 <=? n) && (n <=? 122))%nat then ascii_of_nat (n - 32) else c.

Fixpoint upper_ascii (s : string) : string :=
  match s with EmptyString => EmptyString | String c r => String (ascii_upper c) (upper_ascii r) end.

Definition cdata_body (s : string) : option string :=
  if String.eqb (upper_ascii (String.substring 0 6 s)) "CDATA[" then Some (String.substring 6 (String.length s - 6) s)
  else None.

(** One callback of html.parser. *)
Definition handle_event (b : builder) (ev : event) : builder :=
  match ev with
  | StartTag n a => parser_starttag true n a b
  | StartEndTag n a => parser_endtag true n (parser_starttag false n a b)
  | EndTag n => parser_endtag true n b
  | Data s => soup_data s b
  | CommentEv s => end_data Comment (soup_data s (end_data Text b))
  | Decl s => end_data Comment (soup_data (doctype_text s) (end_data Text b))
  | Pi s => end_data Comment (soup_data s (end_data Text b))
  | UnknownDecl s =>
      match cdata_body s with
      | Some d => end_data Text (soup_data d (end_data Text b))
      | None => end_data Comment (soup_data s (end_data Text b))
      end
  end.

Definition soup_init : builder :=
  {| tag_stack := [{| fname := root_name; fattrs := []; fkids := [] |}];
     current_data := []; already_closed := [] |}.

Definition add_kid (o : option node) (f : frame) : frame :=
  match o with
  | Some n => {| fname := fname f; fattrs := fattrs f; fkids := n :: fkids f |}
  | None => f
  end.

(** Every open tag attached to its parent; the children of the root. *)
Fixpoint close_all (pending : option node) (st : list frame) : list node :=
  match st with
  | [] => []
  | [f] => rev (fkids (add_kid pending f))
  | f :: r => close_all (Some (close_frame (add_kid pending f))) r
  end.

(** [BeautifulSoup(markup, "html.parser")]: feed, [endData()], close. *)
Definition soup_parse (evs : list event) : list node :=
  close_all None (tag_stack (end_data Text (fold_left handle_event evs soup_init))).

(** bs4's [HTMLParserTreeBuilder.feed] turns an [AssertionError] of
    html.parser into [ParserRejectedMarkup("AssertionError: <message>")]. *)
Definition builder_feed_exc (e : exc) : exc :=
  match e with
  | OtherError cls m =>
      if String.eqb cls "AssertionError" then OtherError "ParserRejectedMarkup" ("AssertionError: " ++ m) else e
  | _ => e
  end.

(** [BeautifulSoup.__init__] has no other encoding to try for a [str]: it
    raises [ParserRejectedMarkup] with its message before the rejections. *)
Definition reject_message : string :=
  "The markup you provided was rejected by the parser. Trying a different parser or a different encoding may help."
  ++ newline ++ newline ++ "Original exception(s) from parser:" ++ newline ++ " ".

Definition soup_init_exc (e : exc) : exc :=
  match e with
  | OtherError cls m =>
      if String.eqb cls "ParserRejectedMarkup" then OtherError cls (reject_message ++ m) else e
  | _ => e
  end.

(** The parser of line 62, given html.parser's tokenizer (the callbacks of
    [feed] and [close], or the exception they raise). *)
Definition soup_parse_src (tokenize : string -> res (list event)) (src : string) : res (list node) :=
  match tokenize src with
  | Ok evs => Ok (soup_parse evs)
  | Raise e => Raise (soup_init_exc (builder_feed_exc e))
  end.

Lemma soup_parse_src_exc (tokenize : string -> res (list event)) :
  (forall src e, tokenize src = Raise e -> is_exception e = true) ->
  forall src e, soup_parse_src tokenize src = Raise e -> is_exception e = true.
Proof.
  intros Ht src e. unfold soup_parse_src. destruct (tokenize src) as [evs|e0] eqn:E; [discriminate|].
  intros [= <-]. specialize (Ht _ _ E). unfold builder_feed_exc, soup_init_exc.
  destruct e0; try exact Ht; repeat (destruct (String.eqb _ _)); reflexivity.
Qed.

Definition soup_parser (tokenize : string -> res (list event))
    (Ht : forall src e, tokenize src = Raise e -> is_exception e = true) : HtmlParser :=
  {| parse := soup_parse_src tokenize; parse_exc := soup_parse_src_exc tokenize Ht |}.

(** ** Counting the tags *)

Fixpoint count_elems (n : node) : nat :=
  match n with
  | Elem _ _ kids =>
      S ((fix go (l : list node) : nat :=
            match l with
            | [] => 0
            | k :: r => count_elems k + go r
            end) kids)
  | _ => 0
  end.

Definition count_list (l : list node) : nat := list_sum (map count_elems l).

Definition starts_of (ev : event) : nat :=
  match ev with
  | StartTag _ _ | StartEndTag _ _ => 1
  | _ => 0
  end.

Definition count_starts (evs : list event) : nat := list_sum (map starts_of evs).

(** The elements held by the open tags: each open tag but the root will
    be one element, with the elements below it. *)
Fixpoint frames_weight (st : list frame) : nat :=
  match st with
  | [] => 0
  | [f] => count_list (fkids f)
  | f :: r => S (count_list (fkids f)) + frames_weight r
  end.

Definition weight (b : builder) : nat := frames_weight (tag_stack b).

Lemma count_elems_elem (n : string) (a : list (string * string)) (kids : list node) :
  count_elems (Elem n a kids) = S (count_list kids).
Proof. simpl. f_equal. induction kids as [|k r IH]; simpl; [reflexivity | now rewrite IH]. Qed.

Lemma count_list_app (l1 l2 : list node) : count_list (l1 ++ l2) = count_list l1 + count_list l2.
Proof. unfold count_list. now rewrite map_app, list_sum_app. Qed.

Lemma count_list_rev (l : list node) : count_list (rev l) = count_list l.
Proof.
  induction l as [|x l IH]; [reflexivity|]. simpl rev. rewrite count_list_app, IH.
  unfold count_list; simpl; lia.
Qed.

Lemma count_close_frame (f : frame) : count_elems (close_frame f) = S (count_list (fkids f)).
Proof. unfold close_frame. now rewrite count_elems_elem, count_list_rev. Qed.

Lemma weight_add_child (n : node) (st : list frame) :
  st <> [] -> frames_weight (add_child n st) = count_elems n + frames_weight st.
Proof.
  destruct st as [|f [|g r]]; intros H; [congruence| |]; simpl; unfold count_list; simpl; lia.
Qed.

Lemma add_child_nonempty (n : node) (st : list frame) : st <> [] -> add_child n st <> [].
Proof. destruct st; simpl; congruence. Qed.

Lemma weight_pop_tag (st : list frame) :
  st <> [] -> pop_tag st <> [] /\ frames_weight (pop_tag st) = frames_weight st.
Proof.
  destruct st as [|f [|g r]]; intros H; [congruence | split; [exact H | reflexivity]|].
  cbn [pop_tag]. split; [apply add_child_nonempty; discriminate|].
  rewrite weight_add_child by discriminate. rewrite count_close_frame. reflexivity.
Qed.

Lemma weight_pop_n (n : nat) (st : list frame) :
  st <> [] -> pop_n n st <> [] /\ frames_weight (pop_n n st) = frames_weight st.
Proof.
  revert st. induction n as [|n IH]; intros st H; [split; [exact H | reflexivity]|].
  simpl. destruct (weight_pop_tag st H) as [H1 E1]. rewrite <- E1. exact (IH _ H1).
Qed.

Lemma weight_pop_to_tag (name : string) (st : list frame) :
  st <> [] -> pop_to_tag name st <> [] /\ frames_weight (pop_to_tag name st) = frames_weight st.
Proof.
  intros H. unfold pop_to_tag. destruct (String.eqb name root_name); [split; [exact H | reflexivity]|].
  destruct (find_open name st); [apply weight_pop_n; exact H | split; [exact H | reflexivity]].
Qed.

Lemma weight_end_data (mk : string -> node) (b : builder) :
  (forall s, count_elems (mk s) = 0) -> tag_stack b <> [] ->
  tag_stack (end_data mk b) <> [] /\ weight (end_data mk b) = weight b.
Proof.
  intros Hmk H. unfold end_data, weight. destruct (current_data b) as [|d ds]; [split; [exact H | reflexivity]|].
  simpl. split; [now apply add_child_nonempty|]. rewrite weight_add_child by exact H. now rewrite Hmk.
Qed.

Ltac weight_step lem :=
  match goal with
  | H : tag_stack ?b <> [] |- _ =>
      let H1 := fresh "H" in let E1 := fresh "E" in
      destruct (lem H) as [H1 E1]; clear H
  end.

Lemma weight_soup_endtag (name : string) (b : builder) :
  tag_stack b <> [] -> tag_stack (soup_endtag name b) <> [] /\ weight (soup_endtag name b) = weight b.
Proof.
  intros H. destruct (weight_end_data Text b (fun _ => eq_refl) H) as [H1 E1].
  unfold soup_endtag, weight in *. simpl. rewrite <- E1. exact (weight_pop_to_tag _ _ H1).
Qed.

Lemma weight_parser_endtag (check : bool) (name : string) (b : builder) :
  tag_stack b <> [] ->
  tag_stack (parser_endtag check name b) <> [] /\ weight (parser_endtag check name b) = weight b.
Proof.
  intros H. unfold parser_endtag. destruct (check && is_member name (already_closed b));
    [split; [exact H | reflexivity] | exact (weight_soup_endtag name b H)].
Qed.

Lemma weight_soup_starttag (name : string) (a : list (string * string)) (b : builder) :
  tag_stack b <> [] ->
  tag_stack (soup_starttag name a b) <> [] /\ weight (soup_starttag name a b) = S (weight b).
Proof.
  intros H. destruct (weight_end_data Text b (fun _ => eq_refl) H) as [H1 E1].
  unfold soup_starttag, push_tag, weight in *. simpl. split; [discriminate|].
  rewrite <- E1. destruct (tag_stack (end_data Text b)); [congruence | reflexivity].
Qed.

Lemma weight_parser_starttag (he : bool) (name : string) (a : list (string * option string))
    (b : builder) :
  tag_stack b <> [] ->
  tag_stack (parser_starttag he name a b) <> [] /\ weight (parser_starttag he name a b) = S (weight b).
Proof.
  intros H. destruct (weight_soup_starttag name (attr_dict a) b H) as [H1 E1].
  unfold parser_starttag. destruct (he && is_member name empty_element_tags); [|exact (conj H1 E1)].
  destruct (weight_parser_endtag false name _ H1) as [H2 E2]. split; [exact H2|].
  unfold weight in *. cbn [tag_stack]. rewrite E2. exact E1.
Qed.

Lemma weight_comment (mk : string -> node) (s : string) (b : builder) :
  (forall x, count_elems (mk x) = 0) -> tag_stack b <> [] ->
  tag_stack (end_data mk (soup_data s (end_data Text b))) <> [] /\
  weight (end_data mk (soup_data s (end_data Text b))) = weight b.
Proof.
  intros Hmk H. destruct (weight_end_data Text b (fun _ => eq_refl) H) as [H1 E1].
  destruct (weight_end_data mk (soup_data s (end_data Text b)) Hmk H1) as [H2 E2].
  split; [exact H2|]. rewrite E2, <- E1. reflexivity.
Qed.

Lemma weight_handle_event (b : builder) (ev : event) :
  tag_stack b <> [] ->
  tag_stack (handle_event b ev) <> [] /\ weight (handle_event b ev) = starts_of ev + weight b.
Proof.
  intros H. destruct ev as [n a|n a|n|s|s|s|s|s]; simpl handle_event; simpl starts_of.
  - exact (weight_parser_starttag true n a b H).
  - destruct (weight_parser_starttag false n a b H) as [H1 E1].
    destruct (weight_parser_endtag true n _ H1) as [H2 E2]. split; [exact H2 | lia].
  - exact (weight_parser_endtag true n b H).
  - split; [exact H | reflexivity].
  - exact (weight_comment Comment s b (fun _ => eq_refl) H).
  - exact (weight_comment Comment (doctype_text s) b (fun _ => eq_refl) H).
  - exact (weight_comment Comment s b (fun _ => eq_refl) H).
  - destruct (cdata_body s) as [d|].
    + exact (weight_comment Text d b (fun _ => eq_refl) H).
    + exact (weight_comment Comment s b (fun _ => eq_refl) H).
Qed.

Lemma weight_feed (evs : list event) (b : builder) :
  tag_stack b <> [] ->
  tag_stack (fold_left handle_event evs b) <> [] /\
  weight (fold_left handle_event evs b) = count_starts evs + weight b.
Proof.
  revert b. induction evs as [|ev evs IH]; intros b H; [split; [exact H | reflexivity]|].
  simpl. destruct (weight_handle_event b ev H) as [H1 E1]. destruct (IH _ H1) as [H2 E2].
  split; [exact H2|]. rewrite E2, E1. unfold count_starts. simpl. lia.
Qed.

Definition count_opt (o : option node) : nat := match o with Some n => count_elems n | None => 0 end.

Lemma count_close_all (o : option node) (st : list frame) :
  st <> [] -> count_list (close_all o st) = count_opt o + frames_weight st.
Proof.
  revert o. induction st as [|f r IH]; intros o H; [congruence|].
  destruct r as [|g r].
  - simpl. rewrite count_list_rev. destruct o; unfold count_list; simpl; lia.
  - change (close_all o (f :: g :: r)) with (close_all (Some (close_frame (add_kid o f))) (g :: r)).
    rewrite IH by discriminate. cbn [count_opt]. rewrite count_close_frame.
    destruct o; simpl; unfold count_list; simpl; lia.
Qed.

Lemma soup_parse_count (evs : list event) : count_list (soup_parse evs) = count_starts evs.
Proof.
  unfold soup_parse. destruct (weight_feed evs soup_init ltac:(discriminate)) as [H1 E1].
  destruct (weight_end_data Text _ (fun _ => eq_refl) H1) as [H2 E2].
  rewrite count_close_all by exact H2. unfold weight in E2, E1.
  rewrite E2, E1. change (count_opt None) with 0. change (frames_weight (tag_stack soup_init)) with 0.
  lia.
Qed.

(** ** Well-formed trees and their events *)

Definition is_text (n : node) : bool := match n with Text _ => true | _ => false end.

(** A string that [endData] keeps as it is. *)
Definition text_ok (s : string) : bool :=
  negb (String.eqb s "") && (negb (all_ascii_space s) || String.eqb s " " || String.eqb s newline).

Fixpoint keys_unique (a : list (string * string)) : bool :=
  match a with
  | [] => true
  | (k, _) :: r => negb (existsb (fun kv => String.eqb k (fst kv)) r) && keys_unique r
  end.

Fixpoint no_adjacent_text (l : list node) : bool :=
  match l with
  | x :: ((y :: _) as r) => negb (is_text x && is_text y) && no_adjacent_text r
  | _ => true
  end.

Definition hd_not_text (l : list node) : bool :=
  match l with x :: _ => negb (is_text x) | [] => true end.

Fixpoint wf_node (n : node) : bool :=
  match n with
  | Elem name attrs kids =>
      negb (String.eqb name root_name) && keys_unique attrs
      && (negb (is_member name empty_element_tags) || match kids with [] => true | _ => false end)
      && no_adjacent_text kids
      && (fix go (l : list node) : bool :=
            match l with
            | [] => true
            | k :: r => wf_node k && go r
            end) kids
  | Text s => text_ok s
  | Comment s => text_ok s
  end.

Definition wf_forest (l : list node) : bool := forallb wf_node l && no_adjacent_text l.

(** The callbacks html.parser makes on the markup of a tree. *)
Fixpoint events_of (n : node) : list event :=
  match n with
  | Elem name attrs kids =>
      StartTag name (map (fun kv => (fst kv, Some (snd kv))) attrs)
        :: (fix go (l : list node) : list event :=
              match l with
              | [] => []
              | k :: r => (events_of k ++ go r)%list
              end) kids ++ [EndTag name]%list
  | Text s => [Data s]
  | Comment s => [CommentEv s]
  end.

Definition events_list (l : list node) : list event := flat_map events_of l.

Definition add_children (ts : list node) (st : list frame) : list frame :=
  fold_left (fun st t => add_child t st) ts st.

(** ** Rebuilding a well-formed tree *)

Lemma wf_node_elem (n : string) (a : list (string * string)) (kids : list node) :
  wf_node (Elem n a kids) =
  negb (String.eqb n root_name) && keys_unique a
  && (negb (is_member n empty_element_tags) || match kids with [] => true | _ => false end)
  && no_adjacent_text kids && forallb wf_node kids.
Proof. reflexivity. Qed.

Lemma events_of_elem (n : string) (a : list (string * string)) (kids : list node) :
  events_of (Elem n a kids) =
  StartTag n (map (fun kv => (fst kv, Some (snd kv))) a) :: (events_list kids ++ [EndTag n])%list.
Proof. reflexivity. Qed.

Lemma set_attr_new (k v : string) (d : list (string * string)) :
  existsb (fun kv => String.eqb k (fst kv)) d = false -> set_attr k v d = (d ++ [(k, v)])%list.
Proof.
  induction d as [|[k' v'] d IH]; simpl; [reflexivity|].
  destruct (String.eqb k k'); [discriminate|]. intros H. now rewrite IH.
Qed.

Lemma attr_dict_fold (a d : list (string * string)) :
  keys_unique a = true ->
  (forall x, In x (map fst a) -> existsb (fun kv => String.eqb x (fst kv)) d = false) ->
  fold_left (fun d kv => set_attr (fst kv) (match snd kv with Some v => v | None => "" end) d)
            (map (fun kv => (fst kv, Some (snd kv))) a) d = (d ++ a)%list.
Proof.
  revert d. induction a as [|[k v] a IH]; intros d Hu Hd; simpl; [now rewrite app_nil_r|].
  apply andb_prop in Hu as [Hk Hu]. rewrite set_attr_new by (apply Hd; now left).
  rewrite IH; [now rewrite <- app_assoc | exact Hu |].
  intros x Hx. rewrite existsb_app, (Hd x (or_intror Hx)). simpl.
  destruct (String.eqb_spec x k) as [->|Hne]; [|reflexivity].
  exfalso. apply in_map_iff in Hx as (kv & Hkv & Hin).
  assert (E : existsb (fun kv => String.eqb k (fst kv)) a = true).
  { apply existsb_exists. exists kv. split; [exact Hin | rewrite Hkv; apply String.eqb_refl]. }
  rewrite E in Hk. discriminate.
Qed.

Lemma attr_dict_unique (a : list (string * string)) :
  keys_unique a = true -> attr_dict (map (fun kv => (fst kv, Some (snd kv))) a) = a.
Proof. intros Hu. unfold attr_dict. now rewrite attr_dict_fold. Qed.

Lemma add_children_cons (ts : list node) (f : frame) (st : list frame) :
  add_children ts (f :: st) =
  {| fname := fname f; fattrs := fattrs f; fkids := (rev ts ++ fkids f)%list |} :: st.
Proof.
  revert f. induction ts as [|t ts IH]; intros f; [destruct f; reflexivity|].
  unfold add_children in *. simpl. rewrite IH. simpl. now rewrite <- app_assoc.
Qed.

Lemma end_data_nil (mk : string -> node) (b : builder) : current_data b = [] -> end_data mk b = b.
Proof. unfold end_data. now intros ->. Qed.

Lemma end_data_cd (mk : string -> node) (b : builder) : current_data (end_data mk b) = [].
Proof. unfold end_data. destruct (current_data b) eqn:E; [exact E | reflexivity]. Qed.

Lemma end_data_ac (mk : string -> node) (b : builder) :
  already_closed (end_data mk b) = already_closed b.
Proof. unfold end_data. destruct (current_data b); reflexivity. Qed.

Lemma end_data_stack (mk : string -> node) (b : builder) :
  tag_stack b <> [] -> tag_stack (end_data mk b) <> [].
Proof. unfold end_data. destruct (current_data b); [trivial | now apply add_child_nonempty]. Qed.

Lemma collapse_ok (st : list frame) (s : string) : text_ok s = true -> collapse st s = s.
Proof.
  unfold text_ok, collapse. intros H. apply andb_prop in H as [_ H].
  destruct (negb (preserving st) && all_ascii_space s) eqn:E; [|reflexivity].
  apply andb_prop in E as [_ Es]. rewrite Es in H. simpl in H.
  apply orb_prop in H as [H|H]; apply String.eqb_eq in H; subst s; reflexivity.
Qed.

Lemma start_nonvoid (n : string) (a : list (string * option string)) (b : builder) :
  is_member n empty_element_tags = false ->
  handle_event b (StartTag n a) = push_tag n (attr_dict a) (end_data Text b).
Proof. intros Hv. unfold handle_event, parser_starttag. now rewrite Hv. Qed.

Lemma start_void (n : string) (a : list (string * option string)) (b : builder) :
  is_member n empty_element_tags = true ->
  handle_event b (StartTag n a) =
  let b2 := soup_endtag n (push_tag n (attr_dict a) (end_data Text b)) in
  {| tag_stack := tag_stack b2; current_data := current_data b2;
     already_closed := (already_closed b2 ++ [n])%list |}.
Proof. intros Hv. unfold handle_event, parser_starttag. now rewrite Hv. Qed.

Lemma endtag_open (n : string) (b : builder) :
  is_member n (already_closed b) = false -> handle_event b (EndTag n) = soup_endtag n b.
Proof. intros H. unfold handle_event, parser_endtag. now rewrite H. Qed.

(** [</n>] closes the innermost tag when it is [n]. *)
Lemma soup_endtag_top (n : string) (f : frame) (st : list frame) (b : builder) :
  current_data b = [] -> tag_stack b = f :: st -> st <> [] -> fname f = n ->
  String.eqb n root_name = false ->
  soup_endtag n b = with_stack (add_child (close_frame f) st) b.
Proof.
  intros Hcd Hs Hne Hf Hr. unfold soup_endtag. rewrite (end_data_nil _ _ Hcd), Hs.
  unfold pop_to_tag. rewrite Hr. destruct st as [|g st]; [congruence|].
  simpl. rewrite Hf, String.eqb_refl. reflexivity.
Qed.

(** What the events of one node do: they add the node under the innermost
    open tag. *)
Definition rebuilds (t : node) : Prop :=
  forall b, wf_node t = true -> already_closed b = [] -> tag_stack b <> [] ->
    (current_data b = [] \/ is_text t = false) ->
    end_data Text (fold_left handle_event (events_of t) b) =
      with_stack (add_child t (tag_stack (end_data Text b))) (end_data Text b) /\
    already_closed (fold_left handle_event (events_of t) b) = [] /\
    (is_text t = false -> current_data (fold_left handle_event (events_of t) b) = []).

Definition forest_rebuilds (ts : list node) : Prop :=
  forall b, forallb wf_node ts = true -> no_adjacent_text ts = true ->
    already_closed b = [] -> tag_stack b <> [] ->
    (current_data b = [] \/ hd_not_text ts = true) ->
    end_data Text (fold_left handle_event (events_list ts) b) =
      with_stack (add_children ts (tag_stack (end_data Text b))) (end_data Text b) /\
    already_closed (fold_left handle_event (events_list ts) b) = [].

Lemma rebuild_text (s : string) : rebuilds (Text s).
Proof.
  intros [st cd ac] Hwf Hac Hst [Hcd|Hnt]; [|discriminate]. simpl in Hcd, Hac. subst cd ac.
  cbn -[collapse add_child]. rewrite (collapse_ok _ _ Hwf). repeat split. discriminate.
Qed.

Lemma rebuild_comment (s : string) : rebuilds (Comment s).
Proof.
  intros b Hwf Hac Hst _. simpl fold_left.
  pose proof (end_data_cd Text b) as Hcd. pose proof (end_data_ac Text b) as Eac.
  destruct (end_data Text b) as [st cd ac]. simpl in Hcd, Eac. subst cd ac.
  cbn -[collapse add_child]. now rewrite (collapse_ok _ _ Hwf).
Qed.

Lemma soup_endtag_flush (n : string) (b : builder) : soup_endtag n b = soup_endtag n (end_data Text b).
Proof. unfold soup_endtag at 2. now rewrite (end_data_nil Text (end_data Text b) (end_data_cd Text b)). Qed.

Lemma close_new_frame (n : string) (a : list (string * string)) (kids : list node) :
  close_frame {| fname := n; fattrs := a; fkids := (rev kids ++ [])%list |} = Elem n a kids.
Proof. unfold close_frame. simpl. now rewrite app_nil_r, rev_involutive. Qed.

Lemma rebuild_elem (n : string) (a : list (string * string)) (kids : list node) :
  forest_rebuilds kids -> rebuilds (Elem n a kids).
Proof.
  intros Hkids b Hwf Hac Hst _. rewrite wf_node_elem in Hwf.
  apply andb_prop in Hwf as [Hwf Hall]. apply andb_prop in Hwf as [Hwf Hadj].
  apply andb_prop in Hwf as [Hwf Hvoid]. apply andb_prop in Hwf as [Hroot Hu].
  apply negb_true_iff in Hroot.
  pose proof (end_data_cd Text b) as Hcd0. pose proof (end_data_ac Text b) as Hac0.
  pose proof (end_data_stack Text b Hst) as Hst0. rewrite Hac in Hac0.
  rewrite events_of_elem. cbn [fold_left]. rewrite fold_left_app. cbn [fold_left].
  destruct (is_member n empty_element_tags) eqn:Hv.
  - destruct kids as [|k kids]; [|discriminate Hvoid].
    rewrite (start_void n _ b Hv), attr_dict_unique by exact Hu. cbv zeta.
    destruct (end_data Text b) as [st cd ac]. simpl in Hcd0, Hac0, Hst0. subst cd ac.
    erewrite soup_endtag_top; [| reflexivity | reflexivity | exact Hst0 | reflexivity | exact Hroot].
    cbn -[add_child close_frame]. unfold parser_endtag.
    cbn [already_closed is_member existsb]. rewrite String.eqb_refl. cbn. rewrite String.eqb_refl.
    repeat split.
  - rewrite (start_nonvoid n _ b Hv), attr_dict_unique by exact Hu.
    destruct (end_data Text b) as [st cd ac]. simpl in Hcd0, Hac0, Hst0. subst cd ac.
    destruct (Hkids (push_tag n a {| tag_stack := st; current_data := []; already_closed := [] |})
                Hall Hadj eq_refl ltac:(discriminate) (or_introl eq_refl)) as [E2 A2].
    rewrite (end_data_nil Text (push_tag n a {| tag_stack := st; current_data := []; already_closed := [] |})
               eq_refl) in E2.
    rewrite endtag_open by (rewrite A2; reflexivity).
    rewrite soup_endtag_flush, E2. cbn [tag_stack push_tag with_stack]. rewrite add_children_cons.
    erewrite soup_endtag_top; [| reflexivity | reflexivity | exact Hst0 | reflexivity | exact Hroot].
    rewrite close_new_frame.
    repeat split.
Qed.

Lemma no_adjacent_text_tl (t : node) (ts : list node) :
  no_adjacent_text (t :: ts) = true -> no_adjacent_text ts = true.
Proof. destruct ts as [|u ts]; [reflexivity|]. simpl. now intros [_ H]%andb_prop. Qed.

Lemma no_adjacent_text_hd (t : node) (ts : list node) :
  no_adjacent_text (t :: ts) = true -> is_text t = true -> hd_not_text ts = true.
Proof.
  destruct ts as [|u ts]; [reflexivity|]. simpl. intros [H _]%andb_prop Ht.
  rewrite Ht in H. exact H.
Qed.

Lemma forest_of_nodes (ts : list node) : list_all node rebuilds ts -> forest_rebuilds ts.
Proof.
  induction 1 as [|t Ht ts Hts IH].
  - intros b _ _ Hac _ _. split; [|exact Hac]. simpl. now destruct (end_data Text b).
  - intros b Hall Hadj Hac Hst Hcd. simpl in Hall. apply andb_prop in Hall as [Hwf Hall].
    unfold events_list. simpl flat_map. rewrite fold_left_app.
    assert (Hcd' : current_data b = [] \/ is_text t = false)
      by (destruct Hcd as [H|H]; [now left | right; now apply negb_true_iff]).
    destruct (Ht b Hwf Hac Hst Hcd') as (E1 & A1 & C1).
    assert (Hst1 : tag_stack (fold_left handle_event (events_of t) b) <> [])
      by exact (proj1 (weight_feed _ b Hst)).
    assert (Hcd1 : current_data (fold_left handle_event (events_of t) b) = [] \/ hd_not_text ts = true).
    { destruct (is_text t) eqn:Et; [right; exact (no_adjacent_text_hd t ts Hadj Et) | left; now apply C1]. }
    destruct (IH _ Hall (no_adjacent_text_tl t ts Hadj) A1 Hst1 Hcd1) as [E2 A2].
    split; [|exact A2]. unfold events_list in E2. rewrite E2, E1. reflexivity.
Qed.

Lemma rebuild_all (t : node) : rebuilds t.
Proof.
  induction t as [n a kids IH|s|s] using node_ind;
    [exact (rebuild_elem n a kids (forest_of_nodes kids IH)) | apply rebuild_text | apply rebuild_comment].
Qed.

Lemma soup_parse_events (ts : list node) : wf_forest ts = true -> soup_parse (events_list ts) = ts.
Proof.
  unfold wf_forest. intros H. apply andb_prop in H as [Hall Hadj].
  assert (Hl : list_all node rebuilds ts)
    by (clear; induction ts; constructor; [apply rebuild_all | assumption]).
  destruct (forest_of_nodes ts Hl soup_init Hall Hadj eq_refl ltac:(discriminate) (or_introl eq_refl))
    as [E _].
  unfold soup_parse. rewrite E. cbn [tag_stack soup_init with_stack end_data current_data].
  rewrite add_children_cons. simpl. now rewrite app_nil_r, rev_involutive.
Qed.

(** ** Theorems *)

(** ** Texts cut into several callbacks *)

(** Two builders that differ only in how the pending text is cut into
    the strings of [current_data]: [endData] joins them, so what the
    builder does next is the same. *)
Definition same_data (b1 b2 : builder) : Prop :=
  tag_stack b1 = tag_stack b2 /\ already_closed b1 = already_closed b2 /\
  String.concat "" (current_data b1) = String.concat "" (current_data b2) /\
  (current_data b1 = [] <-> current_data b2 = []).

#[export] Instance same_data_equiv : Equivalence same_data.
Proof.
  split.
  - intros b. repeat split; tauto.
  - intros b1 b2 (H1 & H2 & H3 & H4). repeat split; [congruence | congruence | congruence | apply H4 | apply H4].
  - intros b1 b2 b3 (H1 & H2 & H3 & H4) (G1 & G2 & G3 & G4).
    repeat split; [congruence | congruence | congruence | |]; intros E; [apply G4, H4 | apply H4, G4]; exact E.
Qed.

Lemma end_data_same (mk : string -> node) (b1 b2 : builder) : same_data b1 b2 -> end_data mk b1 = end_data mk b2.
Proof.
  intros (Hs & Ha & Hc & Hn). unfold end_data.
  destruct (current_data b1) as [|d1 l1] eqn:E1, (current_data b2) as [|d2 l2] eqn:E2.
  - destruct b1, b2. cbn in *. subst. reflexivity.
  - exfalso. destruct Hn as [F _]. rewrite ?E1, ?E2 in F. discriminate (F eq_refl).
  - exfalso. destruct Hn as [_ G]. rewrite ?E1, ?E2 in G. discriminate (G eq_refl).
  - rewrite ?E1, ?E2 in Hc. now rewrite Hs, Ha, Hc.
Qed.

Lemma join_cons (x : string) (l : list string) : String.concat "" (x :: l) = x ++ String.concat "" l.
Proof. destruct l; [symmetry; apply str_app_nil_r | reflexivity]. Qed.

Lemma join_app (l1 l2 : list string) : String.concat "" (l1 ++ l2) = String.concat "" l1 ++ String.concat "" l2.
Proof. induction l1 as [|x l1 IH]; [reflexivity|]. rewrite <- app_comm_cons, !join_cons, IH. apply str_app_assoc. Qed.

(** The pending strings after more of them. *)
Lemma same_data_more (b1 b2 : builder) (l1 l2 : list string) :
  same_data b1 b2 -> String.concat "" l1 = String.concat "" l2 -> l1 <> [] -> l2 <> [] ->
  same_data {| tag_stack := tag_stack b1; current_data := current_data b1 ++ l1; already_closed := already_closed b1 |}
            {| tag_stack := tag_stack b2; current_data := current_data b2 ++ l2; already_closed := already_closed b2 |}.
Proof.
  intros (Hs & Ha & Hc & _) Hl H1 H2. unfold same_data. cbn [tag_stack current_data already_closed].
  repeat split; try assumption.
  - now rewrite !join_app, Hc, Hl.
  - intros E. destruct (app_eq_nil _ _ E). contradiction.
  - intros E. destruct (app_eq_nil _ _ E). contradiction.
Qed.

#[export] Instance soup_data_proper (s : string) : Proper (same_data ==> same_data) (soup_data s).
Proof. intros b1 b2 H. apply same_data_more; [assumption | reflexivity | discriminate | discriminate]. Qed.

Lemma parser_starttag_same (he : bool) (n : string) (a : list (string * option string)) (b1 b2 : builder) :
  same_data b1 b2 -> parser_starttag he n a b1 = parser_starttag he n a b2.
Proof. intros H. unfold parser_starttag, soup_starttag. now rewrite (end_data_same Text b1 b2 H). Qed.

#[export] Instance parser_endtag_proper (check : bool) (n : string) :
  Proper (same_data ==> same_data) (parser_endtag check n).
Proof.
  intros b1 b2 H. pose proof H as (Hs & Ha & Hc & Hn). unfold parser_endtag. rewrite Ha.
  destruct (check && is_member n (already_closed b2)).
  - unfold same_data. cbn [tag_stack current_data already_closed].
    repeat split; first [assumption | reflexivity | apply Hn].
  - unfold soup_endtag. now rewrite (end_data_same Text b1 b2 H).
Qed.

#[export] Instance handle_event_proper : Proper (same_data ==> eq ==> same_data) handle_event.
Proof.
  intros b1 b2 H ev ? <-. destruct ev as [n a|n a|n|d|d|d|d|d]; cbn [handle_event];
    try (now rewrite (end_data_same Text b1 b2 H)).
  - now rewrite (parser_starttag_same true n a b1 b2 H).
  - now rewrite (parser_starttag_same false n a b1 b2 H).
  - now rewrite H.
  - now rewrite H.
Qed.

(** The callbacks of a text cut into pieces, in place of one for the
    whole text. *)
Inductive split_events : list event -> list event -> Prop :=
| split_nil : split_events [] []
| split_same (ev : event) (l1 l2 : list event) : split_events l1 l2 -> split_events (ev :: l1) (ev :: l2)
| split_data (ps : list string) (l1 l2 : list event) :
    ps <> [] -> split_events l1 l2 -> split_events (Data (String.concat "" ps) :: l1) (map Data ps ++ l2).

Lemma split_events_refl (l : list event) : split_events l l.
Proof. induction l; constructor; assumption. Qed.

Lemma split_events_app (l1 l2 l1' l2' : list event) :
  split_events l1 l2 -> split_events l1' l2' -> split_events (l1 ++ l1') (l2 ++ l2').
Proof.
  induction 1 as [|ev l1 l2 _ IH|ps l1 l2 Hps _ IH]; intros H'; [exact H'| |].
  - cbn. constructor. now apply IH.
  - cbn. rewrite <- app_assoc. constructor; [exact Hps | now apply IH].
Qed.

Lemma fold_data (ps : list string) (b : builder) :
  fold_left handle_event (map Data ps) b =
  {| tag_stack := tag_stack b; current_data := current_data b ++ ps; already_closed := already_closed b |}.
Proof.
  revert b. induction ps as [|p ps IH]; intros b; [destruct b; cbn; now rewrite app_nil_r|].
  cbn [map fold_left]. rewrite IH. cbn. now rewrite <- app_assoc.
Qed.

Lemma fold_split (l1 l2 : list event) :
  split_events l1 l2 -> forall b1 b2, same_data b1 b2 -> same_data (fold_left handle_event l1 b1) (fold_left handle_event l2 b2).
Proof.
  induction 1 as [|ev l1 l2 _ IH|ps l1 l2 Hps _ IH]; intros b1 b2 H; [exact H| |].
  - cbn [fold_left]. apply IH. now rewrite H.
  - cbn [fold_left]. rewrite fold_left_app, fold_data. apply IH.
    apply same_data_more; [assumption | reflexivity | discriminate | exact Hps].
Qed.

(** [BeautifulSoup] builds the same tree from a text given in pieces. *)
Lemma soup_parse_split (l1 l2 : list event) : split_events l1 l2 -> soup_parse l1 = soup_parse l2.
Proof.
  intros H. unfold soup_parse. f_equal. f_equal. apply end_data_same, fold_split; [exact H | reflexivity].
Qed.

(** C25: No tag is lost: whatever callbacks html.parser makes, badly
    nested tags, unclosed tags and stray end tags included, the tree
    BeautifulSoup builds has exactly one element per start tag. *)
Theorem soup_keeps_every_tag (evs : list event) : count_list (soup_parse evs) = count_starts evs.
Proof. apply soup_parse_count. Qed.

(** ** Examples *)

(** The three-article page of [Extract], read back from its callbacks,
    gives the tool's answer. *)
Example soup_scenario :
  scrape_page (soup_parse (events_list page_three)) =
  Ok "C (300 citations): https://www.sciencedirect.com/c".
Proof. vm_compute. reflexivity. Qed.

(** A stray [</p>] closes the open [<b>] with it; the unmatched [</i>] is
    ignored and the unclosed [<div>] is closed at the end. *)
Example soup_misnested :
  soup_parse [StartTag "div" []; StartTag "p" []; StartTag "b" []; Data "x"; EndTag "p";
              EndTag "i"; Data "y"] =
  [Elem "div" [] [Elem "p" [] [Elem "b" [] [Text "x"]]; Text "y"]].
Proof. reflexivity. Qed.

End Soup.
