(* ===== verification/HtmlTok.v ===== *)
(** * html.parser's tokenizer under BeautifulSoup (line 62)

    [BeautifulSoup(page, "html.parser")] creates a
    [BeautifulSoupHTMLParser] (a subclass of Python's
    [html.parser.HTMLParser] built with [convert_charrefs=False]), calls
    its [feed(markup)] and then [close()]: [goahead(0)] then [goahead(1)]
    over the text not yet consumed.  This file models that tokenizer as
    CPython's [html/parser.py] and [_markupbase.py] have it from 3.5 to
    the 3.12 and 3.13 releases before the 2025 changes to comments, CDATA
    content and [</script>] scanning.

    The parser's state is the text not read yet (its position), and
    [cdata_elem], set after [<script>] or [<style>].  Each regular
    expression of the module is a function on the text at the position:
    the one match [re.match] finds, written out with the choices its
    backtracking makes ([attr_value] gives back a space or an equals sign
    when a quoted value is not closed, [entityref] gives back name
    characters until a terminator follows).  Each [parse_*] method returns
    the callbacks it makes and the new position, or [None] for a negative
    result ([-1]: the construct is not complete).  [construct] is the
    body of [goahead]'s loop after the text before the next [<] or [&];
    [goahead_loop] is the loop, with one round per character as its count
    (every round it goes on after consumes text).

    The callbacks are [Soup.event]s.  bs4's [handle_charref] and
    [handle_entityref] turn a reference into text through tables of
    Unicode characters, and [html.unescape] does the same for attribute
    values holding [&]: these three tables are the parameters [refs]
    (Latin-1 strings cannot hold their results).  An [AssertionError] of
    [_markupbase] (an unknown marked section) is an exception; bs4 turns
    it into [ParserRejectedMarkup] ([Soup.soup_parse_src]).  bs4's
    [handle_charref] calls [int] on the digits of a decimal reference
    before its table, outside any [try]: more than 4300 digits raise
    CPython's [ValueError] ([charref_int]), which [BeautifulSoup] lets
    through.
    [html_parser] is the [Tool.HtmlParser] instance: bs4's tree builder
    on these callbacks.

    The theorems, in section [RoundTrip], read back the markup
    [ser_forest] prints for a printable forest ([plain]: lower-case
    names, double-quoted values without [&], texts of any characters
    with [&] and [<] written [&amp;] and [&lt;], comments without [-],
    [<script>] and [<style>] holding one text without [</], written as
    it is): one lemma per construct ([attrs_collect_ser],
    [parse_starttag_ser], [parse_endtag_ser], [parse_comment_ser]), the
    round in CDATA mode that reads a raw content up to its end tag
    ([search_raw], [loop_raw]), the rounds of a text, one per reference
    ([round_ref], [loop_esc], under the hypotheses [amp_ref] and
    [lt_ref] on the entity table), a loop lemma per node by nested
    induction ([loops_all]), and [tokenize_ser], whose count of rounds is
    enough because a tree takes one round per tag, comment and reference
    ([node_steps_fit]: at most its length).  The callbacks of a text with
    references are the pieces of the text ([Soup.split_events]), which
    bs4 joins ([Soup.soup_parse_split]).  Every exception the
    tokenizer raises is an [AssertionError] or that [ValueError]
    ([tokenize_raise]).  The
    claims are the round trip through [BeautifulSoup], the tool on the
    markup of a printable page (what lines 65-84 give on its tree) and,
    through the tool, the rejection of an unknown marked section after
    printable markup, which the tool returns as its error text. *)

From Stdlib Require Import String Ascii List Bool Arith Lia.
From S2P Require Import Prelude PyStr PyRe PyInt Url Repr Dom Extract Tool Soup.
Import ListNotations.
Local Open Scope string_scope.

Module HtmlTok.
Import PyStr PyRe Url Repr Dom Extract Tool Soup.

(** ** Characters *)

Definition code_in (lo hi : nat) (c : ascii) : bool :=
  ((lo <=? nat_of_ascii c) && (nat_of_ascii c <=? hi))%nat.

Definition is_code (n : nat) (c : ascii) : bool := (nat_of_ascii c =? n)%nat.

(** [[a-zA-Z]], [[0-9]], [[0-9a-fA-F]] *)
Definition is_alpha (c : ascii) : bool := code_in 65 90 c || code_in 97 122 c.
Definition is_num (c : ascii) : bool := code_in 48 57 c.
Definition is_alnum (c : ascii) : bool := is_alpha c || is_num c.
Definition is_hex (c : ascii) : bool := is_num c || code_in 65 70 c || code_in 97 102 c.

(** [[^\t\n\r\f />\x00]]: a character of a tag name. *)
Definition tag_char (c : ascii) : bool :=
  negb (existsb (fun n => is_code n c) [9; 10; 13; 12; 32; 47; 62; 0]).

(** [[-.a-zA-Z0-9:_]]: a character of [endtagfind]'s name. *)
Definition endtag_char (c : ascii) : bool := is_alnum c || existsb (fun n => is_code n c) [45; 46; 58; 95].

(** [[-_.a-zA-Z0-9]]: a character of [_declname]. *)
Definition decl_char (c : ascii) : bool := is_alnum c || existsb (fun n => is_code n c) [45; 95; 46].

(** [[-.a-zA-Z0-9]]: a character of an entity name. *)
Definition entity_char (c : ascii) : bool := is_alnum c || is_code 45 c || is_code 46 c.

(** [[^\s/>]] and [[^\s/=>]]: the first and the other characters of an
    attribute name. *)
Definition attr_first (c : ascii) : bool := negb (py_isspace c) && negb (is_code 47 c) && negb (is_code 62 c).
Definition attr_char (c : ascii) : bool := attr_first c && negb (is_code 61 c).

(** [[^>\s]]: a character of an unquoted value. *)
Definition bare_char (c : ascii) : bool := negb (py_isspace c) && negb (is_code 62 c).

(** The lookbehind before an attribute name: a quote, a double quote,
    whitespace or a slash. *)
Definition behind_ok (c : ascii) : bool := is_code 39 c || is_code 34 c || py_isspace c || is_code 47 c.

Definition is_gt (c : ascii) : bool := is_code 62 c.

(** [str.lower()] on Latin-1: [A-Z] and [À-Þ] but [×]. *)
Definition lower_char (c : ascii) : ascii :=
  if code_in 65 90 c || (code_in 192 222 c && negb (is_code 215 c)) then ascii_of_nat (nat_of_ascii c + 32) else c.

Fixpoint py_lower (s : string) : string :=
  match s with EmptyString => EmptyString | String c r => String (lower_char c) (py_lower r) end.

(** ** Texts at a position *)

(** The longest prefix of a class and the rest. *)
Fixpoint span (p : ascii -> bool) (s : string) : string * string :=
  match s with
  | String c r => if p c then let (a, b) := span p r in (String c a, b) else (EmptyString, s)
  | EmptyString => (EmptyString, EmptyString)
  end.

(** The last character of a text, or [d]. *)
Fixpoint last_or (d : ascii) (s : string) : ascii :=
  match s with EmptyString => d | String c r => last_or c r end.

(** [rawdata[i:j]]: the text between a position and a later one; empty
    when the second is not later. *)
Definition between (s t : string) : string := String.substring 0 (String.length s - String.length t) s.

(** [regex.search] from the position for a pattern matched by [m] (the
    text after its match, if it matches at the start of the text): the
    text before the match and the text after it. *)
Fixpoint search_at (m : string -> option string) (s : string) : option (string * string) :=
  match m s with
  | Some r => Some (EmptyString, r)
  | None =>
      match s with
      | EmptyString => None
      | String c t => option_map (fun '(a, r) => (String c a, r)) (search_at m t)
      end
  end.

(** [rawdata.find(c, i)]: the text before the first [c] and after it. *)
Definition find_char (c : ascii) (s : string) : option (string * string) :=
  search_at (fun t => match t with String d r => if Ascii.eqb d c then Some r else None | _ => None end) s.

Definition drop_n (n : nat) (s : string) : string := String.substring n (String.length s - n) s.

(** [(?:\s|/(?!>))*] after a character [prev]: the last character read and
    the rest. *)
Fixpoint sep (prev : ascii) (s : string) : ascii * string :=
  match s with
  | String c r =>
      if py_isspace c then sep c r
      else if is_code 47 c && negb (starts_with_char ">" r) then sep c r
      else (prev, s)
  | EmptyString => (prev, s)
  end.

(** ** The regular expressions of a start tag *)

(** [tagfind_tolerant = ([a-zA-Z][^\t\n\r\f />\x00]* )(?:\s|/(?!>))*]:
    the name, the last character read and the rest. *)
Definition tagfind (s : string) : option (string * ascii * string) :=
  match s with
  | String c r =>
      if is_alpha c then
        let (nm, r1) := span tag_char r in
        let (p, r2) := sep (last_or c nm) r1 in Some (String c nm, p, r2)
      else None
  | EmptyString => None
  end.

(** The value alternatives of [attrfind_tolerant]: a text in single
    quotes, a text in double quotes, or, when no quote opens it,
    [[^>\s]*]: the value and the rest, or [None] at an opening quote that
    is never closed. *)
Definition value_alt (s : string) : option (string * string) :=
  match s with
  | String c r =>
      if is_code 39 c || is_code 34 c then
        match find_char c r with
        | Some (v, r') => Some (String c (v ++ String c EmptyString), r')
        | None => None
        end
      else Some (span bare_char s)
  | EmptyString => Some (EmptyString, EmptyString)
  end.

(** [(\s*=+\s*(value))?]: groups 2 and 3 and the rest.  When the value
    alternatives fail, [re] backtracks: the last space before the value is
    given back and the value is empty there; else, with two or more equals
    signs, the last one is given back and starts an unquoted value; else
    the group is absent. *)
Definition attr_value (s : string) : option (string * string * string) :=
  let (ws1, t1) := span py_isspace s in
  let (eqs, t2) := span (is_code 61) t1 in
  match eqs with
  | EmptyString => None
  | String _ eqs_tl =>
      let (ws2, t3) := span py_isspace t2 in
      match value_alt t3 with
      | Some (v, r) => Some (ws1 ++ eqs ++ ws2 ++ v, v, r)
      | None =>
          match ws2 with
          | String _ _ =>
              let ws2' := String.substring 0 (String.length ws2 - 1) ws2 in
              Some (ws1 ++ eqs ++ ws2', EmptyString, drop_n (String.length ws2 - 1) ws2 ++ t3)
          | EmptyString =>
              match eqs_tl with
              | String _ _ =>
                  let (v, r) := span bare_char (String "=" t3) in
                  Some (ws1 ++ eqs_tl ++ v, v, r)
              | EmptyString => None
              end
          end
      end
  end.

(** [attrfind_tolerant] at a position after the character [prev]: the
    name, groups 2 and 3 when the value group is present, the last
    character read and the rest. *)
Definition attr_at (prev : ascii) (s : string)
  : option (string * option (string * string) * ascii * string) :=
  match s with
  | String c r =>
      if behind_ok prev && attr_first c then
        let (nm, r1) := span attr_char r in
        let lastn := last_or c nm in
        match attr_value r1 with
        | Some (g2, v, r2) => let (p, r3) := sep (last_or lastn g2) r2 in Some (String c nm, Some (g2, v), p, r3)
        | None => let (p, r3) := sep lastn r1 in Some (String c nm, None, p, r3)
        end
      else None
  | EmptyString => None
  end.

(** The attributes of [locatestarttagend_tolerant], [(attribute)*]: the
    value group's trailing [\s*] is read by the separator loop after it,
    which reads the same characters.  Every attribute reads a character. *)
Fixpoint attrs_skip (n : nat) (prev : ascii) (s : string) : string :=
  match n with
  | O => s
  | S n' => match attr_at prev s with Some (_, _, p, r) => attrs_skip n' p r | None => s end
  end.

(** [locatestarttagend_tolerant.match] at a [<] followed by a letter: the
    text after the match. *)
Definition locate_starttag_end (s : string) : string :=
  match s with
  | String _ (String a t) =>
      let (nm, t1) := span tag_char t in
      let (w, t2) := span (fun c => py_isspace c || is_code 47 c) t1 in
      let t3 := attrs_skip (S (String.length t2)) (last_or (last_or a nm) w) t2 in
      snd (span py_isspace t3)
  | _ => s
  end.

(** [check_for_whole_start_tag]: the position after the tag, or [None]
    when it may be incomplete. *)
Definition check_for_whole_start_tag (s : string) : option string :=
  match locate_starttag_end s with
  | String c r =>
      if is_gt c then Some r
      else if is_code 47 c then (match r with String d r' => if is_gt d then Some r' else None | _ => None end)
      else if is_alpha c || is_code 61 c then None
      else Some (String c r)
  | EmptyString => None
  end.

(** bs4's [handle_charref] first computes [int(name.lstrip('x'), 16)]
    for a hexadecimal name and [int(name)] for a decimal one, outside any
    [try]: a decimal reference of more than 4300 digits raises the
    [ValueError] of CPython's digit limit (base 16, a power of two, has
    none). *)
Definition charref_int (name : string) : res unit :=
  match name with
  | String x _ =>
      if is_code 120 x || is_code 88 x then Ok tt
      else match PyInt.py_int name with Ok _ => Ok tt | Raise e => Raise e end
  | EmptyString => Ok tt
  end.

(** ** Parsing a construct *)

(** The tables behind references: bs4's [handle_charref] on the digits
    of [&#...;], its [handle_entityref] on the name of [&name;], and
    [html.unescape] on an attribute value that holds [&]. *)
Record refs : Type := {
  charref_text : string -> string;
  entityref_text : string -> string;
  unescape_refs : string -> string
}.

Section Parser.
Variable R : refs.

(** [html.unescape(s)]: [if '&' not in s: return s]. *)
Definition unescape (s : string) : string := if has_char "&" s then unescape_refs R s else s.

(** [attrvalue[1:-1]] when the value starts and ends with the same quote. *)
Definition strip_quotes (v : string) : string :=
  match v with
  | String c r =>
      if (is_code 39 c || is_code 34 c) && ends_with_char c v then String.substring 1 (String.length v - 2) v else v
  | EmptyString => v
  end.

(** An attribute as [parse_starttag] stores it. *)
Definition attr_entry (name : string) (g : option (string * string)) : string * option string :=
  (py_lower name,
   match g with
   | None => None
   | Some (g2, v) =>
       if String.eqb g2 "" then None
       else let v' := strip_quotes v in Some (if String.eqb v' "" then v' else unescape v')
   end).

(** [while k < endpos: m = attrfind_tolerant.match(rawdata, k) ...]: the
    attributes and the position where the loop stops. *)
Fixpoint attrs_collect (n : nat) (prev : ascii) (k endpos : string) : list (string * option string) * string :=
  match n with
  | O => ([], k)
  | S n' =>
      if (String.length endpos <? String.length k)%nat then
        match attr_at prev k with
        | Some (nm, g, p, r) => let (a, k') := attrs_collect n' p r endpos in (attr_entry nm g :: a, k')
        | None => ([], k)
        end
      else ([], k)
  end.

(** [CDATA_CONTENT_ELEMENTS] *)
Definition cdata_content_elements : list string := ["script"; "style"].

(** What a [parse_*] method does: its callbacks, the new [cdata_elem] and
    the new position; [None] stands for a negative result. *)
Definition parsed : Type := option (list event * option string * string).

(** [parse_starttag(i)], at a [<] followed by a letter. *)
Definition parse_starttag (s : string) : parsed :=
  match check_for_whole_start_tag s with
  | None => None
  | Some endpos =>
      match tagfind (drop_n 1 s) with
      | None => None
      | Some (nm, p, k) =>
          let tag := py_lower nm in
          let (attrs, k') := attrs_collect (S (String.length k)) p k endpos in
          let tail := strip (between k' endpos) in
          if negb (String.eqb tail ">" || String.eqb tail "/>") then Some ([Data (between s endpos)], None, endpos)
          else if String.eqb tail "/>" then Some ([StartEndTag tag attrs], None, endpos)
          else Some ([StartTag tag attrs],
                     (if is_member tag cdata_content_elements then Some tag else None), endpos)
      end
  end.

(** [endtagfind = </\s*([a-zA-Z][-.a-zA-Z0-9:_]* )\s*>]: the name and the
    text after the match. *)
Definition endtagfind (s : string) : option (string * string) :=
  match drop_prefix "</" s with
  | Some t =>
      match snd (span py_isspace t) with
      | String a t1 =>
          if is_alpha a then
            let (nm, t2) := span endtag_char t1 in
            match snd (span py_isspace t2) with
            | String g r => if is_gt g then Some (String a nm, r) else None
            | EmptyString => None
            end
          else None
      | EmptyString => None
      end
  | None => None
  end.

(** [parse_bogus_comment(i)], at [<!] or [</]. *)
Definition parse_bogus_comment (cd : option string) (s : string) : parsed :=
  match find_char ">" (drop_n 2 s) with
  | Some (c, r) => Some ([CommentEv c], cd, r)
  | None => None
  end.

(** [parse_endtag(i)], at [</]. *)
Definition parse_endtag (cd : option string) (s : string) : parsed :=
  match find_char ">" (drop_n 1 s) with
  | None => None
  | Some (_, gt) =>
      match endtagfind s with
      | None =>
          match cd with
          | Some _ => Some ([Data (between s gt)], cd, gt)
          | None =>
              match tagfind (drop_n 2 s) with
              | None => if String.prefix "</>" s then Some ([], cd, drop_n 3 s) else parse_bogus_comment cd s
              | Some (nm, _, k) =>
                  Some ([EndTag (py_lower nm)], cd, match find_char ">" k with Some (_, r) => r | None => gt end)
              end
          end
      | Some (nm, _) =>
          let elem := py_lower nm in
          match cd with
          | Some c => if String.eqb elem c then Some ([EndTag elem], None, gt) else Some ([Data (between s gt)], cd, gt)
          | None => Some ([EndTag elem], None, gt)
          end
      end
  end.

(** [_commentclose = --\s*>] at a position: the text after it. *)
Definition comment_close (s : string) : option string :=
  match drop_prefix "--" s with
  | Some r => match snd (span py_isspace r) with String g r' => if is_gt g then Some r' else None | _ => None end
  | None => None
  end.

(** [parse_comment(i)], at [<!--]. *)
Definition parse_comment (cd : option string) (s : string) : parsed :=
  match search_at comment_close (drop_n 4 s) with
  | Some (c, r) => Some ([CommentEv c], cd, r)
  | None => None
  end.

(** [parse_pi(i)], at [<?]. *)
Definition parse_pi (cd : option string) (s : string) : parsed :=
  match find_char ">" (drop_n 2 s) with
  | Some (c, r) => Some ([Pi c], cd, r)
  | None => None
  end.

(** [_markedsectionclose = ]\s*]\s*>] and [_msmarkedsectionclose = ]\s*>]. *)
Definition marked_close (s : string) : option string :=
  match s with
  | String b r =>
      if is_code 93 b then
        match snd (span py_isspace r) with
        | String b' r' =>
            if is_code 93 b' then
              match snd (span py_isspace r') with String g r'' => if is_gt g then Some r'' else None | _ => None end
            else None
        | EmptyString => None
        end
      else None
  | EmptyString => None
  end.

Definition ms_marked_close (s : string) : option string :=
  match s with
  | String b r =>
      if is_code 93 b then match snd (span py_isspace r) with String g r' => if is_gt g then Some r' else None | _ => None end
      else None
  | EmptyString => None
  end.

Definition assertion_error (msg : string) : exc := OtherError "AssertionError" msg.

(** [parse_marked_section(i)], at [<![]: [_scan_name] reads the keyword
    ([[a-zA-Z][-_.a-zA-Z0-9]*\s*], [AssertionError] when none), then the
    section runs to its closing pattern. *)
Definition parse_marked_section (cd : option string) (s : string) : res parsed :=
  let t := drop_n 3 s in
  match t with
  | EmptyString => Ok None
  | String a t1 =>
      if is_alpha a then
        let (nm, t2) := span decl_char t1 in
        let t3 := snd (span py_isspace t2) in
        match t3 with
        | EmptyString => Ok None
        | _ =>
            let name := py_lower (String a nm) in
            let close := if is_member name ["temp"; "cdata"; "ignore"; "include"; "rcdata"] then Some marked_close
                         else if is_member name ["if"; "else"; "endif"] then Some ms_marked_close else None in
            match close with
            | Some m =>
                Ok (match search_at m t with Some (d, r) => Some ([UnknownDecl d], cd, r) | None => None end)
            | None =>
                Raise (assertion_error ("unknown status keyword " ++ py_repr (between t t3) ++ " in marked section"))
            end
        end
      else Raise (assertion_error ("expected name token at " ++ py_repr (String.substring 0 20 s)))
  end.

(** [parse_html_declaration(i)], at [<!]. *)
Definition parse_html_declaration (cd : option string) (s : string) : res parsed :=
  if String.prefix "<!--" s then Ok (parse_comment cd s)
  else if String.prefix "<![" s then parse_marked_section cd s
  else if String.eqb (py_lower (String.substring 0 9 s)) "<!doctype" then
    Ok (match find_char ">" (drop_n 9 s) with
        | Some (_, r) => Some ([Decl (between (drop_n 2 s) (String ">" r))], cd, r)
        | None => None
        end)
  else Ok (parse_bogus_comment cd s).

(** ** References *)

(** [charref = &#(?:[0-9]+|[xX][0-9a-fA-F]+)[^0-9a-fA-F]], at [&#]: the
    text [match.group()[2:-1]], the terminator and the text after it.  A
    shorter run of digits is followed by a digit, so backtracking never
    helps. *)
Definition charref (s : string) : option (string * ascii * string) :=
  let t := drop_n 2 s in
  let (d, r) := span is_num t in
  match d with
  | String _ _ =>
      match r with String c r' => if is_hex c then None else Some (d, c, r') | EmptyString => None end
  | EmptyString =>
      match t with
      | String x t' =>
          if is_code 120 x || is_code 88 x then
            let (h, r1) := span is_hex t' in
            match h, r1 with
            | String _ _, String c r' => if is_hex c then None else Some (String x h, c, r')
            | _, _ => None
            end
          else None
      | EmptyString => None
      end
  end.

(** The last character of a name that is not a letter or a digit ([-] or
    [.]), with the text before and after it. *)
Fixpoint last_split (s : string) : option (string * ascii * string) :=
  match s with
  | String c r =>
      match last_split r with
      | Some (p, d, q) => Some (String c p, d, q)
      | None => if is_alnum c then None else Some (EmptyString, c, r)
      end
  | EmptyString => None
  end.

(** [entityref = &([a-zA-Z][-.a-zA-Z0-9]* )[^a-zA-Z0-9]], at [&]: the name,
    the terminator and the rest.  When no terminator follows the longest
    name, [re] gives back name characters until a [-] or a [.] can be the
    terminator. *)
Definition entityref (s : string) : option (string * ascii * string) :=
  match drop_n 1 s with
  | String a t =>
      if is_alpha a then
        let (nm, r) := span entity_char t in
        match r with
        | String c r' => if is_alnum c then None else Some (String a nm, c, r')
        | EmptyString => match last_split nm with Some (p, d, q) => Some (String a p, d, q) | None => None end
        end
      else None
  | EmptyString => None
  end.

(** [incomplete = &[a-zA-Z#]] *)
Definition incomplete (s : string) : bool :=
  match drop_n 1 s with String c _ => is_alpha c || is_code 35 c | EmptyString => false end.

(** [k = match.end(); if not startswith(';', k-1): k = k - 1] *)
Definition after_ref (c : ascii) (r : string) : string := if is_code 59 c then r else String c r.

(** ** The loop of [goahead] *)

(** What a round does after its text: go on, or leave the loop. *)
Inductive round : Type :=
| Continue (evs : list event) (cd : option string) (rest : string)
| Break (evs : list event) (rest : string).

(** [goahead]'s branch at a [<] or a [&], with [end] and [cdata_elem]. *)
Definition construct (end_ : bool) (cd : option string) (s : string) : res round :=
  match s with
  | String c r =>
      if is_code 60 c then
        let pr : option (res parsed) :=
          if starts_with_char "<" s && match r with String a _ => is_alpha a | _ => false end
          then Some (Ok (parse_starttag s))
          else if String.prefix "</" s then Some (Ok (parse_endtag cd s))
          else if String.prefix "<!--" s then Some (Ok (parse_comment cd s))
          else if String.prefix "<?" s then Some (Ok (parse_pi cd s))
          else if String.prefix "<!" s then Some (parse_html_declaration cd s)
          else match r with
               | String _ _ => Some (Ok (Some ([Data "<"], cd, r)))
               | EmptyString => None
               end in
        match pr with
        | None => Ok (Break [] s)
        | Some (Raise e) => Raise e
        | Some (Ok (Some (evs, cd', k))) => Ok (Continue evs cd' k)
        | Some (Ok None) =>
            if negb end_ then Ok (Break [] s)
            else
              let '(d, k) :=
                match find_char ">" r with
                | Some (a, k) => (String c (a ++ ">"), k)
                | None => match find_char "<" r with
                          | Some (a, k) => (String c a, String "<" k)
                          | None => (String c EmptyString, r)
                          end
                end in
              Ok (Continue [Data d] cd k)
        end
      else if String.prefix "&#" s then
        match charref s with
        | Some (name, t, k) =>
            match charref_int name with
            | Ok _ => Ok (Continue [Data (charref_text R name)] cd (after_ref t k))
            | Raise x => Raise x
            end
        | None => if has_char ";" s then Ok (Break [Data "&#"] (drop_n 2 s)) else Ok (Break [] s)
        end
      else
        match entityref s with
        | Some (name, t, k) => Ok (Continue [Data (entityref_text R name)] cd (after_ref t k))
        | None =>
            if incomplete s then Ok (Break [] (if end_ && (String.length s =? 2)%nat then r else s))
            else match r with
                 | String _ _ => Ok (Continue [Data "&"] cd r)
                 | EmptyString => Ok (Break [Data "&"] r)
                 end
        end
  | EmptyString => Ok (Break [] s)
  end.

(** [</\s*%s\s*>] with [re.I], for the element in [cdata_elem]. *)
Definition cdata_close (name : string) (s : string) : bool :=
  match drop_prefix "</" s with
  | Some t =>
      let t1 := snd (span py_isspace t) in
      String.eqb (py_lower (String.substring 0 (String.length name) t1)) name &&
      match snd (span py_isspace (drop_n (String.length name) t1)) with
      | String g _ => is_gt g
      | EmptyString => false
      end
  | None => false
  end.

(** [regex.search] for a pattern that [m] recognises at a position: the
    text before the match and the text from it. *)
Fixpoint search_start (m : string -> bool) (s : string) : option (string * string) :=
  if m s then Some (EmptyString, s)
  else match s with
       | EmptyString => None
       | String c t => option_map (fun '(a, r) => (String c a, r)) (search_start m t)
       end.

(** [self.interesting.search(rawdata, i)]: [[&<]], or the end tag of the
    [cdata_elem] (no match in that mode leaves the loop). *)
Definition interesting (cd : option string) (s : string) : option (string * string) :=
  match cd with
  | None => Some (span (fun c => negb (is_code 60 c || is_code 38 c)) s)
  | Some name => search_start (cdata_close name) s
  end.

Definition prepend (evs : list event) (r : res (list event * option string * string))
  : res (list event * option string * string) :=
  match r with
  | Ok (e, cd, s) => Ok ((evs ++ e)%list, cd, s)
  | Raise x => Raise x
  end.

(** [while i < n: ...] *)
Fixpoint goahead_loop (n : nat) (end_ : bool) (cd : option string) (s : string)
  : res (list event * option string * string) :=
  match n with
  | O => Ok ([], cd, s)
  | S n' =>
      match s with
      | EmptyString => Ok ([], cd, s)
      | _ =>
          match interesting cd s with
          | None => Ok ([], cd, s)
          | Some (d, r) =>
              let evs0 := if String.eqb d "" then [] else [Data d] in
              match r with
              | EmptyString => Ok (evs0, cd, r)
              | _ =>
                  match construct end_ cd r with
                  | Raise e => Raise e
                  | Ok (Break evs k) => Ok ((evs0 ++ evs)%list, cd, k)
                  | Ok (Continue evs cd' k) => prepend (evs0 ++ evs)%list (goahead_loop n' end_ cd' k)
                  end
              end
          end
      end
  end.

(** [goahead(end)]: the loop, then, at the end, the rest as text unless a
    [<script>] or [<style>] is open. *)
Definition goahead (end_ : bool) (cd : option string) (s : string) : res (list event * option string * string) :=
  match goahead_loop (S (String.length s)) end_ cd s with
  | Ok (evs, cd', k) =>
      match cd', k with
      | None, String _ _ => if end_ then Ok ((evs ++ [Data k])%list, cd', EmptyString) else Ok (evs, cd', k)
      | _, _ => Ok (evs, cd', k)
      end
  | Raise e => Raise e
  end.

(** [parser.feed(markup); parser.close()]: the callbacks, in order. *)
Definition tokenize (markup : string) : res (list event) :=
  match goahead false None markup with
  | Ok (evs1, cd1, k1) =>
      match goahead true cd1 k1 with
      | Ok (evs2, _, _) => Ok (evs1 ++ evs2)%list
      | Raise e => Raise e
      end
  | Raise e => Raise e
  end.

End Parser.

(** ** Printable trees and their markup *)

(** A name of lower-case letters, digits and [-.:_], starting with a
    letter: html.parser reads it whole, and [lower()] keeps it. *)
Definition lname_char (c : ascii) : bool :=
  code_in 97 122 c || is_num c || existsb (fun n => is_code n c) [45; 46; 58; 95].

Definition name_plain (s : string) : bool :=
  match s with String c r => code_in 97 122 c && all_chars lname_char r | EmptyString => false end.

Definition dq : ascii := "034".

(** Attribute values without double quote or [&], texts that are not
    empty, comments without [-]; the content of a [script] or [style]
    element, which html.parser reads raw up to its end tag, one text
    without [</] or none. *)
Definition value_plain (v : string) : bool := negb (has_char dq v) && negb (has_char "&" v).
Definition attr_plain (kv : string * string) : bool := name_plain (fst kv) && value_plain (snd kv).
Definition text_plain (s : string) : bool := negb (String.eqb s "").
Definition comment_plain (s : string) : bool := negb (has_char "-" s).
Definition raw_plain (kids : list node) : bool :=
  match kids with
  | [] => true
  | [Text s] => negb (String.eqb s "") && negb (contains "</" s)
  | _ => false
  end.

Fixpoint plain (n : node) : bool :=
  match n with
  | Elem name attrs kids =>
      name_plain name && forallb attr_plain attrs &&
      (if is_member name cdata_content_elements then raw_plain kids
       else (fix go (l : list node) : bool := match l with [] => true | k :: r => plain k && go r end) kids)
  | Text s => text_plain s
  | Comment s => comment_plain s
  end.

(** The markup of a tree: [<name k="v" ...>], the children, [</name>]. *)
Definition attr_body (kv : string * string) : string := fst kv ++ "=" ++ String dq (snd kv ++ String dq "").
Definition ser_attr (kv : string * string) : string := " " ++ attr_body kv.

(** The texts of a list, one after the other. *)
Definition cat (l : list string) : string := fold_right String.append "" l.

(** A text with [&] and [<] written as the references [&amp;] and [&lt;]. *)
Definition special (c : ascii) : bool := Ascii.eqb c "<" || Ascii.eqb c "&".

Fixpoint escape_text (s : string) : string :=
  match s with
  | EmptyString => EmptyString
  | String c r =>
      if Ascii.eqb c "&" then "&amp;" ++ escape_text r
      else if Ascii.eqb c "<" then "&lt;" ++ escape_text r
      else String c (escape_text r)
  end.

(** The content of a [script] or [style] element, as it is. *)
Definition raw_text (kids : list node) : string := match kids with [Text s] => s | _ => "" end.

Fixpoint ser_node (n : node) : string :=
  match n with
  | Elem name attrs kids =>
      "<" ++ name ++ cat (map ser_attr attrs) ++ ">" ++
      (if is_member name cdata_content_elements then raw_text kids
       else (fix go (l : list node) : string := match l with [] => "" | k :: r => ser_node k ++ go r end) kids)
      ++ "</" ++ name ++ ">"
  | Text s => escape_text s
  | Comment s => "<!--" ++ s ++ "-->"
  end.

Definition ser_forest (l : list node) : string := cat (map ser_node l).

(** The rounds of [goahead] a tree takes: one per tag, comment and
    reference; the raw content of a [script] or [style] is read in the
    round of its end tag. *)
Fixpoint ref_count (s : string) : nat :=
  match s with EmptyString => 0 | String c r => (if special c then 1 else 0) + ref_count r end.

Fixpoint node_steps (n : node) : nat :=
  match n with
  | Elem name _ kids =>
      S (S (if is_member name cdata_content_elements then 0
            else (fix go (l : list node) : nat := match l with [] => 0 | k :: r => node_steps k + go r end) kids))
  | Text s => ref_count s
  | Comment _ => 1
  end.

Definition forest_steps (l : list node) : nat := list_sum (map node_steps l).

(** ** Lemmas *)

(** A fact of two character classes, checked on the 256 characters. *)
Lemma char_impl (p q : ascii -> bool) :
  forallb (fun n => implb (p (ascii_of_nat n)) (q (ascii_of_nat n))) (seq 0 256) = true ->
  forall c, p c = true -> q c = true.
Proof.
  intros H c Hp. rewrite <- (ascii_nat_embedding c) in Hp |- *.
  assert (Hin : In (nat_of_ascii c) (seq 0 256)) by (apply in_seq; pose proof (nat_ascii_bounded c); lia).
  pose proof (proj1 (forallb_forall _ _) H _ Hin) as Hc. cbv beta in Hc. rewrite Hp in Hc. exact Hc.
Qed.

Ltac char_table := apply char_impl; vm_compute; reflexivity.

Lemma lname_tag_char : forall c, lname_char c = true -> tag_char c = true.
Proof. char_table. Qed.
Lemma lname_endtag_char : forall c, lname_char c = true -> endtag_char c = true.
Proof. char_table. Qed.
Lemma lname_attr_char : forall c, lname_char c = true -> attr_char c = true.
Proof. char_table. Qed.
Lemma lname_attr_first : forall c, lname_char c = true -> attr_first c = true.
Proof. char_table. Qed.
Lemma lname_lower : forall c, lname_char c = true -> Ascii.eqb (lower_char c) c = true.
Proof. char_table. Qed.
Lemma lname_not_space : forall c, lname_char c = true -> negb (py_isspace c || is_code 47 c) = true.
Proof. char_table. Qed.
Lemma text_class : forall c, negb (Ascii.eqb c "<" || Ascii.eqb c "&") = true -> negb (is_code 60 c || is_code 38 c) = true.
Proof. char_table. Qed.
Lemma lower_letter_alpha : forall c, code_in 97 122 c = true -> is_alpha c = true.
Proof. char_table. Qed.
Lemma lower_letter_lname : forall c, code_in 97 122 c = true -> lname_char c = true.
Proof. char_table. Qed.

Definition stops (p : ascii -> bool) (s : string) : bool :=
  match s with String c _ => negb (p c) | EmptyString => true end.

Lemma span_app (p : ascii -> bool) (a b : string) :
  all_chars p a = true -> stops p b = true -> span p (a ++ b) = (a, b).
Proof.
  intros Ha Hb. induction a as [|c a IH]; cbn [String.append span].
  - destruct b as [|c b]; [reflexivity|]. cbn in Hb |- *. apply negb_true_iff in Hb. now rewrite Hb.
  - cbn [all_chars] in Ha. apply andb_prop in Ha as [Hc Ha]. rewrite Hc, IH by exact Ha. reflexivity.
Qed.

Lemma all_chars_impl (p q : ascii -> bool) (s : string) :
  (forall c, p c = true -> q c = true) -> all_chars p s = true -> all_chars q s = true.
Proof.
  intros H. induction s as [|c s IH]; cbn [all_chars]; [reflexivity|].
  intros Hs. apply andb_prop in Hs as [Hc Hs]. now rewrite H, IH.
Qed.

Lemma search_at_eq (m : string -> option string) (s : string) :
  search_at m s = match m s with
                  | Some r => Some (EmptyString, r)
                  | None => match s with
                            | EmptyString => None
                            | String c t => option_map (fun '(a, r) => (String c a, r)) (search_at m t)
                            end
                  end.
Proof. now destruct s. Qed.

Lemma search_at_app (m : string -> option string) (a b r : string) :
  (forall a1 a2, a = a1 ++ a2 -> a2 <> "" -> m (a2 ++ b) = None) -> m b = Some r ->
  search_at m (a ++ b) = Some (a, r).
Proof.
  intros Ha Hb. induction a as [|c a IH]; cbn [String.append search_at].
  - rewrite search_at_eq. now rewrite Hb.
  - pose proof (Ha "" (String c a) eq_refl ltac:(discriminate)) as H0. cbn [String.append] in H0.
    rewrite H0, IH; [reflexivity|].
    intros a1 a2 -> Hne. exact (Ha (String c a1) a2 eq_refl Hne).
Qed.

(** Suffixes of a text without a character do not start with it. *)
Lemma no_char_suffix (c : ascii) (a a1 a2 : string) :
  has_char c a = false -> a = a1 ++ a2 -> a2 <> "" -> starts_with_char c a2 = false.
Proof.
  intros H -> Hne. rewrite has_char_app in H. apply orb_false_iff in H as [_ H].
  destruct a2 as [|d a2]; [congruence|]. cbn in H |- *. now apply orb_false_iff in H as [H _].
Qed.

Lemma find_char_app (c : ascii) (a r : string) :
  has_char c a = false -> find_char c (a ++ String c r) = Some (a, r).
Proof.
  intros H. apply search_at_app.
  - intros a1 a2 E Hne. pose proof (no_char_suffix c a a1 a2 H E Hne) as Hs.
    destruct a2 as [|d a2]; [congruence|]. cbn in Hs |- *. now rewrite Hs.
  - cbn. now rewrite Ascii.eqb_refl.
Qed.

Lemma drop_n_app (a b : string) : drop_n (String.length a) (a ++ b) = b.
Proof.
  unfold drop_n. rewrite str_length_app, Nat.add_sub_swap, Nat.sub_diag by lia. cbn [Nat.add].
  induction a as [|c a IH]; cbn [String.append String.length String.substring]; [apply substring_all | exact IH].
Qed.

Lemma between_app (a b : string) : between (a ++ b) b = a.
Proof. apply consumed_app. Qed.

Lemma prepend_prepend (a b : list event) (r : res (list event * option string * string)) :
  prepend a (prepend b r) = prepend (a ++ b) r.
Proof. destruct r as [[[e cd] s]|x]; cbn; [now rewrite app_assoc | reflexivity]. Qed.

Lemma py_lower_plain (s : string) : all_chars lname_char s = true -> py_lower s = s.
Proof.
  induction s as [|c s IH]; cbn [all_chars py_lower]; [reflexivity|]. intros H.
  apply andb_prop in H as [Hc H].
  now rewrite IH, (proj1 (Ascii.eqb_eq _ _) (lname_lower c Hc)).
Qed.

(** *** A start tag *)

Lemma name_plain_split (k : string) :
  name_plain k = true ->
  exists a k', k = String a k' /\ is_alpha a = true /\ lname_char a = true /\ all_chars lname_char k' = true.
Proof.
  destruct k as [|a k']; [discriminate|]. cbn. intros H. apply andb_prop in H as [Ha Hk].
  exists a, k'. repeat split; [apply lower_letter_alpha | apply lower_letter_lname | ]; assumption.
Qed.

Lemma sep_attr (d : ascii) (kv : string * string) (x : string) :
  attr_plain kv = true -> sep d (" " ++ attr_body kv ++ x) = (" "%char, attr_body kv ++ x).
Proof.
  destruct kv as [k v]. unfold attr_plain. cbn [fst snd]. intros H. apply andb_prop in H as [Hk _].
  destruct (name_plain_split k Hk) as (a & k' & -> & _ & Ha & _).
  pose proof (lname_not_space a Ha) as Hn. apply negb_true_iff, orb_false_iff in Hn as [Hs Hsl].
  unfold attr_body. cbn [String.append sep fst snd]. change (py_isspace " ") with true. cbv iota.
  now rewrite Hs, Hsl.
Qed.

Lemma sep_ser_attr (d : ascii) (kv : string * string) (x : string) :
  attr_plain kv = true -> sep d (ser_attr kv ++ x) = (" "%char, attr_body kv ++ x).
Proof. intros H. unfold ser_attr. rewrite <- str_app_assoc. now apply sep_attr. Qed.

Lemma sep_gt (d : ascii) (r : string) : sep d (String ">" r) = (d, String ">" r).
Proof. reflexivity. Qed.

Lemma attrs_skip_gt (n : nat) (d : ascii) (r : string) : attrs_skip n d (String ">" r) = String ">" r.
Proof. destruct n; cbn; [reflexivity|]. now rewrite andb_false_r. Qed.

Lemma last_or_snoc (d c : ascii) (a : string) : last_or d (a ++ String c "") = c.
Proof. revert d. induction a as [|x a IH]; intros d; [reflexivity | apply IH]. Qed.

Lemma attr_value_quoted (v tl : string) :
  has_char dq v = false ->
  attr_value (String "=" (String dq (v ++ String dq tl))) =
  Some ("=" ++ String dq (v ++ String dq ""), String dq (v ++ String dq ""), tl).
Proof.
  intros Hq. unfold attr_value.
  assert (E1 : py_isspace "=" = false) by reflexivity. assert (E2 : py_isspace dq = false) by reflexivity.
  assert (E3 : is_code 61 "=" = true) by reflexivity. assert (E4 : is_code 61 dq = false) by reflexivity.
  cbn -[find_char dq py_isspace is_code]. rewrite E1. cbn -[find_char dq py_isspace is_code].
  rewrite E3. cbn -[find_char dq py_isspace is_code]. rewrite E4. cbn -[find_char dq py_isspace is_code].
  rewrite E2. cbn -[find_char dq py_isspace is_code]. now rewrite find_char_app.
Qed.

Lemma last_or_quoted (d : ascii) (v : string) : last_or d ("=" ++ String dq (v ++ String dq "")) = dq.
Proof. change ("=" ++ String dq (v ++ String dq "")) with (("=" ++ String dq v) ++ String dq ""). apply last_or_snoc. Qed.

Lemma attr_at_body (kv : string * string) (tl : string) :
  attr_plain kv = true ->
  exists g2, g2 <> "" /\
    attr_at " " (attr_body kv ++ tl) =
    Some (fst kv, Some (g2, String dq (snd kv ++ String dq "")), fst (sep dq tl), snd (sep dq tl)).
Proof.
  destruct kv as [k v]. unfold attr_plain, value_plain. cbn [fst snd]. intros H.
  apply andb_prop in H as [Hk Hv]. apply andb_prop in Hv as [Hq _]. apply negb_true_iff in Hq.
  destruct (name_plain_split k Hk) as (a & k' & -> & _ & Ha & Hk').
  unfold attr_at, attr_body. cbn [fst snd]. rewrite <- !str_app_assoc. cbn [String.append].
  rewrite <- !str_app_assoc. cbn [String.append].
  rewrite (lname_attr_first a Ha). change (behind_ok " ") with true. cbn [andb].
  rewrite span_app by (try reflexivity; exact (all_chars_impl _ _ k' lname_attr_char Hk')).
  rewrite attr_value_quoted by exact Hq. rewrite last_or_quoted.
  eexists. split; [|now destruct (sep dq tl)]. discriminate.
Qed.

(** Reads the attribute at the head of the goal's [attr_at]. *)
Ltac attr_step H :=
  match goal with
  | |- context [attr_at " " (attr_body ?kv ++ ?tl)] =>
      let g2 := fresh "g2" in let Hg := fresh "Hg" in
      destruct (attr_at_body kv tl H) as (g2 & Hg & ->)
  end.

Lemma cat_nil : cat [] = "".
Proof. reflexivity. Qed.
Lemma cat_cons (x : string) (l : list string) : cat (x :: l) = x ++ cat l.
Proof. reflexivity. Qed.

Lemma ends_with_snoc (x c : ascii) (a : string) : ends_with_char x (String c (a ++ String x "")) = true.
Proof.
  revert c. induction a as [|d a IH]; intros c; cbn [String.append ends_with_char]; [apply Ascii.eqb_refl|].
  apply IH.
Qed.

Lemma strip_quotes_dq (v : string) : strip_quotes (String dq (v ++ String dq "")) = v.
Proof.
  unfold strip_quotes. rewrite ends_with_snoc. change (is_code 34 dq) with true. rewrite orb_true_r. cbn [andb].
  cbn [String.length String.substring]. rewrite str_length_app. cbn [String.length].
  replace (S (String.length v + 1) - 2) with (String.length v) by lia. apply substring_app.
Qed.

(** *** The markup of a printable tree, read back *)

Section RoundTrip.
Variable R : refs.

Lemma attr_entry_plain (kv : string * string) (g2 : string) :
  attr_plain kv = true -> g2 <> "" ->
  attr_entry R (fst kv) (Some (g2, String dq (snd kv ++ String dq ""))) = (fst kv, Some (snd kv)).
Proof.
  destruct kv as [k v]. unfold attr_plain, value_plain. cbn [fst snd]. intros H Hg.
  apply andb_prop in H as [Hk Hv]. apply andb_prop in Hv as [_ Ha]. apply negb_true_iff in Ha.
  destruct (name_plain_split k Hk) as (a & k' & -> & _ & Hl & Hk').
  unfold attr_entry. rewrite py_lower_plain by (cbn [all_chars]; now rewrite Hl, Hk').
  apply String.eqb_neq in Hg. rewrite Hg, strip_quotes_dq. unfold unescape. rewrite Ha.
  now destruct (String.eqb v "").
Qed.

(** The attributes of a start tag, after the first one's leading space. *)
Lemma attrs_skip_ser (A : list (string * string)) :
  forall kv n rest, forallb attr_plain (kv :: A) = true -> List.length A < n ->
  attrs_skip n " " (attr_body kv ++ cat (map ser_attr A) ++ String ">" rest) = String ">" rest.
Proof.
  induction A as [|kv' A IH]; intros kv n rest H Hn; (destruct n as [|n]; [cbn in Hn; lia|]);
    cbn [forallb] in H; apply andb_prop in H as [Hkv H]; cbn [attrs_skip].
  - attr_step Hkv. cbn [map cat fold_right String.append]. rewrite sep_gt. apply attrs_skip_gt.
  - attr_step Hkv. cbn [map]. rewrite cat_cons.
    rewrite <- !str_app_assoc.
    apply andb_prop in H as [Hkv' H]. rewrite sep_ser_attr by exact Hkv'. cbn [fst snd].
    apply IH; [cbn [forallb]; now rewrite Hkv' | cbn in Hn; lia].
Qed.

Lemma attrs_collect_gt (n : nat) (p : ascii) (rest : string) :
  attrs_collect R n p (String ">" rest) rest = ([], String ">" rest).
Proof.
  destruct n; [reflexivity|]. cbn [attrs_collect String.length].
  rewrite (proj2 (Nat.ltb_lt _ _)) by lia. unfold attr_at. change (attr_first ">") with false.
  now rewrite andb_false_r.
Qed.

(** [parse_starttag]'s loop reads the attributes back, values unquoted. *)
Lemma attrs_collect_ser (A : list (string * string)) :
  forall kv n rest, forallb attr_plain (kv :: A) = true -> List.length A < n ->
  attrs_collect R n " " (attr_body kv ++ cat (map ser_attr A) ++ String ">" rest) rest =
  (map (fun kv => (fst kv, Some (snd kv))) (kv :: A), String ">" rest).
Proof.
  induction A as [|kv' A IH]; intros kv n rest H Hn; (destruct n as [|n]; [cbn in Hn; lia|]);
    cbn [forallb] in H; apply andb_prop in H as [Hkv H]; cbn [attrs_collect];
    (rewrite (proj2 (Nat.ltb_lt _ _)) by (unfold attr_body; rewrite !str_length_app; cbn [String.length]; lia));
    attr_step Hkv; cbv beta iota.
  - cbn [map cat fold_right String.append]. rewrite sep_gt. cbn [fst snd].
    rewrite attrs_collect_gt, attr_entry_plain by assumption. reflexivity.
  - cbn [map]. rewrite cat_cons, <- !str_app_assoc.
    apply andb_prop in H as [Hkv' H]. rewrite sep_ser_attr by exact Hkv'. cbn [fst snd].
    rewrite IH by (cbn [forallb]; try rewrite Hkv'; cbn in Hn |- *; (assumption || lia)).
    rewrite attr_entry_plain by assumption. reflexivity.
Qed.

Lemma drop_n_1 (c : ascii) (s : string) : drop_n 1 (String c s) = s.
Proof.
  unfold drop_n. cbn [String.length String.substring].
  replace (S (String.length s) - 1) with (String.length s) by lia. apply substring_all.
Qed.

Lemma span_stop (p : ascii -> bool) (c : ascii) (r : string) : p c = false -> span p (String c r) = ("", String c r).
Proof. intros H. cbn [span]. now rewrite H. Qed.

Lemma length_cat_attrs (A : list (string * string)) : List.length A <= String.length (cat (map ser_attr A)).
Proof.
  induction A as [|kv A IH]; [apply Nat.le_0_l|]. cbn [map List.length]. rewrite cat_cons, str_length_app.
  change (String.length (ser_attr kv)) with (S (String.length (attr_body kv))). lia.
Qed.

Lemma span_ser_attr (kv : string * string) (x : string) :
  attr_plain kv = true ->
  span (fun c => py_isspace c || is_code 47 c) (ser_attr kv ++ x) = (" ", attr_body kv ++ x).
Proof.
  destruct kv as [k v]. unfold attr_plain. cbn [fst]. intros H. apply andb_prop in H as [Hk _].
  destruct (name_plain_split k Hk) as (a & k' & -> & _ & Ha & _).
  unfold ser_attr, attr_body. cbn [fst snd String.append span].
  change (py_isspace " " || is_code 47 " ") with true. cbv iota.
  now rewrite (proj1 (negb_true_iff _) (lname_not_space a Ha)).
Qed.

(** The attributes as [locatestarttagend_tolerant] skips them, and as
    [tagfind_tolerant] and the attribute loop read them. *)
Lemma skip_attrs_all (A : list (string * string)) (d : ascii) (rest : string) :
  forallb attr_plain A = true ->
  let (w, t2) := span (fun c => py_isspace c || is_code 47 c) (cat (map ser_attr A) ++ String ">" rest) in
  attrs_skip (S (String.length t2)) (last_or d w) t2 = String ">" rest.
Proof.
  destruct A as [|kv A]; intros H; [apply attrs_skip_gt|]. cbn [forallb] in H. apply andb_prop in H as [Hkv H].
  cbn [map]. rewrite cat_cons, <- str_app_assoc, span_ser_attr by exact Hkv. cbn [last_or].
  apply attrs_skip_ser; [cbn [forallb]; now rewrite Hkv, H|].
  pose proof (length_cat_attrs A). rewrite !str_length_app. lia.
Qed.

Lemma collect_attrs_all (A : list (string * string)) (d : ascii) (rest : string) :
  forallb attr_plain A = true ->
  let (p, k) := sep d (cat (map ser_attr A) ++ String ">" rest) in
  attrs_collect R (S (String.length k)) p k rest = (map (fun kv => (fst kv, Some (snd kv))) A, String ">" rest).
Proof.
  destruct A as [|kv A]; intros H; [apply attrs_collect_gt|]. cbn [forallb] in H. apply andb_prop in H as [Hkv H].
  cbn [map]. rewrite cat_cons, <- str_app_assoc, sep_ser_attr by exact Hkv.
  apply attrs_collect_ser; [cbn [forallb]; now rewrite Hkv, H|].
  pose proof (length_cat_attrs A). rewrite !str_length_app. lia.
Qed.

Lemma stops_attrs (p : ascii -> bool) (A : list (string * string)) (rest : string) :
  p " "%char = false -> p ">"%char = false -> stops p (cat (map ser_attr A) ++ String ">" rest) = true.
Proof. intros H1 H2. destruct A as [|kv A]; cbn; [now rewrite H2 | now rewrite H1]. Qed.

(** [parse_starttag] on the markup of a start tag. *)
Lemma parse_starttag_ser (name : string) (A : list (string * string)) (rest : string) :
  name_plain name = true -> forallb attr_plain A = true ->
  parse_starttag R ("<" ++ name ++ cat (map ser_attr A) ++ String ">" rest) =
  Some ([StartTag name (map (fun kv => (fst kv, Some (snd kv))) A)],
        (if is_member name cdata_content_elements then Some name else None), rest).
Proof.
  intros Hn HA.
  destruct (name_plain_split name Hn) as (a & k' & -> & Hal & Ha & Hk').
  assert (Hs : span tag_char (k' ++ cat (map ser_attr A) ++ String ">" rest) = (k', cat (map ser_attr A) ++ String ">" rest))
    by (apply span_app; [exact (all_chars_impl _ _ k' lname_tag_char Hk') | now apply stops_attrs]).
  unfold parse_starttag, check_for_whole_start_tag, locate_starttag_end. cbn [String.append].
  rewrite Hs. pose proof (skip_attrs_all A (last_or a k') rest HA) as Hk.
  destruct (span _ (cat (map ser_attr A) ++ String ">" rest)) as [w t2]. rewrite Hk.
  rewrite span_stop by reflexivity. cbn [snd]. change (is_gt ">") with true. cbv iota.
  rewrite drop_n_1. unfold tagfind. rewrite Hal, Hs. pose proof (collect_attrs_all A (last_or a k') rest HA) as Hc'.
  destruct (sep (last_or a k') _) as [p k]. rewrite Hc'.
  change (String ">" rest) with (">" ++ rest). rewrite between_app.
  rewrite py_lower_plain by (cbn [all_chars]; now rewrite Ha, Hk'). reflexivity.
Qed.

(** [parse_endtag] on the markup of an end tag, outside CDATA content. *)
(** Out of CDATA mode, or in it for this element. *)
Lemma parse_endtag_ser (cd : option string) (name rest : string) :
  name_plain name = true -> cd = None \/ cd = Some name ->
  parse_endtag cd ("</" ++ name ++ String ">" rest) = Some ([EndTag name], None, rest).
Proof.
  intros Hn Hcd. destruct (name_plain_split name Hn) as (a & k' & -> & Hal & Ha & Hk').
  assert (Hg : has_char ">" (String "/" (String a k')) = false).
  { change (has_char ">" (String "/" (String a k'))) with (Ascii.eqb "/" ">" || has_char ">" (String a k')).
    rewrite (all_chars_no_char lname_char ">" (String a k')); [reflexivity | reflexivity |].
    cbn [all_chars]. now rewrite Ha, Hk'. }
  unfold parse_endtag. cbn [String.append]. rewrite drop_n_1.
  change (String "/" (String a (k' ++ String ">" rest))) with (String "/" (String a k') ++ String ">" rest).
  rewrite find_char_app by exact Hg. unfold endtagfind. cbn [drop_prefix String.append].
  rewrite !Ascii.eqb_refl. cbv iota.
  pose proof (lname_not_space a Ha) as Hsp. apply negb_true_iff, orb_false_iff in Hsp as [Hsp _].
  rewrite span_stop by exact Hsp. cbn [snd]. rewrite Hal.
  rewrite span_app by (try reflexivity; exact (all_chars_impl _ _ k' lname_endtag_char Hk')).
  rewrite span_stop by reflexivity. cbn [snd]. change (is_gt ">") with true. cbv iota.
  rewrite py_lower_plain by (cbn [all_chars]; now rewrite Ha, Hk').
  destruct Hcd as [-> | ->]; [reflexivity | now rewrite String.eqb_refl].
Qed.

(** [parse_comment] on the markup of a comment without [-]. *)
Lemma parse_comment_ser (cd : option string) (c rest : string) :
  comment_plain c = true -> parse_comment cd ("<!--" ++ c ++ "-->" ++ rest) = Some ([CommentEv c], cd, rest).
Proof.
  unfold comment_plain. intros Hc. apply negb_true_iff in Hc.
  pose proof (drop_n_app "<!--" (c ++ "-->" ++ rest)) as E. cbn [String.length] in E.
  unfold parse_comment. rewrite E, (search_at_app _ c ("-->" ++ rest) rest); [reflexivity| |].
  - intros a1 a2 Ea Hne. pose proof (no_char_suffix "-" c a1 a2 Hc Ea Hne) as Hs.
    destruct a2 as [|d a2]; [congruence|]. cbn in Hs |- *. unfold comment_close. cbn [drop_prefix].
    rewrite Ascii.eqb_sym, Hs. reflexivity.
  - unfold comment_close. cbn [drop_prefix String.append]. rewrite !Ascii.eqb_refl. cbv iota.
    rewrite span_stop by reflexivity. reflexivity.
Qed.

Lemma prefix_app (p x : string) : String.prefix p (p ++ x) = true.
Proof.
  induction p as [|c p IH]; [now destruct x|]. cbn [String.append String.prefix].
  destruct (ascii_dec c c); [exact IH | congruence].
Qed.

Lemma goahead_loop_nonempty (n : nat) (e : bool) (cd : option string) (s : string) :
  s <> "" ->
  goahead_loop R (S n) e cd s =
  match interesting cd s with
  | None => Ok ([], cd, s)
  | Some (d, r) =>
      let evs0 := if String.eqb d "" then [] else [Data d] in
      match r with
      | EmptyString => Ok (evs0, cd, r)
      | _ =>
          match construct R e cd r with
          | Raise x => Raise x
          | Ok (Break evs k) => Ok ((evs0 ++ evs)%list, cd, k)
          | Ok (Continue evs cd' k) => prepend (evs0 ++ evs)%list (goahead_loop R n e cd' k)
          end
      end
  end.
Proof. destruct s; [congruence | reflexivity]. Qed.

(** A round of the loop at a [<] whose construct is complete. *)
Lemma loop_construct (m : nat) (e : bool) (s : string) (evs : list event) (cd' : option string) (k : string) :
  construct R e None s = Ok (Continue evs cd' k) -> starts_with_char "<" s = true ->
  goahead_loop R (S m) e None s = prepend evs (goahead_loop R m e cd' k).
Proof.
  intros Hc Hs. destruct s as [|c s']; [discriminate|]. cbn [starts_with_char] in Hs.
  apply Ascii.eqb_eq in Hs as ->. rewrite goahead_loop_nonempty by discriminate. unfold interesting.
  rewrite span_stop by reflexivity. cbv beta iota zeta. rewrite Hc. reflexivity.
Qed.

Lemma construct_starttag (e : bool) (name : string) (A : list (string * string)) (rest : string) :
  name_plain name = true -> forallb attr_plain A = true ->
  construct R e None ("<" ++ name ++ cat (map ser_attr A) ++ String ">" rest) =
  Ok (Continue [StartTag name (map (fun kv => (fst kv, Some (snd kv))) A)]
               (if is_member name cdata_content_elements then Some name else None) rest).
Proof.
  intros Hn HA.
  destruct (name_plain_split name Hn) as (a & k' & E & Hal & _).
  unfold construct. rewrite parse_starttag_ser by assumption. rewrite E. cbn [String.append].
  replace (is_code 60 "<") with true by reflexivity. cbn [starts_with_char].
  now rewrite Ascii.eqb_refl, Hal.
Qed.

Lemma construct_endtag (e : bool) (cd : option string) (name rest : string) :
  name_plain name = true -> cd = None \/ cd = Some name ->
  construct R e cd ("</" ++ name ++ String ">" rest) = Ok (Continue [EndTag name] None rest).
Proof.
  intros Hn Hcd. unfold construct. rewrite parse_endtag_ser, prefix_app by assumption. cbn [String.append].
  replace (is_code 60 "<") with true by reflexivity. replace (is_alpha "/") with false by reflexivity.
  now rewrite andb_false_r.
Qed.

Lemma construct_comment (e : bool) (c rest : string) :
  comment_plain c = true ->
  construct R e None ("<!--" ++ c ++ "-->" ++ rest) = Ok (Continue [CommentEv c] None rest).
Proof.
  intros Hc. unfold construct. rewrite parse_comment_ser, prefix_app by exact Hc. cbn [String.append].
  replace (is_code 60 "<") with true by reflexivity. replace (is_alpha "!") with false by reflexivity.
  rewrite andb_false_r. reflexivity.
Qed.

(** [regex.search] stops at the first position where the pattern matches. *)
Lemma search_start_app (m : string -> bool) (a b : string) :
  m b = true -> (forall a1 a2, a = a1 ++ a2 -> a2 <> "" -> m (a2 ++ b) = false) ->
  search_start m (a ++ b) = Some (a, b).
Proof.
  induction a as [|c a IH]; intros Hb Ha; cbn [String.append]; [destruct b; cbn [search_start]; now rewrite Hb|].
  cbn [search_start].
  pose proof (Ha "" (String c a) eq_refl) as H0. cbn [String.append] in H0. rewrite H0 by discriminate.
  rewrite IH; [reflexivity | exact Hb |]. intros a1 a2 E. exact (Ha (String c a1) a2 (f_equal (String c) E)).
Qed.

Lemma cdata_close_end (name r : string) :
  name_plain name = true -> cdata_close name ("</" ++ name ++ String ">" r) = true.
Proof.
  intros Hn. destruct (name_plain_split name Hn) as (a & k' & -> & _ & Ha & Hk').
  assert (Hl : all_chars lname_char (String a k') = true) by (cbn [all_chars]; now rewrite Ha, Hk').
  pose proof (lname_not_space a Ha) as Hsp. apply negb_true_iff, orb_false_iff in Hsp as [Hsp _].
  unfold cdata_close. rewrite drop_prefix_app.
  assert (E : snd (span py_isspace (String a k' ++ String ">" r)) = String a k' ++ String ">" r)
    by (cbn [String.append span]; now rewrite Hsp).
  rewrite E, substring_app, drop_n_app, py_lower_plain, String.eqb_refl by exact Hl. reflexivity.
Qed.

(** No end tag starts inside a text without [</]. *)
Lemma cdata_close_inside (name a2 y : string) :
  a2 <> "" -> contains "</" a2 = false -> cdata_close name (a2 ++ "</" ++ y) = false.
Proof.
  intros Hne Hc. unfold cdata_close. rewrite drop_prefix_none; [reflexivity|].
  destruct a2 as [|c [|d t]]; [congruence| |]; cbn [String.append]; rewrite !prefix_cons.
  - replace (Ascii.eqb "/" "<") with false by reflexivity. now rewrite andb_false_l, andb_false_r.
  - cbn [contains] in Hc. apply orb_false_iff in Hc as [Hc _]. rewrite !prefix_cons, prefix_nil in Hc.
    now rewrite prefix_nil.
Qed.

Lemma search_raw (name s r : string) :
  name_plain name = true -> contains "</" s = false ->
  search_start (cdata_close name) (s ++ "</" ++ name ++ String ">" r) = Some (s, "</" ++ name ++ String ">" r).
Proof.
  intros Hn Hs. apply search_start_app; [now apply cdata_close_end|].
  intros a1 a2 -> Ha2. exact (cdata_close_inside name a2 _ Ha2 (contains_suffix _ a1 a2 Hs)).
Qed.

(** In CDATA mode: the raw content of a [script] or [style] element,
    then its end tag, in one round. *)
Lemma loop_raw (m : nat) (e : bool) (n : string) (kids : list node) (r : string) :
  name_plain n = true -> raw_plain kids = true ->
  goahead_loop R (S m) e (Some n) (raw_text kids ++ "</" ++ n ++ String ">" r) =
  prepend (events_list kids ++ [EndTag n])%list (goahead_loop R m e None r).
Proof.
  intros Hn Hk.
  assert (Hs : forall s, contains "</" s = false ->
            goahead_loop R (S m) e (Some n) (s ++ "</" ++ n ++ String ">" r) =
            prepend ((if String.eqb s "" then [] else [Data s]) ++ [EndTag n])%list (goahead_loop R m e None r)).
  { intros s Hs. rewrite goahead_loop_nonempty by (destruct s; discriminate).
    unfold interesting. rewrite search_raw by assumption. cbv beta iota zeta.
    rewrite construct_endtag by (try assumption; now right). reflexivity. }
  destruct kids as [|[| d |] [|]]; try discriminate; [exact (Hs "" eq_refl)|].
  cbn [raw_plain] in Hk. apply andb_prop in Hk as [Hne Hc]. apply negb_true_iff in Hne, Hc.
  change (raw_text [Text d]) with d. rewrite Hs by exact Hc. now rewrite Hne.
Qed.

Definition lt_or_end (r : string) : bool := match r with EmptyString => true | String c _ => Ascii.eqb c "<" end.

Lemma span_all (p : ascii -> bool) (s : string) : all_chars p s = true -> span p s = (s, "").
Proof.
  induction s as [|c s IH]; [reflexivity|]. cbn [all_chars span]. intros H.
  apply andb_prop in H as [Hc H]. now rewrite Hc, IH.
Qed.

Lemma prepend_nil (r : res (list event * option string * string)) : prepend [] r = r.
Proof. now destruct r as [[[e cd] s]|x]. Qed.

(** A text without references, then the end of the markup or a [<]. *)
Lemma loop_text (m : nat) (e : bool) (d r : string) :
  d <> "" -> all_chars (fun c => negb (special c)) d = true -> lt_or_end r = true ->
  goahead_loop R (S m) e None (d ++ r) = prepend [Data d] (goahead_loop R (S m) e None r).
Proof.
  intros Hd0 Hs Hr. pose proof (all_chars_impl _ _ d text_class Hs) as Hd.
  assert (Hne : String.eqb d "" = false) by (now apply String.eqb_neq).
  rewrite goahead_loop_nonempty by (destruct d; [congruence | discriminate]). unfold interesting.
  destruct r as [|c s'].
  - rewrite str_app_nil_r, span_all by exact Hd. cbv beta iota zeta. now rewrite Hne.
  - cbn [lt_or_end] in Hr. apply Ascii.eqb_eq in Hr as ->.
    rewrite span_app by (try exact Hd; reflexivity). rewrite goahead_loop_nonempty by discriminate.
    unfold interesting. rewrite span_stop by reflexivity. cbv beta iota zeta. rewrite Hne. cbn [String.eqb].
    destruct (construct R e None (String "<" s')) as [[evs cd' k|evs k]|x]; [| reflexivity | reflexivity].
    now rewrite prepend_prepend.
Qed.

Lemma escape_text_app (a b : string) : escape_text (a ++ b) = escape_text a ++ escape_text b.
Proof.
  induction a as [|c a IH]; [reflexivity|]. change (String c a ++ b) with (String c (a ++ b)).
  cbn [escape_text]. rewrite IH.
  destruct (Ascii.eqb c "&"); [|destruct (Ascii.eqb c "<")]; [apply str_app_assoc | apply str_app_assoc | reflexivity].
Qed.

Lemma escape_text_plain (a : string) : all_chars (fun c => negb (special c)) a = true -> escape_text a = a.
Proof.
  induction a as [|c a IH]; [reflexivity|]. cbn [all_chars escape_text]. unfold special.
  intros [Hc Ha]%andb_prop. apply negb_true_iff, orb_false_iff in Hc as [Hl Ham]. now rewrite Hl, Ham, IH.
Qed.

Lemma ref_count_app (a b : string) : ref_count (a ++ b) = ref_count a + ref_count b.
Proof. induction a as [|c a IH]; [reflexivity|]. cbn [String.append ref_count]. rewrite IH. lia. Qed.

Lemma ref_count_plain (a : string) : all_chars (fun c => negb (special c)) a = true -> ref_count a = 0.
Proof.
  induction a as [|c a IH]; [reflexivity|]. cbn [all_chars ref_count].
  intros [Hc Ha]%andb_prop. apply negb_true_iff in Hc. rewrite Hc. now apply IH.
Qed.

Lemma ref_count_fit (s : string) : ref_count s <= String.length (escape_text s).
Proof.
  induction s as [|c s IH]; [reflexivity|]. cbn [ref_count escape_text]. unfold special.
  destruct (Ascii.eqb c "&") eqn:Ea; [|destruct (Ascii.eqb c "<") eqn:El];
    rewrite ?orb_true_r, ?orb_false_r; cbn [String.length String.append]; rewrite ?str_length_app; cbn; lia.
Qed.

(** A text is a run without [&] and [<], then the end or one of them. *)
Lemma split_special (d : string) :
  exists a b, d = a ++ b /\ all_chars (fun c => negb (special c)) a = true /\
              (b = "" \/ exists x b', b = String x b' /\ special x = true).
Proof.
  induction d as [|c d IH]; [exists "", ""; repeat split; now left|].
  destruct (special c) eqn:Hc.
  - exists "", (String c d). repeat split. right. now exists c, d.
  - destruct IH as (a & b & -> & Ha & Hb). exists (String c a), b.
    repeat split; [|exact Hb]. cbn [all_chars]. now rewrite Hc, Ha.
Qed.

(** The entity tables of bs4 read [&amp;] and [&lt;] back. *)
Hypothesis amp_ref : entityref_text R "amp" = "&".
Hypothesis lt_ref : entityref_text R "lt" = "<".

(** [goahead]'s branch at an entity reference. *)
Lemma construct_entity (e : bool) (cd : option string) (s' nm : string) (t : ascii) (k : string) :
  String.prefix "&#" (String "&" s') = false -> entityref (String "&" s') = Some (nm, t, k) ->
  construct R e cd (String "&" s') = Ok (Continue [Data (entityref_text R nm)] cd (after_ref t k)).
Proof.
  intros Hp He. unfold construct. cbv beta iota. replace (is_code 60 "&") with false by reflexivity.
  now rewrite Hp, He.
Qed.

(** The reference a special character is written as: [handle_entityref]
    gives the character back. *)
Lemma escape_special (x : ascii) (b' X : string) :
  special x = true ->
  exists t, escape_text (String x b') ++ X = String "&" (t ++ escape_text b' ++ X) /\
            forall e, construct R e None (String "&" (t ++ escape_text b' ++ X)) =
                      Ok (Continue [Data (String x "")] None (escape_text b' ++ X)).
Proof.
  unfold special. intros [Hx|Hx]%orb_true_iff; apply Ascii.eqb_eq in Hx as ->; cbn [escape_text].
  - replace (Ascii.eqb "<" "&") with false by reflexivity. rewrite Ascii.eqb_refl.
    exists "lt;". split; [now rewrite <- str_app_assoc|]. intros e.
    rewrite (construct_entity e None _ "lt" ";"%char (escape_text b' ++ X)), lt_ref; [reflexivity | reflexivity |].
    unfold entityref. rewrite drop_n_1. reflexivity.
  - rewrite Ascii.eqb_refl. exists "amp;". split; [now rewrite <- str_app_assoc|]. intros e.
    rewrite (construct_entity e None _ "amp" ";"%char (escape_text b' ++ X)), amp_ref; [reflexivity | reflexivity |].
    unfold entityref. rewrite drop_n_1. reflexivity.
Qed.

(** A round at a reference: the text before it, then its character. *)
Lemma round_ref (n : nat) (e : bool) (a : string) (x : ascii) (b' r : string) :
  all_chars (fun c => negb (special c)) a = true -> special x = true ->
  goahead_loop R (S n) e None (a ++ escape_text (String x b') ++ r) =
  prepend ((if String.eqb a "" then [] else [Data a]) ++ [Data (String x "")])%list
          (goahead_loop R n e None (escape_text b' ++ r)).
Proof.
  intros Ha Hx. destruct (escape_special x b' r Hx) as (t & -> & Hc).
  rewrite goahead_loop_nonempty by (destruct a; discriminate). unfold interesting.
  rewrite span_app by (exact (all_chars_impl _ _ a text_class Ha) || reflexivity).
  cbv beta iota zeta. now rewrite Hc.
Qed.

(** A text written with references, then the end or a [<]: one round per
    reference, and the text in pieces. *)
Lemma loop_esc (k : nat) : forall (d : string) (m : nat) (e : bool) (r : string),
  String.length d < k -> d <> "" -> lt_or_end r = true ->
  exists ps, ps <> [] /\ String.concat "" ps = d /\
    goahead_loop R (ref_count d + S m) e None (escape_text d ++ r) = prepend (map Data ps) (goahead_loop R (S m) e None r).
Proof.
  induction k as [|k IH]; intros d m e r Hk Hd Hr; [lia|].
  destruct (split_special d) as (a & b & -> & Ha & [-> | (x & b' & -> & Hx)]).
  - rewrite str_app_nil_r in *. rewrite escape_text_plain, ref_count_plain by exact Ha.
    exists [a]. split; [discriminate|]. split; [reflexivity|]. exact (loop_text m e a r Hd Ha Hr).
  - rewrite escape_text_app, ref_count_app, (ref_count_plain a Ha), (escape_text_plain a Ha).
    change (ref_count (String x b')) with ((if special x then 1 else 0) + ref_count b'). rewrite Hx.
    replace (0 + (1 + ref_count b') + S m) with (S (ref_count b' + S m)) by lia.
    rewrite <- str_app_assoc, round_ref by assumption.
    assert (Hpre : forall ps, (((if String.eqb a "" then [] else [Data a]) ++ [Data (String x "")]) ++ map Data ps =
                               map Data ((if String.eqb a "" then [] else [a]) ++ String x "" :: ps))%list)
      by (intros ps; destruct (String.eqb a ""); reflexivity).
    assert (Hcat : forall ps, String.concat "" ((if String.eqb a "" then [] else [a]) ++ String x "" :: ps) =
                              a ++ String x (String.concat "" ps)).
    { intros ps. destruct (String.eqb_spec a "") as [->|_]; cbn [app]; rewrite ?join_cons; now rewrite ?join_cons. }
    destruct (String.eqb_spec b' "") as [-> | Hb'].
    + exists ((if String.eqb a "" then [] else [a]) ++ [String x ""])%list. split; [now destruct (String.eqb a "")|].
      split; [exact (Hcat nil)|]. change (ref_count "" + S m) with (S m). change (escape_text "" ++ r) with r.
      f_equal. now destruct (String.eqb a "").
    + rewrite str_length_app in Hk. cbn [String.length] in Hk.
      destruct (IH b' m e r ltac:(lia) Hb' Hr) as (ps & _ & Hc & E).
      exists ((if String.eqb a "" then [] else [a]) ++ String x "" :: ps)%list.
      split; [now destruct (String.eqb a "")|]. split; [now rewrite Hcat, Hc|].
      now rewrite E, prepend_prepend, Hpre.
Qed.


Lemma ser_kids (kids : list node) :
  (fix go (l : list node) : string := match l with [] => "" | k :: r => ser_node k ++ go r end) kids =
  ser_forest kids.
Proof. induction kids as [|k kids IH]; [reflexivity|]. simpl. now rewrite IH. Qed.

Lemma ser_node_elem (n : string) (a : list (string * string)) (kids : list node) :
  ser_node (Elem n a kids) =
  "<" ++ n ++ cat (map ser_attr a) ++ ">" ++
  (if is_member n cdata_content_elements then raw_text kids else ser_forest kids) ++ "</" ++ n ++ ">".
Proof. cbn [ser_node]. now rewrite ser_kids. Qed.

Lemma node_steps_elem (n : string) (a : list (string * string)) (kids : list node) :
  node_steps (Elem n a kids) = S (S (if is_member n cdata_content_elements then 0 else forest_steps kids)).
Proof.
  cbn [node_steps]. do 2 f_equal. destruct (is_member n cdata_content_elements); [reflexivity|]. induction kids as [|k kids IH]; [reflexivity|]. simpl. now rewrite IH.
Qed.

Lemma plain_elem (n : string) (a : list (string * string)) (kids : list node) :
  plain (Elem n a kids) =
  name_plain n && forallb attr_plain a &&
  (if is_member n cdata_content_elements then raw_plain kids else forallb plain kids).
Proof. reflexivity. Qed.

Lemma ser_node_lt (t : node) (r : string) : is_text t = false -> lt_or_end (ser_node t ++ r) = true.
Proof. destruct t; [reflexivity | discriminate | reflexivity]. Qed.

(** What the rounds of the loop do on the markup of a node, and of a
    forest: its callbacks, a text given in pieces, then what the loop does
    after it. *)
Definition loops (t : node) : Prop :=
  forall e m r, plain t = true -> wf_node t = true -> (is_text t = true -> lt_or_end r = true) ->
    exists evs, split_events (events_of t) evs /\
      goahead_loop R (node_steps t + S m) e None (ser_node t ++ r) = prepend evs (goahead_loop R (S m) e None r).

Definition forest_loops (ts : list node) : Prop :=
  forall e m r, forallb plain ts = true -> forallb wf_node ts = true -> no_adjacent_text ts = true ->
    lt_or_end r = true ->
    exists evs, split_events (events_list ts) evs /\
      goahead_loop R (forest_steps ts + S m) e None (ser_forest ts ++ r) = prepend evs (goahead_loop R (S m) e None r).

Lemma forest_of_loops (ts : list node) : list_all node loops ts -> forest_loops ts.
Proof.
  induction 1 as [|t Ht ts Hts IH]; intros e m r Hp Hw Hadj Hr.
  - exists []. split; [constructor|]. change (goahead_loop R (S m) e None r = prepend [] (goahead_loop R (S m) e None r)).
    now rewrite prepend_nil.
  - cbn [forallb] in Hp, Hw. apply andb_prop in Hp as [Hpt Hp]. apply andb_prop in Hw as [Hwt Hw].
    change (ser_forest (t :: ts)) with (ser_node t ++ ser_forest ts). rewrite <- str_app_assoc.
    change (forest_steps (t :: ts)) with (node_steps t + forest_steps ts).
    replace (node_steps t + forest_steps ts + S m) with (node_steps t + S (forest_steps ts + m)) by lia.
    assert (Hr' : is_text t = true -> lt_or_end (ser_forest ts ++ r) = true).
    { intros Htx. destruct ts as [|t' ts']; [exact Hr|].
      change (ser_forest (t' :: ts')) with (ser_node t' ++ ser_forest ts'). rewrite <- str_app_assoc.
      apply ser_node_lt, negb_true_iff, (no_adjacent_text_hd t _ Hadj Htx). }
    destruct (Ht e (forest_steps ts + m) (ser_forest ts ++ r) Hpt Hwt Hr') as (evs1 & Hs1 & E1). rewrite E1, <- Nat.add_succ_r.
    destruct (IH e m r Hp Hw (no_adjacent_text_tl t ts Hadj) Hr) as (evs2 & Hs2 & E2). rewrite E2.
    exists (evs1 ++ evs2)%list. split; [exact (split_events_app _ _ _ _ Hs1 Hs2) | apply prepend_prepend].
Qed.

Lemma loops_elem (n : string) (a : list (string * string)) (kids : list node) :
  forest_loops kids -> loops (Elem n a kids).
Proof.
  intros IH e m r Hp Hw _. rewrite plain_elem in Hp. rewrite wf_node_elem in Hw.
  apply andb_prop in Hp as [Hp Hpk]. apply andb_prop in Hp as [Hn Ha].
  apply andb_prop in Hw as [Hw Hwk]. apply andb_prop in Hw as [_ Hadj].
  rewrite ser_node_elem, node_steps_elem, events_of_elem.
  set (body := if is_member n cdata_content_elements then raw_text kids else ser_forest kids).
  replace ((_ ++ _) ++ r) with ("<" ++ n ++ cat (map ser_attr a) ++ String ">" (body ++ ("</" ++ n ++ String ">" r)))
    by (rewrite <- !str_app_assoc; reflexivity).
  subst body. destruct (is_member n cdata_content_elements) eqn:Hm.
  - change (S (S 0) + S m) with (S (S (S m))).
    rewrite (loop_construct _ e _ _ _ _ (construct_starttag e n a _ Hn Ha) eq_refl), Hm.
    rewrite loop_raw, prepend_prepend by assumption.
    eexists. split; [apply split_events_refl | reflexivity].
  - replace (S (S (forest_steps kids)) + S m) with (S (forest_steps kids + S (S m))) by lia.
    rewrite (loop_construct _ e _ _ _ _ (construct_starttag e n a _ Hn Ha) eq_refl), Hm.
    destruct (IH e (S m) ("</" ++ n ++ String ">" r) Hpk Hwk Hadj eq_refl) as (evs & Hs & E). rewrite E.
    rewrite (loop_construct _ e _ _ _ _ (construct_endtag e None n r Hn (or_introl eq_refl)) eq_refl).
    rewrite !prepend_prepend. eexists. split; [|reflexivity].
    constructor. apply split_events_app; [exact Hs | apply split_events_refl].
Qed.

Lemma loops_all (t : node) : loops t.
Proof.
  induction t as [n a kids IH|d|c] using node_ind.
  - exact (loops_elem n a kids (forest_of_loops kids IH)).
  - intros e m r Hp _ Hr. apply negb_true_iff, String.eqb_neq in Hp.
    destruct (loop_esc (S (String.length d)) d m e r (Nat.lt_succ_diag_r _) Hp (Hr eq_refl)) as (ps & Hps & Hc & E).
    exists (map Data ps). split; [|exact E]. rewrite <- Hc, <- (app_nil_r (map Data ps)).
    constructor; [exact Hps | constructor].
  - intros e m r Hp _ _. change (1 + S m) with (S (S m)).
    change (ser_node (Comment c)) with ("<!--" ++ c ++ "-->"). rewrite <- !str_app_assoc.
    eexists. split; [apply split_events_refl|].
    exact (loop_construct _ e _ _ _ _ (construct_comment e c r Hp) eq_refl).
Qed.

(** [goahead]'s count of rounds, the length of the markup, is enough. *)
Lemma forest_steps_fit (ts : list node) : list_all node (fun t => node_steps t <= String.length (ser_node t)) ts ->
  forest_steps ts <= String.length (ser_forest ts).
Proof.
  induction 1 as [|t Ht ts _ IH]; [apply Nat.le_0_l|].
  change (forest_steps (t :: ts)) with (node_steps t + forest_steps ts).
  change (ser_forest (t :: ts)) with (ser_node t ++ ser_forest ts). rewrite str_length_app. lia.
Qed.

Lemma node_steps_fit (t : node) : node_steps t <= String.length (ser_node t).
Proof.
  induction t as [n a kids IH|d|c] using node_ind; [|apply ref_count_fit|cbn; lia].
  rewrite node_steps_elem, ser_node_elem, !str_length_app. cbn [String.length].
  pose proof (forest_steps_fit kids IH). destruct (is_member n cdata_content_elements); lia.
Qed.

(** The rounds of [goahead] on the markup of a printable forest, then
    a [<] or the end. *)
Lemma forest_prefix (e : bool) (ts : list node) (r : string) :
  forallb plain ts = true -> wf_forest ts = true -> lt_or_end r = true ->
  exists evs, split_events (events_list ts) evs /\
    goahead_loop R (S (String.length (ser_forest ts ++ r))) e None (ser_forest ts ++ r) =
    prepend evs (goahead_loop R (S (String.length (ser_forest ts ++ r) - forest_steps ts)) e None r).
Proof.
  unfold wf_forest. intros Hp Hw Hr. apply andb_prop in Hw as [Hw Hadj].
  assert (Hl : list_all node loops ts)
    by (clear - amp_ref lt_ref; induction ts; constructor; [apply loops_all | assumption]).
  assert (Hf : list_all node (fun t => node_steps t <= String.length (ser_node t)) ts)
    by (clear; induction ts; constructor; [apply node_steps_fit | assumption]).
  pose proof (forest_steps_fit ts Hf) as Hle. rewrite str_length_app in *.
  replace (S (String.length (ser_forest ts) + String.length r))
    with (forest_steps ts + S (String.length (ser_forest ts) + String.length r - forest_steps ts)) by lia.
  exact (forest_of_loops ts Hl e _ r Hp Hw Hadj Hr).
Qed.

(** [feed] then [close] on the markup of a printable forest: the
    callbacks of its nodes, in document order, a text with references in
    pieces. *)
Lemma tokenize_ser (ts : list node) :
  forallb plain ts = true -> wf_forest ts = true ->
  exists evs, split_events (events_list ts) evs /\ tokenize R (ser_forest ts) = Ok evs.
Proof.
  intros Hp Hw. destruct (forest_prefix false ts "" Hp Hw eq_refl) as (evs & Hs & E).
  rewrite str_app_nil_r in E. exists evs. split; [exact Hs|].
  unfold tokenize, goahead. rewrite E. cbn. now rewrite !app_nil_r.
Qed.





(** Cases on every test of the goal, then the [Raise] branches. *)
Ltac raise_cases :=
  repeat (cbv zeta; match goal with
          | |- context [match ?x with _ => _ end] => destruct x eqn:?
          | |- context [if ?b then _ else _] => destruct b
          end);
  intros H; try discriminate H; injection H as <-.

Lemma marked_section_raise (cd : option string) (s : string) (x : exc) :
  parse_marked_section cd s = Raise x -> exists m, x = assertion_error m.
Proof. unfold parse_marked_section. raise_cases; eauto. Qed.

Lemma html_declaration_raise (cd : option string) (s : string) (x : exc) :
  parse_html_declaration cd s = Raise x -> exists m, x = assertion_error m.
Proof.
  unfold parse_html_declaration. destruct (String.prefix "<!--" s); [discriminate|].
  destruct (String.prefix "<![" s); [apply marked_section_raise|].
  destruct (String.eqb _ _); [destruct (find_char _ _) as [[]|]|]; discriminate.
Qed.



(** What the tokenizer raises: [_markupbase]'s [AssertionError], or the
    [ValueError] of [int] in bs4's [handle_charref]. *)
Definition tok_error (x : exc) : Prop := (exists m, x = assertion_error m) \/ (exists m, x = ValueError m).

Lemma charref_int_raise (name : string) (x : exc) : charref_int name = Raise x -> exists m, x = ValueError m.
Proof.
  unfold charref_int. destruct name as [|c r]; [discriminate|].
  destruct (is_code 120 c || is_code 88 c); [discriminate|].
  destruct (PyInt.py_int _) eqn:E; [discriminate|]. intros [= <-]. exact (PyInt.py_int_raises_value_error _ _ E).
Qed.

Lemma construct_raise (e : bool) (cd : option string) (s : string) (x : exc) :
  construct R e cd s = Raise x -> tok_error x.
Proof.
  unfold construct, tok_error. raise_cases; eauto using html_declaration_raise, charref_int_raise.
  repeat match goal with
         | H : (if ?b then _ else _) = _ |- _ => destruct b
         | H : match ?t with "" => _ | String _ _ => _ end = _ |- _ => destruct t
         end; try discriminate.
  match goal with H : Some _ = Some _ |- _ => injection H as H end. subst. eauto using html_declaration_raise.
Qed.

Lemma goahead_loop_raise (n : nat) (e : bool) (cd : option string) (s : string) (x : exc) :
  goahead_loop R n e cd s = Raise x -> tok_error x.
Proof.
  revert cd s. induction n as [|n IH]; intros cd s; [discriminate|]. cbn [goahead_loop].
  destruct s as [|c s]; [discriminate|]. destruct (interesting cd _) as [[d r]|]; [|discriminate].
  cbv zeta. destruct r as [|c' r]; [discriminate|].
  destruct (construct R e cd _) as [[evs cd' k|evs k]|y] eqn:Ec;
    [| discriminate | intros [= <-]; exact (construct_raise _ _ _ _ Ec)].
  unfold prepend. destruct (goahead_loop R n e cd' k) as [[[]]|y] eqn:Eg; [discriminate|].
  intros [= <-]. exact (IH _ _ Eg).
Qed.

Lemma goahead_raise (e : bool) (cd : option string) (s : string) (x : exc) :
  goahead R e cd s = Raise x -> tok_error x.
Proof.
  unfold goahead. destruct (goahead_loop R _ e cd s) as [[[evs cd'] k]|y] eqn:E.
  - intros H. destruct cd', k; try destruct e; discriminate H.
  - intros [= <-]. exact (goahead_loop_raise _ _ _ _ _ E).
Qed.

(** [feed] and [close] raise nothing but [_markupbase]'s [AssertionError]
    and the [ValueError] of a decimal reference over the digit limit. *)
Lemma tokenize_raise (s : string) (x : exc) : tokenize R s = Raise x -> tok_error x.
Proof.
  unfold tokenize. destruct (goahead R false None s) as [[[evs cd] k]|y] eqn:E1; [|intros [= <-]; exact (goahead_raise _ _ _ _ E1)].
  destruct (goahead R true cd k) as [[[evs2 cd2] k2]|y] eqn:E2; [discriminate|].
  intros [= <-]. exact (goahead_raise _ _ _ _ E2).
Qed.

Lemma tokenize_exc (s : string) (x : exc) : tokenize R s = Raise x -> is_exception x = true.
Proof. intros H. destruct (tokenize_raise s x H) as [[m ->]|[m ->]]; reflexivity. Qed.

(** [BeautifulSoup(src, "html.parser")]: bs4's tree builder on
    html.parser's callbacks. *)
Definition html_parser : HtmlParser := soup_parser (tokenize R) tokenize_exc.

Lemma html_parser_parse (src : string) : @parse (html_parser) src = soup_parse_src (tokenize R) src.
Proof. reflexivity. Qed.

Lemma html_parser_ser (ts : list node) :
  forallb plain ts = true -> wf_forest ts = true -> @parse (html_parser) (ser_forest ts) = Ok ts.
Proof.
  intros Hp Hw. rewrite html_parser_parse. unfold soup_parse_src.
  destruct (tokenize_ser ts Hp Hw) as (evs & Hs & ->). now rewrite <- (soup_parse_split _ _ Hs), soup_parse_events.
Qed.

(** *** A marked section with an unknown keyword *)

Lemma marked_unknown (cd : option string) (a : ascii) (nm post : string) :
  is_alpha a = true -> all_chars decl_char nm = true ->
  is_member (py_lower (String a nm)) ["temp"; "cdata"; "ignore"; "include"; "rcdata"] = false ->
  is_member (py_lower (String a nm)) ["if"; "else"; "endif"] = false ->
  parse_marked_section cd ("<![" ++ String a nm ++ "[" ++ post) =
  Raise (assertion_error ("unknown status keyword " ++ py_repr (String a nm) ++ " in marked section")).
Proof.
  intros Ha Hn H1 H2. unfold parse_marked_section.
  pose proof (drop_n_app "<![" (String a nm ++ "[" ++ post)) as E. cbn [String.length] in E. rewrite E.
  cbn [String.append]. rewrite Ha, span_app by (try exact Hn; reflexivity).
  cbv beta iota zeta. rewrite span_stop by reflexivity. cbn [snd]. cbv beta iota zeta. rewrite H1, H2.
  change (String a (nm ++ String "[" post)) with (String a nm ++ String "[" post). now rewrite between_app.
Qed.

Lemma html_declaration_marked (x : string) :
  parse_html_declaration None ("<![" ++ x) = parse_marked_section None ("<![" ++ x).
Proof.
  unfold parse_html_declaration. replace (String.prefix "<!--" ("<![" ++ x)) with false by reflexivity.
  now rewrite prefix_app.
Qed.

Lemma loop_marked (m : nat) (e : bool) (x : string) (y : exc) :
  parse_marked_section None ("<![" ++ x) = Raise y -> goahead_loop R (S m) e None ("<![" ++ x) = Raise y.
Proof.
  intros H. rewrite goahead_loop_nonempty by discriminate. unfold interesting.
  replace (span _ ("<![" ++ x)) with ("", "<![" ++ x) by reflexivity. cbv beta iota zeta.
  unfold construct. rewrite html_declaration_marked, H. reflexivity.
Qed.

Lemma html_parser_rejects (ts : list node) (a : ascii) (nm post : string) :
  forallb plain ts = true -> wf_forest ts = true ->
  is_alpha a = true -> all_chars decl_char nm = true ->
  is_member (py_lower (String a nm)) ["temp"; "cdata"; "ignore"; "include"; "rcdata"] = false ->
  is_member (py_lower (String a nm)) ["if"; "else"; "endif"] = false ->
  @parse (html_parser) (ser_forest ts ++ "<![" ++ String a nm ++ "[" ++ post) =
  Raise (OtherError "ParserRejectedMarkup"
           (reject_message ++ "AssertionError: unknown status keyword " ++ py_repr (String a nm) ++ " in marked section")).
Proof.
  intros Hp Hw Ha Hn H1 H2. rewrite html_parser_parse. unfold soup_parse_src, tokenize, goahead.
  destruct (forest_prefix false ts ("<![" ++ String a nm ++ "[" ++ post) Hp Hw eq_refl) as (evs & _ & ->).
  rewrite (loop_marked _ false _ _ (marked_unknown None a nm post Ha Hn H1 H2)). reflexivity.
Qed.

End RoundTrip.

(** ** Theorems *)

(** C32: BeautifulSoup with html.parser reads the markup of a printable
    tree back as that tree: for a well-formed forest (distinct attribute
    names, no content in empty-element tags, no two adjacent strings, no
    string [endData] would collapse) whose tag and attribute names are
    lower-case names, whose values hold no double quote or [&], whose
    comments hold no [-], and whose [<script>] and [<style>] elements hold
    one text without [</] or nothing, [BeautifulSoup(markup,
    "html.parser")] on its markup (double-quoted values, [&] and [<] of
    the texts written [&amp;] and [&lt;], the content of [<script>] and
    [<style>] as it is) gives exactly the forest, when bs4's entity table
    reads [&amp;] and [&lt;] back: html.parser reports a text with
    references in pieces, which bs4 joins. *)
Theorem parse_markup_roundtrip (R : refs) (ts : list node) :
  entityref_text R "amp" = "&" -> entityref_text R "lt" = "<" ->
  forallb plain ts = true -> wf_forest ts = true -> @parse (html_parser R) (ser_forest ts) = Ok ts.
Proof. intros Ha Hl. now apply html_parser_ser. Qed.

(** C36: A results page whose markup, after printable markup, holds a
    marked section [<![kw[...] with a keyword [_markupbase] does not know
    makes html.parser raise [AssertionError]; bs4 raises it again as
    [ParserRejectedMarkup] with its rejection text, and the tool, through
    its [except Exception], returns ["Error during scraping: "] followed by
    that text and ["AssertionError: unknown status keyword 'kw' in marked
    section"] instead of a record, when every browser call succeeds. *)
Theorem tool_rejects_unknown_section {W : Type} `{Browser W} (R : refs) (q p : string) (s : @state W)
    (w1 w2 w3 w4 w5 : W) (ts : list node) (a : ascii) (nm post : string) :
  install (world s) = (Ok p, w1) -> start p chrome_options w1 = (Ok tt, w2) ->
  get (build_url q) w2 = (Ok tt, w3) ->
  page_source w3 = (Ok (ser_forest ts ++ "<![" ++ String a nm ++ "[" ++ post), w4) ->
  quit w4 = (Ok tt, w5) ->
  entityref_text R "amp" = "&" -> entityref_text R "lt" = "<" ->
  forallb plain ts = true -> wf_forest ts = true ->
  is_alpha a = true -> all_chars decl_char nm = true ->
  is_member (py_lower (String a nm)) ["temp"; "cdata"; "ignore"; "include"; "rcdata"] = false ->
  is_member (py_lower (String a nm)) ["if"; "else"; "endif"] = false ->
  fst (@search_sciencedirect_bipolar W _ (html_parser R) q s) =
  Ok ("Error during scraping: " ++ reject_message ++ "AssertionError: unknown status keyword "
      ++ py_repr (String a nm) ++ " in marked section").
Proof.
  intros Hi Hs Hg Hp Hq Ham Hlt Hpl Hw Ha Hn H1 H2.
  rewrite (@tool_after_start W _ (html_parser R) q p s w1 w2 Hi Hs).
  rewrite (@try_except_finally_run W _ _ _ _ _ _ w5 (Ok tt)
             (@scrape_body_get_ok W _ (html_parser R) _ _ _ w3 w4 _ Hg Hp) Hq).
  cbn [res_bind]. rewrite html_parser_rejects by assumption. reflexivity.
Qed.

(** C10: The parser is transparent to the tool: when every browser call
    succeeds and the page source is the markup of a printable well-formed
    forest, the tool with [BeautifulSoup(..., "html.parser")] returns
    exactly what lines 65-84 give on that forest, its text or
    ["Error during scraping: "] and the message of the exception they
    raise. *)
Theorem tool_reads_page_markup {W : Type} `{Browser W} (R : refs) (q p : string) (s : @state W)
    (w1 w2 w3 w4 w5 : W) (ts : list node) :
  install (world s) = (Ok p, w1) -> start p chrome_options w1 = (Ok tt, w2) ->
  get (build_url q) w2 = (Ok tt, w3) -> page_source w3 = (Ok (ser_forest ts), w4) ->
  quit w4 = (Ok tt, w5) ->
  entityref_text R "amp" = "&" -> entityref_text R "lt" = "<" ->
  forallb plain ts = true -> wf_forest ts = true ->
  fst (@search_sciencedirect_bipolar W _ (html_parser R) q s) =
  Ok (match scrape_page ts with Ok t => t | Raise e => error_text e end).
Proof.
  intros Hi Hs Hg Hp Hq Ham Hlt Hpl Hw.
  rewrite (@tool_after_start W _ (html_parser R) q p s w1 w2 Hi Hs).
  rewrite (@try_except_finally_run W _ _ _ _ _ _ w5 (Ok tt)
             (@scrape_body_get_ok W _ (html_parser R) _ _ _ w3 w4 _ Hg Hp) Hq).
  cbn [res_bind]. rewrite html_parser_ser by assumption. cbn [res_bind fst].
  destruct (scrape_page ts) as [t|e] eqn:E; [reflexivity|].
  assert (Hx : is_exception e = true).
  { apply (@parsed_page_exc (html_parser R) (ser_forest ts)). now rewrite html_parser_ser by assumption. }
  now rewrite Hx.
Qed.

(** ** Examples *)

(** Reference tables that know [&amp;], [&lt;] and [&gt;], with bs4's
    [&name] for the other names; digits stand for themselves. *)
Definition sample_refs : refs :=
  {| charref_text := fun s => s;
     entityref_text := fun n => if String.eqb n "amp" then "&" else if String.eqb n "lt" then "<"
                                else if String.eqb n "gt" then ">" else "&" ++ n;
     unescape_refs := fun s => s |}.

(** The markup of the three-article page, parsed by html.parser and bs4,
    then read by lines 65-84. *)
Example markup_scenario :
  res_bind (@parse (html_parser sample_refs) (ser_forest page_three)) scrape_page =
  Ok "C (300 citations): https://www.sciencedirect.com/c".
Proof. vm_compute. reflexivity. Qed.

(** The content of [<script>] is one string, [<] and [&] included. *)
Example script_content :
  tokenize sample_refs "<script>if (a<b && c) x();</script>" =
  Ok [StartTag "script" []; Data "if (a<b && c) x();"; EndTag "script"].
Proof. vm_compute. reflexivity. Qed.

(** A known entity becomes its character, an unknown one [&name] without
    its [;], and a lone [&] stays text. *)
Example references :
  tokenize sample_refs "<p>AT&amp;T &foo; &</p>" =
  Ok [StartTag "p" []; Data "AT"; Data "&"; Data "T "; Data "&foo"; Data " "; Data "&"; EndTag "p"].
Proof. vm_compute. reflexivity. Qed.

(** A decimal character reference of 4301 digits: bs4's [int(name)]
    raises the [ValueError] of the digit limit, which leaves
    [BeautifulSoup] unchanged and which the tool returns as its error
    text. *)
Example charref_digit_limit :
  fst (@search_sciencedirect_bipolar nat
         (fixture_browser (Ok tt) (Ok tt) (Ok ("<p>&#" ++ PyInt.ones 4301 ++ ";</p>")) (Ok tt))
         (html_parser sample_refs) "bipolar disorder" {| world := 0; calls := [] |}) =
  Ok (error_text PyInt.int_limit).
Proof. vm_compute. reflexivity. Qed.

(** A CDATA section is a string of the tree; an unclosed tag is closed at
    the end. *)
Example cdata_section :
  @parse (html_parser sample_refs) "<![CDATA[x<y]]><p>" = Ok [Text "x<y"; Elem "p" [] []].
Proof. vm_compute. reflexivity. Qed.

(** Single-quoted and bare values, a self-closing tag, a doctype, a
    processing instruction, and an end tag with junk after its name. *)
Example tolerant_markup :
  tokenize sample_refs "<a href='/x' class=b>t</a><br/><!doctype html><?pi?></b x>" =
  Ok [StartTag "a" [("href", Some "/x"); ("class", Some "b")]; Data "t"; EndTag "a";
      StartEndTag "br" []; Decl "doctype html"; Pi "pi?"; EndTag "b"].
Proof. vm_compute. reflexivity. Qed.

(** A results page after a script whose code holds [<], [&] and a tag,
    and a paragraph whose text holds [&] and [<]. *)
Definition page_scripted : list node :=
  Elem "script" [("type", "text/javascript")] [Text "if (a < b && c) { t = '<b>'; }"] ::
  Elem "p" [] [Text "R&D <3 AT&T"] :: page_three.

Lemma parse_markup_roundtrip_witness :
  entityref_text sample_refs "amp" = "&" /\ entityref_text sample_refs "lt" = "<" /\
  forallb plain page_scripted = true /\ wf_forest page_scripted = true /\
  @parse (html_parser sample_refs) (ser_forest page_scripted) = Ok page_scripted.
Proof.
  split; [reflexivity|]. split; [reflexivity|]. split; [vm_compute; reflexivity|]. split; [vm_compute; reflexivity|].
  apply parse_markup_roundtrip; vm_compute; reflexivity.
Defined.

Lemma tool_reads_page_markup_witness :
  fst (@search_sciencedirect_bipolar nat
         (fixture_browser (Ok tt) (Ok tt) (Ok (ser_forest page_scripted)) (Ok tt))
         (html_parser sample_refs) "bipolar disorder" {| world := 0; calls := [] |}) =
  Ok (match scrape_page page_scripted with Ok t => t | Raise e => error_text e end).
Proof.
  apply (tool_reads_page_markup sample_refs "bipolar disorder" "/usr/local/bin/chromedriver"
           {| world := 0; calls := [] |} 0 1 1 1 0 page_scripted); vm_compute; reflexivity.
Defined.

(** The most cited of the three articles, after the script and the
    paragraph. *)
Example scripted_scenario :
  res_bind (@parse (html_parser sample_refs) (ser_forest page_scripted)) scrape_page =
  Ok "C (300 citations): https://www.sciencedirect.com/c".
Proof. vm_compute. reflexivity. Qed.

Lemma tool_rejects_unknown_section_witness :
  fst (@search_sciencedirect_bipolar nat
         (fixture_browser (Ok tt) (Ok tt) (Ok (ser_forest page_three ++ "<![" ++ String "f" "oo" ++ "[" ++ "x]]>")) (Ok tt))
         (html_parser sample_refs) "bipolar disorder" {| world := 0; calls := [] |}) =
  Ok ("Error during scraping: " ++ reject_message ++ "AssertionError: unknown status keyword "
      ++ py_repr "foo" ++ " in marked section").
Proof.
  apply (tool_rejects_unknown_section sample_refs "bipolar disorder" "/usr/local/bin/chromedriver"
           {| world := 0; calls := [] |} 0 1 1 1 0 page_three "f" "oo" "x]]>");
    vm_compute; reflexivity.
Defined.

End HtmlTok.
