(* ===== verification/React.v ===== *)
(** * The ZERO_SHOT_REACT agent: its prompt and its output parser

    [initialize_agent(tools, llm, agent=AgentType.ZERO_SHOT_REACT_DESCRIPTION)]
    (lines 103-108) builds LangChain's [ZeroShotAgent] over the tool list of
    line 101.  At each iteration its [plan] formats the prompt of
    [ZeroShotAgent.create_prompt(tools)] with the question and the
    scratchpad of the steps taken so far ([_construct_scratchpad]), asks the
    LLM for a completion with the stop sequences ["\nObservation:"] and
    ["\n\tObservation:"], and reads the completion with [MRKLOutputParser.parse]:
    an [Action: ... Action Input: ...] pair, found by [re.search] with the
    parser's pattern, becomes an [AgentAction]; a [Final Answer:] becomes an
    [AgentFinish]; anything else raises [OutputParserException].

    The tool's line in the prompt is [render_text_description] of
    langchain-core 0.3: the name, the signature of the decorated function
    and its docstring as [@tool] dedents and strips it.

    Theorems: the text in the format the prompt asks for parses back to the
    tool and the input written in it; a final answer is read as the text
    after the marker, colons and links included; a text without a colon is
    rejected with the parser's message; the prompt of an iteration is the
    first prompt followed by every step taken; a final answer followed by
    an invented action, with no blank line after the marker, is read as a
    final answer that keeps the invented action and loses the text's last
    character ([text.find("\n\n", start)] is [-1]), as the example
    [parse_answer_then_action] shows on one text. *)

From Stdlib Require Import String Ascii List Arith ZArith Lia Bool.
From S2P Require Import Prelude PyStr PyRe.
Import ListNotations.
Local Open Scope string_scope.

Module React.
Import PyStr PyRe.

(** ** Actions and steps *)

(** [AgentAction(tool, tool_input, log)] *)
Record agent_action : Type := { act_tool : string; act_input : string; act_log : string }.

(** [AgentAction] or [AgentFinish({"output": output}, log)] *)
Inductive agent_output : Type :=
| AgentAction (a : agent_action)
| AgentFinish (output log : string).

(** An [AgentStep]: the action and its observation. *)
Definition agent_step : Type := (agent_action * string)%type.

Definition nl : string := String "010"%char "".
Definition tab : string := String "009"%char "".
Definition quote : string := String "034"%char "".

(** ** The tool list (line 101) *)

(** A tool as the prompt shows it: its name, the signature of the function
    [@tool] wrapped, and its description. *)
Record tool : Type := { t_name : string; t_signature : string; t_description : string }.

Definition tool_name : string := "search_sciencedirect_bipolar".

(** [@tool] on lines 43-47. *)
Definition search_tool : tool :=
  {| t_name := tool_name; t_signature := "(query: str) -> str";
     t_description := "Uses Selenium to search ScienceDirect for articles about bipolar disorder and returns the most cited one." |}.

(** [tools = [search_sciencedirect_bipolar]] *)
Definition tools : list tool := [search_tool].

Definition tool_names : list string := map t_name tools.

(** ** The prompt *)

(** [render_text_description(tools)] *)
Definition render_text_description (ts : list tool) : string :=
  join nl (map (fun t => t_name t ++ t_signature t ++ " - " ++ t_description t) ts).

Definition prompt_prefix : string :=
  "Answer the following questions as best you can. You have access to the following tools:".

(** [FORMAT_INSTRUCTIONS.format(tool_names=", ".join(tool_names))] *)
Definition format_instructions (names : string) : string :=
  "Use the following format:" ++ nl ++ nl ++
  "Question: the input question you must answer" ++ nl ++
  "Thought: you should always think about what to do" ++ nl ++
  "Action: the action to take, should be one of [" ++ names ++ "]" ++ nl ++
  "Action Input: the input to the action" ++ nl ++
  "Observation: the result of the action" ++ nl ++
  "... (this Thought/Action/Action Input/Observation can repeat N times)" ++ nl ++
  "Thought: I now know the final answer" ++ nl ++
  "Final Answer: the final answer to the original input question".

(** [SUFFIX] formatted with [input] and [agent_scratchpad]. *)
Definition prompt_suffix (input scratchpad : string) : string :=
  "Begin!" ++ nl ++ nl ++ "Question: " ++ input ++ nl ++ "Thought:" ++ scratchpad.

(** [create_prompt(tools)] formatted: the four parts joined by a blank
    line. *)
Definition agent_prompt (input scratchpad : string) : string :=
  join (nl ++ nl) [prompt_prefix; render_text_description tools;
                   format_instructions (join ", " tool_names); prompt_suffix input scratchpad].

Definition observation_prefix : string := "Observation: ".
Definition llm_prefix : string := "Thought:".

(** [_construct_scratchpad]: each step's log, then its observation. *)
Definition construct_scratchpad (steps : list agent_step) : string :=
  fold_left (fun thoughts (st : agent_step) =>
               thoughts ++ act_log (fst st) ++ nl ++ observation_prefix ++ snd st ++ nl ++ llm_prefix)
            steps "".

(** [self._stop] *)
Definition stop : list string := [nl ++ "Observation:"; nl ++ tab ++ "Observation:"].

(** ** [MRKLOutputParser.parse] *)

Definition final_answer_action : string := "Final Answer:".

(** The parser's pattern, under [re.DOTALL] (groups spaced out here):
    [Action\s*\d*\s*:[\s]*( .*? )[\s]*Action\s*\d*\s*Input\s*\d*\s*:[\s]*( .* )] *)
Definition action_regex : regex :=
  cat [Lit "Action"; Star true py_isspace; Star true is_digit; Star true py_isspace; Lit ":";
       Star true py_isspace; Group (Star false any_char); Star true py_isspace;
       Lit "Action"; Star true py_isspace; Star true is_digit; Star true py_isspace;
       Lit "Input"; Star true py_isspace; Star true is_digit; Star true py_isspace; Lit ":";
       Star true py_isspace; Group (Star true any_char)].

Definition parser_error (m : string) : exc := OtherError "OutputParserException" m.

Definition both_error_message : string :=
  "Parsing LLM output produced both a final answer and a parse-able action:".

(** The message of langchain-core 0.3's first releases; later 0.3
    releases append a line pointing to LangChain's troubleshooting page. *)
Definition could_not_parse (text : string) : string :=
  "Could not parse LLM output: `" ++ text ++ "`".

(** The three [raise OutputParserException(...)] at the end of [parse]
    differ only in the [observation] they attach, which the executor reads
    only when [handle_parsing_errors] is set; the message is the same. *)
Definition mrkl_parse (text : string) : res agent_output :=
  let includes_answer := contains final_answer_action text in
  match search action_regex text with
  | Some m =>
      if includes_answer then
        if (py_find text final_answer_action 0 <? py_find text (group0 text m) 0)%Z then
          let start_index := (py_find text final_answer_action 0
                              + Z.of_nat (String.length final_answer_action))%Z in
          let end_index := py_find text (nl ++ nl) (Z.to_nat start_index) in
          Ok (AgentFinish (strip (py_slice text start_index end_index)) (py_slice text 0 end_index))
        else Raise (parser_error (both_error_message ++ ": " ++ text))
      else
        match m_groups m with
        | [g1; g2] =>
            let tool_input := strip_chars " " g2 in
            let tool_input := if startswith tool_input "SELECT " then tool_input
                              else strip_chars quote tool_input in
            Ok (AgentAction {| act_tool := strip g1; act_input := tool_input; act_log := text |})
        | _ => Raise (parser_error (could_not_parse text)) (* the pattern has two groups *)
        end
  | None =>
      if includes_answer then
        Ok (AgentFinish (strip (last (py_split text final_answer_action) "")) text)
      else Raise (parser_error (could_not_parse text))
  end.

(** ** The pattern, piece by piece *)

(** The part of the pattern after the lazy group. *)
Definition input_part : regex :=
  cat [Star true py_isspace; Lit "Action"; Star true py_isspace; Star true is_digit;
       Star true py_isspace; Lit "Input"; Star true py_isspace; Star true is_digit;
       Star true py_isspace; Lit ":"; Star true py_isspace; Group (Star true any_char)].

Lemma action_regex_split :
  action_regex =
  Seq (Lit "Action") (Seq (Star true py_isspace) (Seq (Star true is_digit) (Seq (Star true py_isspace)
    (Seq (Lit ":") (Seq (Star true py_isspace) (Seq (Group (Star false any_char)) input_part)))))).
Proof. reflexivity. Qed.

(** [\s*Action\s*\d*\s*Input\s*\d*\s*:]: the text after the header. *)
Definition input_header (u : string) : option string :=
  match drop_prefix "Action" (lstrip u) with
  | Some u1 =>
      match drop_prefix "Input" (skip_gap u1) with
      | Some u2 => drop_prefix ":" (skip_gap u2)
      | None => None
      end
  | None => None
  end.

Lemma mt_input_part (u : string) (caps : list string) :
  mt input_part u caps found =
  match input_header u with Some y => Some ("", caps ++ [lstrip y])%list | None => None end.
Proof.
  unfold input_part. cbn [cat]. rewrite mt_seq, mt_star_greedy, star_greedy_run.
  - rewrite <- lstrip_drop_while, mt_seq_lit. unfold input_header.
    destruct (drop_prefix "Action" (lstrip u)) as [u1|]; [|reflexivity].
    rewrite mt_gap by reflexivity. destruct (drop_prefix "Input" (skip_gap u1)) as [u2|]; [|reflexivity].
    rewrite mt_gap by reflexivity. destruct (drop_prefix ":" (skip_gap u2)) as [y|]; [|reflexivity].
    rewrite mt_seq, mt_star_greedy. apply star_greedy_longest.
    rewrite mt_group, mt_star_greedy. apply star_greedy_longest.
    rewrite drop_while_any, consumed_all, <- lstrip_drop_while. reflexivity.
  - intros d v Hd. left. rewrite mt_seq_lit. cbn [drop_prefix].
    now rewrite (eqb_class py_isspace "A" d).
Qed.

Lemma mt_action (w : string) :
  mt action_regex w [] found =
  match drop_prefix "Action" w with
  | Some w1 =>
      match drop_prefix ":" (skip_gap w1) with
      | Some w2 =>
          star_greedy py_isspace w2 []
            (fun v c => star_lazy any_char v c
                          (fun v' c' => mt input_part v' (c' ++ [consumed v v'])%list found))
      | None => None
      end
  | None => None
  end.
Proof.
  rewrite action_regex_split, mt_seq_lit. destruct (drop_prefix "Action" w) as [w1|]; [|reflexivity].
  rewrite mt_gap by reflexivity. destruct (drop_prefix ":" (skip_gap w1)) as [w2|]; reflexivity.
Qed.

(** A match starts with [Action], a gap and a colon. *)
Lemma action_match_shape (w : string) :
  mt action_regex w [] found <> None ->
  exists x w2, w = "Action" ++ x ++ ":" ++ w2 /\ all_chars gap_char x = true.
Proof.
  rewrite mt_action. destruct (drop_prefix "Action" w) as [w1|] eqn:E1; [|congruence].
  destruct (drop_prefix ":" (skip_gap w1)) as [w2|] eqn:E2; [|congruence]. intros _.
  destruct (skip_gap_split w1) as (x & Ex & Hx). exists x, w2. split; [|exact Hx].
  apply drop_prefix_some in E1, E2. rewrite E1, Ex, E2. reflexivity.
Qed.

Lemma action_no_colon (w : string) : has_char ":" w = false -> mt action_regex w [] found = None.
Proof.
  intros Hw. destruct (mt action_regex w [] found) eqn:E; [exfalso|reflexivity].
  destruct (action_match_shape w) as (x & w2 & -> & _); [congruence|].
  rewrite str_app_assoc in Hw. change (":" ++ w2) with (String ":" w2) in Hw.
  now rewrite has_char_mid in Hw.
Qed.

Lemma search_no_colon (s : string) (i : nat) :
  has_char ":" s = false -> search_from action_regex s i = None.
Proof.
  revert i. induction s as [|c s IH]; intros i Hs.
  - cbn [search_from]. now rewrite (action_no_colon _ Hs).
  - rewrite search_from_cons by (apply action_no_colon, Hs).
    apply IH. cbn [has_char] in Hs. now apply orb_false_iff in Hs as [_ Hs].
Qed.

(** The texts the colon-free parts of an answer leave colon-free. *)
Ltac colon_free :=
  repeat (rewrite has_char_app || rewrite orb_false_iff); repeat split;
  first [assumption | reflexivity | now apply all_gap_no_colon
        | apply (all_chars_no_char py_isspace); [reflexivity|]; now rewrite <- all_space_chars].

(** The thought before [Action:] holds no match when it has no colon. *)
Lemma thought_no_action (th X : string) :
  has_char ":" th = false -> mt action_regex (th ++ nl ++ "Action: " ++ X) [] found = None.
Proof.
  intros Hth. destruct (mt action_regex _ [] found) eqn:E; [exfalso|reflexivity].
  destruct (action_match_shape (th ++ nl ++ "Action: " ++ X)) as (x & w2 & Hw & Hx); [congruence|].
  assert (Hw' : (th ++ nl ++ "Action") ++ String ":" (" " ++ X) = ("Action" ++ x) ++ String ":" w2)
    by (rewrite <- !str_app_assoc; exact Hw).
  apply colon_first in Hw' as [Hw' _]; [|colon_free|colon_free].
  apply (f_equal rtrim_gap) in Hw'.
  rewrite (rtrim_gap_app "Action" x Hx), str_app_assoc, (rtrim_gap_keep (th ++ nl) "Action") in Hw'
    by (reflexivity || congruence).
  change (rtrim_gap "Action") with "Action" in Hw'.
  apply (f_equal String.length) in Hw'. rewrite !str_length_app in Hw'. simpl in Hw'. lia.
Qed.

(** Inside the tool name no [Action Input:] header starts, when the name has
    no colon and does not end with whitespace. *)
Lemma tool_no_header (T2 I : string) :
  has_char ":" T2 = false -> T2 <> "" -> last_ns T2 ->
  input_header (T2 ++ nl ++ "Action Input: " ++ I) = None.
Proof.
  intros HT Hne Hl. destruct (input_header _) as [y|] eqn:E; [exfalso|reflexivity].
  unfold input_header in E.
  destruct (lstrip_split (T2 ++ nl ++ "Action Input: " ++ I)) as (w & Ew & Hw).
  destruct (drop_prefix "Action" (lstrip _)) as [u1|] eqn:E1; [|discriminate].
  destruct (skip_gap_split u1) as (x1 & Ex1 & Hx1).
  destruct (drop_prefix "Input" (skip_gap u1)) as [u2|] eqn:E2; [|discriminate].
  destruct (skip_gap_split u2) as (x2 & Ex2 & Hx2).
  apply drop_prefix_some in E1, E2, E. rewrite E1, Ex1, E2, Ex2, E in Ew.
  assert (Hc : (T2 ++ nl ++ "Action Input") ++ String ":" (" " ++ I)
               = (w ++ "Action" ++ x1 ++ "Input" ++ x2) ++ String ":" y)
    by (rewrite <- !str_app_assoc; exact Ew).
  apply colon_first in Hc as [Hc _]; [|colon_free|colon_free].
  apply (f_equal rtrim_gap) in Hc.
  assert (A1 : w ++ "Action" ++ x1 ++ "Input" ++ x2 = ((w ++ "Action" ++ x1) ++ "Input") ++ x2)
    by now rewrite <- !str_app_assoc.
  assert (A2 : T2 ++ nl ++ "Action Input" = (T2 ++ nl ++ "Action ") ++ "Input")
    by now rewrite <- !str_app_assoc.
  rewrite A1, (rtrim_gap_app _ x2 Hx2), (rtrim_gap_keep (w ++ "Action" ++ x1) "Input"), A2,
    (rtrim_gap_keep (T2 ++ nl ++ "Action ") "Input") in Hc by (reflexivity || congruence).
  apply str_app_inv_tail, (f_equal rtrim_gap) in Hc.
  assert (A3 : T2 ++ nl ++ "Action " = ((T2 ++ nl) ++ "Action") ++ " ") by now rewrite <- !str_app_assoc.
  rewrite A3, (rtrim_gap_app _ " " eq_refl), (str_app_assoc w "Action" x1), (rtrim_gap_app _ x1 Hx1),
    (rtrim_gap_keep w "Action"), (rtrim_gap_keep (T2 ++ nl) "Action") in Hc by (reflexivity || congruence).
  apply str_app_inv_tail in Hc. rewrite <- Hc, all_space_chars, all_chars_app in Hw.
  apply andb_prop in Hw as [Hw _]. rewrite <- all_space_chars in Hw.
  now apply Hne, last_ns_all_space.
Qed.

Lemma has_char_app_r (c : ascii) (a b : string) : has_char c (a ++ b) = false -> has_char c b = false.
Proof. rewrite has_char_app. now intros [_ H]%orb_false_iff. Qed.

Lemma search_from_nl (r : regex) (s : string) (i : nat) :
  mt r (nl ++ s) [] found = None -> search_from r (nl ++ s) i = search_from r s (S i).
Proof. exact (search_from_cons r "010"%char s i). Qed.

(** The search finds the [Action:] written after a text in which no match
    starts, with the tool name and the tool input as its groups. *)
Lemma search_action_at (th T I : string) :
  (forall a1 a2, th = a1 ++ a2 -> a2 <> "" ->
     mt action_regex (a2 ++ nl ++ "Action: " ++ T ++ nl ++ "Action Input: " ++ I) [] found = None) ->
  has_char ":" T = false ->
  T <> "" -> head_ns T -> last_ns T -> head_ns I ->
  search action_regex (th ++ nl ++ "Action: " ++ T ++ nl ++ "Action Input: " ++ I) =
  Some {| m_start := S (String.length th); m_rest := ""; m_groups := [T; I] |}.
Proof.
  intros Hth HT Hne HhT HlT HhI. unfold search.
  rewrite search_from_app by exact Hth.
  rewrite search_from_nl by (rewrite mt_action; reflexivity).
  apply search_from_hit. rewrite mt_action.
  set (R := nl ++ "Action Input: " ++ I).
  assert (E1 : "Action: " ++ T ++ R = "Action" ++ ":" ++ " " ++ T ++ R) by reflexivity.
  rewrite E1, drop_prefix_app.
  change (skip_gap (":" ++ " " ++ T ++ R)) with (":" ++ " " ++ T ++ R). rewrite drop_prefix_app.
  apply star_greedy_longest.
  assert (E2 : drop_while py_isspace (" " ++ T ++ R) = T ++ R).
  { destruct T as [|t T']; [congruence|]. cbn [String.append drop_while]. simpl in HhT.
    change (py_isspace " "%char) with true. now rewrite HhT. }
  rewrite E2, star_lazy_app.
  - apply star_lazy_hit. rewrite mt_input_part, consumed_app.
    change (input_header R) with (Some (" " ++ I)). cbv beta iota.
    change (lstrip (" " ++ I)) with (lstrip I). now rewrite (lstrip_head_ns I HhI).
  - apply all_chars_any.
  - intros T1 T2 -> Hne2. unfold R. rewrite mt_input_part, tool_no_header; [reflexivity| |exact Hne2|].
    + now apply has_char_app_r in HT.
    + now apply (last_ns_app_r T1).
Qed.

(** ... after a thought without colon. *)
Lemma search_action_format (th T I : string) :
  has_char ":" th = false -> has_char ":" T = false ->
  T <> "" -> head_ns T -> last_ns T -> head_ns I ->
  search action_regex (th ++ nl ++ "Action: " ++ T ++ nl ++ "Action Input: " ++ I) =
  Some {| m_start := S (String.length th); m_rest := ""; m_groups := [T; I] |}.
Proof.
  intros Hth. apply search_action_at.
  intros a1 a2 -> _. apply thought_no_action. now apply has_char_app_r in Hth.
Qed.

(** The text in the format the prompt asks for has no [Final Answer:]. *)
Lemma action_format_no_answer (th T I : string) :
  has_char ":" th = false -> has_char ":" T = false -> has_char ":" I = false ->
  contains final_answer_action (th ++ nl ++ "Action: " ++ T ++ nl ++ "Action Input: " ++ I) = false.
Proof.
  intros Hth HT HI. apply Bool.not_true_iff_false. intros H.
  change final_answer_action with ("Final Answe" ++ "r:") in H. apply contains_app_r in H.
  rewrite !contains2_app, (contains2_no_char _ _ th), (contains2_no_char _ _ T), (contains2_no_char _ _ I)
    in H by assumption.
  cbn [starts_with_char String.append ends_with_char nl] in H.
  change (Ascii.eqb "010" ":") with false in H. change (Ascii.eqb "A" ":") with false in H.
  rewrite !andb_false_r in H. vm_compute in H. discriminate.
Qed.

(** A match needs the word [Action]. *)
Lemma search_no_action (s : string) (i : nat) :
  contains "Action" s = false -> search_from action_regex s i = None.
Proof.
  assert (Hmt : forall w, contains "Action" w = false -> mt action_regex w [] found = None).
  { intros w Hw. destruct (mt action_regex w [] found) eqn:E; [exfalso|reflexivity].
    destruct (action_match_shape w) as (x & w2 & -> & _); [congruence|].
    pose proof (contains_app_intro "Action" "" (x ++ ":" ++ w2)) as H1.
    change ("" ++ "Action" ++ x ++ ":" ++ w2) with ("Action" ++ x ++ ":" ++ w2) in H1. congruence. }
  revert i. induction s as [|c s IH]; intros i Hs.
  - cbn [search_from]. now rewrite (Hmt _ Hs).
  - rewrite search_from_cons by (apply Hmt, Hs). apply IH. exact (contains_tail _ _ _ Hs).
Qed.

(** [Final Answer:] starts nowhere in a thought without colon. *)
Lemma no_answer_before (th rest : string) :
  has_char ":" th = false ->
  forall a1 a2, th = a1 ++ a2 -> a2 <> "" -> String.prefix final_answer_action (a2 ++ final_answer_action ++ rest) = false.
Proof.
  intros Hth a1 a2 -> Hne. apply Bool.not_true_iff_false. intros Hp.
  destruct (prefix_split _ _ Hp) as (b & Hb).
  assert (Hc : (a2 ++ "Final Answer") ++ String ":" rest = "Final Answer" ++ String ":" b)
    by (rewrite <- str_app_assoc; exact Hb).
  apply has_char_app_r in Hth.
  apply colon_first in Hc as [Hc _]; [|colon_free|reflexivity].
  apply (f_equal String.length) in Hc. rewrite str_length_app in Hc.
  destruct a2; [congruence | simpl in Hc; lia].
Qed.

(** The word [Action] starts nowhere in a text without it, or at its
    newline. *)
Lemma no_action_before (P X : string) :
  contains "Action" P = false ->
  forall a1 a2, P ++ nl = a1 ++ a2 -> a2 <> "" -> String.prefix "Action" (a2 ++ X) = false.
Proof.
  intros HP a1 a2 E Hne. apply Bool.not_true_iff_false. intros Hp. destruct (prefix_split _ _ Hp) as (Y & HY).
  assert (E2 : a1 ++ ("Action" ++ Y) = P ++ (nl ++ X)) by (rewrite <- HY, str_app_assoc, <- E; symmetry; apply str_app_assoc).
  destruct (str_app_eq_app _ _ _ _ E2) as (m & [[Ha1 Hm]|[HPm Hm]]).
  - rewrite Ha1, <- str_app_assoc in E. apply (f_equal String.length) in E. rewrite !str_length_app in E.
    destruct a2 as [|c a2]; [congruence|]. destruct m as [|d m]; [|cbn in E; lia].
    cbn in Hm. discriminate Hm.
  - destruct (str_app_eq_app _ _ _ _ Hm) as (m' & [[Hm1 Hm2]|[Hm1 _]]).
    + destruct m' as [|c m'].
      * rewrite str_app_nil_r in Hm1. rewrite HPm, <- Hm1, <- (str_app_nil_r "Action"), contains_app_intro in HP.
        discriminate HP.
      * cbn in Hm2. injection Hm2 as <- _. pose proof (has_char_mid "010" m m') as Hc.
        rewrite <- Hm1 in Hc. discriminate Hc.
    + rewrite HPm, Hm1, contains_app_intro in HP. discriminate HP.
Qed.

(** [text.split("Final Answer:")] of a thought without colon, the marker
    and an answer without the marker. *)
Lemma split_final_answer (th ans : string) :
  has_char ":" th = false -> contains final_answer_action ans = false ->
  py_split (th ++ final_answer_action ++ ans) final_answer_action = [th; ans].
Proof.
  intros Hth Hans. unfold py_split. rewrite split_from_app.
  - assert (Hp : String.prefix final_answer_action (final_answer_action ++ ans) = true)
      by apply startswith_app.
    change (final_answer_action ++ ans) with (String "F" ("inal Answer:" ++ ans)) in Hp |- *.
    cbn [split_from]. rewrite Hp.
    change (String.length final_answer_action - 1) with (String.length "inal Answer:").
    rewrite split_from_skip, split_from_none by exact Hans. reflexivity.
  - exact (no_answer_before th ans Hth).
Qed.

(** ** Parsing the two kinds of text *)

Lemma parse_action_format (th T I : string) :
  has_char ":" th = false -> has_char ":" T = false -> has_char ":" I = false ->
  T <> "" -> head_ns T -> last_ns T -> head_ns I ->
  strip_chars " " I = I -> strip_chars quote I = I ->
  mrkl_parse (th ++ nl ++ "Action: " ++ T ++ nl ++ "Action Input: " ++ I) =
  Ok (AgentAction {| act_tool := T; act_input := I;
                     act_log := th ++ nl ++ "Action: " ++ T ++ nl ++ "Action Input: " ++ I |}).
Proof.
  intros Hth HT HI Hne HhT HlT HhI Hsp Hq. unfold mrkl_parse.
  rewrite search_action_format, action_format_no_answer by assumption. cbn [m_groups].
  unfold strip. rewrite (lstrip_head_ns T HhT), (rstrip_last_ns T HlT), Hsp.
  destruct (startswith I "SELECT "); [reflexivity | now rewrite Hq].
Qed.

Lemma parse_final_answer (th ans : string) :
  has_char ":" th = false -> contains "Action" (th ++ "Final Answer:" ++ ans) = false ->
  contains "Final Answer:" ans = false ->
  mrkl_parse (th ++ "Final Answer:" ++ ans) = Ok (AgentFinish (strip ans) (th ++ "Final Answer:" ++ ans)).
Proof.
  intros Hth Hact Hans.
  change (th ++ "Final Answer:" ++ ans) with (th ++ final_answer_action ++ ans) in *.
  unfold mrkl_parse, search. rewrite (search_no_action _ 0 Hact), contains_app_intro.
  rewrite (split_final_answer th ans Hth Hans). reflexivity.
Qed.

Lemma parse_no_colon (text : string) :
  has_char ":" text = false -> mrkl_parse text = Raise (parser_error (could_not_parse text)).
Proof.
  intros H. unfold mrkl_parse, search. rewrite (search_no_colon text 0 H).
  assert (Hc : contains final_answer_action text = false).
  { apply Bool.not_true_iff_false. intros Hc. change final_answer_action with ("Final Answer" ++ ":") in Hc.
    apply contains_app_r, contains_char in Hc. congruence. }
  now rewrite Hc.
Qed.

(** ** The prompt across iterations *)

(** One step as the scratchpad writes it. *)
Definition step_text (st : agent_step) : string :=
  act_log (fst st) ++ nl ++ observation_prefix ++ snd st ++ nl ++ llm_prefix.

Lemma concat_cons (x : string) (l : list string) : String.concat "" (x :: l) = x ++ String.concat "" l.
Proof. destruct l; cbn [String.concat]; [now rewrite str_app_nil_r | reflexivity]. Qed.

Lemma fold_scratchpad (steps : list agent_step) (acc : string) :
  fold_left (fun thoughts (st : agent_step) =>
               thoughts ++ act_log (fst st) ++ nl ++ observation_prefix ++ snd st ++ nl ++ llm_prefix)
            steps acc = acc ++ String.concat "" (map step_text steps).
Proof.
  revert acc. induction steps as [|st steps IH]; intros acc; cbn [fold_left map].
  - now rewrite str_app_nil_r.
  - rewrite IH, concat_cons, <- str_app_assoc. reflexivity.
Qed.

Lemma agent_prompt_app (input x y : string) : agent_prompt input (x ++ y) = agent_prompt input x ++ y.
Proof. unfold agent_prompt, prompt_suffix. cbn [join]. now rewrite <- !str_app_assoc. Qed.

(** ** Theorems *)

(** C19: The text the prompt's format asks for (a thought, then
    [Action: <tool>] and [Action Input: <input>] on lines of their own)
    parses back to exactly that tool and that input, with the whole text as
    the log, when the thought, the tool and the input hold no colon, the
    tool name is not empty and has no surrounding whitespace, and the input
    has no surrounding space or double quote: the search skips every
    [Action] in the thought, and the lazy group stops at the first
    [Action Input] header, the one after the tool name. *)
Theorem mrkl_parse_action (th T I : string) :
  has_char ":" th = false -> has_char ":" T = false -> has_char ":" I = false ->
  T <> "" -> head_ns T -> last_ns T -> head_ns I ->
  strip_chars " " I = I -> strip_chars quote I = I ->
  mrkl_parse (th ++ nl ++ "Action: " ++ T ++ nl ++ "Action Input: " ++ I) =
  Ok (AgentAction {| act_tool := T; act_input := I;
                     act_log := th ++ nl ++ "Action: " ++ T ++ nl ++ "Action Input: " ++ I |}).
Proof. apply parse_action_format. Qed.

(** C20: A completion that gives a [Final Answer:] after a thought without
    colon, and has no [Action] anywhere, is read as the agent's answer: the
    text after the marker, stripped, whatever colons, links or lines it
    holds, provided it does not repeat the marker. *)
Theorem mrkl_parse_final_answer (th ans : string) :
  has_char ":" th = false -> contains "Action" (th ++ "Final Answer:" ++ ans) = false ->
  contains "Final Answer:" ans = false ->
  mrkl_parse (th ++ "Final Answer:" ++ ans) = Ok (AgentFinish (strip ans) (th ++ "Final Answer:" ++ ans)).
Proof. apply parse_final_answer. Qed.

(** C30: The prompt the LLM receives after some steps is the prompt of the
    first iteration followed, for every step in order, by the LLM's own
    text for it, the line [Observation: ] with the tool's answer verbatim,
    and [Thought:]: every earlier step and observation reaches the LLM. *)
Theorem prompt_history (input : string) (steps : list agent_step) :
  agent_prompt input (construct_scratchpad steps) =
  agent_prompt input "" ++
  String.concat "" (map (fun st => act_log (fst st) ++ nl ++ "Observation: " ++ snd st ++ nl ++ "Thought:") steps).
Proof.
  unfold construct_scratchpad. rewrite fold_scratchpad, agent_prompt_app. reflexivity.
Qed.

(** ** Runs *)

Example parse_action :
  mrkl_parse (" I should search ScienceDirect" ++ nl ++ "Action: search_sciencedirect_bipolar" ++ nl
              ++ "Action Input: " ++ quote ++ "bipolar disorder" ++ quote) =
  Ok (AgentAction {| act_tool := "search_sciencedirect_bipolar"; act_input := "bipolar disorder";
                     act_log := " I should search ScienceDirect" ++ nl ++ "Action: search_sciencedirect_bipolar"
                                ++ nl ++ "Action Input: " ++ quote ++ "bipolar disorder" ++ quote |}).
Proof. vm_compute. reflexivity. Qed.

Example parse_finish :
  mrkl_parse (" I now know the final answer" ++ nl ++ "Final Answer: C (300 citations): https://x.org/c") =
  Ok (AgentFinish "C (300 citations): https://x.org/c"
        (" I now know the final answer" ++ nl ++ "Final Answer: C (300 citations): https://x.org/c")).
Proof. vm_compute. reflexivity. Qed.

(** A final answer followed by an action the LLM made up, with no blank
    line after the answer: [text.find("\n\n", start)] is [-1], so the slice
    [text[start:-1]] keeps the invented action and drops the last
    character of the text. *)
Example parse_answer_then_action :
  mrkl_parse ("Final Answer: C" ++ nl ++ "Action: search_sciencedirect_bipolar" ++ nl ++ "Action Input: xyz") =
  Ok (AgentFinish ("C" ++ nl ++ "Action: search_sciencedirect_bipolar" ++ nl ++ "Action Input: xy")
        ("Final Answer: C" ++ nl ++ "Action: search_sciencedirect_bipolar" ++ nl ++ "Action Input: xy")).
Proof. vm_compute. reflexivity. Qed.

(** C40: A completion with a final answer followed by an action the LLM
    made up ([Action:] and [Action Input:] after the answer), with no
    blank line after [Final Answer:]: the parser returns a final answer,
    not the action, and since [text.find("\n\n", start)] is [-1] the
    slices [text[start:-1]] and [text[:-1]] keep the invented action in
    the answer and drop the last character of the text. *)
Theorem mrkl_parse_answer_and_action (th a T I : string) :
  has_char ":" th = false -> contains "Action" (th ++ "Final Answer:" ++ a) = false ->
  has_char ":" T = false -> T <> "" -> head_ns T -> last_ns T -> head_ns I ->
  contains (nl ++ nl) (a ++ nl ++ "Action: " ++ T ++ nl ++ "Action Input: " ++ I) = false ->
  mrkl_parse (th ++ "Final Answer:" ++ a ++ nl ++ "Action: " ++ T ++ nl ++ "Action Input: " ++ I) =
  Ok (AgentFinish (strip (py_slice (a ++ nl ++ "Action: " ++ T ++ nl ++ "Action Input: " ++ I) 0 (-1)))
                  (py_slice (th ++ "Final Answer:" ++ a ++ nl ++ "Action: " ++ T ++ nl ++ "Action Input: " ++ I) 0 (-1))).
Proof.
  intros Hth Hact HT Hne HhT HlT HhI Hnn.
  set (Q := "Action: " ++ T ++ nl ++ "Action Input: " ++ I) in *.
  set (B := a ++ nl ++ Q) in *.
  set (P := th ++ "Final Answer:" ++ a).
  assert (Et : th ++ "Final Answer:" ++ B = P ++ nl ++ Q) by (unfold P, B; now rewrite <- !str_app_assoc).
  assert (A1 : search action_regex (th ++ "Final Answer:" ++ B) =
               Some {| m_start := S (String.length P); m_rest := ""; m_groups := [T; I] |}).
  { rewrite Et. apply search_action_at; try assumption.
    intros a1 a2 HP _. rewrite mt_action, drop_prefix_none; [reflexivity|].
    rewrite str_app_assoc. apply (no_action_before P Q Hact a1); [now rewrite HP, <- str_app_assoc|].
    destruct a2; discriminate. }
  assert (A2 : group0 (th ++ "Final Answer:" ++ B)
                 {| m_start := S (String.length P); m_rest := ""; m_groups := [T; I] |} = Q).
  { unfold group0. cbn [m_start m_rest]. rewrite consumed_all, Et, str_app_assoc.
    replace (S (String.length P)) with (String.length (P ++ nl) + 0) by (rewrite str_length_app; cbn; lia).
    rewrite substring_shift. rewrite str_length_app. replace (_ + _ - _) with (String.length Q) by lia.
    apply substring_all. }
  assert (A3 : py_find (th ++ "Final Answer:" ++ B) final_answer_action 0 = Z.of_nat (String.length th)).
  { rewrite py_find_start, (find_from_app final_answer_action th ("Final Answer:" ++ B) 0 (no_answer_before th B Hth)).
    now rewrite find_from_hit by exact (startswith_app final_answer_action B). }
  assert (A4 : py_find (th ++ "Final Answer:" ++ B) Q 0 = Z.of_nat (S (String.length P))).
  { rewrite py_find_start, Et, str_app_assoc, find_from_app.
    - rewrite find_from_hit; [rewrite str_length_app; cbn; do 2 f_equal; lia|].
      rewrite <- (str_app_nil_r Q) at 2. exact (startswith_app Q "").
    - intros a1 a2 E Hne2. apply Bool.not_true_iff_false. intros Hp.
      change Q with ("Action" ++ (": " ++ T ++ nl ++ "Action Input: " ++ I)) in Hp at 1.
      apply prefix_app_l in Hp. now rewrite (no_action_before P Q Hact a1 a2 E Hne2) in Hp. }
  assert (Hlen : String.length P = String.length th + 13 + String.length a)
    by (unfold P; rewrite !str_length_app; cbn [String.length]; lia).
  assert (A6 : py_find (th ++ "Final Answer:" ++ B) (nl ++ nl)
                 (Z.to_nat (Z.of_nat (String.length th) + Z.of_nat (String.length final_answer_action))) = (-1)%Z).
  { replace (Z.to_nat _) with (String.length (th ++ "Final Answer:")) by (rewrite str_length_app; cbn; lia).
    rewrite str_app_assoc, py_find_after. now rewrite find_from_none. }
  assert (A7 : py_slice (th ++ "Final Answer:" ++ B)
                 (Z.of_nat (String.length th) + Z.of_nat (String.length final_answer_action)) (-1) =
               py_slice B 0 (-1)).
  { replace (Z.of_nat (String.length th) + _)%Z with (Z.of_nat (String.length (th ++ "Final Answer:")))
      by (rewrite str_length_app; cbn; lia).
    rewrite str_app_assoc. apply py_slice_last. unfold B. destruct a; discriminate. }
  unfold mrkl_parse. cbv zeta. rewrite A1. cbv iota.
  replace (contains final_answer_action (th ++ "Final Answer:" ++ B)) with true
    by (symmetry; exact (contains_app_intro final_answer_action th B)).
  rewrite A2, A3, A4. replace (Z.of_nat (String.length th) <? Z.of_nat (S (String.length P)))%Z with true
    by (symmetry; apply Z.ltb_lt; lia).
  rewrite A6, A7. reflexivity.
Qed.

(** ** Witnesses *)

Lemma mrkl_parse_action_witness :
  mrkl_parse (" I should search ScienceDirect" ++ nl ++ "Action: " ++ "search_sciencedirect_bipolar"
              ++ nl ++ "Action Input: " ++ "bipolar disorder") =
  Ok (AgentAction {| act_tool := "search_sciencedirect_bipolar"; act_input := "bipolar disorder";
                     act_log := " I should search ScienceDirect" ++ nl ++ "Action: "
                                ++ "search_sciencedirect_bipolar" ++ nl ++ "Action Input: "
                                ++ "bipolar disorder" |}).
Proof. apply mrkl_parse_action; (reflexivity || discriminate). Defined.

Lemma mrkl_parse_final_answer_witness :
  mrkl_parse ((" I now know the final answer" ++ nl) ++ "Final Answer:"
              ++ " C (300 citations): https://www.sciencedirect.com/c") =
  Ok (AgentFinish (strip " C (300 citations): https://www.sciencedirect.com/c")
        ((" I now know the final answer" ++ nl) ++ "Final Answer:"
         ++ " C (300 citations): https://www.sciencedirect.com/c")).
Proof. apply mrkl_parse_final_answer; reflexivity. Defined.

Lemma mrkl_parse_answer_and_action_witness :
  mrkl_parse ("" ++ "Final Answer:" ++ " C" ++ nl ++ "Action: " ++ "search_sciencedirect_bipolar" ++ nl
              ++ "Action Input: " ++ "xyz") =
  Ok (AgentFinish
        (strip (py_slice (" C" ++ nl ++ "Action: " ++ "search_sciencedirect_bipolar" ++ nl
                          ++ "Action Input: " ++ "xyz") 0 (-1)))
        (py_slice ("" ++ "Final Answer:" ++ " C" ++ nl ++ "Action: " ++ "search_sciencedirect_bipolar" ++ nl
                   ++ "Action Input: " ++ "xyz") 0 (-1))).
Proof. apply mrkl_parse_answer_and_action; (reflexivity || discriminate). Defined.

End React.
