(* ===== verification/Agent.v ===== *)
(** * The LangChain agent that calls the tool (lines 92-113)

    [initialize_agent(tools, llm, agent=ZERO_SHOT_REACT_DESCRIPTION)]
    builds an [AgentExecutor] with LangChain's defaults:
    [max_iterations = 15], [max_execution_time = None],
    [early_stopping_method = "force"], [handle_parsing_errors = False];
    [agent.invoke({"input": ...})] runs its [_call] loop.  Each iteration
    asks the agent to [plan] the next step from the steps taken so far: the
    prompt of [React.agent_prompt] with the scratchpad of those steps goes
    to the LLM [Together(...)] of lines 93-98, the [Llm] class here, a text
    completion over the same world as the browser, and [React.mrkl_parse]
    turns the completion into an [AgentAction] (tool name and tool input)
    or an [AgentFinish].  An action naming [search_sciencedirect_bipolar]
    runs the tool ([Tool.run] re-raises whatever the function raises); any
    other name gets the [InvalidTool] observation.  The observation is
    appended to the intermediate steps and the loop goes on; after 15
    iterations the executor answers the ["force"] stopped response.

    [executor_loop] is the loop as a function of the iterations left;
    [astep] is the same loop as a step relation on [astate], one transition
    per iteration, with the guard [iterations >= max_iterations] of
    [_should_continue].  [loop_run_iff] relates the two, and the theorems on
    the relation carry over to the function by it.  The theorems prove an
    invariant of every reachable state by induction on the run, termination (every
    execution is finite) and liveness (every state reaches an answer or an
    exception), bound the browser sessions an invocation opens and
    releases, count the tool runs when the LLM never answers (exactly 15,
    then the forced response), and follow the LLM's text through the parser to the paths on
    which an exception escapes [agent.invoke]. *)

From Stdlib Require Import String Ascii List Arith Lia Relations.
From S2P Require Import Prelude PyStr Url Dom Extract Repr Tool React.
Import ListNotations.
Local Open Scope string_scope.

Module Agent.
Import PyStr Extract Repr Tool React.

(** ** The LLM *)

(** [Together(model=..., temperature=0.7, max_tokens=512)] (lines 93-98):
    the completion of a prompt, cut at the stop sequences; a failed API
    call raises. *)
Class Llm (W : Type) : Type := {
  complete : string -> list string -> W -> res string * W
}.

Section Executor.
Context {W : Type} `{Browser W} `{HtmlParser} `{Llm W}.

Local Notation "x <- c ;; k" := (bind c (fun x => k))
  (at level 100, c at next level, right associativity).

(** ** The executor built by [initialize_agent] *)

Definition max_iterations : nat := 15.

Definition stopped_output : string := "Agent stopped due to iteration limit or time limit.".

(** [InvalidTool().run(...)] *)
Definition invalid_tool (requested : string) : string :=
  requested ++ " is not a valid tool, try one of [" ++ join ", " tool_names ++ "].".

Definition parsing_error_prefix : string :=
  "An output parsing error occurred. In order to pass this error back to the agent and have it try again, pass `handle_parsing_errors=True` to the AgentExecutor. This is the error: ".

(** [Agent.plan]: the prompt with the scratchpad of the steps so far, the
    LLM's completion with the stop sequences, and the output parser. *)
Definition plan (input : string) (steps : list agent_step) (w : W) : res agent_output * W :=
  let (r, w') := complete (agent_prompt input (construct_scratchpad steps)) stop w in
  (res_bind r mrkl_parse, w').

(** [self.agent.plan(...)] in [_iter_next_step]; with
    [handle_parsing_errors = False] an [OutputParserException] becomes a
    [ValueError]. *)
Definition plan_step (input : string) (steps : list agent_step) : M agent_output :=
  fun s =>
    let (r, w') := plan input steps (world s) in
    (match r with
     | Raise (OtherError cls m) =>
         if String.eqb cls "OutputParserException"
         then Raise (ValueError (parsing_error_prefix ++ m)) else r
     | _ => r
     end, {| world := w'; calls := calls s |}).

(** [_perform_agent_action] *)
Definition perform_action (a : agent_action) : M string :=
  if existsb (String.eqb (act_tool a)) tool_names
  then search_sciencedirect_bipolar (act_input a)
  else lift (Ok (invalid_tool (act_tool a))).

(** The [while] loop of [AgentExecutor._call], [n] iterations left. *)
Fixpoint executor_loop (n : nat) (input : string) (steps : list agent_step) : M string :=
  match n with
  | O => lift (Ok stopped_output)
  | S n' =>
      o <- plan_step input steps ;;
      match o with
      | AgentFinish out _ => lift (Ok out)
      | AgentAction a =>
          obs <- perform_action a ;;
          executor_loop n' input (steps ++ [(a, obs)])%list
      end
  end.

(** [agent.invoke({"input": input})] (lines 111-113): the inputs merged
    with the outputs, as the dictionary [{"input": ..., "output": ...}]. *)
Definition invoke (input : string) : M (list (string * string)) :=
  out <- executor_loop max_iterations input [] ;;
  lift (Ok [("input", input); ("output", out)]).

Definition agent_input : string :=
  "Find the most cited article about bipolar disorder on ScienceDirect. Include link and citation count.".

(** Lines 110-115: [response = agent.invoke({"input": ...})] and
    [print(response)]; the text [print] writes ([Verbose.verbose_main]
    adds the [verbose=True] trace LangChain prints before it). *)
Definition main : M string :=
  response <- invoke agent_input ;;
  lift (Ok (print_text (dict_repr response))).

(** ** The loop as a step relation *)

Inductive astate : Type :=
| Running (iterations : nat) (steps : list agent_step) (s : @state W)
| Finished (r : res string) (s : @state W).

Inductive astep (input : string) : astate -> astate -> Prop :=
| astep_stop it steps s :
    max_iterations <= it ->
    astep input (Running it steps s) (Finished (Ok stopped_output) s)
| astep_finish it steps s s1 out log :
    it < max_iterations -> plan_step input steps s = (Ok (AgentFinish out log), s1) ->
    astep input (Running it steps s) (Finished (Ok out) s1)
| astep_plan_raise it steps s s1 e :
    it < max_iterations -> plan_step input steps s = (Raise e, s1) ->
    astep input (Running it steps s) (Finished (Raise e) s1)
| astep_act it steps s s1 s2 a obs :
    it < max_iterations -> plan_step input steps s = (Ok (AgentAction a), s1) ->
    perform_action a s1 = (Ok obs, s2) ->
    astep input (Running it steps s) (Running (S it) (steps ++ [(a, obs)])%list s2)
| astep_tool_raise it steps s s1 s2 a e :
    it < max_iterations -> plan_step input steps s = (Ok (AgentAction a), s1) ->
    perform_action a s1 = (Raise e, s2) ->
    astep input (Running it steps s) (Finished (Raise e) s2).

Definition run (input : string) : relation astate := clos_refl_trans_1n astate (astep input).

Definition reachable (input : string) (s0 : @state W) (st : astate) : Prop :=
  run input (Running 0 [] s0) st.

(** ** The function and the relation *)

Lemma plan_step_calls (input : string) (steps : list agent_step) (s s1 : @state W)
    (r : res agent_output) :
  plan_step input steps s = (r, s1) -> calls s1 = calls s.
Proof. unfold plan_step. destruct (plan input steps (world s)). now intros [= _ <-]. Qed.

Lemma astep_det (input : string) (x y z : astate) :
  astep input x y -> astep input x z -> y = z.
Proof. intros Hy Hz. destruct Hy; inversion Hz; subst; try lia; congruence. Qed.

Lemma finished_irreducible (input : string) (r : res string) (s : @state W) :
  irreducible (astep input) (Finished r s).
Proof. intros b Hb. inversion Hb. Qed.

Lemma astep_progress (input : string) (it : nat) (steps : list agent_step) (s : @state W) :
  exists st, astep input (Running it steps s) st.
Proof.
  destruct (Nat.le_gt_cases max_iterations it) as [Hle|Hlt]; [eexists; now apply astep_stop|].
  destruct (plan_step input steps s) as [[[a|out log]|e] s1] eqn:Hp.
  - destruct (perform_action a s1) as [[obs|e] s2] eqn:Ha;
      eexists; [eapply astep_act | eapply astep_tool_raise]; eauto.
  - eexists. eapply astep_finish; eauto.
  - eexists. eapply astep_plan_raise; eauto.
Qed.

Ltac finish_step c := eapply Relation_Operators.rt1n_trans; [eapply c; eauto; lia | apply rt1n_refl].

(** One run of [executor_loop] with [n] iterations left is a run of the
    relation from iteration [max_iterations - n]. *)
Lemma loop_run (input : string) (n : nat) :
  forall it steps s r s', it + n = max_iterations ->
  executor_loop n input steps s = (r, s') -> run input (Running it steps s) (Finished r s').
Proof.
  unfold run. induction n as [|n IH]; intros it steps s r s' Hit Hloop;
    cbn [executor_loop] in Hloop.
  - injection Hloop as <- <-. finish_step astep_stop.
  - unfold bind at 1 in Hloop.
    destruct (plan_step input steps s) as [[[a|out log]|e] s1] eqn:Hp.
    + unfold bind in Hloop. destruct (perform_action a s1) as [[obs|e] s2] eqn:Ha.
      * eapply Relation_Operators.rt1n_trans; [eapply astep_act; eauto; lia|].
        apply (IH (S it)); [lia | exact Hloop].
      * injection Hloop as <- <-. finish_step astep_tool_raise.
    + injection Hloop as <- <-. finish_step astep_finish.
    + injection Hloop as <- <-. finish_step astep_plan_raise.
Qed.

Lemma loop_run_iff (input : string) (s s' : @state W) (r : res string) :
  executor_loop max_iterations input [] s = (r, s') <-> reachable input s (Finished r s').
Proof.
  split; [apply loop_run; reflexivity|].
  intros Hrun. destruct (executor_loop max_iterations input [] s) as [r0 s0] eqn:E.
  pose proof (loop_run input max_iterations 0 [] s r0 s0 eq_refl E) as Hrun0.
  pose proof (rt1n_det_final _ (astep_det input) _ _ _ Hrun0 Hrun
                (finished_irreducible input r0 s0) (finished_irreducible input r s')) as Heq.
  now injection Heq as -> ->.
Qed.

(** ** Termination *)

Definition iterations_left (st : astate) : nat :=
  match st with
  | Running it _ _ => S (max_iterations - it)
  | Finished _ _ => 0
  end.

Lemma astep_acc (input : string) (st : astate) : Acc (fun y x => astep input x y) st.
Proof.
  apply (measure_acc _ iterations_left). intros a b Hab. destruct Hab; cbn [iterations_left]; lia.
Qed.

Lemma run_to_final (input : string) (st : astate) :
  exists r s', run input st (Finished r s').
Proof.
  unfold run. induction (astep_acc input st) as [st _ IH].
  destruct st as [it steps s|r s]; [|exists r, s; apply rt1n_refl].
  destruct (astep_progress input it steps s) as [st' Hst].
  destruct (IH st' Hst) as (r & s' & Hrun). exists r, s'. eapply Relation_Operators.rt1n_trans; eauto.
Qed.

(** ** The invariant of reachable states *)

Lemma perform_action_calls (a : agent_action) (s s' : @state W) (r : res string) :
  perform_action a s = (r, s') -> exists d, calls s' = (calls s ++ d)%list /\ starts d <= 1.
Proof.
  unfold perform_action. destruct (existsb _ _); [apply tool_one_start|].
  intros [= _ <-]. exists []. split; [symmetry; apply app_nil_r | cbn; lia].
Qed.

(** Iterations stay within the limit, one step is recorded per iteration,
    and each iteration started the driver at most once. *)
Definition agent_inv (s0 : @state W) (st : astate) : Prop :=
  match st with
  | Running it steps s =>
      it <= max_iterations /\ length steps = it /\
      exists d, calls s = (calls s0 ++ d)%list /\ starts d <= it
  | Finished _ s => exists d, calls s = (calls s0 ++ d)%list /\ starts d <= max_iterations
  end.

Lemma agent_inv_step (input : string) (s0 : @state W) (x y : astate) :
  agent_inv s0 x -> astep input x y -> agent_inv s0 y.
Proof.
  intros Hx Hxy. destruct Hxy as [it steps s Hle|it steps s s1 out log Hlt Hp
    |it steps s s1 e Hlt Hp|it steps s s1 s2 a obs Hlt Hp Ha|it steps s s1 s2 a e Hlt Hp Ha];
    simpl in Hx |- *; destruct Hx as (Hit & Hlen & d & Hd & Hs);
    try rewrite (plan_step_calls _ _ _ _ _ Hp);
    try (destruct (perform_action_calls _ _ _ _ Ha) as (d' & Hd' & Hs');
         rewrite (plan_step_calls _ _ _ _ _ Hp) in Hd'; rewrite Hd', Hd, <- app_assoc).
  - exists d. split; [exact Hd | lia].
  - exists d. split; [exact Hd | lia].
  - exists d. split; [exact Hd | lia].
  - rewrite length_app. simpl. split; [lia | split; [lia|]].
    eexists; split; [reflexivity | rewrite starts_app; lia].
  - eexists; split; [reflexivity | rewrite starts_app; lia].
Qed.

Lemma reachable_agent_inv (input : string) (s0 : @state W) (st : astate) :
  reachable input s0 st -> agent_inv s0 st.
Proof.
  apply rt1n_invariant; [|apply agent_inv_step].
  simpl. split; [lia | split; [reflexivity|]]. exists []. split; [symmetry; apply app_nil_r | cbn; lia].
Qed.

(** ** Running the loop *)

Lemma loop_action (n : nat) (input : string) (steps : list agent_step) (s : @state W)
    (a : agent_action) (w0 : W) :
  plan input steps (world s) = (Ok (AgentAction a), w0) ->
  executor_loop (S n) input steps s =
  (let (r, s2) := perform_action a {| world := w0; calls := calls s |} in
   match r with
   | Ok obs => executor_loop n input (steps ++ [(a, obs)])%list s2
   | Raise e => (Raise e, s2)
   end).
Proof. intros Hp. cbn [executor_loop]. unfold bind at 1, plan_step. now rewrite Hp. Qed.

Lemma invoke_loop (input : string) (s s' : @state W) (r : res (list (string * string))) :
  invoke input s = (r, s') ->
  exists r0, executor_loop max_iterations input [] s = (r0, s') /\
             r = res_bind r0 (fun out => Ok [("input", input); ("output", out)]).
Proof.
  unfold invoke, bind. destruct (executor_loop max_iterations input [] s) as [[out|e] s1];
    intros [= <- <-]; eauto.
Qed.

Lemma perform_tool (a : agent_action) (s : @state W) :
  act_tool a = tool_name -> perform_action a s = search_sciencedirect_bipolar (act_input a) s.
Proof. intros Ht. unfold perform_action. now rewrite Ht. Qed.

(** An LLM that always asks for the tool, with runs of the tool that
    start the driver and return a text: [n] iterations run the tool [n]
    times and end with the forced response. *)
Lemma loop_limit (input : string)
    (Hact : forall steps w, exists a w', plan input steps w = (Ok (AgentAction a), w') /\ act_tool a = tool_name)
    (Hi : forall w, exists p w', install w = (Ok p, w'))
    (Hs : forall p w, exists w', start p chrome_options w = (Ok tt, w'))
    (Ht : forall q s, exists obs s', search_sciencedirect_bipolar q s = (Ok obs, s')) :
  forall n steps s, exists s', executor_loop n input steps s = (Ok stopped_output, s') /\
    exists d, calls s' = (calls s ++ d)%list /\ starts d = n.
Proof.
  induction n as [|n IH]; intros steps s.
  - exists s. split; [reflexivity|]. exists []. split; [symmetry; apply app_nil_r | reflexivity].
  - destruct (Hact steps (world s)) as (a & w0 & Hp & Ha).
    rewrite (loop_action n input steps s a w0 Hp), perform_tool by exact Ha.
    set (s1 := {| world := w0; calls := calls s |}).
    destruct (Ht (act_input a) s1) as (obs & s2 & E). rewrite E.
    destruct (Hi w0) as (p & w1 & Hi1). destruct (Hs p w1) as (w2 & Hs1).
    destruct (tool_started_once (act_input a) p s1 s2 w1 w2 _ Hi1 Hs1 E) as (d1 & Hd1 & Hn1).
    destruct (IH (steps ++ [(a, obs)])%list s2) as (s' & E' & d2 & Hd2 & Hn2).
    exists s'. split; [exact E'|]. exists (d1 ++ d2)%list.
    rewrite Hd2, Hd1, <- app_assoc, starts_app. split; [reflexivity | cbn [calls s1]; lia].
Qed.

Lemma plan_text (input : string) (steps : list agent_step) (w w0 : W) (text : string) :
  complete (agent_prompt input (construct_scratchpad steps)) stop w = (Ok text, w0) ->
  plan input steps w = (mrkl_parse text, w0).
Proof. intros Hc. unfold plan. now rewrite Hc. Qed.

(** ** Theorems *)

(** C14: In every state the executor reaches, the iteration counter is at
    most 15, one intermediate step is recorded per iteration, the browser
    calls only grow, and each iteration started at most one Chrome driver. *)
Theorem reachable_invariant (input : string) (s0 : @state W) (st : astate) :
  reachable input s0 st -> agent_inv s0 st.
Proof. apply reachable_agent_inv. Qed.

(** C15: Every execution of the executor's loop is finite, whatever the LLM
    answers: the guard [iterations >= max_iterations] bounds it. *)
Theorem executor_terminates (input : string) (st : astate) :
  Acc (fun y x => astep input x y) st.
Proof. apply astep_acc. Qed.

(** C16: From every state, the executor reaches a final state: an answer or
    an exception. *)
Theorem executor_eventually_answers (input : string) (st : astate) :
  exists r s', run input st (Finished r s').
Proof. apply run_to_final. Qed.

(** C17: One [agent.invoke] starts at most 15 Chrome drivers: its browser
    calls extend the trace, with at most [max_iterations] driver starts. *)
Theorem invoke_starts_bounded (input : string) (s s' : @state W) (r : res (list (string * string))) :
  invoke input s = (r, s') -> exists d, calls s' = (calls s ++ d)%list /\ starts d <= max_iterations.
Proof.
  intros Hinv. destruct (invoke_loop _ _ _ _ Hinv) as (r0 & Hl & _).
  exact (reachable_agent_inv input s _ (proj1 (loop_run_iff input s s' r0) Hl)).
Qed.

(** C18: When the LLM's first completion asks, in the format of the
    prompt, for the tool with some input, and starting Chrome raises, the
    exception escapes [agent.invoke]: the script stops at line 111 and
    prints nothing. *)
Theorem invoke_start_failure (input : string) (s : @state W) (th q : string)
    (w0 w1 w2 : W) (p : string) (e : exc) :
  complete (agent_prompt input "") stop (world s) =
    (Ok (th ++ nl ++ "Action: " ++ tool_name ++ nl ++ "Action Input: " ++ q), w0) ->
  has_char ":" th = false -> has_char ":" q = false -> head_ns q ->
  strip_chars " " q = q -> strip_chars quote q = q ->
  install w0 = (Ok p, w1) -> start p chrome_options w1 = (Raise e, w2) ->
  invoke input s = (Raise e, {| world := w2; calls := (calls s ++ [CallInstall; CallStart p chrome_options])%list |}).
Proof.
  intros Hc Hth Hq Hhq Hsp Hqq Hi Hs. unfold invoke, bind at 1. change max_iterations with (S (pred max_iterations)).
  pose proof (plan_text input [] (world s) w0 _ Hc) as Hp.
  rewrite parse_action_format in Hp by (assumption || reflexivity || discriminate).
  rewrite (loop_action _ input [] s _ w0 Hp), perform_tool by reflexivity.
  now rewrite (tool_start_raise q p {| world := w0; calls := calls s |} w1 w2 e Hi Hs).
Qed.

(** C13: When the LLM never gives a final answer but always asks for the
    tool, whose runs start the driver and return a text, [agent.invoke]
    runs the tool exactly [max_iterations] = 15 times, one driver start
    each, and returns LangChain's forced response
    ["Agent stopped due to iteration limit or time limit."]. *)
Theorem invoke_iteration_limit (input : string) (s : @state W) :
  (forall steps w, exists a w', plan input steps w = (Ok (AgentAction a), w') /\ act_tool a = tool_name) ->
  (forall w, exists p w', install w = (Ok p, w')) ->
  (forall p w, exists w', start p chrome_options w = (Ok tt, w')) ->
  (forall q s, exists obs s', search_sciencedirect_bipolar q s = (Ok obs, s')) ->
  exists s', invoke input s = (Ok [("input", input); ("output", stopped_output)], s') /\
    exists d, calls s' = (calls s ++ d)%list /\ starts d = 15.
Proof.
  intros Hact Hi Hs Ht.
  destruct (loop_limit input Hact Hi Hs Ht max_iterations [] s) as (s' & E & Hd).
  exists s'. unfold invoke, bind at 1. rewrite E. split; [reflexivity | exact Hd].
Qed.

(** C29: A first completion with no colon, hence neither an action nor a
    final answer, makes [agent.invoke] raise a [ValueError] carrying the
    MRKL parser's message ([handle_parsing_errors] is left [False] on line
    103). *)
Theorem invoke_parse_error (input : string) (s : @state W) (w0 : W) (text : string) :
  complete (agent_prompt input "") stop (world s) = (Ok text, w0) -> has_char ":" text = false ->
  fst (invoke input s) = Raise (ValueError (parsing_error_prefix ++ could_not_parse text)).
Proof.
  intros Hc Hn. pose proof (plan_text input [] (world s) w0 _ Hc) as Hp.
  rewrite (parse_no_colon text Hn) in Hp.
  unfold invoke, bind at 1. change max_iterations with (S (pred max_iterations)). cbn [executor_loop].
  unfold bind at 1, plan_step. now rewrite Hp.
Qed.

(** C12: The run the script is written for: the LLM's first completion asks,
    in the prompt's format, for the tool with input [q]; the tool returns
    [obs]; the next prompt is the first one followed by that completion,
    [Observation: ] with [obs], and [Thought:]; the LLM's completion to it
    gives a final answer.  Then [agent.invoke] returns that answer,
    stripped, with the question, after exactly the browser calls of that
    one tool run. *)
Theorem invoke_tool_then_answer (input : string) (s s2 : @state W) (th q th' ans obs : string) (w0 w1 : W) :
  complete (agent_prompt input "") stop (world s) =
    (Ok (th ++ nl ++ "Action: " ++ tool_name ++ nl ++ "Action Input: " ++ q), w0) ->
  has_char ":" th = false -> has_char ":" q = false -> head_ns q ->
  strip_chars " " q = q -> strip_chars quote q = q ->
  search_sciencedirect_bipolar q {| world := w0; calls := calls s |} = (Ok obs, s2) ->
  complete (agent_prompt input (th ++ nl ++ "Action: " ++ tool_name ++ nl ++ "Action Input: " ++ q
                                ++ nl ++ "Observation: " ++ obs ++ nl ++ "Thought:")) stop (world s2) =
    (Ok (th' ++ "Final Answer:" ++ ans), w1) ->
  has_char ":" th' = false -> contains "Action" (th' ++ "Final Answer:" ++ ans) = false ->
  contains "Final Answer:" ans = false ->
  invoke input s = (Ok [("input", input); ("output", strip ans)], {| world := w1; calls := calls s2 |}).
Proof.
  intros Hc1 Hth Hq Hhq Hsp Hqq Htool Hc2 Hth' Hact Hans.
  unfold invoke, bind at 1. change max_iterations with (S (S (pred (pred max_iterations)))).
  pose proof (plan_text input [] (world s) w0 _ Hc1) as Hp.
  rewrite parse_action_format in Hp by (assumption || reflexivity || discriminate).
  rewrite (loop_action _ input [] s _ w0 Hp), perform_tool by reflexivity. cbn [act_input].
  rewrite Htool. cbn [app executor_loop]. unfold bind at 1, plan_step.
  set (a := {| act_tool := tool_name; act_input := q;
               act_log := th ++ nl ++ "Action: " ++ tool_name ++ nl ++ "Action Input: " ++ q |}).
  assert (E : construct_scratchpad [(a, obs)] =
              th ++ nl ++ "Action: " ++ tool_name ++ nl ++ "Action Input: " ++ q
              ++ nl ++ "Observation: " ++ obs ++ nl ++ "Thought:")
    by (cbn; now rewrite <- !str_app_assoc).
  rewrite <- E in Hc2.
  rewrite (plan_text input _ (world s2) w1 _ Hc2), parse_final_answer by assumption.
  reflexivity.
Qed.

Lemma main_output (s : @state W) (out : string) :
  fst (main s) = Ok out ->
  exists ans, fst (executor_loop max_iterations agent_input [] s) = Ok ans /\
              out = print_text (dict_repr [("input", agent_input); ("output", ans)]).
Proof.
  unfold main, invoke, bind. destruct (executor_loop max_iterations agent_input [] s) as [[ans|e] s1];
    simpl; [intros [= <-]; eauto | discriminate].
Qed.

(** When the script prints (line 115), the line it writes reads back as
    the question of line 112 and the answer the executor returned. *)
Theorem main_prints_answer (s : @state W) (out : string) :
  fst (main s) = Ok out ->
  exists ans, fst (executor_loop max_iterations agent_input [] s) = Ok ans /\
              read_response out = Some (agent_input, ans).
Proof.
  intros Hm. destruct (main_output s out Hm) as (ans & Hl & ->). exists ans.
  split; [exact Hl | apply read_printed].
Qed.

End Executor.

(** ** Browser sessions across the whole invocation *)

Section AgentSessions.
Context {W : Type} `{BrowserLaws W} `{HtmlParser} `{Llm W}.
Hypothesis quit_ok : forall w, fst (quit w) = Ok tt.
Hypothesis complete_live : forall p st w r w', complete p st w = (r, w') -> live w' = live w.

Lemma plan_step_live (input : string) (steps : list agent_step) (s s1 : @state W)
    (r : res agent_output) :
  plan_step input steps s = (r, s1) -> live (world s1) = live (world s).
Proof.
  unfold plan_step, plan.
  destruct (complete (agent_prompt input (construct_scratchpad steps)) stop (world s)) as [r0 w0] eqn:Hp.
  intros [= _ <-]. exact (complete_live _ _ _ _ _ Hp).
Qed.

Lemma perform_action_live (a : agent_action) (s s' : @state W) (r : res string) :
  perform_action a s = (r, s') -> live (world s') = live (world s).
Proof.
  unfold perform_action. destruct (existsb _ _); [apply (tool_live quit_ok)|].
  now intros [= _ <-].
Qed.

Lemma loop_live (input : string) :
  forall n steps s r s', executor_loop n input steps s = (r, s') -> live (world s') = live (world s).
Proof.
  induction n as [|n IH]; intros steps s r s' Hl; cbn [executor_loop] in Hl;
    [now injection Hl as _ <-|].
  unfold bind at 1 in Hl.
  destruct (plan_step input steps s) as [[[a|out log]|e] s1] eqn:Hp;
    rewrite <- (plan_step_live _ _ _ _ _ Hp); [|now injection Hl as _ <- ..].
  unfold bind in Hl. destruct (perform_action a s1) as [[obs|e] s2] eqn:Ha;
    rewrite <- (perform_action_live _ _ _ _ Ha); [exact (IH _ _ _ _ Hl) | now injection Hl as _ <-].
Qed.

(** With a browser whose [quit] succeeds and an LLM whose completions
    open no browser session, [agent.invoke] leaves the number of open browser
    sessions as it found it, whatever the number of tool calls the LLM
    asks for and on every path, exceptions included. *)
Theorem invoke_sessions_released (input : string) (s s' : @state W)
    (r : res (list (string * string))) :
  invoke input s = (r, s') -> live (world s') = live (world s).
Proof.
  intros Hinv. destruct (invoke_loop _ _ _ _ Hinv) as (r0 & Hl & _).
  exact (loop_live _ _ _ _ _ _ Hl).
Qed.

End AgentSessions.

(** ** Fixtures: scripted LLMs *)

(** The LLM answers from the prompt, as scripted. *)
Definition fixture_llm (script : string -> res string) : Llm nat :=
  {| complete := fun prompt _ w => (script prompt, w) |}.

Definition action_text : string :=
  " I should search ScienceDirect" ++ nl ++ "Action: search_sciencedirect_bipolar" ++ nl
  ++ "Action Input: bipolar disorder".

Definition answer_text : string :=
  " I now know the final answer" ++ nl ++ "Final Answer: C (300 citations): https://www.sciencedirect.com/c".

Definition ask_tool : agent_action :=
  {| act_tool := "search_sciencedirect_bipolar"; act_input := "bipolar disorder"; act_log := action_text |}.

(** Call the tool on the first iteration, then answer. *)
Definition answer_script (prompt : string) : res string :=
  if String.eqb prompt (agent_prompt agent_input "") then Ok action_text else Ok answer_text.

(** Never answer. *)
Definition action_script (prompt : string) : res string := Ok action_text.

Definition garbled_script (prompt : string) : res string := Ok "I should search".

Lemma fixture_plan (script : string -> res string) (input : string) (steps : list agent_step) (w : nat) :
  @plan nat (fixture_llm script) input steps w =
  (res_bind (script (agent_prompt input (construct_scratchpad steps))) mrkl_parse, w).
Proof. reflexivity. Qed.

Lemma action_text_parses : mrkl_parse action_text = Ok (AgentAction ask_tool).
Proof. vm_compute. reflexivity. Qed.

Definition ok_browser : Browser nat := fixture_browser (Ok tt) (Ok tt) (Ok "<html>") (Ok tt).

Definition no_chrome : exc := SeleniumError "SessionNotCreatedException" "no chrome".

(** The script's run with the three-article page: the agent calls the tool
    once and the script prints its text. *)
Example agent_scenario :
  fst (@main nat ok_browser (fixture_parser page_three) (fixture_llm answer_script) s0) =
  Ok (print_text "{'input': 'Find the most cited article about bipolar disorder on ScienceDirect. Include link and citation count.', 'output': 'C (300 citations): https://www.sciencedirect.com/c'}").
Proof. vm_compute. reflexivity. Qed.

Lemma main_prints_answer_witness :
  exists ans,
    fst (@executor_loop nat ok_browser (fixture_parser page_three) (fixture_llm answer_script)
           max_iterations agent_input [] s0) = Ok ans /\
    read_response (print_text "{'input': 'Find the most cited article about bipolar disorder on ScienceDirect. Include link and citation count.', 'output': 'C (300 citations): https://www.sciencedirect.com/c'}") =
    Some (agent_input, ans).
Proof.
  apply (@main_prints_answer nat ok_browser (fixture_parser page_three) (fixture_llm answer_script) s0).
  vm_compute. reflexivity.
Defined.

(** ** Witnesses *)

Lemma reachable_invariant_witness :
  let r := @executor_loop nat ok_browser (fixture_parser page_three) (fixture_llm answer_script)
             max_iterations agent_input [] s0 in
  @agent_inv nat s0 (Finished (fst r) (snd r)).
Proof.
  apply (@reachable_invariant nat ok_browser (fixture_parser page_three) (fixture_llm answer_script)
           agent_input).
  apply loop_run_iff. apply surjective_pairing.
Defined.

Lemma invoke_starts_bounded_witness :
  exists d, calls (snd (@invoke nat ok_browser (fixture_parser page_three)
                          (fixture_llm action_script) agent_input s0)) = (calls s0 ++ d)%list /\
            starts d <= max_iterations.
Proof.
  eapply (@invoke_starts_bounded nat ok_browser (fixture_parser page_three) (fixture_llm action_script)
            agent_input s0); apply surjective_pairing.
Defined.

Lemma invoke_start_failure_witness :
  @invoke nat (fixture_browser (Raise no_chrome) (Ok tt) (Ok "") (Ok tt)) (fixture_parser page_three)
    (fixture_llm answer_script) agent_input s0 =
  (Raise no_chrome, {| world := 0; calls := (calls s0 ++ [CallInstall; CallStart chromedriver chrome_options])%list |}).
Proof.
  apply (@invoke_start_failure nat (fixture_browser (Raise no_chrome) (Ok tt) (Ok "") (Ok tt))
           (fixture_parser page_three) (fixture_llm answer_script) agent_input s0
           " I should search ScienceDirect" "bipolar disorder" 0 0 0);
    reflexivity.
Defined.

Lemma invoke_iteration_limit_witness :
  exists s', @invoke nat ok_browser (fixture_parser page_three) (fixture_llm action_script) agent_input s0
             = (Ok [("input", agent_input); ("output", stopped_output)], s') /\
    exists d, calls s' = (calls s0 ++ d)%list /\ starts d = 15.
Proof.
  apply (@invoke_iteration_limit nat ok_browser (fixture_parser page_three) (fixture_llm action_script)).
  - intros steps w. exists ask_tool, w.
    rewrite fixture_plan. unfold action_script. rewrite res_bind_ok, action_text_parses. now split.
  - intros w. do 2 eexists. reflexivity.
  - intros p w. eexists. reflexivity.
  - intros q s. apply tool_total;
      [intros w; do 2 eexists; reflexivity | intros p w; eexists; reflexivity
      | intros u w e w' [=] | intros w e w' [=] | intros w; reflexivity].
Defined.

Lemma invoke_parse_error_witness :
  fst (@invoke nat ok_browser (fixture_parser page_three) (fixture_llm garbled_script) agent_input s0) =
  Raise (ValueError (parsing_error_prefix ++ "Could not parse LLM output: `I should search`")).
Proof.
  apply (@invoke_parse_error nat ok_browser (fixture_parser page_three) (fixture_llm garbled_script)
           agent_input s0 0 "I should search"); reflexivity.
Defined.

Lemma invoke_sessions_released_witness :
  @live nat _ (fixture_laws (Ok tt) (Ok tt) (Ok "<html>") (Ok tt))
    (world (snd (@invoke nat ok_browser (fixture_parser page_three) (fixture_llm action_script)
                   agent_input s0))) =
  @live nat _ (fixture_laws (Ok tt) (Ok tt) (Ok "<html>") (Ok tt)) (world s0).
Proof.
  eapply (@invoke_sessions_released nat _ (fixture_laws (Ok tt) (Ok tt) (Ok "<html>") (Ok tt))
            (fixture_parser page_three) (fixture_llm action_script));
    [intros w; reflexivity | intros i st w r w' [= _ <-]; reflexivity | apply surjective_pairing].
Defined.

Lemma invoke_tool_then_answer_witness :
  fst (@invoke nat ok_browser (fixture_parser page_three) (fixture_llm answer_script) agent_input s0) =
  Ok [("input", agent_input); ("output", "C (300 citations): https://www.sciencedirect.com/c")].
Proof.
  rewrite (@invoke_tool_then_answer nat ok_browser (fixture_parser page_three) (fixture_llm answer_script)
             agent_input s0
             (snd (@search_sciencedirect_bipolar nat ok_browser (fixture_parser page_three)
                     "bipolar disorder" {| world := 0; calls := calls s0 |}))
             " I should search ScienceDirect" "bipolar disorder" (" I now know the final answer" ++ nl)
             " C (300 citations): https://www.sciencedirect.com/c"
             "C (300 citations): https://www.sciencedirect.com/c" 0 0)
    by (reflexivity || discriminate).
  reflexivity.
Defined.

End Agent.
