(* ===== verification/Verbose.v ===== *)
(** * The trace [verbose=True] prints (line 107)

    [initialize_agent(..., verbose=True)] gives the [AgentExecutor] a
    [StdOutCallbackHandler] (langchain-core's [callbacks/stdout.py]), and
    each tool run gets one too, since [_perform_agent_action] passes
    [verbose=self.verbose] to [tool.run].  The handler writes to standard
    output, through [print_text] of [utils/input.py], what the executor
    reports: [on_chain_start] ([> Entering new AgentExecutor chain...] in
    bold), [on_agent_action] (the action's log, in green), [on_tool_end]
    (the [Observation: ] prefix, the tool's text in the tool's colour of
    [get_color_mapping], the [Thought:] prefix), [on_agent_finish] (the
    finish log, in green, and a newline) and [on_chain_end]
    ([> Finished chain.] in bold).  The colours are ANSI escape sequences.

    [verbose_loop] is [Agent.executor_loop] with the text the handlers
    print on each path, errors included (a tool that raises leaves the
    action's log printed; an exception prints nothing more, since the
    handler has no [on_chain_error]); [verbose_invoke] and [verbose_main]
    add the chain's start and end and the [print(response)] of line 115.
    The colours are the keys of [_TEXT_COLOR_MAPPING], an enumeration
    here: every colour the executor passes comes from that table, so the
    [KeyError] of [get_colored_text] cannot occur.

    The theorems: printing changes neither the executor's result nor the
    browser world ([verbose_loop_refines]), and the exact text on standard
    output for the run the script is written for. *)

From Stdlib Require Import String Ascii List Arith Lia.
From S2P Require Import Prelude PyStr Dom Extract Repr Tool React Agent.
Import ListNotations.
Local Open Scope string_scope.

Module Verbose.
Import PyStr Extract Tool React Agent.

(** ** [langchain_core.utils.input] *)

(** The keys of [_TEXT_COLOR_MAPPING], in the dictionary's order. *)
Inductive color : Type := Blue | Yellow | Pink | Green | Red.

Definition color_eqb (a b : color) : bool :=
  match a, b with
  | Blue, Blue | Yellow, Yellow | Pink, Pink | Green, Green | Red, Red => true
  | _, _ => false
  end.

Definition all_colors : list color := [Blue; Yellow; Pink; Green; Red].

(** [_TEXT_COLOR_MAPPING[color]] *)
Definition color_code (c : color) : string :=
  match c with
  | Blue => "36;1"
  | Yellow => "33;1"
  | Pink => "38;5;200"
  | Green => "32;1"
  | Red => "31;1"
  end.

Definition esc : string := String (ascii_of_nat 27) "".

(** [{item: colors[i % len(colors)] for i, item in enumerate(items)}] *)
Fixpoint color_items (colors : list color) (i : nat) (items : list string) : list (string * color) :=
  match items with
  | [] => []
  | x :: r => (x, nth (i mod List.length colors) colors Blue) :: color_items colors (S i) r
  end.

(** [get_color_mapping(items, excluded_colors)] *)
Definition get_color_mapping (items : list string) (excluded : list color) : res (list (string * color)) :=
  let colors := filter (fun c => negb (existsb (color_eqb c) excluded)) all_colors in
  match colors with
  | [] => Raise (ValueError "No colors available after applying exclusions.")
  | _ => Ok (color_items colors 0 items)
  end.

(** [d[key]] on a dictionary built in order: the last value given to the
    key. *)
Definition dict_get (k : string) (d : list (string * color)) : option color :=
  option_map snd (find (fun p => String.eqb (fst p) k) (rev d)).

(** [get_colored_text] and [get_bolded_text] *)
Definition get_colored_text (text : string) (c : color) : string :=
  esc ++ "[" ++ color_code c ++ "m" ++ esc ++ "[1;3m" ++ text ++ esc ++ "[0m".

Definition get_bolded_text (text : string) : string := esc ++ "[1m" ++ text ++ esc ++ "[0m".

(** [print_text(text, color, end)]: what it writes. *)
Definition print_text (text : string) (c : option color) (end_ : string) : string :=
  match c with Some c => get_colored_text text c | None => text end ++ end_.

(** ** [StdOutCallbackHandler] *)

Definition on_chain_start (name : string) : string :=
  Repr.print_text (nl ++ nl ++ get_bolded_text ("> Entering new " ++ name ++ " chain...")).

Definition on_chain_end : string := Repr.print_text (nl ++ get_bolded_text "> Finished chain.").

Definition on_agent_action (a : agent_action) (c : option color) : string := print_text (act_log a) c "".

Definition on_tool_end (output : string) (c : option color) (obs_prefix llm_pfx : option string) : string :=
  match obs_prefix with Some p => print_text (nl ++ p) None "" | None => "" end
  ++ print_text output c ""
  ++ match llm_pfx with Some p => print_text (nl ++ p) None "" | None => "" end.

Definition on_agent_finish (log : string) (c : option color) : string := print_text log c nl.

(** ** The executor with its trace *)

Section Trace.
Context {W : Type} `{Browser W} `{HtmlParser} `{Llm W}.

(** A result, the state after it, and the text written to standard
    output. *)
Definition traced (A : Type) : Type := (res A * @state W * string)%type.

(** [color_mapping[agent_action.tool]] for a tool of the executor, [None]
    for [InvalidTool]. *)
Definition tool_color (cm : list (string * color)) (a : agent_action) : option color :=
  if existsb (String.eqb (act_tool a)) tool_names then dict_get (act_tool a) cm else None.

(** [_perform_agent_action]: [on_agent_action] in green, the tool's run,
    and its [on_tool_end] with the agent's prefixes. *)
Definition perform_action_traced (cm : list (string * color)) (a : agent_action) (s : @state W)
  : traced string :=
  let pre := on_agent_action a (Some Green) in
  let (r, s') := perform_action a s in
  (r, s', pre ++ match r with
                 | Ok obs => on_tool_end obs (tool_color cm a) (Some observation_prefix) (Some llm_prefix)
                 | Raise _ => ""
                 end).

(** The loop of [AgentExecutor._call], each exit through [_return]'s
    [on_agent_finish] in green. *)
Fixpoint verbose_loop (cm : list (string * color)) (n : nat) (input : string) (steps : list agent_step)
    (s : @state W) : traced string :=
  match n with
  | O => (Ok stopped_output, s, on_agent_finish "" (Some Green))
  | S n' =>
      let (o, s1) := plan_step input steps s in
      match o with
      | Raise e => (Raise e, s1, "")
      | Ok (AgentFinish out log) => (Ok out, s1, on_agent_finish log (Some Green))
      | Ok (AgentAction a) =>
          let '(r, s2, t) := perform_action_traced cm a s1 in
          match r with
          | Raise e => (Raise e, s2, t)
          | Ok obs =>
              let '(r', s3, t') := verbose_loop cm n' input (steps ++ [(a, obs)])%list s2 in
              (r', s3, t ++ t')
          end
      end
  end.

(** [agent.invoke]: [on_chain_start], the color mapping of [_call], the
    loop, and [on_chain_end] when the chain returns. *)
Definition verbose_invoke (input : string) (s : @state W) : traced (list (string * string)) :=
  let start := on_chain_start "AgentExecutor" in
  match get_color_mapping tool_names [Green; Red] with
  | Raise e => (Raise e, s, start)
  | Ok cm =>
      let '(r, s', t) := verbose_loop cm max_iterations input [] s in
      match r with
      | Ok out => (Ok [("input", input); ("output", out)], s', start ++ t ++ on_chain_end)
      | Raise e => (Raise e, s', start ++ t)
      end
  end.

(** Lines 110-115 with everything written to standard output. *)
Definition verbose_main (s : @state W) : traced unit :=
  let '(r, s', t) := verbose_invoke agent_input s in
  match r with
  | Ok resp => (Ok tt, s', t ++ Repr.print_text (Repr.dict_repr resp))
  | Raise e => (Raise e, s', t)
  end.

Definition untraced {A : Type} (x : traced A) : res A * @state W := let '(r, s, _) := x in (r, s).

(** The executor's [color_mapping]: blue, yellow and pink in turn. *)
Definition tool_colors : list (string * color) := color_items [Blue; Yellow; Pink] 0 tool_names.

(** ** Lemmas *)

Lemma tool_color_mapping : get_color_mapping tool_names [Green; Red] = Ok tool_colors.
Proof. reflexivity. Qed.

(** Printing the trace changes neither the result nor the state of the
    loop. *)
Lemma verbose_loop_refines (cm : list (string * color)) (n : nat) :
  forall input steps s, untraced (verbose_loop cm n input steps s) = executor_loop n input steps s.
Proof.
  induction n as [|n IH]; intros input steps s; [reflexivity|]. cbn [verbose_loop executor_loop].
  unfold bind at 1. destruct (plan_step input steps s) as [[[a|out log]|e] s1]; try reflexivity.
  unfold bind, perform_action_traced. destruct (perform_action a s1) as [[obs|e] s2]; [|reflexivity].
  rewrite <- IH. now destruct (verbose_loop cm n input _ s2) as [[r' s3] t'].
Qed.

Lemma verbose_invoke_refines (input : string) (s : @state W) :
  untraced (verbose_invoke input s) = invoke input s.
Proof.
  unfold verbose_invoke, invoke, bind. rewrite tool_color_mapping. cbv iota.
  rewrite <- (verbose_loop_refines tool_colors max_iterations input [] s).
  now destruct (verbose_loop tool_colors max_iterations input [] s) as [[[out|e] s'] t].
Qed.

Lemma verbose_loop_action (cm : list (string * color)) (n : nat) (input : string) (steps : list agent_step)
    (s : @state W) (a : agent_action) (w0 : W) :
  plan input steps (world s) = (Ok (AgentAction a), w0) ->
  verbose_loop cm (S n) input steps s =
  (let '(r, s2, t) := perform_action_traced cm a {| world := w0; calls := calls s |} in
   match r with
   | Raise e => (Raise e, s2, t)
   | Ok obs => let '(r', s3, t') := verbose_loop cm n input (steps ++ [(a, obs)])%list s2 in (r', s3, t ++ t')
   end).
Proof. intros Hp. cbn [verbose_loop]. unfold plan_step. now rewrite Hp. Qed.

Lemma verbose_loop_finish (cm : list (string * color)) (n : nat) (input : string) (steps : list agent_step)
    (s : @state W) (out log : string) (w0 : W) :
  plan input steps (world s) = (Ok (AgentFinish out log), w0) ->
  verbose_loop cm (S n) input steps s = (Ok out, {| world := w0; calls := calls s |}, on_agent_finish log (Some Green)).
Proof. intros Hp. cbn [verbose_loop]. unfold plan_step. now rewrite Hp. Qed.

(** ** Theorems *)

(** C39: What the script writes to standard output on the run it is written
    for (the LLM asks for the tool in the prompt's format, the tool returns
    [obs], the LLM then gives a final answer): the [verbose=True] trace,
    that is the chain's start, the LLM's action text in green,
    [Observation: ] and the tool's text in blue, [Thought:], the LLM's final
    answer text in green, the chain's end, and then the printed response,
    with the browser world and calls of that one tool run. *)
Theorem verbose_main_trace (s s2 : @state W) (th q th' ans obs : string) (w0 w1 : W) :
  complete (agent_prompt agent_input "") stop (world s) =
    (Ok (th ++ nl ++ "Action: " ++ tool_name ++ nl ++ "Action Input: " ++ q), w0) ->
  has_char ":" th = false -> has_char ":" q = false -> head_ns q ->
  strip_chars " " q = q -> strip_chars quote q = q ->
  search_sciencedirect_bipolar q {| world := w0; calls := calls s |} = (Ok obs, s2) ->
  complete (agent_prompt agent_input (th ++ nl ++ "Action: " ++ tool_name ++ nl ++ "Action Input: " ++ q
                                      ++ nl ++ "Observation: " ++ obs ++ nl ++ "Thought:")) stop (world s2) =
    (Ok (th' ++ "Final Answer:" ++ ans), w1) ->
  has_char ":" th' = false -> contains "Action" (th' ++ "Final Answer:" ++ ans) = false ->
  contains "Final Answer:" ans = false ->
  verbose_main s =
  (Ok tt, {| world := w1; calls := calls s2 |},
   on_chain_start "AgentExecutor"
   ++ get_colored_text (th ++ nl ++ "Action: " ++ tool_name ++ nl ++ "Action Input: " ++ q) Green
   ++ nl ++ "Observation: " ++ get_colored_text obs Blue ++ nl ++ "Thought:"
   ++ get_colored_text (th' ++ "Final Answer:" ++ ans) Green ++ nl
   ++ on_chain_end
   ++ Repr.print_text (Repr.dict_repr [("input", agent_input); ("output", strip ans)])).
Proof.
  intros Hc1 Hth Hq Hhq Hsp Hqq Htool Hc2 Hth' Hact Hans.
  unfold verbose_main, verbose_invoke. rewrite tool_color_mapping. cbv iota. change max_iterations with (S 14).
  pose proof (plan_text agent_input [] (world s) w0 _ Hc1) as Hp.
  rewrite parse_action_format in Hp by (assumption || reflexivity || discriminate).
  rewrite (verbose_loop_action _ 14 agent_input [] s _ w0 Hp). unfold perform_action_traced.
  rewrite perform_tool by reflexivity. cbn [act_input]. rewrite Htool. cbv beta iota zeta.
  set (a := {| act_tool := tool_name; act_input := q;
               act_log := th ++ nl ++ "Action: " ++ tool_name ++ nl ++ "Action Input: " ++ q |}).
  assert (E : construct_scratchpad [(a, obs)] =
              th ++ nl ++ "Action: " ++ tool_name ++ nl ++ "Action Input: " ++ q
              ++ nl ++ "Observation: " ++ obs ++ nl ++ "Thought:")
    by (cbn; now rewrite <- !str_app_assoc).
  rewrite <- E in Hc2. pose proof (plan_text agent_input _ (world s2) w1 _ Hc2) as Hp2.
  rewrite parse_final_answer in Hp2 by assumption.
  cbn [app]. rewrite (verbose_loop_finish _ 13 agent_input _ s2 _ _ w1 Hp2). cbv beta iota zeta.
  replace (tool_color tool_colors a) with (Some Blue) by reflexivity.
  unfold on_agent_action, on_tool_end, on_agent_finish, print_text. cbn [act_log].
  rewrite !str_app_nil_r, <- !str_app_assoc. reflexivity.
Qed.

End Trace.

(** ** Witnesses *)

Lemma verbose_main_trace_witness :
  fst (fst (@verbose_main nat ok_browser (fixture_parser page_three) (fixture_llm answer_script) s0)) = Ok tt.
Proof.
  rewrite (@verbose_main_trace nat ok_browser (fixture_parser page_three) (fixture_llm answer_script) s0
             (snd (@search_sciencedirect_bipolar nat ok_browser (fixture_parser page_three)
                     "bipolar disorder" {| world := 0; calls := calls s0 |}))
             " I should search ScienceDirect" "bipolar disorder" (" I now know the final answer" ++ nl)
             " C (300 citations): https://www.sciencedirect.com/c"
             "C (300 citations): https://www.sciencedirect.com/c" 0 0)
    by (reflexivity || discriminate).
  reflexivity.
Defined.

End Verbose.
